(** * pynvme driver core (driver.c): checksum oracle, command log and
      I/O worker, embedded as executable state-passing functions.

    The C code is translated function by function.  Machine integers are
    [Z] with their wrap-around written out, the process-wide singletons
    (checksum table, token, command logs, status table) live in one
    [world] record, and everything the code obtains from outside (the
    CRC32C routine, the clock, [random()], the NVMe device behind the SPDK
    submission and polling primitives) is read from an [environment]. *)

From Stdlib Require Import ZArith Lia List Bool.
From stdpp Require Import base numbers option list gmap.

Local Open Scope Z_scope.

(** ** Machine integers *)

Definition u8  (z : Z) : Z := z mod 2^8.
Definition u16 (z : Z) : Z := z mod 2^16.
Definition u32 (z : Z) : Z := z mod 2^32.
Definition u64 (z : Z) : Z := z mod 2^64.

(** ** Faults: what stops the C program instead of returning

    [static_assert(DEBUG, ...)] keeps every [assert] armed, so a failed
    assertion aborts; an access outside an object, a NULL dereference and a
    remainder by zero are undefined behaviour and are reported as faults
    too, never given a value. *)

Inductive fault :=
| AssertFail (line : Z)
| OutOfBounds
| NullDeref
| DivByZero.

Definition res (A : Type) : Type := fault + A.

Definition ok {A} (a : A) : res A := inr a.
Definition raise {A} (f : fault) : res A := inl f.

Definition rbind {A B} (m : res A) (k : A -> res B) : res B :=
  match m with
  | inl f => inl f
  | inr a => k a
  end.

Notation "'do' x <- m ; k" := (rbind m (fun x => k))
  (at level 10, x pattern, m at level 100, k at level 200).

Definition assert (line : Z) (b : bool) : res unit :=
  if b then ok tt else raise (AssertFail line).

Definition of_option {A} (f : fault) (o : option A) : res A :=
  match o with
  | Some a => ok a
  | None => raise f
  end.

(** ** Bytes in memory (little endian, as on the x86 hosts SPDK runs on) *)

Fixpoint le_bytes (n : nat) (v : Z) : list Z :=
  match n with
  | O => []
  | S n' => (v mod 256) :: le_bytes n' (v / 256)
  end.

Fixpoint le_value (bs : list Z) : Z :=
  match bs with
  | [] => 0
  | b :: bs' => b + 256 * le_value bs'
  end.

(** [mem_read off len m]: the [len] bytes of object [m] from offset [off];
    nothing when the range leaves the object. *)
Definition mem_read (off len : Z) (m : list Z) : option (list Z) :=
  if (0 <=? off) && (0 <=? len) && (off + len <=? Z.of_nat (length m))
  then Some (take (Z.to_nat len) (drop (Z.to_nat off) m))
  else None.

(** [mem_write off bs m]: object [m] with [bs] stored from offset [off]. *)
Definition mem_write (off : Z) (bs : list Z) (m : list Z) : option (list Z) :=
  if (0 <=? off) && (off + Z.of_nat (length bs) <=? Z.of_nat (length m))
  then Some (take (Z.to_nat off) m ++ bs
             ++ drop (Z.to_nat off + length bs) m)
  else None.

Definition load64 (off : Z) (m : list Z) : option Z :=
  le_value <$> mem_read off 8 m.

Definition store64 (off : Z) (v : Z) (m : list Z) : option (list Z) :=
  mem_write off (le_bytes 8 v) m.

(** ** struct timeval and the <sys/time.h> macros *)

Record timeval := mk_timeval { tv_sec : Z; tv_usec : Z }.

Definition timersub (a b : timeval) : timeval :=
  let s := tv_sec a - tv_sec b in
  let u := tv_usec a - tv_usec b in
  if u <? 0 then mk_timeval (s - 1) (u + 1000000) else mk_timeval s u.

Definition timeradd (a b : timeval) : timeval :=
  let s := tv_sec a + tv_sec b in
  let u := tv_usec a + tv_usec b in
  if 1000000 <=? u then mk_timeval (s + 1) (u - 1000000) else mk_timeval s u.

(** [timercmp(a, b, >)] *)
Definition timercmp_gt (a b : timeval) : bool :=
  if tv_sec a =? tv_sec b then tv_usec b <? tv_usec a
  else tv_sec b <? tv_sec a.

Definition US_PER_S : Z := 1000 * 1000.

(** [timeval_to_us] returns [unsigned int]. *)
Definition timeval_to_us (t : timeval) : Z :=
  u32 (u64 (u64 (tv_sec t) * US_PER_S + tv_usec t)).

Definition timeradd_second (now : timeval) (seconds : Z) : timeval :=
  timeradd now (mk_timeval seconds 0).

(** ** NVMe images (spdk/nvme_spec.h)

    The code builds a command with [memset] and eight stores, so only the
    stored fields are kept; every other field of the 64-byte image is 0. *)

Record spdk_nvme_cmd := mk_cmd {
  opc : Z;
  nsid : Z;
  cdw10 : Z;
  cdw11 : Z;
  cdw12 : Z;
  cdw13 : Z;
  cdw14 : Z;
  cdw15 : Z
}.

Definition zero_cmd : spdk_nvme_cmd := mk_cmd 0 0 0 0 0 0 0 0.

(** The 16-bit status bitfield: [p:1, sc:8, sct:3, rsvd2:2, m:1, dnr:1]. *)
Record spdk_nvme_status := mk_status {
  st_p : Z;
  st_sc : Z;
  st_sct : Z;
  st_rsvd2 : Z;
  st_m : Z;
  st_dnr : Z
}.

Definition zero_status : spdk_nvme_status := mk_status 0 0 0 0 0 0.

(** The status read through [*(unsigned short* )(&cpl->status)]. *)
Definition status_raw (s : spdk_nvme_status) : Z :=
  st_p s mod 2 + 2 * (st_sc s mod 256) + 512 * (st_sct s mod 8)
  + 4096 * (st_rsvd2 s mod 4) + 16384 * (st_m s mod 2)
  + 32768 * (st_dnr s mod 2).

(** Stores to the bitfields [sct] (3 bits) and [sc] (8 bits). *)
Definition set_sct (v : Z) (s : spdk_nvme_status) : spdk_nvme_status :=
  mk_status (st_p s) (st_sc s) (v mod 8) (st_rsvd2 s) (st_m s) (st_dnr s).

Definition set_sc (v : Z) (s : spdk_nvme_status) : spdk_nvme_status :=
  mk_status (st_p s) (v mod 256) (st_sct s) (st_rsvd2 s) (st_m s) (st_dnr s).

(** The 16-byte completion: dword 0, dword 1, dword 2 = [sqhd | sqid << 16],
    dword 3 = [cid | status << 16]. *)
Record spdk_nvme_cpl := mk_cpl {
  cdw0 : Z;
  rsvd1 : Z;
  sqhd : Z;
  sqid : Z;
  cid : Z;
  status : spdk_nvme_status
}.

Definition zero_cpl : spdk_nvme_cpl := mk_cpl 0 0 0 0 0 zero_status.

(** Dword 2 of a completion, [(&cpl.cdw0)[2]]. *)
Definition cpl_dword2 (c : spdk_nvme_cpl) : Z :=
  sqhd c mod 2^16 + 2^16 * (sqid c mod 2^16).

(** [(&cpl.cdw0)[2] = v] for a 32-bit [v]. *)
Definition set_cpl_dword2 (v : Z) (c : spdk_nvme_cpl) : spdk_nvme_cpl :=
  mk_cpl (cdw0 c) (rsvd1 c) (v mod 2^16) ((v / 2^16) mod 2^16) (cid c)
         (status c).

Definition set_cpl_status (s : spdk_nvme_status) (c : spdk_nvme_cpl)
  : spdk_nvme_cpl :=
  mk_cpl (cdw0 c) (rsvd1 c) (sqhd c) (sqid c) (cid c) s.

(** [spdk_nvme_cpl_is_error]: [sc != 0 || sct != 0]. *)
Definition spdk_nvme_cpl_is_error (c : spdk_nvme_cpl) : bool :=
  negb (st_sc (status c) mod 256 =? 0) || negb (st_sct (status c) mod 8 =? 0).

(** ** Checksum oracle *)

(** [memset(&table[lba], c, len)] on an array of 32-bit slots: [len / 4]
    whole slots from [lba], then the low [len mod 4] bytes of the next. *)
Definition memset_slots (lba : Z) (c : Z) (len : Z) (tbl : list Z)
  : option (list Z) :=
  let whole := len / 4 in
  let part := len mod 4 in
  let fill := c * 16843009 in
  let last := lba + whole + (if part =? 0 then 0 else 1) in
  if (0 <=? lba) && (last <=? Z.of_nat (length tbl)) then
    let tbl1 := take (Z.to_nat lba) tbl
                ++ replicate (Z.to_nat whole) fill
                ++ drop (Z.to_nat (lba + whole)) tbl in
    if part =? 0 then Some tbl1
    else
      match tbl1 !! Z.to_nat (lba + whole) with
      | Some old =>
          Some (<[Z.to_nat (lba + whole) :=
                    (old / 256 ^ part) * 256 ^ part + fill mod 256 ^ part]> tbl1)
      | None => None
      end
  else None.

(** [buffer_calc_csum]: CRC32C of [len] bytes with the two reserved values
    moved away.  [crc32c] is [spdk_crc32c_update(ptr, len, 0)], read back
    through the function's [uint32_t] local. *)
Definition buffer_calc_csum (crc32c : list Z -> Z -> Z) (data : list Z) : Z :=
  let crc := u32 (crc32c data 0) in
  let crc := if crc =? 0 then 1 else crc in
  let crc := if crc =? 0xffffffff then 0xfffffffe else crc in
  crc.

(** The [int len] parameter of [buffer_calc_csum] converted to [size_t]. *)
Definition csum_len (lba_size : Z) : Z :=
  if lba_size <? 2^31 then lba_size else u64 (lba_size - 2^32).

(** Ghost history of what the code does to the world outside itself, most
    recent last.  It orders oracle stores against submissions. *)
Inductive event :=
| EvTokenFetchAdd (old : Z) (n : Z)
| EvStamp (buf : Z) (off : Z) (lba : Z) (token : Z)
| EvOracleStore (lba : Z) (crc : Z)
| EvOracleClear (lba : Z) (len : Z) (c : Z)
| EvSubmitIo (qid : Z) (cmd : spdk_nvme_cmd) (buf : Z) (rc : Z)
| EvSubmitAdmin (cmd : spdk_nvme_cmd) (buf : Z) (rc : Z)
| EvUserCallback (fn : Z) (arg : Z) (cpl : spdk_nvme_cpl)
| EvSleep (us : Z).

(** The block loop of [buffer_fill_data] on the buffer object [m] and the
    checksum table [tbl]; [k] blocks remain, [i] is the loop counter. *)
Fixpoint buffer_fill_blocks (crc32c : list Z -> Z -> Z) (buf : Z)
    (k : nat) (i lba token lba_size : Z)
    (m tbl : list Z) (evs : list event) : res (list Z * list Z * list event) :=
  match k with
  | O => ok (m, tbl, evs)
  | S k' =>
      let off := u32 (i * lba_size) in
      do m1 <- of_option OutOfBounds (store64 off lba m);
      do m2 <- of_option OutOfBounds
                 (store64 (off + 8 * u64 (lba_size / 8 - 1)) (u64 (token + i)) m1);
      do data <- of_option OutOfBounds (mem_read off (csum_len lba_size) m2);
      let crc := buffer_calc_csum crc32c data in
      do _ <- of_option OutOfBounds
                (if 0 <=? lba then tbl !! Z.to_nat lba else None);
      buffer_fill_blocks crc32c buf k' (u32 (i + 1)) (u64 (lba + 1)) token
        lba_size m2 (<[Z.to_nat lba := crc]> tbl)
        (evs ++ [EvStamp buf off lba (u64 (token + i)); EvOracleStore lba crc])
  end.

(** The block loop of [buffer_verify_data]; the result is the C return
    value [0], [-1], [-2] or [-3]. *)
Fixpoint buffer_verify_blocks (crc32c : list Z -> Z -> Z)
    (k : nat) (i lba lba_size : Z) (m tbl : list Z) : res Z :=
  match k with
  | O => ok 0
  | S k' =>
      do expected_crc <- of_option OutOfBounds
                           (if 0 <=? lba then tbl !! Z.to_nat lba else None);
      if expected_crc =? 0 then
        buffer_verify_blocks crc32c k' (u32 (i + 1)) (u64 (lba + 1)) lba_size m tbl
      else if expected_crc =? 0xffffffff then ok (-1)
      else
        let off := u32 (i * lba_size) in
        do ptr0 <- of_option OutOfBounds (load64 off m);
        if negb (lba =? ptr0) then ok (-2)
        else
          do data <- of_option OutOfBounds (mem_read off (csum_len lba_size) m);
          let computed_crc := buffer_calc_csum crc32c data in
          if negb (computed_crc =? expected_crc) then ok (-3)
          else
            buffer_verify_blocks crc32c k' (u32 (i + 1)) (u64 (lba + 1))
              lba_size m tbl
  end.

(** ** Command log *)

Definition CMD_LOG_DEPTH : Z := 2048.
Definition CMD_LOG_MAX_Q : Z := 32.

(** A callback pointer stored in a log entry: the worker's completion
    handler, or a function of the caller's, known by its address. *)
Inductive callback :=
| cb_ioworker_one_cb
| cb_user (fn : Z).

(** [buf] and [cb_arg] are addresses; 0 is [NULL]. *)
Record cmd_log_entry_t := mk_entry {
  time_cmd : timeval;
  cmd : spdk_nvme_cmd;
  time_cpl : timeval;
  cpl : spdk_nvme_cpl;
  buf : Z;
  lba : Z;
  lba_count : Z;
  lba_size : Z;
  cb_fn : option callback;
  cb_arg : Z
}.

Definition zero_entry : cmd_log_entry_t :=
  mk_entry (mk_timeval 0 0) zero_cmd (mk_timeval 0 0) zero_cpl 0 0 0 0 None 0.

Record cmd_log_table_t := mk_table {
  table : list cmd_log_entry_t;
  tail_index : Z
}.

(** A [struct cmd_log_entry_t*]: the queue's table and the slot in it. *)
Record log_ref := mk_ref { ref_qid : Z; ref_idx : Z }.

(** ** The NVMe device behind SPDK *)

(** A request accepted by [spdk_nvme_ctrlr_cmd_io_raw] or
    [spdk_nvme_ctrlr_cmd_admin_raw] and not yet completed.  The completion
    callback registered with it is always [cmd_log_add_cpl_cb]; [rq_ref] is
    its argument. *)
Record request := mk_request {
  rq_admin : bool;
  rq_qid : Z;
  rq_cmd : spdk_nvme_cmd;
  rq_buf : Z;
  rq_len : Z;
  rq_ref : log_ref
}.

(** One completion delivered by a poll: which outstanding request (by
    position), the completion image, and the bytes the device wrote into
    the request's buffer beforehand (none for a command that reads
    nothing). *)
Record completion := mk_completion {
  cq_slot : nat;
  cq_cpl : spdk_nvme_cpl;
  cq_data : option (list Z)
}.

Record ioworker_status := mk_sts {
  sts_io_count_sent : Z;
  sts_io_count_cplt : Z
}.

(** What the code obtains from outside itself.  The n-th call of each
    primitive gets the n-th answer. *)
Record environment := mk_env {
  spdk_crc32c_update : list Z -> Z -> Z;
  gettimeofday_nth : nat -> timeval;
  random_nth : nat -> Z;
  submit_rc_nth : nat -> Z;
  poll_nth : nat -> list completion
}.

(** ** Process state *)

Record world := mk_world {
  g_driver_table_size : Z;
  g_driver_io_token_ptr : option Z;
  g_driver_csum_table_ptr : option (list Z);
  g_ioworker_status_table : option (list ioworker_status);
  cmd_log_queue_table : gmap Z cmd_log_table_t;
  dma : gmap Z (list Z);
  inflight : list request;
  n_clock : nat;
  n_random : nat;
  n_submit : nat;
  n_poll : nat;
  trace : list event
}.

Definition set_token (v : option Z) (w : world) : world :=
  mk_world (g_driver_table_size w) v (g_driver_csum_table_ptr w)
    (g_ioworker_status_table w) (cmd_log_queue_table w) (dma w) (inflight w)
    (n_clock w) (n_random w) (n_submit w) (n_poll w) (trace w).

Definition set_csum_table (v : option (list Z)) (w : world) : world :=
  mk_world (g_driver_table_size w) (g_driver_io_token_ptr w) v
    (g_ioworker_status_table w) (cmd_log_queue_table w) (dma w) (inflight w)
    (n_clock w) (n_random w) (n_submit w) (n_poll w) (trace w).

Definition set_status_table (v : option (list ioworker_status)) (w : world)
  : world :=
  mk_world (g_driver_table_size w) (g_driver_io_token_ptr w)
    (g_driver_csum_table_ptr w) v (cmd_log_queue_table w) (dma w) (inflight w)
    (n_clock w) (n_random w) (n_submit w) (n_poll w) (trace w).

Definition set_cmd_logs (v : gmap Z cmd_log_table_t) (w : world) : world :=
  mk_world (g_driver_table_size w) (g_driver_io_token_ptr w)
    (g_driver_csum_table_ptr w) (g_ioworker_status_table w) v (dma w)
    (inflight w) (n_clock w) (n_random w) (n_submit w) (n_poll w) (trace w).

Definition set_dma (v : gmap Z (list Z)) (w : world) : world :=
  mk_world (g_driver_table_size w) (g_driver_io_token_ptr w)
    (g_driver_csum_table_ptr w) (g_ioworker_status_table w)
    (cmd_log_queue_table w) v (inflight w)
    (n_clock w) (n_random w) (n_submit w) (n_poll w) (trace w).

Definition set_inflight (v : list request) (w : world) : world :=
  mk_world (g_driver_table_size w) (g_driver_io_token_ptr w)
    (g_driver_csum_table_ptr w) (g_ioworker_status_table w)
    (cmd_log_queue_table w) (dma w) v
    (n_clock w) (n_random w) (n_submit w) (n_poll w) (trace w).

Definition tick_clock (w : world) : world :=
  mk_world (g_driver_table_size w) (g_driver_io_token_ptr w)
    (g_driver_csum_table_ptr w) (g_ioworker_status_table w)
    (cmd_log_queue_table w) (dma w) (inflight w)
    (S (n_clock w)) (n_random w) (n_submit w) (n_poll w) (trace w).

Definition tick_random (w : world) : world :=
  mk_world (g_driver_table_size w) (g_driver_io_token_ptr w)
    (g_driver_csum_table_ptr w) (g_ioworker_status_table w)
    (cmd_log_queue_table w) (dma w) (inflight w)
    (n_clock w) (S (n_random w)) (n_submit w) (n_poll w) (trace w).

Definition tick_submit (w : world) : world :=
  mk_world (g_driver_table_size w) (g_driver_io_token_ptr w)
    (g_driver_csum_table_ptr w) (g_ioworker_status_table w)
    (cmd_log_queue_table w) (dma w) (inflight w)
    (n_clock w) (n_random w) (S (n_submit w)) (n_poll w) (trace w).

Definition tick_poll (w : world) : world :=
  mk_world (g_driver_table_size w) (g_driver_io_token_ptr w)
    (g_driver_csum_table_ptr w) (g_ioworker_status_table w)
    (cmd_log_queue_table w) (dma w) (inflight w)
    (n_clock w) (n_random w) (n_submit w) (S (n_poll w)) (trace w).

Definition log_events (evs : list event) (w : world) : world :=
  mk_world (g_driver_table_size w) (g_driver_io_token_ptr w)
    (g_driver_csum_table_ptr w) (g_ioworker_status_table w)
    (cmd_log_queue_table w) (dma w) (inflight w)
    (n_clock w) (n_random w) (n_submit w) (n_poll w) (trace w ++ evs).

(** The entry a [log_ref] points at. *)
Definition log_entry_at (r : log_ref) (w : world) : option cmd_log_entry_t :=
  match cmd_log_queue_table w !! ref_qid r with
  | Some t => if 0 <=? ref_idx r then table t !! Z.to_nat (ref_idx r) else None
  | None => None
  end.

Definition set_log_entry (r : log_ref) (e : cmd_log_entry_t) (w : world)
  : world :=
  match cmd_log_queue_table w !! ref_qid r with
  | Some t =>
      set_cmd_logs (<[ref_qid r :=
                       mk_table (<[Z.to_nat (ref_idx r) := e]> (table t))
                                (tail_index t)]> (cmd_log_queue_table w)) w
  | None => w
  end.

(** A namespace handle, with what the code reads through it:
    [ns->id], [spdk_nvme_ns_get_num_sectors], [spdk_nvme_ns_get_sector_size]
    and [ns->ctrlr->max_xfer_size]. *)
Record spdk_nvme_ns := mk_ns {
  ns_id : Z;
  ns_num_sectors : Z;
  ns_sector_size : Z;
  ns_max_xfer_size : Z
}.

(** The call a completion trampoline ends with. *)
Record invocation := mk_invocation {
  inv_fn : callback;
  inv_arg : Z;
  inv_cpl : spdk_nvme_cpl
}.

Section Driver.

Variable E : environment.

Definition gettimeofday (w : world) : timeval * world :=
  (gettimeofday_nth E (n_clock w), tick_clock w).

(** [random()] returns a [long] in [0, 2^31). *)
Definition random (w : world) : Z * world :=
  (random_nth E (n_random w) mod 2^31, tick_random w).

(** *** crc32_clear *)
Definition crc32_clear (lba lba_count sanitize uncorr : Z) (w : world)
  : res world :=
  let c := if uncorr =? 0 then 0 else 255 in
  let len := u64 (lba_count * 4) in
  do len <- (if sanitize =? 1 then
               do _ <- assert 116 (lba =? 0);
               do _ <- assert 117 (negb (g_driver_table_size w =? 0));
               ok (g_driver_table_size w)
             else ok len);
  do _ <- assert 124 (bool_decide (is_Some (g_driver_csum_table_ptr w)));
  do tbl <- of_option NullDeref (g_driver_csum_table_ptr w);
  do tbl' <- of_option OutOfBounds (memset_slots lba c len tbl);
  ok (log_events [EvOracleClear lba len c] (set_csum_table (Some tbl') w)).

(** *** buffer_init, buffer_fini

    [spdk_dma_zmalloc] is taken to succeed and to return a fresh address. *)
Definition dma_fresh (d : gmap Z (list Z)) : Z :=
  4096 + map_fold (fun k _ acc => Z.max k acc) 0 d.

Definition buffer_init (bytes : Z) (w : world) : Z * world :=
  let a := dma_fresh (dma w) in
  (a, set_dma (<[a := replicate (Z.to_nat bytes) 0]> (dma w)) w).

Definition buffer_fini (b : Z) (w : world) : res world :=
  do _ <- assert 237 (negb (b =? 0));
  ok (set_dma (delete b (dma w)) w).

(** *** buffer_fill_data *)
Definition buffer_fill_data (b lba lba_count lba_size : Z) (w : world)
  : res world :=
  do token <- of_option NullDeref (g_driver_io_token_ptr w);
  let w1 := log_events [EvTokenFetchAdd token lba_count]
              (set_token (Some (u64 (token + lba_count))) w) in
  match Z.to_nat lba_count with
  | O => ok w1
  | S _ =>
      do m <- of_option OutOfBounds (dma w1 !! b);
      do tbl <- of_option NullDeref (g_driver_csum_table_ptr w1);
      do (m', tbl', evs) <-
         buffer_fill_blocks (spdk_crc32c_update E) b (Z.to_nat lba_count)
           0 lba token lba_size m tbl [];
      ok (log_events evs
            (set_csum_table (Some tbl') (set_dma (<[b := m']> (dma w1)) w1)))
  end.

(** *** buffer_verify_data

    A buffer that is not a live object is the empty object: touching it is
    a fault, not touching it is not. *)
Definition buffer_verify_data (b lba lba_count lba_size : Z) (w : world)
  : res Z :=
  match Z.to_nat lba_count with
  | O => ok 0
  | S _ =>
      do tbl <- of_option NullDeref (g_driver_csum_table_ptr w);
      buffer_verify_blocks (spdk_crc32c_update E) (Z.to_nat lba_count)
        0 lba lba_size (default [] (dma w !! b)) tbl
  end.

(** *** cmd_log_init, cmd_log_table_create, cmd_log_table_delete *)
Definition cmd_log_init (w : world) : world := set_cmd_logs ∅ w.

Definition cmd_log_table_create (qid : Z) (w : world) : Z * world :=
  if CMD_LOG_MAX_Q <=? qid then (-1, w)
  else
    (0, set_cmd_logs
          (<[qid := mk_table (replicate (Z.to_nat CMD_LOG_DEPTH) zero_entry) 0]>
             (cmd_log_queue_table w)) w).

(** *** cmd_log_add_cmd *)
Definition cmd_log_add_cmd (qid b lba lba_count lba_size : Z)
    (c : spdk_nvme_cmd) (fn : option callback) (arg : Z) (w : world)
  : res (log_ref * world) :=
  do log_table <- of_option NullDeref (cmd_log_queue_table w !! qid);
  let tail := tail_index log_table in
  do _ <- assert 348 (qid <? CMD_LOG_MAX_Q);
  do _ <- assert 350 (tail <? CMD_LOG_DEPTH);
  let r := mk_ref qid tail in
  do old <- of_option OutOfBounds (log_entry_at r w);
  let (now, w1) := gettimeofday w in
  let e := mk_entry now c (time_cpl old) (cpl old) b lba lba_count lba_size
             fn arg in
  let tail' := if u32 (tail + 1) =? CMD_LOG_DEPTH then 0 else u32 (tail + 1) in
  ok (r, set_cmd_logs
           (<[qid := mk_table (<[Z.to_nat tail := e]> (table log_table)) tail']>
              (cmd_log_queue_table w1)) w1).

(** *** cmd_log_add_cpl_cb

    The trampoline ends by calling [cb_fn(cb_arg, &log_entry->cpl)] when
    [cb_fn] is set; that call is returned to the caller, who runs it. *)
Definition cmd_log_add_cpl_cb (cb_ctx : log_ref) (c : spdk_nvme_cpl)
    (w : world) : res (option invocation * world) :=
  do e <- of_option NullDeref (log_entry_at cb_ctx w);
  let (now, w1) := gettimeofday w in
  let diff := timersub now (time_cmd e) in
  let cpl1 := set_cpl_dword2 (timeval_to_us diff) c in
  do cpl2 <-
     (if (opc (cmd e) =? 2) && negb (buf e =? 0) then
        do _ <- assert 390 (negb (lba_count e =? 0));
        do _ <- assert 391 (negb (lba_size e =? 0));
        do _ <- assert 392 (lba_size e =? 512);
        do ret <- buffer_verify_data (buf e) (lba e) (lba_count e)
                    (lba_size e) w1;
        if negb (ret =? 0) then
          ok (set_cpl_status (set_sc 0x81 (set_sct 0x02 (status cpl1))) cpl1)
        else ok cpl1
      else ok cpl1);
  let e' := mk_entry (time_cmd e) (cmd e) now cpl2 (buf e) (lba e)
              (lba_count e) (lba_size e) (cb_fn e) (cb_arg e) in
  ok (match cb_fn e with
      | Some fn => Some (mk_invocation fn (cb_arg e) cpl2)
      | None => None
      end,
      set_log_entry cb_ctx e' w1).

(** *** The SPDK submission primitives

    A submission either is refused with a non-zero code or joins the
    outstanding requests; the environment decides. *)
Definition spdk_nvme_ctrlr_cmd_io_raw (qid : Z) (c : spdk_nvme_cmd)
    (b len : Z) (r : log_ref) (w : world) : Z * world :=
  let rc := submit_rc_nth E (n_submit w) in
  let w1 := log_events [EvSubmitIo qid c b rc] (tick_submit w) in
  if rc =? 0 then
    (rc, set_inflight (inflight w1 ++ [mk_request false qid c b len r]) w1)
  else (rc, w1).

Definition spdk_nvme_ctrlr_cmd_admin_raw (c : spdk_nvme_cmd)
    (b len : Z) (r : log_ref) (w : world) : Z * world :=
  let rc := submit_rc_nth E (n_submit w) in
  let w1 := log_events [EvSubmitAdmin c b rc] (tick_submit w) in
  if rc =? 0 then
    (rc, set_inflight (inflight w1 ++ [mk_request true 0 c b len r]) w1)
  else (rc, w1).

(** *** nvme_deallocate_ranges

    [ranges] is an array of 16-byte [struct spdk_nvme_dsm_range]:
    attributes (4 bytes), length (4), starting LBA (8). *)
Fixpoint nvme_deallocate_ranges_from (k : nat) (i : Z) (ranges : list Z)
    (w : world) : res world :=
  match k with
  | O => ok w
  | S k' =>
      do len <- of_option OutOfBounds
                  (le_value <$> mem_read (16 * i + 4) 4 ranges);
      do start <- of_option OutOfBounds (load64 (16 * i + 8) ranges);
      do w1 <- crc32_clear start len 0 0 w;
      nvme_deallocate_ranges_from k' (i + 1) ranges w1
  end.

Definition nvme_deallocate_ranges (b : Z) (count : Z) (w : world)
  : res world :=
  nvme_deallocate_ranges_from (Z.to_nat count) 0 (default [] (dma w !! b)) w.

(** *** nvme_send_cmd_raw

    [qpair] is the queue id of the pair, [None] for a NULL pointer. *)
Definition nvme_send_cmd_raw (qpair : option Z) (opcode nsid b len : Z)
    (c10 c11 c12 c13 c14 c15 : Z) (fn : option callback) (arg : Z)
    (w : world) : res (Z * world) :=
  let c := mk_cmd (u8 opcode) (u32 nsid) (u32 c10) (u32 c11) (u32 c12)
             (u32 c13) (u32 c14) (u32 c15) in
  let qid := match qpair with Some q => q | None => 0 end in
  do (log_entry, w1) <- cmd_log_add_cmd qid 0 0 0 0 c fn arg w;
  match qpair with
  | Some q =>
      do w2 <- (if u32 opcode =? 9
                then nvme_deallocate_ranges b (u32 (c10 + 1)) w1
                else ok w1);
      ok (spdk_nvme_ctrlr_cmd_io_raw q c b len log_entry w2)
  | None => ok (spdk_nvme_ctrlr_cmd_admin_raw c b len log_entry w1)
  end.

(** *** ns_cmd_read_write *)
Definition ns_cmd_read_write (is_read : Z) (ns : spdk_nvme_ns)
    (qpair : option Z) (b len lba lba_count io_flags : Z)
    (fn : option callback) (arg : Z) (w : world) : res (Z * world) :=
  let lba_size := u32 (ns_sector_size ns) in
  do qid <- of_option (AssertFail 797) qpair;
  do _ <- assert 800 (ns_id ns =? 1);
  do _ <- assert 803 (negb (b =? 0));
  do _ <- assert 804 (lba_size =? 512);
  do _ <- assert 805 (u32 (lba_count * lba_size) <=? len);
  let c := mk_cmd (if is_read =? 0 then 1 else 2) (u32 (ns_id ns))
             (u32 lba) (u32 (lba / 2^32))
             (u32 ((lba_count - 1) + u32 (io_flags * 2^16))) 0 0 0 in
  do w1 <- (if negb (is_read =? 1)
            then buffer_fill_data b lba lba_count lba_size w
            else ok w);
  do (log_entry, w2) <- cmd_log_add_cmd qid b lba lba_count lba_size c fn arg w1;
  ok (spdk_nvme_ctrlr_cmd_io_raw qid c b len log_entry w2).

End Driver.

(** ** I/O worker *)

(** [struct ioworker_args] and [struct ioworker_rets] are declared in
    driver.h, which is not among the sources.
    Modelled from the spec: the fields are those of the spec's "I/O worker
    arguments" and "I/O worker returns"; their widths are the ones driver.c
    uses them at ([%ld] and [(unsigned long)-1] for the 64-bit ones,
    [uint16_t lba_count = args->lba_size], [unsigned short read_percentage],
    [unsigned int] otherwise).  The two counter arrays are pointers; the
    arrays themselves are kept beside the structure. *)
Record ioworker_args := mk_args {
  lba_start : Z;
  a_lba_size : Z;
  lba_align : Z;
  lba_random : Z;
  region_start : Z;
  region_end : Z;
  read_percentage : Z;
  iops : Z;
  io_count : Z;
  seconds : Z;
  qdepth : Z;
  io_counter_per_second : Z;
  io_counter_per_latency : Z;
  wid : Z
}.

Record ioworker_rets := mk_rets {
  io_count_read : Z;
  io_count_write : Z;
  mseconds : Z;
  latency_max_us : Z;
  error : Z
}.

Record ioworker_io_ctx := mk_io_ctx {
  data_buf : Z;
  data_buf_len : Z;
  is_read : bool;
  time_sent : timeval
}.

Record ioworker_global_ctx := mk_gctx {
  g_ns : spdk_nvme_ns;
  g_qpair : option Z;
  due_time : timeval;
  io_due_time : timeval;
  io_delay_time : timeval;
  time_next_sec : timeval;
  io_count_till_last_sec : Z;
  sequential_lba : Z;
  io_count_sent : Z;
  io_count_cplt : Z;
  last_sec : Z;
  flag_finish : bool
}.

(** The worker's memory: the caller's [args] and [rets], the two counter
    arrays [args] points to, and the worker's own [gctx] and [io_ctx]
    array.  [gctx.args], [gctx.rets] and [ctx->gctx] are the pointers that
    tie them together; [gctx.sts] is [&g_ioworker_status_table[args->wid]]. *)
Record ioworker := mk_worker {
  wk_args : ioworker_args;
  wk_rets : ioworker_rets;
  wk_gctx : ioworker_global_ctx;
  wk_io_ctx : list ioworker_io_ctx;
  wk_per_second : list Z;
  wk_per_latency : list Z
}.

Definition set_args (a : ioworker_args) (k : ioworker) : ioworker :=
  mk_worker a (wk_rets k) (wk_gctx k) (wk_io_ctx k) (wk_per_second k)
    (wk_per_latency k).

Definition set_rets (r : ioworker_rets) (k : ioworker) : ioworker :=
  mk_worker (wk_args k) r (wk_gctx k) (wk_io_ctx k) (wk_per_second k)
    (wk_per_latency k).

Definition set_gctx (g : ioworker_global_ctx) (k : ioworker) : ioworker :=
  mk_worker (wk_args k) (wk_rets k) g (wk_io_ctx k) (wk_per_second k)
    (wk_per_latency k).

Definition set_io_ctx (c : list ioworker_io_ctx) (k : ioworker) : ioworker :=
  mk_worker (wk_args k) (wk_rets k) (wk_gctx k) c (wk_per_second k)
    (wk_per_latency k).

Definition set_per_second (l : list Z) (k : ioworker) : ioworker :=
  mk_worker (wk_args k) (wk_rets k) (wk_gctx k) (wk_io_ctx k) l
    (wk_per_latency k).

Definition set_per_latency (l : list Z) (k : ioworker) : ioworker :=
  mk_worker (wk_args k) (wk_rets k) (wk_gctx k) (wk_io_ctx k)
    (wk_per_second k) l.

Definition set_flag_finish (b : bool) (g : ioworker_global_ctx)
  : ioworker_global_ctx :=
  mk_gctx (g_ns g) (g_qpair g) (due_time g) (io_due_time g) (io_delay_time g)
    (time_next_sec g) (io_count_till_last_sec g) (sequential_lba g)
    (io_count_sent g) (io_count_cplt g) (last_sec g) b.

Definition set_sequential_lba (v : Z) (g : ioworker_global_ctx)
  : ioworker_global_ctx :=
  mk_gctx (g_ns g) (g_qpair g) (due_time g) (io_due_time g) (io_delay_time g)
    (time_next_sec g) (io_count_till_last_sec g) v
    (io_count_sent g) (io_count_cplt g) (last_sec g) (flag_finish g).

Definition set_io_count_sent (v : Z) (g : ioworker_global_ctx)
  : ioworker_global_ctx :=
  mk_gctx (g_ns g) (g_qpair g) (due_time g) (io_due_time g) (io_delay_time g)
    (time_next_sec g) (io_count_till_last_sec g) (sequential_lba g)
    v (io_count_cplt g) (last_sec g) (flag_finish g).

Definition set_io_count_cplt (v : Z) (g : ioworker_global_ctx)
  : ioworker_global_ctx :=
  mk_gctx (g_ns g) (g_qpair g) (due_time g) (io_due_time g) (io_delay_time g)
    (time_next_sec g) (io_count_till_last_sec g) (sequential_lba g)
    (io_count_sent g) v (last_sec g) (flag_finish g).

Definition set_io_due_time (t : timeval) (g : ioworker_global_ctx)
  : ioworker_global_ctx :=
  mk_gctx (g_ns g) (g_qpair g) (due_time g) t (io_delay_time g)
    (time_next_sec g) (io_count_till_last_sec g) (sequential_lba g)
    (io_count_sent g) (io_count_cplt g) (last_sec g) (flag_finish g).

(** The three stores of [ioworker_update_io_count_per_second] to [gctx]. *)
Definition set_next_sec (t : timeval) (sec : Z) (count : Z)
    (g : ioworker_global_ctx) : ioworker_global_ctx :=
  mk_gctx (g_ns g) (g_qpair g) (due_time g) (io_due_time g) (io_delay_time g)
    t count (sequential_lba g)
    (io_count_sent g) (io_count_cplt g) sec (flag_finish g).

Definition set_error (v : Z) (r : ioworker_rets) : ioworker_rets :=
  mk_rets (io_count_read r) (io_count_write r) (mseconds r)
    (latency_max_us r) v.

Definition set_mseconds (v : Z) (r : ioworker_rets) : ioworker_rets :=
  mk_rets (io_count_read r) (io_count_write r) v (latency_max_us r) (error r).

(** [ALIGN_UP(n, a)] and [ALIGN_DOWN(n, a)] at [unsigned long]. *)
Definition ALIGN_UP (n a : Z) : res Z :=
  if a =? 0 then raise DivByZero
  else ok (if negb (n mod a =? 0) then u64 (u64 (n + a) - n mod a) else n).

Definition ALIGN_DOWN (n a : Z) : res Z :=
  if a =? 0 then raise DivByZero else ok (n - n mod a).

(** A store through [gctx->sts]. *)
Definition sts_store (wid : Z) (f : ioworker_status -> ioworker_status)
    (w : world) : res world :=
  do tbl <- of_option NullDeref (g_ioworker_status_table w);
  do old <- of_option OutOfBounds
              (if 0 <=? wid then tbl !! Z.to_nat wid else None);
  ok (set_status_table (Some (<[Z.to_nat wid := f old]> tbl)) w).

(** [a[i] = f(a[i])] on a caller's array. *)
Definition array_update (i : Z) (f : Z -> Z) (a : list Z) : res (list Z) :=
  do old <- of_option OutOfBounds
              (if 0 <=? i then a !! Z.to_nat i else None);
  ok (<[Z.to_nat i := f old]> a).

Section Worker.

Variable E : environment.

(** *** ioworker_send_one_is_finish *)
Definition ioworker_send_one_is_finish (args : ioworker_args)
    (c : ioworker_global_ctx) (w : world) : res (bool * world) :=
  if io_count_sent c =? io_count args then ok (true, w)
  else
    do _ <- assert 913 (io_count_sent c <? io_count args);
    let (now, w1) := gettimeofday E w in
    ok (timercmp_gt now (due_time c), w1).

(** *** ioworker_one_io_throttle *)
Definition ioworker_one_io_throttle (gctx : ioworker_global_ctx)
    (now : timeval) (w : world) : ioworker_global_ctx * world :=
  let w1 := if timercmp_gt (io_due_time gctx) now
            then log_events
                   [EvSleep (timeval_to_us (timersub (io_due_time gctx) now))] w
            else w in
  (set_io_due_time (timeradd (io_due_time gctx) (io_delay_time gctx)) gctx, w1).

(** *** ioworker_get_duration

    [duration_ms] is its arithmetic on the time just read. *)
Definition duration_ms (start now : timeval) : Z :=
  let diff := timersub now start in
  let msec := u32 (u64 (tv_sec diff) * 1000) in
  u32 (msec + Z.quot (tv_usec diff + 500) 1000).

Definition ioworker_get_duration (start : timeval) (w : world) : Z * world :=
  let (now, w1) := gettimeofday E w in
  (duration_ms start now, w1).

(** *** ioworker_update_rets *)
Definition ioworker_update_rets (ctx : ioworker_io_ctx) (ret : ioworker_rets)
    (now : timeval) : Z * ioworker_rets :=
  let latency := timeval_to_us (timersub now (time_sent ctx)) in
  let lmax := if latency_max_us ret <? latency then latency
              else latency_max_us ret in
  if is_read ctx
  then (latency, mk_rets (u64 (io_count_read ret + 1)) (io_count_write ret)
                   (mseconds ret) lmax (error ret))
  else (latency, mk_rets (io_count_read ret) (u64 (io_count_write ret + 1))
                   (mseconds ret) lmax (error ret)).

(** *** ioworker_update_io_count_per_second *)
Definition ioworker_update_io_count_per_second (k : ioworker) : res ioworker :=
  let gctx := wk_gctx k in
  let rets := wk_rets k in
  let current_io_count := u64 (io_count_read rets + io_count_write rets) in
  do a <- array_update (last_sec gctx)
            (fun _ => u32 (current_io_count - io_count_till_last_sec gctx))
            (wk_per_second k);
  ok (set_per_second a
        (set_gctx (set_next_sec (timeradd_second (time_next_sec gctx) 1)
                     (u32 (last_sec gctx + 1)) current_io_count gctx) k)).

(** *** The error block of ioworker_one_cb (lines 1024-1045) *)
Definition cpl_error_code (c : spdk_nvme_cpl) : Z :=
  Z.land (Z.shiftr (status_raw (status c)) 1) 0x7ff.

Definition ioworker_one_cb_error (c : spdk_nvme_cpl) (k : ioworker)
  : ioworker :=
  if spdk_nvme_cpl_is_error c then
    let code := cpl_error_code c in
    if (code =? 0x0281) && (read_percentage (wk_args k) <? 100) then k
    else
      let k1 := set_gctx (set_flag_finish true (wk_gctx k)) k in
      if error (wk_rets k1) =? 0
      then set_rets (set_error code (wk_rets k1)) k1
      else k1
  else k.

(** *** ioworker_send_one_is_read *)
Definition ioworker_send_one_is_read (read_percentage : Z) (w : world)
  : bool * world :=
  let (r, w1) := random E w in
  (Z.rem r 100 <? read_percentage, w1).

(** *** ioworker_send_one_lba_sequential *)
Definition ioworker_send_one_lba_sequential (args : ioworker_args)
    (gctx : ioworker_global_ctx) : Z :=
  let ret := u64 (sequential_lba gctx + lba_align args) in
  if region_end args <? ret then region_start args else ret.

(** *** ioworker_send_one_lba_random *)
Definition ioworker_send_one_lba_random (args : ioworker_args) (w : world)
  : res (Z * world) :=
  let (r, w1) := random E w in
  let span := u64 (region_end args - region_start args) in
  if span =? 0 then raise DivByZero
  else ok (u64 (r mod span + region_start args), w1).

(** *** ioworker_send_one_lba *)
Definition ioworker_send_one_lba (args : ioworker_args)
    (gctx : ioworker_global_ctx) (w : world)
  : res (Z * ioworker_global_ctx * world) :=
  do (ret, gctx1, w1) <-
     (if lba_random args =? 0 then
        let ret := ioworker_send_one_lba_sequential args gctx in
        ok (ret, set_sequential_lba ret gctx, w)
      else
        do (ret, w1) <- ioworker_send_one_lba_random args w;
        ok (ret, gctx, w1));
  do aligned <- ALIGN_DOWN ret (lba_align args);
  ok (aligned, gctx1, w1).

(** *** ioworker_send_one

    [ctx] is [&io_ctx[i]], known by its index [i]; the same index is the
    callback argument registered with the command. *)
Definition ioworker_send_one (i : Z) (k : ioworker) (w : world)
  : res (Z * ioworker * world) :=
  let args := wk_args k in
  let gctx := wk_gctx k in
  do ctx <- of_option OutOfBounds
              (if 0 <=? i then wk_io_ctx k !! Z.to_nat i else None);
  let (rd, w1) := ioworker_send_one_is_read (read_percentage args) w in
  do (lba_starting, gctx1, w2) <- ioworker_send_one_lba args gctx w1;
  let lba_count := u16 (a_lba_size args) in
  do _ <- assert 1125 (negb (data_buf ctx =? 0));
  do (ret, w3) <- ns_cmd_read_write E (if rd then 1 else 0) (g_ns gctx)
                    (g_qpair gctx) (data_buf ctx) (data_buf_len ctx)
                    lba_starting lba_count 0 (Some cb_ioworker_one_cb) i w2;
  if negb (ret =? 0) then
    ok (ret, set_gctx (set_flag_finish true gctx1) k, w3)
  else
    let sent := u64 (io_count_sent gctx1 + 1) in
    do w4 <- sts_store (wid args)
               (fun s => mk_sts sent (sts_io_count_cplt s)) w3;
    let (now, w5) := gettimeofday E w4 in
    ok (0, set_io_ctx (<[Z.to_nat i :=
                          mk_io_ctx (data_buf ctx) (data_buf_len ctx) rd now]>
                         (wk_io_ctx k))
             (set_gctx (set_io_count_sent sent gctx1) k), w5).

(** *** ioworker_one_cb *)
Definition ioworker_one_cb (ctx_in : Z) (c : spdk_nvme_cpl) (k : ioworker)
    (w : world) : res (ioworker * world) :=
  do ctx <- of_option OutOfBounds
              (if 0 <=? ctx_in then wk_io_ctx k !! Z.to_nat ctx_in else None);
  let args := wk_args k in
  let cplt := u64 (io_count_cplt (wk_gctx k) + 1) in
  let k1 := set_gctx (set_io_count_cplt cplt (wk_gctx k)) k in
  do w1 <- sts_store (wid args)
             (fun s => mk_sts (sts_io_count_sent s) cplt) w;
  let (now, w2) := gettimeofday E w1 in
  let (latency_us, rets1) := ioworker_update_rets ctx (wk_rets k1) now in
  let k2 := set_rets rets1 k1 in
  do k3 <- (if negb (io_counter_per_latency args =? 0) then
              do a <- array_update (Z.min (US_PER_S - 1) latency_us)
                        (fun v => u64 (v + 1)) (wk_per_latency k2);
              ok (set_per_latency a k2)
            else ok k2);
  let (k4, w3) :=
    (if negb (tv_usec (io_delay_time (wk_gctx k3)) =? 0) then
       let (g, w') := ioworker_one_io_throttle (wk_gctx k3) now w2 in
       (set_gctx g k3, w')
     else (k3, w2)) in
  let k5 := ioworker_one_cb_error c k4 in
  do k6 <- (if negb (io_counter_per_second args =? 0) then
              if timercmp_gt now (time_next_sec (wk_gctx k5))
              then ioworker_update_io_count_per_second k5
              else ok k5
            else ok k5);
  do (k7, w4) <-
     (if negb (flag_finish (wk_gctx k6)) then
        do (fin, w') <- ioworker_send_one_is_finish args (wk_gctx k6) w3;
        ok (set_gctx (set_flag_finish fin (wk_gctx k6)) k6, w')
      else ok (k6, w3));
  if negb (flag_finish (wk_gctx k7)) then
    do (_, k8, w5) <- ioworker_send_one ctx_in k7 w4;
    ok (k8, w5)
  else ok (k7, w4).

End Worker.

(** ** Completion polling

    [spdk_nvme_qpair_process_completions(qpair, 0)]: the device hands back
    the completions the environment chose for this poll, one after the
    other.  For each, the data it carries is in the request's buffer before
    the registered trampoline [cmd_log_add_cpl_cb] runs, and the call the
    trampoline ends with is run by [run_cb] on the caller's state [S]. *)
Section Poll.

Variable E : environment.
Context {S : Type}.
Variable run_cb : invocation -> S -> world -> res (S * world).

Definition dma_deliver (b : Z) (data : option (list Z)) (w : world) : world :=
  match data, dma w !! b with
  | Some d, Some m =>
      set_dma (<[b := take (length m) d ++ drop (length d) m]> (dma w)) w
  | _, _ => w
  end.

Definition complete_one (qid : Z) (a : completion) (s : S) (w : world)
  : res (S * world) :=
  match inflight w !! cq_slot a with
  | Some rq =>
      if negb (rq_admin rq) && (rq_qid rq =? qid) then
        let w1 := set_inflight (delete (cq_slot a) (inflight w)) w in
        let w2 := dma_deliver (rq_buf rq) (cq_data a) w1 in
        do (inv, w3) <- cmd_log_add_cpl_cb E (rq_ref rq) (cq_cpl a) w2;
        match inv with
        | Some i => run_cb i s w3
        | None => ok (s, w3)
        end
      else ok (s, w)
  | None => ok (s, w)
  end.

Fixpoint complete_all (qid : Z) (l : list completion) (s : S) (w : world)
  : res (S * world) :=
  match l with
  | [] => ok (s, w)
  | a :: l' =>
      do (s1, w1) <- complete_one qid a s w;
      complete_all qid l' s1 w1
  end.

Definition spdk_nvme_qpair_process_completions (qpair : option Z) (s : S)
    (w : world) : res (S * world) :=
  do qid <- of_option NullDeref qpair;
  complete_all qid (poll_nth E (n_poll w)) s (tick_poll w).

End Poll.

Section Entry.

Variable E : environment.

(** The callbacks the worker's poll may have to run: its own handler, or a
    caller's function registered with an earlier raw command. *)
Definition ioworker_run_cb (inv : invocation) (k : ioworker) (w : world)
  : res (ioworker * world) :=
  match inv_fn inv with
  | cb_ioworker_one_cb => ioworker_one_cb E (inv_arg inv) (inv_cpl inv) k w
  | cb_user fn =>
      ok (k, log_events [EvUserCallback fn (inv_arg inv) (inv_cpl inv)] w)
  end.

(** *** ioworker_entry, "check args" (lines 1184-1193) *)
Definition ioworker_check_args (args : ioworker_args) : res unit :=
  do _ <- assert 1186 (read_percentage args <=? 100);
  do _ <- assert 1187 (negb (io_count args =? 0) || negb (seconds args =? 0));
  do _ <- assert 1188 (seconds args <? 24 * 3600);
  do _ <- assert 1189 (negb (a_lba_size args =? 0));
  do _ <- assert 1190 (region_start args <? region_end args);
  do _ <- assert 1191 (0 <=? read_percentage args);
  do _ <- assert 1192 (read_percentage args <=? 100);
  assert 1193 (qdepth args <=? CMD_LOG_DEPTH / 2).

(** *** ioworker_entry, "revise args" (lines 1204-1230) *)
Definition ioworker_revise_args (nsze : Z) (args : ioworker_args)
  : res ioworker_args :=
  let io_count1 := if io_count args =? 0 then 2^64 - 1 else io_count args in
  let seconds1 := if (seconds args =? 0) || (24 * 3600 <? seconds args)
                  then 24 * 3600 else seconds args in
  let region_end1 := if nsze <? region_end args then nsze
                     else region_end args in
  do region_start1 <- ALIGN_UP (region_start args) (lba_align args);
  let region_end2 := u64 (u64 (region_end1 - a_lba_size args) - 1) in
  do region_end3 <- ALIGN_DOWN region_end2 (lba_align args);
  let lba_start1 := if lba_start args <? region_start1 then region_start1
                    else lba_start args in
  let qdepth1 := if io_count1 <? qdepth args then io_count1
                 else qdepth args in
  ok (mk_args lba_start1 (a_lba_size args) (lba_align args) (lba_random args)
        region_start1 region_end3 (read_percentage args) (iops args)
        io_count1 seconds1 qdepth1 (io_counter_per_second args)
        (io_counter_per_latency args) (wid args)).

(** *** ioworker_entry, the first batch (lines 1259-1265) *)
Fixpoint ioworker_first_batch (n : nat) (i : Z) (sector_size : Z)
    (k : ioworker) (w : world) : res (ioworker * world) :=
  match n with
  | O => ok (k, w)
  | S n' =>
      do old <- of_option OutOfBounds (wk_io_ctx k !! Z.to_nat i);
      let len := u32 (a_lba_size (wk_args k) * sector_size) in
      let (b, w1) := buffer_init len w in
      let k1 := set_io_ctx (<[Z.to_nat i :=
                               mk_io_ctx b len (is_read old) (time_sent old)]>
                              (wk_io_ctx k)) k in
      do (_, k2, w2) <- ioworker_send_one E i k1 w1;
      ioworker_first_batch n' (i + 1) sector_size k2 w2
  end.

(** *** ioworker_entry, the completion loop (lines 1270-1284)

    [ioworker_pending] is the loop condition, [watchdog_limit] the bound
    [args->seconds*1000UL + 10*1000UL] in milliseconds. *)
Definition ioworker_pending (gctx : ioworker_global_ctx) : bool :=
  negb (io_count_sent gctx =? io_count_cplt gctx) || negb (flag_finish gctx).

Definition watchdog_limit (args : ioworker_args) : Z :=
  seconds args * 1000 + 10 * 1000.

(** One unit of [fuel] is one evaluation of the loop condition; [None]
    means the fuel ran out before the loop was left. *)
Fixpoint ioworker_poll_loop (fuel : nat) (test_start : timeval)
    (k : ioworker) (w : world) : option (res (Z * ioworker * world)) :=
  match fuel with
  | O => None
  | S fuel' =>
      let gctx := wk_gctx k in
      if ioworker_pending gctx then
        let (d, w1) := ioworker_get_duration E test_start w in
        if watchdog_limit (wk_args k) <? d
        then Some (ok (-3, k, w1))
        else
          match spdk_nvme_qpair_process_completions E ioworker_run_cb
                  (g_qpair gctx) k w1 with
          | inl f => Some (inl f)
          | inr (k2, w2) => ioworker_poll_loop fuel' test_start k2 w2
          end
      else Some (ok (0, k, w))
  end.

(** *** ioworker_entry, releasing the buffers (lines 1290-1293) *)
Fixpoint ioworker_release (n : nat) (i : Z) (k : ioworker) (w : world)
  : res world :=
  match n with
  | O => ok w
  | S n' =>
      do ctx <- of_option OutOfBounds (wk_io_ctx k !! Z.to_nat i);
      do w1 <- buffer_fini (data_buf ctx) w;
      ioworker_release n' (i + 1) k w1
  end.

Definition zero_io_ctx : ioworker_io_ctx := mk_io_ctx 0 0 false (mk_timeval 0 0).

(** *** ioworker_entry

    [args] is the caller's structure and [per_second], [per_latency] the
    arrays its two pointers refer to; the result carries the return value
    and, in the worker's memory, [args] and [rets] as the caller finds
    them afterwards. *)
Definition ioworker_entry (fuel : nat) (ns : spdk_nvme_ns) (qpair : option Z)
    (args : ioworker_args) (per_second per_latency : list Z) (w : world)
  : option (res (Z * ioworker * world)) :=
  let nsze := u64 (ns_num_sectors ns) in
  let sector_size := u32 (ns_sector_size ns) in
  let io_ctx := replicate (Z.to_nat (qdepth args)) zero_io_ctx in
  let rets := mk_rets 0 0 0 0 0 in
  let gctx0 := mk_gctx ns qpair (mk_timeval 0 0) (mk_timeval 0 0)
                 (mk_timeval 0 0) (mk_timeval 0 0) 0 0 0 0 0 false in
  match ioworker_check_args args with
  | inl f => Some (inl f)
  | inr _ =>
      if u32 (ns_max_xfer_size ns) <? u32 (a_lba_size args * sector_size) then
        Some (ok (-2, mk_worker args (set_error 0x0002 rets) gctx0 []
                        per_second per_latency, w))
      else
        match ioworker_revise_args nsze args with
        | inl f => Some (inl f)
        | inr args1 =>
            let (test_start, w1) := gettimeofday E w in
            let delay := mk_timeval 0
                           (if iops args1 =? 0 then 0
                            else US_PER_S / iops args1) in
            let gctx := mk_gctx ns qpair
                          (timeradd_second test_start (seconds args1))
                          (timeradd test_start delay) delay
                          (timeradd_second test_start 1) 0
                          (lba_start args1) 0 0 0 false in
            let k := mk_worker args1 rets gctx io_ctx per_second per_latency in
            match (do _ <- assert 1252
                             (bool_decide (is_Some (g_ioworker_status_table w1)));
                   ioworker_first_batch (Z.to_nat (qdepth args1)) 0
                     sector_size k w1) with
            | inl f => Some (inl f)
            | inr (k1, w2) =>
                match ioworker_poll_loop fuel test_start k1 w2 with
                | None => None
                | Some (inl f) => Some (inl f)
                | Some (inr (ret, k2, w3)) =>
                    let (d, w4) := ioworker_get_duration E test_start w3 in
                    let k3 := set_rets (set_mseconds d (wk_rets k2)) k2 in
                    match ioworker_release (Z.to_nat (qdepth (wk_args k3))) 0
                            k3 w4 with
                    | inl f => Some (inl f)
                    | inr w5 => Some (ok (ret, k3, w5))
                    end
                end
            end
        end
  end.

End Entry.

(** ** A closed environment for examples

    CRC32C as SPDK's table-free definition gives it (reflected polynomial
    0x82F63B78, no inversion before or after), a clock that stands still, a
    device that accepts every submission and completes the oldest
    outstanding request successfully at each poll. *)

Fixpoint crc32c_bits (n : nat) (crc : Z) : Z :=
  match n with
  | O => crc
  | S n' =>
      crc32c_bits n' (if Z.odd crc
                      then Z.lxor (Z.shiftr crc 1) 0x82F63B78
                      else Z.shiftr crc 1)
  end.

Definition crc32c_sw (data : list Z) (crc : Z) : Z :=
  fold_left (fun c b => crc32c_bits 8 (Z.lxor c b)) data crc.

Definition success_cpl : spdk_nvme_cpl := zero_cpl.

Definition env0 : environment :=
  mk_env crc32c_sw (fun _ => mk_timeval 100 0) (fun n => Z.of_nat n)
    (fun _ => 0) (fun _ => [mk_completion 0 success_cpl None]).

Definition ns0 : spdk_nvme_ns := mk_ns 1 16 512 131072.

(** A primary process after [driver_init], [ns_init] on a 16-block
    namespace and [qpair_create] of queue 1: token 0, oracle all unmapped. *)
Definition world0 : world :=
  snd (cmd_log_table_create 1
         (snd (cmd_log_table_create 0
                 (mk_world 64 (Some 0) (Some (replicate 16 0))
                    (Some (replicate 64 (mk_sts 0 0))) ∅ ∅ [] 0 0 0 0 [])))).

Definition submitted_lbas (t : list event) : list Z :=
  omap (fun e => match e with
                 | EvSubmitIo _ c _ _ => Some (cdw10 c + 2^32 * cdw11 c)
                 | _ => None
                 end) t.

(** * Statement-side definitions and example inputs *)

(** The spec's words for the normalisation: 0 goes to 1, 0xFFFFFFFF to
    0xFFFFFFFE, every other value stays. *)
Definition crc_normalize_spec (c : Z) : Z :=
  if c =? 0 then 1
  else if c =? 0xffffffff then 0xfffffffe
  else c.

(** What the error block makes of [rets.error] and of the finish flag. *)
Definition error_after (c : spdk_nvme_cpl) (rp e : Z) : Z :=
  if spdk_nvme_cpl_is_error c then
    if (cpl_error_code c =? 0x0281) && (rp <? 100) then e
    else if e =? 0 then cpl_error_code c else e
  else e.

Definition finish_after (c : spdk_nvme_cpl) (rp : Z) (f : bool) : bool :=
  if spdk_nvme_cpl_is_error c then
    if (cpl_error_code c =? 0x0281) && (rp <? 100) then f else true
  else f.


Definition final_ret (r : option (res (Z * ioworker * world))) : option Z :=
  match r with
  | Some (inr (ret, _, _)) => Some ret
  | _ => None
  end.

Definition final_lbas (r : option (res (Z * ioworker * world)))
  : option (list Z) :=
  match r with
  | Some (inr (_, _, w)) => Some (submitted_lbas (trace w))
  | _ => None
  end.

(** Scenario 5 of the spec: region [0,8), one block per I/O, alignment 1,
    sequential, 20 I/Os (all writes, queue depth 2, no time limit). *)
Definition args_wrap : ioworker_args :=
  mk_args 0 1 1 0 0 8 0 0 20 0 2 0 0 0.

(** An oracle store made by a write: the slot's LBA and a normalised
    CRC32C of some block image. *)
Definition is_csum_store (crc32c : list Z -> Z -> Z) (e : event) : Prop :=
  match e with
  | EvOracleStore _ c => exists data, c = buffer_calc_csum crc32c data
  | EvStamp _ _ _ _ => True
  | _ => False
  end.

(** A run of a whole day: [seconds] = 86400, otherwise the arguments of
    scenario 5. *)
Definition args_day : ioworker_args :=
  mk_args 0 1 1 0 0 8 0 0 20 86400 2 0 0 0.

(** The sequential rule on its own: the LBA after [prev]. *)
Definition seq_next (args : ioworker_args) (prev : Z) : Z :=
  let ret := u64 (prev + lba_align args) in
  if region_end args <? ret then region_start args else ret.

(** The LBAs of [n] successive sequential I/Os after [prev], each aligned
    down. *)
Fixpoint seq_lbas (args : ioworker_args) (n : nat) (prev : Z) : list Z :=
  match n with
  | O => []
  | S n' =>
      let x := seq_next args prev in
      (x - x mod lba_align args) :: seq_lbas args n' x
  end.

(** What a worker state shows of the sequence: its arguments, the last
    sequential LBA, and the LBAs handed to the driver so far. *)
Definition seq_view (k : ioworker) (w : world) : ioworker_args * Z * list Z :=
  (wk_args k, sequential_lba (wk_gctx k), submitted_lbas (trace w)).

(** The sequence invariant of a sequential worker after [n] I/Os have been
    handed to the driver since the run began: they went to the first [n]
    LBAs the rule yields from [lba_start], and as long as the finish flag is
    unset all of them were accepted. *)
Definition seq_inv (a1 : ioworker_args) (sl0 : list Z) (n : nat)
    (k : ioworker) (t : list event) : Prop :=
  wk_args k = a1
  /\ submitted_lbas t = sl0 ++ seq_lbas a1 n (lba_start a1)
  /\ sequential_lba (wk_gctx k) = Nat.iter n (seq_next a1) (lba_start a1)
  /\ (flag_finish (wk_gctx k) = false ->
      io_count_sent (wk_gctx k) = Z.of_nat n).

(** Between the first batch and the return the worker never hands over
    more than [io_count] I/Os. *)
Definition run_inv (a1 : ioworker_args) (sl0 : list Z) (k : ioworker)
    (t : list event) : Prop :=
  exists n : nat, seq_inv a1 sl0 n k t /\ Z.of_nat n <= io_count a1.

(** The cycle of scenario 5 as the code runs it: the j-th I/O goes to LBA
    [(j + 1) mod 7]. *)
Definition wrap_cycle (n : nat) : list Z :=
  map (fun j => (Z.of_nat j + 1) mod 7) (seq 0 n).

(** What one iteration of the write loop leaves behind for block [i] of
    the buffer (512-byte blocks): in the final buffer [m'] the block starts
    with the 8 bytes of [lba], ends with the 8 bytes of [token], keeps the
    496 bytes in between from the buffer [m] before the call, and the
    oracle slot of [lba] in the final table [tbl'] is the block's
    normalised CRC32C. *)
Definition block_written (crc32c : list Z -> Z -> Z) (m m' tbl' : list Z)
    (i lba token : Z) : Prop :=
  exists blk,
    mem_read (512 * i) 512 m' = Some blk
    /\ mem_read 0 8 blk = Some (le_bytes 8 lba)
    /\ mem_read 504 8 blk = Some (le_bytes 8 token)
    /\ mem_read 8 496 blk = mem_read (512 * i + 8) 496 m
    /\ tbl' !! Z.to_nat lba = Some (buffer_calc_csum crc32c blk).

(** The events of the write loop over [k] blocks from block [i], in order:
    per block, the stamp and then the oracle store of the value the slot
    ends up with. *)
Fixpoint fill_events (b : Z) (tbl' : list Z) (k : nat) (i lba token : Z)
  : list event :=
  match k with
  | O => []
  | S k' =>
      EvStamp b (512 * i) lba (u64 (token + i))
      :: EvOracleStore lba (default 0 (tbl' !! Z.to_nat lba))
      :: fill_events b tbl' k' (i + 1) (lba + 1) token
  end.

(** The spec's verification protocol for one 512-byte block: what the
    check of block [i], expected at LBA [lba], finds. *)
Inductive verdict :=
| VSkip
| VUncorrectable
| VLbaMismatch
| VCrcMismatch
| VPass.

Definition block_verdict (crc32c : list Z -> Z -> Z) (m tbl : list Z)
    (i lba : Z) : option verdict :=
  match tbl !! Z.to_nat lba with
  | None => None
  | Some slot =>
      if slot =? 0 then Some VSkip
      else if slot =? 0xffffffff then Some VUncorrectable
      else
        match load64 (512 * i) m with
        | None => None
        | Some stored =>
            if stored =? lba then
              match mem_read (512 * i) 512 m with
              | None => None
              | Some data =>
                  if buffer_calc_csum crc32c data =? slot then Some VPass
                  else Some VCrcMismatch
              end
            else Some VLbaMismatch
        end
  end.

Definition verdict_ok (v : option verdict) : Prop :=
  v = Some VSkip \/ v = Some VPass.

(** The value "verification failed with [r]" for a verdict. *)
Definition verdict_fails (v : option verdict) (r : Z) : Prop :=
  (v = Some VUncorrectable /\ r = -1)
  \/ (v = Some VLbaMismatch /\ r = -2)
  \/ (v = Some VCrcMismatch /\ r = -3).

(** Blocks are verified in order and the first failure decides. *)
Definition verify_outcome (crc32c : list Z -> Z -> Z) (m tbl : list Z)
    (i lba n r : Z) : Prop :=
  (r = 0 /\ forall j, 0 <= j < n ->
              verdict_ok (block_verdict crc32c m tbl (i + j) (lba + j)))
  \/ (exists j, 0 <= j < n
        /\ (forall j', 0 <= j' < j ->
              verdict_ok (block_verdict crc32c m tbl (i + j') (lba + j')))
        /\ verdict_fails (block_verdict crc32c m tbl (i + j) (lba + j)) r).

(** One write as [buffer_fill_data] sees it. *)
Record write_op := mk_write {
  wr_buf : Z;
  wr_lba : Z;
  wr_count : Z;
  wr_size : Z
}.

(** The tokens stamped in a stretch of history, in order. *)
Definition stamped_tokens (evs : list event) : list Z :=
  omap (fun e => match e with
                 | EvStamp _ _ _ t => Some t
                 | _ => None
                 end) evs.

(** The bases the counter hands out in a stretch of history. *)
Definition fetched_bases (evs : list event) : list Z :=
  omap (fun e => match e with
                 | EvTokenFetchAdd old _ => Some old
                 | _ => None
                 end) evs.

(** Writes taken in the order of their fetch-adds on the shared counter
    (the order sequential consistency gives them); the tokens a write
    stamps depend on nothing but the base its own fetch-add returned. The
    result lists, per write, that base and the tokens it stamped. *)
Fixpoint write_all (E : environment) (ops : list write_op) (w : world)
  : res (list (Z * list Z) * world) :=
  match ops with
  | [] => ok ([], w)
  | o :: os =>
      do w1 <- buffer_fill_data E (wr_buf o) (wr_lba o) (wr_count o)
                 (wr_size o) w;
      do (ts, w2) <- write_all E os w1;
      let new := drop (length (trace w)) (trace w1) in
      ok ((default 0 (head (fetched_bases new)), stamped_tokens new) :: ts, w2)
  end.

(** Without wrap-around: the bases and token ranges for successive
    counts from [T]. *)
Fixpoint token_ranges (T : Z) (counts : list Z) : list (Z * list Z) :=
  match counts with
  | [] => []
  | n :: ns => (T, seqZ T n) :: token_ranges (T + n) ns
  end.

(** [world0] with one zeroed two-block DMA buffer, at address 4096. *)
Definition world_buf : world := snd (buffer_init 1024 world0).

(** The log table of queue 1 in [world0]. *)
Definition logt0 : cmd_log_table_t :=
  mk_table (replicate (Z.to_nat CMD_LOG_DEPTH) zero_entry) 0.





(** Scenario 5 run on queue 1 of [world0]. *)
Definition run_wrap : option (res (Z * ioworker * world)) :=
  ioworker_entry env0 100 ns0 (Some 1) args_wrap [] [] world0.

Definition args_wrap_revised : ioworker_args :=
  mk_args 0 1 1 0 0 6 0 0 20 86400 2 0 0 0.

(** A worker with one I/O outstanding, its only one ([io_count] = 1), and
    the completion the trampoline hands over after a failed
    verification. *)
Definition worker_last (rp : Z) : ioworker :=
  mk_worker (mk_args 0 1 1 0 0 6 rp 0 1 86400 1 0 0 0) (mk_rets 0 0 0 0 0)
    (mk_gctx ns0 (Some 1) (mk_timeval 86500 0) (mk_timeval 100 0)
       (mk_timeval 0 0) (mk_timeval 101 0) 0 1 1 0 0 false)
    [mk_io_ctx 4096 512 true (mk_timeval 100 0)] [] [].

Definition unrecovered_cpl : spdk_nvme_cpl :=
  mk_cpl 0 0 0 0 0 (mk_status 0 0x81 0x02 0 0 0).

Definition cb_last (rp : Z) : ioworker * world :=
  match ioworker_one_cb env0 0 unrecovered_cpl (worker_last rp) world_buf with
  | inr kw => kw
  | inl _ => (worker_last rp, world_buf)
  end.

(** [world_buf] after a write of two blocks at LBA 3. *)
Definition world_filled : world :=
  match buffer_fill_data env0 4096 3 2 512 world_buf with
  | inr w => w
  | inl _ => world_buf
  end.

Definition table_filled : list Z :=
  default [] (g_driver_csum_table_ptr world_filled).

(** Two writes in the order of their fetch-adds: two blocks at LBA 3, then
    one block at LBA 5. *)
Definition two_writes : list write_op :=
  [mk_write 4096 3 2 512; mk_write 4096 5 1 512].

Definition tokens_from (T : Z) : list (Z * list Z) :=
  match write_all env0 two_writes (set_token (Some T) world_buf) with
  | inr (toks, _) => toks
  | inl _ => []
  end.

(** A device that completes nothing, under a clock that jumps 100000 s at
    every reading. *)
Definition env_stuck : environment :=
  mk_env crc32c_sw (fun n => mk_timeval (100 + 100000 * Z.of_nat n) 0)
    (fun n => Z.of_nat n) (fun _ => 0) (fun _ => []).



(** * More of driver.c, and what its properties are stated with *)

(** What [memset] writes into a 32-bit slot for the byte [c]. *)
Definition slot_fill (uncorr : Z) : Z :=
  if uncorr =? 0 then 0 else 0xffffffff.

(** The [i]-th 16-byte range of a Dataset Management buffer: its starting
    LBA and its length in blocks. *)
Definition dsm_range_at (ranges : list Z) (i : Z) : option (Z * Z) :=
  match load64 (16 * i + 8) ranges, mem_read (16 * i + 4) 4 ranges with
  | Some start, Some l => Some (start, le_value l)
  | _, _ => None
  end.

(** Whether slot [s] lies in one of the [k] ranges from the [i]-th on. *)
Fixpoint dsm_covers (ranges : list Z) (k : nat) (i : Z) (s : Z) : bool :=
  match k with
  | O => false
  | S k' =>
      match dsm_range_at ranges i with
      | Some (start, len) => (start <=? s) && (s <? start + len)
      | None => false
      end || dsm_covers ranges k' (i + 1) s
  end.

(** What one call of [cmd_log_add_cmd] is given to log. *)
Record log_item := mk_item {
  it_buf : Z;
  it_lba : Z;
  it_count : Z;
  it_size : Z;
  it_cmd : spdk_nvme_cmd;
  it_fn : option callback;
  it_arg : Z
}.

(** Successive calls of [cmd_log_add_cmd] on one queue; the result lists
    the entries they returned. *)
Fixpoint cmd_log_add_many (E : environment) (qid : Z) (xs : list log_item)
    (w : world) : res (list log_ref * world) :=
  match xs with
  | [] => ok ([], w)
  | x :: xs' =>
      do (r, w1) <- cmd_log_add_cmd E qid (it_buf x) (it_lba x) (it_count x)
                      (it_size x) (it_cmd x) (it_fn x) (it_arg x) w;
      do (rs, w2) <- cmd_log_add_many E qid xs' w1;
      ok (r :: rs, w2)
  end.

(** Queue [qid] has a table of [CMD_LOG_DEPTH] entries with tail [t]. *)
Definition log_table_at (w : world) (qid t : Z) : Prop :=
  exists logt,
    cmd_log_queue_table w !! qid = Some logt
    /\ tail_index logt = t
    /\ Z.of_nat (length (table logt)) = CMD_LOG_DEPTH.

(** Entry [e] records item [x]. *)
Definition logs_item (e : cmd_log_entry_t) (x : log_item) : Prop :=
  buf e = it_buf x /\ lba e = it_lba x /\ lba_count e = it_count x
  /\ lba_size e = it_size x /\ cmd e = it_cmd x /\ cb_fn e = it_fn x
  /\ cb_arg e = it_arg x.

(** What the bookkeeping of a completion leaves alone in the worker. *)
Definition worker_fixed (k : ioworker)
  : ioworker_args * list ioworker_io_ctx * spdk_nvme_ns * option Z * Z * Z :=
  (wk_args k, wk_io_ctx k, g_ns (wk_gctx k), g_qpair (wk_gctx k),
   io_count_sent (wk_gctx k), sequential_lba (wk_gctx k)).

(** The world apart from the clocks, the status table and the sleeps in
    the history. *)
Definition world_fixed (w : world)
  : option Z * option (list Z) * gmap Z cmd_log_table_t * gmap Z (list Z)
    * list request * nat * nat * nat :=
  (g_driver_io_token_ptr w, g_driver_csum_table_ptr w, cmd_log_queue_table w,
   dma w, inflight w, n_random w, n_submit w, n_poll w).

Definition is_sleep (e : event) : Prop :=
  match e with EvSleep _ => True | _ => False end.

(** The region invariant of a run: the arguments are the revised ones, in
    sequential mode the last LBA lies at or above [region_start] without
    reaching the end of the 64-bit range, and every LBA handed to the
    driver since the run began lies in [[region_start, region_end]]. *)
Definition region_inv (a1 : ioworker_args) (sl0 : list Z) (k : ioworker)
    (t : list event) : Prop :=
  wk_args k = a1
  /\ (lba_random a1 = 0 ->
      region_start a1 <= sequential_lba (wk_gctx k)
      /\ sequential_lba (wk_gctx k) + lba_align a1 < 2^64)
  /\ exists new,
       submitted_lbas t = sl0 ++ new
       /\ Forall (fun l => region_start a1 <= l <= region_end a1) new.

(** The I/O commands handed to the driver in a stretch of history, each
    with the code the driver answered. *)
Definition submits (t : list event) : list (spdk_nvme_cmd * Z) :=
  omap (fun e => match e with
                 | EvSubmitIo _ c _ rc => Some (c, rc)
                 | _ => None
                 end) t.

(** How many of them the driver accepted. *)
Definition accepted (t : list event) : Z :=
  Z.of_nat (length (filter (fun x => snd x = 0) (submits t))).

(** The counters of a run against its history since [t0]: [io_count_sent]
    counts the accepted submissions, [io_count_cplt] the completions that
    [rets] has recorded as reads or writes (all modulo 2^64). *)
Definition count_inv (t0 : list event) (k : ioworker) (t : list event)
  : Prop :=
  exists new,
    t = t0 ++ new
    /\ io_count_sent (wk_gctx k) = u64 (accepted new)
    /\ io_count_cplt (wk_gctx k)
       = u64 (io_count_read (wk_rets k) + io_count_write (wk_rets k)).

(** The read/write mix of a run at its two ends: with [read_percentage] 0
    every command is a write, no context is marked as a read and no read is
    counted; with 100 every command is a read. *)
Definition mix_inv (a1 : ioworker_args) (t0 : list event) (k : ioworker)
    (t : list event) : Prop :=
  wk_args k = a1
  /\ exists new,
       t = t0 ++ new
       /\ (read_percentage a1 = 0 ->
           Forall (fun x => opc (fst x) = 1) (submits new)
           /\ Forall (fun c => is_read c = false) (wk_io_ctx k)
           /\ io_count_read (wk_rets k) = 0)
       /\ (read_percentage a1 = 100 ->
           Forall (fun x => opc (fst x) = 2) (submits new)).

(** A worker none of whose submissions was accepted: nothing sent, nothing
    completed, nothing counted, no error recorded, and nothing accepted in
    the history since [t0]. *)
Definition refused_inv (t0 : list event) (k : ioworker) (t : list event)
  : Prop :=
  io_count_sent (wk_gctx k) = 0 /\ io_count_cplt (wk_gctx k) = 0
  /\ wk_rets k = mk_rets 0 0 0 0 0
  /\ exists new, t = t0 ++ new /\ accepted new = 0.

(** The budget invariant of a run: [n] commands have been handed to the
    driver since [t0], and as long as the finish flag is unset all of them
    were accepted and counted. *)
Definition budget_inv (a1 : ioworker_args) (t0 : list event) (n : Z)
    (k : ioworker) (t : list event) : Prop :=
  wk_args k = a1
  /\ (exists new, t = t0 ++ new /\ Z.of_nat (length (submits new)) = n)
  /\ (flag_finish (wk_gctx k) = false -> io_count_sent (wk_gctx k) = n).

Definition within_budget (a1 : ioworker_args) (t0 : list event)
    (k : ioworker) (t : list event) : Prop :=
  exists n, budget_inv a1 t0 n k t /\ 0 <= n <= io_count a1.

(** What the process and the memzone primitives answer: whether
    [spdk_process_is_primary], and for each of the three named zones the
    memory [spdk_memzone_reserve] (primary) or [spdk_memzone_lookup]
    (secondary) returns, [None] for NULL. *)
Record memzone_env := mk_zones {
  process_is_primary : bool;
  zone_crc32_table : option (list Z);
  zone_io_token : option Z;
  zone_status_table : option (list ioworker_status)
}.

Definition set_table_size (v : Z) (w : world) : world :=
  mk_world v (g_driver_io_token_ptr w) (g_driver_csum_table_ptr w)
    (g_ioworker_status_table w) (cmd_log_queue_table w) (dma w) (inflight w)
    (n_clock w) (n_random w) (n_submit w) (n_poll w) (trace w).

Definition memzone_reserve_shared_memory (M : memzone_env) (table_size : Z)
    (w : world) : res (Z * world) :=
  do _ <- (if process_is_primary M then
             do _ <- assert 71
                       (negb (bool_decide (is_Some (g_driver_io_token_ptr w))));
             do _ <- assert 72
                       (negb (bool_decide (is_Some (g_driver_csum_table_ptr w))));
             assert 73
               (negb (bool_decide (is_Some (g_ioworker_status_table w))))
           else ok tt);
  let w1 := set_status_table (zone_status_table M)
              (set_token (zone_io_token M)
                 (set_csum_table (zone_crc32_table M)
                    (set_table_size table_size w))) in
  if bool_decide (is_Some (g_driver_io_token_ptr w1))
     && bool_decide (is_Some (g_driver_csum_table_ptr w1))
     && bool_decide (is_Some (g_ioworker_status_table w1))
  then ok (0, w1)
  else ok (-1, w1).

Definition crc32_fini (w : world) : world :=
  set_csum_table None (set_token None w).

(** [ns] is the handle [spdk_nvme_ctrlr_get_ns] returned, [None] for NULL:
    the sector count is read through it before the assertion of line 772
    looks at it. *)
Definition ns_init (M : memzone_env) (ns : option spdk_nvme_ns) (w : world)
  : res (option spdk_nvme_ns * world) :=
  do n <- of_option NullDeref ns;
  let nsze := u64 (ns_num_sectors n) in
  do (rc, w1) <- memzone_reserve_shared_memory M (u64 (4 * nsze)) w;
  if negb (rc =? 0) then ok (None, w1) else ok (Some n, w1).

Definition ns_fini (w : world) : Z * world := (0, crc32_fini w).

(** [log_cmd_dump]: what the function prints is kept as the list of the
    slots it prints, each with its index: for every slot the command and
    its time, then the completion and its time. *)
Fixpoint log_cmd_dump_from (k : nat) (i : Z) (t : list cmd_log_entry_t)
  : res (list (Z * cmd_log_entry_t)) :=
  match k with
  | O => ok []
  | S k' =>
      do e <- of_option OutOfBounds (t !! Z.to_nat i);
      do rest <- log_cmd_dump_from k' (i + 1) t;
      ok ((i, e) :: rest)
  end.

Definition log_cmd_dump (qpair : option Z) (count : Z) (w : world)
  : res (list (Z * cmd_log_entry_t)) :=
  do qid <- of_option NullDeref qpair;
  do _ <- assert 1334 (qid <? CMD_LOG_MAX_Q);
  do _ <- assert 1335 (bool_decide (is_Some (cmd_log_queue_table w !! qid)));
  do log_table <- of_option NullDeref (cmd_log_queue_table w !! qid);
  let dump_count := if (count =? 0) || (CMD_LOG_DEPTH <? count)
                    then CMD_LOG_DEPTH else count in
  log_cmd_dump_from (Z.to_nat dump_count) 0 (table log_table).

(** [log_cmd_dump_admin]: the admin queue pair has id 0. *)
Definition log_cmd_dump_admin (count : Z) (w : world)
  : res (list (Z * cmd_log_entry_t)) :=
  log_cmd_dump (Some 0) count w.

(** [world_filled] with a second buffer, at address 8192, that holds one
    Dataset Management range: 2 blocks from LBA 3. *)
Definition world_dsm : world :=
  set_dma (<[8192 := [0; 0; 0; 0; 2; 0; 0; 0; 3; 0; 0; 0; 0; 0; 0; 0]]>
             (dma world_filled)) world_filled.

(** Three commands to log: a write of 2 blocks at LBA 3, a read of the
    same blocks, and a flush. *)
Definition three_items : list log_item :=
  [mk_item 4096 3 2 512 (mk_cmd 1 1 3 0 1 0 0 0) None 0;
   mk_item 4096 3 2 512 (mk_cmd 2 1 3 0 1 0 0 0) (Some (cb_user 7)) 0;
   mk_item 0 0 0 0 (mk_cmd 0 1 0 0 0 0 0 0) None 0].

(** Scenario 5 with [lba_align] = 0. *)
Definition args_unaligned : ioworker_args :=
  mk_args 0 1 0 0 0 8 0 0 20 0 2 0 0 0.

(** [env0] with a driver that refuses every submission with -12. *)
Definition env_refuse : environment :=
  mk_env crc32c_sw (fun _ => mk_timeval 100 0) (fun n => Z.of_nat n)
    (fun _ => -12) (fun _ => []).

(** A primary process before any namespace is set up, and the zones the
    first reservation obtains for a 16-block namespace. *)
Definition world_bare : world :=
  mk_world 0 None None None ∅ ∅ [] 0 0 0 0 [].

Definition zones0 : memzone_env :=
  mk_zones true (Some (replicate 16 0)) (Some 0)
    (Some (replicate 64 (mk_sts 0 0))).

Definition world_ns : world :=
  match ns_init zones0 (Some ns0) world_bare with
  | inr (_, w) => w
  | inl _ => world_bare
  end.

(** What a step outside the worker (a clock reading, a poll, a delivery
    into a buffer, the trampoline's bookkeeping, a line in the history)
    leaves as it was: the status table, which buffers are live, the token
    and the checksum table. *)
Definition quiet (w w' : world) : Prop :=
  g_ioworker_status_table w' = g_ioworker_status_table w
  /\ dom (dma w') = dom (dma w)
  /\ g_driver_io_token_ptr w' = g_driver_io_token_ptr w
  /\ g_driver_csum_table_ptr w' = g_driver_csum_table_ptr w.

(** The worker's buffers are those of its first [n] contexts; [D0] is what
    was allocated before it started. *)
Definition bufs_inv (D0 : gset Z) (n : nat) (k : ioworker) (w : world) : Prop :=
  dom (dma w) = D0 ∪ list_to_set (take n (data_buf <$> wk_io_ctx k))
  /\ Forall (fun b => b ∉ D0) (take n (data_buf <$> wk_io_ctx k)).

(** Nothing sent yet and nothing to send with: no context, the finish flag
    down, no I/O counted, the submissions those of [t0]. *)
Definition idle_inv (t0 : list event) (k : ioworker) (t : list event) : Prop :=
  wk_io_ctx k = [] /\ flag_finish (wk_gctx k) = false
  /\ io_count_read (wk_rets k) = 0 /\ io_count_write (wk_rets k) = 0
  /\ submits t = submits t0.

(** *** ioworker_get_status *)
Definition ioworker_get_status (wid : Z) (w : world) : res ioworker_status :=
  do tbl <- of_option NullDeref (g_ioworker_status_table w);
  of_option OutOfBounds (tbl !! Z.to_nat (u32 wid)).

(** The row [wd] of the status table shows the worker's two counters, each
    from its first store on; the other rows are those of [tbl0]. *)
Definition mirror_inv (tbl0 : list ioworker_status) (wd : Z) (k : ioworker)
    (w : world) : Prop :=
  wid (wk_args k) = wd
  /\ exists tbl,
       g_ioworker_status_table w = Some tbl
       /\ length tbl = length tbl0
       /\ (forall j, j <> Z.to_nat wd -> tbl !! j = tbl0 !! j)
       /\ forall s, tbl !! Z.to_nat wd = Some s ->
            (sts_io_count_sent s = io_count_sent (wk_gctx k)
             \/ io_count_sent (wk_gctx k) = 0)
            /\ (sts_io_count_cplt s = io_count_cplt (wk_gctx k)
                \/ io_count_cplt (wk_gctx k) = 0).

(** The [usleep] calls in a stretch of history, with their lengths. *)
Definition sleeps (t : list event) : list Z :=
  omap (fun e => match e with EvSleep us => Some us | _ => None end) t.

(** The worker adds no delay between I/Os and has not slept since [t0]. *)
Definition unthrottled_inv (t0 : list event) (k : ioworker) (t : list event)
  : Prop :=
  tv_usec (io_delay_time (wk_gctx k)) = 0 /\ sleeps t = sleeps t0.

(** A [struct timeval] as a number of microseconds. *)
Definition timeval_us (t : timeval) : Z := tv_sec t * 1000000 + tv_usec t.

(** [args_wrap] with a queue depth of 0. *)
Definition args_q0 : ioworker_args :=
  mk_args 0 1 1 0 0 8 0 0 20 0 0 0 0 0.

(** One block written at LBA 3 through [ns_cmd_read_write] under
    [env_stuck]'s clock, as the submission leaves the world. *)
Definition world_slow : world :=
  match ns_cmd_read_write env_stuck 0 ns0 (Some 1) 4096 1024 3 1 0
          (Some (cb_user 7)) 0 world_buf with
  | inr (_, w) => w
  | inl _ => world_buf
  end.

(** The I/O commands in a stretch of history, each with its queue, and the
    admin commands. *)
Definition io_cmds (t : list event) : list (Z * spdk_nvme_cmd) :=
  omap (fun e => match e with
                 | EvSubmitIo q c _ _ => Some (q, c)
                 | _ => None
                 end) t.

Definition admin_cmds (t : list event) : list spdk_nvme_cmd :=
  omap (fun e => match e with
                 | EvSubmitAdmin c _ _ => Some c
                 | _ => None
                 end) t.

(** A command as a worker with arguments [a] sends it on [qpair]: a Read
    or a Write of [lba_size] blocks on namespace 1. *)
Definition worker_cmd (qpair : option Z) (a : ioworker_args)
    (x : Z * spdk_nvme_cmd) : Prop :=
  qpair = Some (fst x) /\ nsid (snd x) = 1
  /\ (opc (snd x) = 1 \/ opc (snd x) = 2)
  /\ cdw12 (snd x) = u32 (u16 (a_lba_size a) - 1).

Definition shape_inv (t0 : list event) (qpair : option Z) (a : ioworker_args)
    (k : ioworker) (t : list event) : Prop :=
  a_lba_size (wk_args k) = a_lba_size a /\ g_qpair (wk_gctx k) = qpair
  /\ admin_cmds t = admin_cmds t0
  /\ exists new, io_cmds t = io_cmds t0 ++ new /\ Forall (worker_cmd qpair a) new.

(** A worker that only reads, beside a token and a checksum table that
    are those of [w0]. *)
Definition reader_inv (w0 : world) (k : ioworker) (w : world) : Prop :=
  read_percentage (wk_args k) = 100
  /\ g_driver_io_token_ptr w = g_driver_io_token_ptr w0
  /\ g_driver_csum_table_ptr w = g_driver_csum_table_ptr w0.

(** [args_wrap] with reads only. *)
Definition args_read : ioworker_args :=
  mk_args 0 1 1 0 0 8 100 0 20 0 2 0 0 0.


(** * Properties *)

(** ** Integers, checksum normalisation and the error code *)

Lemma u32_range z : 0 <= u32 z < 2^32.
Proof. unfold u32. apply Z.mod_pos_bound. lia. Qed.

Lemma u64_range z : 0 <= u64 z < 2^64.
Proof. unfold u64. apply Z.mod_pos_bound. lia. Qed.

Lemma u32_id z : 0 <= z < 2^32 -> u32 z = z.
Proof. intros. unfold u32. apply Z.mod_small. lia. Qed.

Lemma u64_id z : 0 <= z < 2^64 -> u64 z = z.
Proof. intros. unfold u64. apply Z.mod_small. lia. Qed.

Lemma buffer_calc_csum_normalizes crc32c data :
  buffer_calc_csum crc32c data = crc_normalize_spec (u32 (crc32c data 0)).
Proof.
  unfold buffer_calc_csum, crc_normalize_spec.
  destruct (u32 (crc32c data 0) =? 0) eqn:H0.
  - reflexivity.
  - reflexivity.
Qed.

Lemma buffer_calc_csum_range crc32c data :
  1 <= buffer_calc_csum crc32c data <= 0xfffffffe.
Proof.
  rewrite buffer_calc_csum_normalizes. unfold crc_normalize_spec.
  pose proof (u32_range (crc32c data 0)) as Hr.
  destruct (Z.eqb_spec (u32 (crc32c data 0)) 0); [lia|].
  destruct (Z.eqb_spec (u32 (crc32c data 0)) 0xffffffff); lia.
Qed.

Lemma cpl_error_code_fields c :
  cpl_error_code c
  = 256 * (st_sct (status c) mod 8) + st_sc (status c) mod 256.
Proof.
  unfold cpl_error_code, status_raw.
  change 0x7ff with (Z.ones 11). rewrite Z.land_ones by lia.
  rewrite Z.shiftr_div_pow2 by lia.
  set (s := status c).
  pose proof (Z.mod_pos_bound (st_p s) 2 ltac:(lia)).
  pose proof (Z.mod_pos_bound (st_sc s) 256 ltac:(lia)).
  pose proof (Z.mod_pos_bound (st_sct s) 8 ltac:(lia)).
  pose proof (Z.mod_pos_bound (st_rsvd2 s) 4 ltac:(lia)).
  pose proof (Z.mod_pos_bound (st_m s) 2 ltac:(lia)).
  pose proof (Z.mod_pos_bound (st_dnr s) 2 ltac:(lia)).
  change (2^1) with 2. change (2^11) with 2048.
  generalize dependent (st_p s mod 2). intros p Hp.
  generalize dependent (st_sc s mod 256). intros sc Hsc.
  generalize dependent (st_sct s mod 8). intros sct Hsct.
  generalize dependent (st_rsvd2 s mod 4). intros r Hr.
  generalize dependent (st_m s mod 2). intros m Hm.
  generalize dependent (st_dnr s mod 2). intros d Hd.
  set (q := r + 4 * m + 8 * d).
  replace ((p + 2 * sc + 512 * sct + 4096 * r + 16384 * m + 32768 * d) / 2)
    with (sc + 256 * sct + 2048 * q).
  - symmetry. apply Z.mod_unique with q; lia.
  - apply Z.div_unique with p; lia.
Qed.

Lemma cpl_is_error_code c :
  spdk_nvme_cpl_is_error c = true <-> cpl_error_code c <> 0.
Proof.
  rewrite cpl_error_code_fields. unfold spdk_nvme_cpl_is_error.
  pose proof (Z.mod_pos_bound (st_sc (status c)) 256 ltac:(lia)).
  pose proof (Z.mod_pos_bound (st_sct (status c)) 8 ltac:(lia)).
  rewrite orb_true_iff, !negb_true_iff, !Z.eqb_neq. lia.
Qed.

(** ** The error monad, and what the completion handler leaves alone *)

Lemma rbind_inr {A B} (m : res A) (k : A -> res B) (b : B) :
  rbind m k = inr b -> exists a, m = inr a /\ k a = inr b.
Proof. destruct m as [f|a]; simpl; [discriminate | eauto]. Qed.

Lemma assert_inr line b u : assert line b = inr u -> b = true.
Proof. destruct b; [reflexivity | discriminate]. Qed.

Lemma of_option_inr {A} f (o : option A) a : of_option f o = inr a -> o = Some a.
Proof. destruct o; simpl; unfold ok, raise; congruence. Qed.

Ltac res_step :=
  match goal with
  | H : rbind _ _ = inr _ |- _ =>
      apply rbind_inr in H; destruct H as (? & ? & H)
  | H : assert _ _ = inr _ |- _ => apply assert_inr in H
  | H : of_option _ _ = inr _ |- _ => apply of_option_inr in H
  | H : ok _ = inr _ |- _ => unfold ok in H
  | H : raise _ = inr _ |- _ => discriminate H
  | H : inl _ = inr _ |- _ => discriminate H
  | H : inr _ = inr _ |- _ => injection H as H; try subst
  | H : (_, _) = (_, _) |- _ => injection H as ? H; try subst
  | H : (let (_, _) := ?x in _) = inr _ |- _ => destruct x eqn:?
  | H : match ?x with (_, _) => _ end = inr _ |- _ => destruct x eqn:?
  end.

Ltac res_inv := repeat res_step.

Ltac res_if :=
  match goal with
  | H : (if ?b then _ else _) = inr _ |- _ => destruct b eqn:?
  end.

Ltac res_all := repeat (res_step || res_if).

Section WorkerFacts.
Variable E : environment.

Lemma ioworker_one_cb_error_args c k :
  wk_args (ioworker_one_cb_error c k) = wk_args k.
Proof.
  unfold ioworker_one_cb_error.
  repeat match goal with |- context [if ?b then _ else _] => destruct b end;
    reflexivity.
Qed.

Lemma ioworker_send_one_lba_gctx args g w v g' w' :
  ioworker_send_one_lba E args g w = inr (v, g', w') ->
  g' = g \/ exists x, g' = set_sequential_lba x g.
Proof.
  unfold ioworker_send_one_lba. intros H. res_all; eauto.
Qed.

Lemma ioworker_send_one_frame i k w r k' w' :
  ioworker_send_one E i k w = inr (r, k', w') ->
  wk_args k' = wk_args k /\ wk_rets k' = wk_rets k
  /\ wk_per_second k' = wk_per_second k
  /\ wk_per_latency k' = wk_per_latency k
  /\ (r <> 0 -> flag_finish (wk_gctx k') = true)
  /\ (r = 0 -> flag_finish (wk_gctx k') = flag_finish (wk_gctx k)).
Proof.
  unfold ioworker_send_one. intros H. res_all.
  - apply ioworker_send_one_lba_gctx in H1.
    simpl. repeat split; auto. intros; lia.
  - apply ioworker_send_one_lba_gctx in H1.
    simpl. repeat split; auto; try lia.
    intros _. destruct H1 as [->|[v ->]]; reflexivity.
Qed.

Lemma ioworker_one_cb_error_effect c k :
  let k' := ioworker_one_cb_error c k in
  error (wk_rets k') = error_after c (read_percentage (wk_args k)) (error (wk_rets k))
  /\ flag_finish (wk_gctx k')
     = finish_after c (read_percentage (wk_args k)) (flag_finish (wk_gctx k)).
Proof.
  unfold ioworker_one_cb_error, error_after, finish_after. simpl.
  destruct (spdk_nvme_cpl_is_error c); [|auto].
  destruct ((cpl_error_code c =? 641) && (read_percentage (wk_args k) <? 100));
    [auto|].
  simpl. destruct (error (wk_rets k) =? 0); auto.
Qed.

Lemma ioworker_update_rets_error ctx r now l r' :
  ioworker_update_rets ctx r now = (l, r') -> error r' = error r.
Proof.
  unfold ioworker_update_rets. destruct (is_read ctx); intros H;
    injection H as _ <-; reflexivity.
Qed.

Lemma ioworker_update_per_second_frame k k' :
  ioworker_update_io_count_per_second k = inr k' ->
  wk_args k' = wk_args k /\ wk_rets k' = wk_rets k
  /\ flag_finish (wk_gctx k') = flag_finish (wk_gctx k).
Proof.
  unfold ioworker_update_io_count_per_second. intros H. res_all.
  simpl. auto.
Qed.

Lemma ioworker_one_io_throttle_flag g now w g' w' :
  ioworker_one_io_throttle g now w = (g', w') ->
  flag_finish g' = flag_finish g.
Proof. unfold ioworker_one_io_throttle. intros H. injection H as <- _. reflexivity. Qed.

Lemma ioworker_one_cb_frame ctx c k w k' w' :
  ioworker_one_cb E ctx c k w = inr (k', w') ->
  wk_args k' = wk_args k
  /\ error (wk_rets k')
     = error_after c (read_percentage (wk_args k)) (error (wk_rets k))
  /\ (finish_after c (read_percentage (wk_args k)) (flag_finish (wk_gctx k))
      = true -> flag_finish (wk_gctx k') = true).
Proof.
  unfold ioworker_one_cb. intros H. res_all.
  all: repeat match goal with
       | H : ioworker_send_one _ _ _ _ = inr _ |- _ =>
           apply ioworker_send_one_frame in H; destruct H as (?&?&?&?&?&?)
       | H : ioworker_update_rets _ _ _ = _ |- _ =>
           apply ioworker_update_rets_error in H
       | H : ioworker_update_io_count_per_second _ = inr _ |- _ =>
           apply ioworker_update_per_second_frame in H; destruct H as (?&?&?)
       | H : ioworker_one_io_throttle _ _ _ = _ |- _ =>
           apply ioworker_one_io_throttle_flag in H
       end.
  all: repeat match goal with
       | H : (if ?b then _ else _) = (_, _) |- _ => destruct b eqn:?
       end.
  all: unfold ioworker_one_io_throttle in *; simpl in *.
  all: repeat match goal with
       | H : (_, _) = (_, _) |- _ => inversion H; subst; clear H
       end.
  all: repeat match goal with
       | H : context [ioworker_one_cb_error ?c0 ?k0] |- _ =>
           lazymatch goal with
           | _ : error (wk_rets (ioworker_one_cb_error c0 k0)) = _ |- _ => fail
           | _ => destruct (ioworker_one_cb_error_effect c0 k0) as [? ?];
                  pose proof (ioworker_one_cb_error_args c0 k0)
           end
       | |- context [ioworker_one_cb_error ?c0 ?k0] =>
           lazymatch goal with
           | _ : error (wk_rets (ioworker_one_cb_error c0 k0)) = _ |- _ => fail
           | _ => destruct (ioworker_one_cb_error_effect c0 k0) as [? ?];
                  pose proof (ioworker_one_cb_error_args c0 k0)
           end
       end.
  all: simpl in *.
  all: repeat match goal with
       | H : negb _ = true |- _ => apply negb_true_iff in H
       | H : negb _ = false |- _ => apply negb_false_iff in H
       end.
  all: try (split; [congruence | split; [congruence |]]).
  all: try (intros Hf; destruct (Z.eq_dec z0 0); [|auto]; congruence).
  all: try congruence.

Qed.

End WorkerFacts.

(** ** Histories: invariants carried through polling and the worker *)

Section TraceFacts.
Variable E : environment.

Lemma set_log_entry_trace r e w : trace (set_log_entry r e w) = trace w.
Proof. unfold set_log_entry. destruct (cmd_log_queue_table w !! ref_qid r); reflexivity. Qed.

Lemma cmd_log_add_cpl_cb_trace r c w inv w' :
  cmd_log_add_cpl_cb E r c w = inr (inv, w') -> trace w' = trace w.
Proof.
  unfold cmd_log_add_cpl_cb, gettimeofday. intros H.
  res_all; rewrite set_log_entry_trace; reflexivity.
Qed.

Lemma dma_deliver_trace b d w : trace (dma_deliver b d w) = trace w.
Proof. unfold dma_deliver. destruct d; [destruct (dma w !! b)|]; reflexivity. Qed.

Lemma ioworker_get_duration_trace ts w :
  trace (snd (ioworker_get_duration E ts w)) = trace w.
Proof. reflexivity. Qed.

Lemma buffer_fini_trace b w w' : buffer_fini b w = inr w' -> trace w' = trace w.
Proof. unfold buffer_fini. intros H. res_all. reflexivity. Qed.

Lemma ioworker_release_trace n i k w w' :
  ioworker_release n i k w = inr w' -> trace w' = trace w.
Proof.
  revert i w. induction n as [|n IH]; simpl; intros i w H.
  - res_all. reflexivity.
  - res_all. apply IH in H. apply buffer_fini_trace in H1. congruence.
Qed.

Section PollInv.
Context {S : Type}.
Variable run_cb : invocation -> S -> world -> res (S * world).
Variable Q : S -> list event -> Prop.
Hypothesis run_cb_Q : forall inv s w s' w',
  Q s (trace w) -> run_cb inv s w = inr (s', w') -> Q s' (trace w').

Lemma complete_one_inv qid a s w s' w' :
  Q s (trace w) -> complete_one E run_cb qid a s w = inr (s', w') ->
  Q s' (trace w').
Proof.
  unfold complete_one. intros HQ H.
  destruct (inflight w !! cq_slot a) as [rq|]; [|res_all; exact HQ].
  destruct (negb (rq_admin rq) && (rq_qid rq =? qid)); [|res_all; exact HQ].
  res_all. apply cmd_log_add_cpl_cb_trace in H0.
  rewrite dma_deliver_trace in H0. simpl in H0.
  destruct o as [inv|].
  - eapply run_cb_Q; [|exact H]. rewrite H0. exact HQ.
  - res_all. rewrite H0. exact HQ.
Qed.

Lemma complete_all_inv qid l s w s' w' :
  Q s (trace w) -> complete_all E run_cb qid l s w = inr (s', w') ->
  Q s' (trace w').
Proof.
  revert s w. induction l as [|a l IH]; simpl; intros s w HQ H.
  - res_all. exact HQ.
  - res_all. eapply IH; [|exact H]. eapply complete_one_inv; eauto.
Qed.

Lemma process_completions_inv qpair s w s' w' :
  Q s (trace w) ->
  spdk_nvme_qpair_process_completions E run_cb qpair s w = inr (s', w') ->
  Q s' (trace w').
Proof.
  unfold spdk_nvme_qpair_process_completions. intros HQ H. res_all.
  eapply complete_all_inv; [|exact H]. exact HQ.
Qed.
End PollInv.

Section WorkerInv.
Variable Q : ioworker -> list event -> Prop.
Hypothesis Q_io_ctx : forall c k t, Q k t -> Q (set_io_ctx c k) t.
Hypothesis Q_user : forall k t fn arg c, Q k t -> Q k (t ++ [EvUserCallback fn arg c]).
Hypothesis Q_send : forall i k w r k' w',
  Q k (trace w) -> ioworker_send_one E i k w = inr (r, k', w') -> Q k' (trace w').
Hypothesis Q_cb : forall i c k w k' w',
  Q k (trace w) -> ioworker_one_cb E i c k w = inr (k', w') -> Q k' (trace w').

Lemma ioworker_run_cb_inv inv k w k' w' :
  Q k (trace w) -> ioworker_run_cb E inv k w = inr (k', w') -> Q k' (trace w').
Proof.
  unfold ioworker_run_cb. intros HQ H. destruct (inv_fn inv).
  - eapply Q_cb; eauto.
  - res_all. simpl. apply Q_user. exact HQ.
Qed.

Lemma ioworker_poll_loop_inv fuel ts k w ret k' w' :
  Q k (trace w) ->
  ioworker_poll_loop E fuel ts k w = Some (inr (ret, k', w')) ->
  Q k' (trace w').
Proof.
  revert k w. induction fuel as [|fuel IH]; simpl; intros k w HQ H;
    [discriminate|].
  destruct (ioworker_pending (wk_gctx k)).
  - unfold ioworker_get_duration, gettimeofday in H.
    destruct (watchdog_limit (wk_args k) <? _).
    + injection H as <- <- <-. exact HQ.
    + destruct (spdk_nvme_qpair_process_completions E (ioworker_run_cb E)
                  (g_qpair (wk_gctx k)) k (tick_clock w)) as [f|[k2 w2]] eqn:Hp;
        [discriminate|].
      eapply IH; [|exact H].
      eapply (process_completions_inv (ioworker_run_cb E) Q ioworker_run_cb_inv);
        [|exact Hp]. exact HQ.
  - injection H as <- <- <-. exact HQ.
Qed.

Lemma ioworker_first_batch_inv n i ss k w k' w' :
  Q k (trace w) ->
  ioworker_first_batch E n i ss k w = inr (k', w') -> Q k' (trace w').
Proof.
  revert i k w. induction n as [|n IH]; simpl; intros i k w HQ H.
  - res_all. exact HQ.
  - res_all. eapply IH; [|exact H].
    eapply Q_send; [|exact H1]. simpl. apply Q_io_ctx. exact HQ.
Qed.

End WorkerInv.
End TraceFacts.

(** ** The shape of a run of [ioworker_entry] *)

Section EntryFacts.
Variable E : environment.

Lemma ioworker_poll_loop_args fuel ts k w ret k' w' :
  ioworker_poll_loop E fuel ts k w = Some (inr (ret, k', w')) ->
  wk_args k' = wk_args k.
Proof.
  intros H.
  apply (ioworker_poll_loop_inv E (fun k0 _ => wk_args k0 = wk_args k))
    in H; auto.
  - intros i c k0 w0 k1 w1 HQ Hc. apply ioworker_one_cb_frame in Hc.
    destruct Hc as (-> & _). exact HQ.
Qed.

Lemma ioworker_first_batch_args n i ss k w k' w' :
  ioworker_first_batch E n i ss k w = inr (k', w') ->
  wk_args k' = wk_args k.
Proof.
  intros H.
  apply (ioworker_first_batch_inv E (fun k0 _ => wk_args k0 = wk_args k))
    in H; auto.
  intros i0 k0 w0 r k1 w1 HQ Hs. apply ioworker_send_one_frame in Hs.
  destruct Hs as (-> & _). exact HQ.
Qed.

(** The loop's own account of its return value. *)
Lemma ioworker_poll_loop_ret fuel ts k w ret k' w' :
  ioworker_poll_loop E fuel ts k w = Some (inr (ret, k', w')) ->
  (ret = 0 /\ ioworker_pending (wk_gctx k') = false)
  \/ (ret = -3 /\ ioworker_pending (wk_gctx k') = true
      /\ exists n, n_clock w' = S n
         /\ watchdog_limit (wk_args k')
            < duration_ms ts (gettimeofday_nth E n)).
Proof.
  revert k w. induction fuel as [|fuel IH]; simpl; intros k w H;
    [discriminate|].
  destruct (ioworker_pending (wk_gctx k)) eqn:Hp.
  - unfold ioworker_get_duration, gettimeofday in H.
    destruct (Z.ltb_spec (watchdog_limit (wk_args k))
                (duration_ms ts (gettimeofday_nth E (n_clock w)))).
    + injection H as <- <- <-. right. repeat split; auto.
      exists (n_clock w). split; [reflexivity | assumption].
    + destruct (spdk_nvme_qpair_process_completions E (ioworker_run_cb E)
                  (g_qpair (wk_gctx k)) k (tick_clock w)) as [f|[k2 w2]];
        [discriminate|].
      eapply IH. exact H.
  - injection H as <- <- <-. left. auto.
Qed.


Lemma ioworker_poll_loop_done fuel ts k w :
  ioworker_pending (wk_gctx k) = false ->
  ioworker_poll_loop E (S fuel) ts k w = Some (inr (0, k, w)).
Proof. intros Hp. simpl. rewrite Hp. reflexivity. Qed.

(** What [ioworker_entry] is once its checks have passed and the transfer
    size is accepted. *)
Lemma ioworker_entry_run fuel ns qpair args ps pl w ret k' w' :
  ioworker_entry E fuel ns qpair args ps pl w = Some (inr (ret, k', w')) ->
  (ret = -2 /\ w' = w /\ wk_args k' = args /\ error (wk_rets k') = 2
   /\ ioworker_check_args args = inr tt
   /\ u32 (ns_max_xfer_size ns) < u32 (a_lba_size args * u32 (ns_sector_size ns)))
  \/ (exists args1 k1 w2 k2 w3,
        ioworker_check_args args = inr tt
        /\ u32 (a_lba_size args * u32 (ns_sector_size ns)) <= u32 (ns_max_xfer_size ns)
        /\ ioworker_revise_args (u64 (ns_num_sectors ns)) args = inr args1
        /\ wk_args k1 = args1
        /\ ioworker_poll_loop E fuel (gettimeofday_nth E (n_clock w)) k1 w2
           = Some (inr (ret, k2, w3))
        /\ k' = set_rets (set_mseconds
                            (duration_ms (gettimeofday_nth E (n_clock w))
                               (gettimeofday_nth E (n_clock w3)))
                            (wk_rets k2)) k2
        /\ n_clock w' = S (n_clock w3) /\ trace w' = trace w3).
Proof.
  unfold ioworker_entry. intros H.
  destruct (ioworker_check_args args) as [f|[]] eqn:Hc; [discriminate|].
  destruct (Z.ltb_spec (u32 (ns_max_xfer_size ns))
              (u32 (a_lba_size args * u32 (ns_sector_size ns)))) as [Hx|Hx].
  - left. injection H as <- <- <-. simpl. repeat split; auto.
  - right.
    destruct (ioworker_revise_args (u64 (ns_num_sectors ns)) args)
      as [f|args1] eqn:Hr; [discriminate|].
    unfold gettimeofday in H.
    match type of H with
    | match ?m with _ => _ end = _ => destruct m as [f|[k1 w2]] eqn:Hb
    end; [discriminate|].
    destruct (ioworker_poll_loop E fuel (gettimeofday_nth E (n_clock w)) k1 w2)
      as [[f|[[ret0 k2] w3]]|] eqn:Hl; try discriminate.
    unfold ioworker_get_duration, gettimeofday in H.
    match type of H with
    | match ?m with _ => _ end = _ => destruct m as [f|w5] eqn:Hrel
    end; [discriminate|].
    injection H as <- <- <-.
    apply rbind_inr in Hb. destruct Hb as (u & _ & Hb).
    pose proof (ioworker_first_batch_args _ _ _ _ _ _ _ Hb) as Ha.
    apply ioworker_release_trace in Hrel as Ht.
    exists args1, k1, w2, k2, w3. repeat split; auto.
    clear - Hrel. 
    revert Hrel. generalize 0. generalize (Z.to_nat
          (qdepth
             (wk_args
                (set_rets
                   (set_mseconds
                      (duration_ms (gettimeofday_nth E (n_clock w))
                         (gettimeofday_nth E (n_clock w3)))
                      (wk_rets k2))
                   k2)))).
    generalize (set_rets
          (set_mseconds
             (duration_ms (gettimeofday_nth E (n_clock w))
                (gettimeofday_nth E (n_clock w3)))
             (wk_rets k2))
          k2).
    change (S (n_clock w3)) with (n_clock (tick_clock w3)).
    generalize (tick_clock w3).
    intros w0 k0 n. revert w0. induction n as [|n IH]; simpl; intros w0 z H.
    + res_all. reflexivity.
    + res_all. apply IH in H. rewrite H. unfold buffer_fini in H1. res_all.
      reflexivity.
Qed.

End EntryFacts.

(** ** The caller's arguments and the status code *)

Lemma ioworker_revise_args_fields nsze args args1 :
  ioworker_check_args args = inr tt ->
  ioworker_revise_args nsze args = inr args1 ->
  a_lba_size args1 = a_lba_size args
  /\ lba_align args1 = lba_align args
  /\ lba_random args1 = lba_random args
  /\ read_percentage args1 = read_percentage args
  /\ iops args1 = iops args
  /\ wid args1 = wid args
  /\ io_counter_per_second args1 = io_counter_per_second args
  /\ io_counter_per_latency args1 = io_counter_per_latency args
  /\ io_count args1 = (if io_count args =? 0 then 2^64 - 1 else io_count args)
  /\ seconds args1 = (if seconds args =? 0 then 86400 else seconds args)
  /\ ALIGN_UP (region_start args) (lba_align args) = inr (region_start args1)
  /\ ALIGN_DOWN (u64 (Z.min (region_end args) nsze - a_lba_size args - 1))
       (lba_align args) = inr (region_end args1)
  /\ lba_start args1 = Z.max (lba_start args) (region_start args1)
  /\ qdepth args1 = Z.min (qdepth args) (io_count args1).
Proof.
  unfold ioworker_check_args, ioworker_revise_args. intros Hc Hr.
  res_all; simpl.
  all: repeat match goal with
       | H : (_ <? _) = true |- _ => apply Z.ltb_lt in H
       | H : (_ <? _) = false |- _ => apply Z.ltb_ge in H
       | H : (_ <=? _) = true |- _ => apply Z.leb_le in H
       | H : (_ =? _) = true |- _ => apply Z.eqb_eq in H
       end.
  all: repeat split; auto.
  - destruct (Z.eqb_spec (seconds args) 0); simpl; [reflexivity|].
    destruct (Z.ltb_spec (24 * 3600) (seconds args)); [lia | reflexivity].
  - rewrite <- H0. f_equal. unfold u64.
    rewrite Zminus_mod_idemp_l. f_equal.
    destruct (Z.ltb_spec nsze (region_end args)); lia.
  - destruct (Z.ltb_spec (lba_start args) x); lia.
  - set (c := if io_count args =? 0 then 2 ^ 64 - 1 else io_count args).
    destruct (Z.ltb_spec c (qdepth args)); lia.
Qed.

Section EntryClaims.
Variable E : environment.

(** Where the arguments end up when the worker ran: as the "revise args"
    block left them. *)
Lemma ioworker_entry_final_args fuel ns qpair args ps pl w ret k' w' :
  ioworker_entry E fuel ns qpair args ps pl w = Some (inr (ret, k', w')) ->
  (ret = -2 /\ wk_args k' = args)
  \/ (ret <> -2
      /\ ioworker_check_args args = inr tt
      /\ ioworker_revise_args (u64 (ns_num_sectors ns)) args
         = inr (wk_args k')).
Proof.
  intros H. apply ioworker_entry_run in H.
  destruct H as [(-> & _ & Ha & _)|
                 (args1 & k1 & w2 & k2 & w3 & Hc & _ & Hr & Ha & Hl & -> & _)].
  - left. auto.
  - right.
    pose proof (ioworker_poll_loop_args _ _ _ _ _ _ _ _ Hl) as Hk.
    pose proof (ioworker_poll_loop_ret _ _ _ _ _ _ _ _ Hl) as Hret.
    split; [destruct Hret as [[-> _]|[-> _]]; lia|].
    split; [exact Hc|].
    cbn [wk_args set_rets]. rewrite Hk, Ha. exact Hr.
Qed.


End EntryClaims.

(** ** Checksums stored by a write *)

Lemma buffer_fill_blocks_stores crc32c b k :
  forall i lba tok ls m tbl evs m' tbl' evs',
    buffer_fill_blocks crc32c b k i lba tok ls m tbl evs = inr (m', tbl', evs') ->
    (exists new, evs' = evs ++ new /\ Forall (is_csum_store crc32c) new)
    /\ length tbl' = length tbl
    /\ forall (j : nat) v, tbl' !! j = Some v ->
         tbl !! j = Some v \/ exists data, v = buffer_calc_csum crc32c data.
Proof.
  induction k as [|k IH]; simpl; intros i lba tok ls m tbl evs m' tbl' evs' H.
  - res_all. split; [exists []; split; [by rewrite app_nil_r | constructor]|].
    split; [reflexivity|]. intros j v Hj. left. exact Hj.
  - res_all. apply IH in H.
    destruct H as ((new & -> & Hnew) & Hlen & Htbl).
    split; [|split].
    + eexists. rewrite <- app_assoc. split; [reflexivity|].
      simpl. repeat constructor; [eexists; reflexivity | exact Hnew].
    + rewrite Hlen. apply length_insert.
    + intros j v Hj. apply Htbl in Hj. destruct Hj as [Hj|Hj]; [|right; exact Hj].
      destruct (decide (j = Z.to_nat lba)) as [->|Hne].
      * rewrite list_lookup_insert_eq in Hj.
        -- right. injection Hj as <-. eexists; reflexivity.
        -- destruct (0 <=? lba); [|discriminate].
           apply lookup_lt_Some in H3. exact H3.
      * rewrite list_lookup_insert_ne in Hj by congruence. left. exact Hj.
Qed.

Section ChecksumClaims.
Variable E : environment.

(** Whatever the block size, every oracle store [buffer_fill_data] makes
    is a normalised CRC32C, and every slot of the table afterwards either
    kept its value or holds one. *)
Lemma buffer_fill_data_stores_normalized :
  forall b lba lba_count lba_size w w' tbl tbl',
    buffer_fill_data E b lba lba_count lba_size w = inr w' ->
    g_driver_csum_table_ptr w = Some tbl ->
    g_driver_csum_table_ptr w' = Some tbl' ->
    (forall data,
       buffer_calc_csum (spdk_crc32c_update E) data
       = crc_normalize_spec (u32 (spdk_crc32c_update E data 0))
       /\ 1 <= buffer_calc_csum (spdk_crc32c_update E) data <= 0xfffffffe)
    /\ (exists new,
          trace w' = trace w ++ EvTokenFetchAdd
                       (default 0 (g_driver_io_token_ptr w)) lba_count :: new
          /\ forall l c, EvOracleStore l c ∈ new ->
               1 <= c <= 0xfffffffe
               /\ exists data, c = crc_normalize_spec
                                     (u32 (spdk_crc32c_update E data 0)))
    /\ (forall (j : nat) v, tbl' !! j = Some v ->
          tbl !! j = Some v \/ (1 <= v <= 0xfffffffe /\ v <> 0 /\ v <> 0xffffffff)).
Proof.
  intros b lba lba_count lba_size w w' tbl tbl' H Ht Ht'.
  split.
  { intros data. split; [apply buffer_calc_csum_normalizes
                        | apply buffer_calc_csum_range]. }
  unfold buffer_fill_data in H.
  apply rbind_inr in H. destruct H as (tok & Htok & H).
  apply of_option_inr in Htok. rewrite Htok. simpl.
  destruct (Z.to_nat lba_count) eqn:Hn.
  - injection H as <-. simpl in *. split.
    + exists []. split; [reflexivity|].
      intros l c Hin. inversion Hin.
    + intros j v Hj. left. congruence.
  - cbv beta iota in H. res_all.
    cbn [trace log_events set_csum_table set_dma set_token
         g_driver_csum_table_ptr dma] in *.
    match goal with
    | Hb : buffer_fill_blocks _ _ _ _ _ _ _ _ _ _ = inr _ |- _ =>
        apply buffer_fill_blocks_stores in Hb;
        destruct Hb as ((new & Hnew & Hall) & Hlen & Htbl)
    end.
    simpl in Hnew. subst.
    match goal with
    | Hx : g_driver_csum_table_ptr w = Some ?t |- _ =>
        assert (t = tbl) by congruence; subst t
    end.
    injection Ht' as <-.
    split.
    + exists new. rewrite <- app_assoc. split; [reflexivity|].
      intros lb c Hin. rewrite Forall_forall in Hall.
      apply Hall in Hin. destruct Hin as [data ->].
      split; [apply buffer_calc_csum_range|].
      exists data. apply buffer_calc_csum_normalizes.
    + intros j v Hj. apply Htbl in Hj.
      destruct Hj as [Hj|[data ->]]; [left; exact Hj|right].
      pose proof (buffer_calc_csum_range (spdk_crc32c_update E) data). lia.
Qed.

End ChecksumClaims.

(** ** The error policy of the handler and the limit on [seconds] *)

Section ErrorPolicy.
Variable E : environment.


End ErrorPolicy.

(** C8 (the code's side).  With [seconds] = 86400 the worker stops at the
    assertion of line 1188, whatever the environment, although the "revise
    args" block below it keeps 86400 as it is; [seconds] = 0 passes and is
    replaced by 86400. *)
Theorem ioworker_entry_seconds_86400_aborts :
  forall E fuel ns qpair ps pl w,
    ioworker_entry E fuel ns qpair args_day ps pl w
    = Some (inl (AssertFail 1188))
    /\ ioworker_revise_args 16 args_day
       = inr (mk_args 0 1 1 0 0 6 0 0 20 86400 2 0 0 0)
    /\ ioworker_check_args args_wrap = inr tt
    /\ ioworker_revise_args 16 args_wrap
       = inr (mk_args 0 1 1 0 0 6 0 0 20 86400 2 0 0 0).
Proof.
  intros E fuel ns qpair ps pl w. split; [|split; [|split]].
  - unfold ioworker_entry.
    replace (ioworker_check_args args_day)
      with (@inl fault unit (AssertFail 1188)) by reflexivity.
    reflexivity.
  - reflexivity.
  - reflexivity.
  - reflexivity.
Qed.

(** ** Sequential LBAs: one I/O *)

Lemma submitted_lbas_app t1 t2 :
  submitted_lbas (t1 ++ t2) = submitted_lbas t1 ++ submitted_lbas t2.
Proof. unfold submitted_lbas. apply omap_app. Qed.

Lemma submitted_lbas_csum_stores crc32c evs :
  Forall (is_csum_store crc32c) evs -> submitted_lbas evs = [].
Proof.
  induction 1 as [|e evs He _ IH]; [reflexivity|].
  change (e :: evs) with ([e] ++ evs).
  rewrite submitted_lbas_app, IH.
  destruct e; simpl in *; try contradiction; reflexivity.
Qed.

Lemma lba_split_join lba :
  0 <= lba < 2^64 -> u32 lba + 2^32 * u32 (lba / 2^32) = lba.
Proof.
  intros H. unfold u32.
  rewrite (Z.mod_small (lba / 2^32)).
  - symmetry. rewrite Z.add_comm. apply Z.div_mod. lia.
  - split; [apply Z.div_pos; lia|].
    apply Z.div_lt_upper_bound; lia.
Qed.

Section SeqFacts.
Variable E : environment.

Lemma buffer_fill_data_submitted b lba n ls w w' :
  buffer_fill_data E b lba n ls w = inr w' ->
  submitted_lbas (trace w') = submitted_lbas (trace w).
Proof.
  unfold buffer_fill_data. intros H.
  apply rbind_inr in H. destruct H as (tok & Htok & H).
  destruct (Z.to_nat n).
  - injection H as <-. simpl. rewrite submitted_lbas_app. simpl.
    apply app_nil_r.
  - cbv beta iota in H. res_all.
    match goal with
    | Hb : buffer_fill_blocks _ _ _ _ _ _ _ _ _ _ = inr _ |- _ =>
        apply buffer_fill_blocks_stores in Hb;
        destruct Hb as ((new & Hnew & Hall) & _)
    end.
    simpl in Hnew. subst. simpl.
    rewrite !submitted_lbas_app.
    rewrite (submitted_lbas_csum_stores _ _ Hall). simpl.
    rewrite !app_nil_r. reflexivity.
Qed.

Lemma cmd_log_add_cmd_trace qid b lba n ls c fn arg w r w' :
  cmd_log_add_cmd E qid b lba n ls c fn arg w = inr (r, w') ->
  trace w' = trace w.
Proof.
  unfold cmd_log_add_cmd, gettimeofday. intros H. res_all. reflexivity.
Qed.

Lemma ns_cmd_read_write_submitted isr ns qp b len lba n fl fn arg w rc w' :
  ns_cmd_read_write E isr ns qp b len lba n fl fn arg w = inr (rc, w') ->
  0 <= lba < 2^64 ->
  submitted_lbas (trace w') = submitted_lbas (trace w) ++ [lba].
Proof.
  unfold ns_cmd_read_write. intros H Hl.
  res_all.
  all: match goal with
       | Hc : cmd_log_add_cmd _ _ _ _ _ _ _ _ _ _ = inr _ |- _ =>
           apply cmd_log_add_cmd_trace in Hc
       end.
  all: unfold spdk_nvme_ctrlr_cmd_io_raw in *.
  all: repeat match goal with
       | H : (if ?b then _ else _) = (_, _) |- _ => destruct b
       | H : (_, _) = (_, _) |- _ => inversion H; subst; clear H
       end.
  all: simpl; rewrite submitted_lbas_app; simpl.
  all: rewrite lba_split_join by assumption.
  all: try match goal with
       | Hf : buffer_fill_data _ _ _ _ _ _ = inr _ |- _ =>
           apply buffer_fill_data_submitted in Hf
       end.
  all: congruence.
Qed.

Lemma ioworker_send_one_lba_sequential_rule args g w :
  lba_random args = 0 ->
  lba_align args <> 0 ->
  let next := seq_next args (sequential_lba g) in
  ioworker_send_one_lba_sequential args g = next
  /\ ioworker_send_one_lba E args g w
     = inr (next - next mod lba_align args, set_sequential_lba next g, w).
Proof.
  intros Hr Ha. split; [reflexivity|].
  unfold ioworker_send_one_lba, ALIGN_DOWN. rewrite Hr. simpl.
  destruct (Z.eqb_spec (lba_align args) 0); [contradiction|reflexivity].
Qed.

Lemma ioworker_send_one_view i k w r k' w' :
  ioworker_send_one E i k w = inr (r, k', w') ->
  lba_random (wk_args k) = 0 ->
  0 <= lba_align (wk_args k) ->
  0 <= region_start (wk_args k) < 2^64 ->
  let next := seq_next (wk_args k) (sequential_lba (wk_gctx k)) in
  seq_view k' w'
  = (wk_args k, next,
     submitted_lbas (trace w) ++ [next - next mod lba_align (wk_args k)]).
Proof.
  intros H Hr Ha Hs next.
  unfold ioworker_send_one in H.
  apply rbind_inr in H. destruct H as (ctx & _ & H).
  unfold ioworker_send_one_is_read, random in H.
  apply rbind_inr in H. destruct H as ([[v g1] w2] & Hl & H).
  assert (Hal : lba_align (wk_args k) <> 0).
  { intros H0. unfold ioworker_send_one_lba, ALIGN_DOWN in Hl.
    rewrite Hr, H0 in Hl. simpl in Hl. discriminate. }
  destruct (ioworker_send_one_lba_sequential_rule (wk_args k) (wk_gctx k)
              (tick_random w) Hr Hal) as [_ Hrule].
  rewrite Hrule in Hl. injection Hl as <- <- <-.
  fold next in H.
  assert (Hn : 0 <= next < 2^64).
  { unfold next, seq_next.
    destruct (region_end (wk_args k) <? _); [exact Hs | apply u64_range]. }
  assert (Hv : 0 <= next - next mod lba_align (wk_args k) < 2^64).
  { pose proof (Z.mod_pos_bound next (lba_align (wk_args k)) ltac:(lia)).
    pose proof (Z.mod_le next (lba_align (wk_args k)) ltac:(lia) ltac:(lia)).
    lia. }
  apply rbind_inr in H. destruct H as (u & _ & H).
  apply rbind_inr in H. destruct H as ([rc w3] & Hs3 & H).
  apply ns_cmd_read_write_submitted in Hs3; [|exact Hv].
  simpl in Hs3.
  destruct (negb (rc =? 0)).
  - injection H as <- <- <-. unfold seq_view. simpl. rewrite Hs3. reflexivity.
  - apply rbind_inr in H. destruct H as (w4 & Hst & H).
    unfold gettimeofday in H. injection H as <- <- <-.
    unfold sts_store in Hst. res_all.
    unfold seq_view. simpl. rewrite Hs3. reflexivity.
Qed.

Lemma sts_store_trace wid f w w' :
  sts_store wid f w = inr w' -> trace w' = trace w.
Proof. unfold sts_store. intros H. res_all. reflexivity. Qed.

Lemma ioworker_send_one_is_finish_trace args g w b w' :
  ioworker_send_one_is_finish E args g w = inr (b, w') -> trace w' = trace w.
Proof.
  unfold ioworker_send_one_is_finish, gettimeofday. intros H. res_all;
    reflexivity.
Qed.

Lemma ioworker_one_io_throttle_view g now w g' w' :
  ioworker_one_io_throttle g now w = (g', w') ->
  sequential_lba g' = sequential_lba g
  /\ io_count_sent g' = io_count_sent g
  /\ flag_finish g' = flag_finish g
  /\ submitted_lbas (trace w') = submitted_lbas (trace w).
Proof.
  unfold ioworker_one_io_throttle. intros H. injection H as <- <-.
  split; [reflexivity|]. split; [reflexivity|]. split; [reflexivity|].
  destruct (timercmp_gt (io_due_time g) now); [|reflexivity].
  simpl. rewrite submitted_lbas_app. simpl. apply app_nil_r.
Qed.

Lemma ioworker_one_cb_error_seq c k :
  sequential_lba (wk_gctx (ioworker_one_cb_error c k))
  = sequential_lba (wk_gctx k).
Proof.
  unfold ioworker_one_cb_error.
  repeat match goal with |- context [if ?b then _ else _] => destruct b end;
    reflexivity.
Qed.

Lemma ioworker_update_per_second_seq k k' :
  ioworker_update_io_count_per_second k = inr k' ->
  sequential_lba (wk_gctx k') = sequential_lba (wk_gctx k).
Proof.
  unfold ioworker_update_io_count_per_second. intros H. res_all. reflexivity.
Qed.

Lemma ioworker_send_one_is_finish_false args g w w' :
  ioworker_send_one_is_finish E args g w = inr (false, w') ->
  io_count_sent g < io_count args.
Proof.
  unfold ioworker_send_one_is_finish, gettimeofday. intros H.
  destruct (io_count_sent g =? io_count args); [discriminate|].
  apply rbind_inr in H. destruct H as (u & Ha & _).
  apply assert_inr in Ha. apply Z.ltb_lt in Ha. exact Ha.
Qed.

Lemma ioworker_one_cb_error_sent c k :
  io_count_sent (wk_gctx (ioworker_one_cb_error c k))
  = io_count_sent (wk_gctx k).
Proof.
  unfold ioworker_one_cb_error.
  repeat match goal with |- context [if ?b then _ else _] => destruct b end;
    reflexivity.
Qed.

Lemma ioworker_update_per_second_sent k k' :
  ioworker_update_io_count_per_second k = inr k' ->
  io_count_sent (wk_gctx k') = io_count_sent (wk_gctx k).
Proof.
  unfold ioworker_update_io_count_per_second. intros H. res_all. reflexivity.
Qed.

Lemma finish_after_false c rp f : finish_after c rp f = false -> f = false.
Proof.
  unfold finish_after.
  repeat match goal with |- context [if ?b then _ else _] => destruct b end;
    congruence.
Qed.

Lemma ioworker_send_one_count i k w r k' w' :
  ioworker_send_one E i k w = inr (r, k', w') ->
  (r <> 0 -> flag_finish (wk_gctx k') = true)
  /\ (r = 0 -> flag_finish (wk_gctx k') = flag_finish (wk_gctx k)
               /\ io_count_sent (wk_gctx k')
                  = u64 (io_count_sent (wk_gctx k) + 1)).
Proof.
  unfold ioworker_send_one. intros H. res_all.
  - simpl. split; [auto|]. intros ->. discriminate.
  - match goal with
    | Hl : ioworker_send_one_lba _ _ _ _ = inr _ |- _ =>
        apply ioworker_send_one_lba_gctx in Hl; destruct Hl as [->|[v ->]]
    end; simpl; split; try (intros; lia); auto.
Qed.

Lemma ioworker_one_cb_view ctx c k w k' w' :
  ioworker_one_cb E ctx c k w = inr (k', w') ->
  (seq_view k' w' = seq_view k w /\ flag_finish (wk_gctx k') = true)
  \/ exists k7 w4 r,
       seq_view k7 w4 = seq_view k w
       /\ ioworker_send_one E ctx k7 w4 = inr (r, k', w')
       /\ flag_finish (wk_gctx k7) = false
       /\ flag_finish (wk_gctx k) = false
       /\ io_count_sent (wk_gctx k7) = io_count_sent (wk_gctx k)
       /\ io_count_sent (wk_gctx k7) < io_count (wk_args k).
Proof.
  unfold ioworker_one_cb. intros H. res_all.
  all: repeat match goal with
       | H : (if ?b then _ else _) = (_, _) |- _ => destruct b eqn:?
       end.
  all: repeat match goal with
       | H : (let (_, _) := ?x in _) = (_, _) |- _ => destruct x eqn:?
       | H : (_, _) = (_, _) |- _ => inversion H; subst; clear H
       end.
  all: repeat match goal with
       | H : negb _ = true |- _ => apply negb_true_iff in H
       | H : negb _ = false |- _ => apply negb_false_iff in H
       end.
  all: subst.
  all: repeat match goal with
       | H : sts_store _ _ _ = inr _ |- _ => apply sts_store_trace in H
       | H : ioworker_send_one_is_finish _ _ _ _ = inr (?b, _) |- _ =>
           assert (b = false -> io_count_sent _ < io_count _)
             by (intros ->; exact (ioworker_send_one_is_finish_false _ _ _ _ H));
           apply ioworker_send_one_is_finish_trace in H
       | H : ioworker_update_io_count_per_second _ = inr _ |- _ =>
           pose proof (ioworker_update_per_second_seq _ _ H);
           pose proof (ioworker_update_per_second_sent _ _ H);
           apply ioworker_update_per_second_frame in H; destruct H as (?&?&?)
       | H : ioworker_one_io_throttle _ _ _ = _ |- _ =>
           apply ioworker_one_io_throttle_view in H; destruct H as (?&?&?&?)
       | H : gettimeofday _ _ = _ |- _ =>
           unfold gettimeofday in H; inversion H; subst; clear H
       end.
  all: try (right; do 3 eexists; split;
            [|split; [match goal with
                      | H : ioworker_send_one _ _ _ _ = inr _ |- _ => exact H
                      end|]]).
  all: try left.
  all: unfold seq_view; simpl in *.
  all: repeat match goal with
       | H : context [ioworker_one_cb_error ?c0 ?k0] |- _ =>
           lazymatch goal with
           | _ : error (wk_rets (ioworker_one_cb_error c0 k0)) = _ |- _ => fail
           | _ => destruct (ioworker_one_cb_error_effect c0 k0) as [? ?];
                  pose proof (ioworker_one_cb_error_args c0 k0);
                  pose proof (ioworker_one_cb_error_seq c0 k0);
                  pose proof (ioworker_one_cb_error_sent c0 k0)
           end
       | |- context [ioworker_one_cb_error ?c0 ?k0] =>
           lazymatch goal with
           | _ : error (wk_rets (ioworker_one_cb_error c0 k0)) = _ |- _ => fail
           | _ => destruct (ioworker_one_cb_error_effect c0 k0) as [? ?];
                  pose proof (ioworker_one_cb_error_args c0 k0);
                  pose proof (ioworker_one_cb_error_seq c0 k0);
                  pose proof (ioworker_one_cb_error_sent c0 k0)
           end
       end.
  all: simpl in *.
  all: repeat match goal with
       | H : timercmp_gt _ _ = _ |- _ => clear H
       end.
  all: try match goal with
       | H : flag_finish (wk_gctx (ioworker_one_cb_error ?c0 ?k0))
             = finish_after ?c0 ?rp ?f |- _ =>
           assert (f = false)
             by (apply (finish_after_false c0 rp); congruence)
       end.
  all: repeat split; try congruence.
  all: match goal with
       | H : ?b = false -> _ < _, H' : ?b = false |- _ => specialize (H H')
       end.
  all: congruence.
Qed.

End SeqFacts.

(** ** Sequential LBAs: the invariant of a run *)

Lemma seq_lbas_snoc args n prev :
  seq_lbas args (S n) prev
  = seq_lbas args n prev
    ++ [let x := seq_next args (Nat.iter n (seq_next args) prev) in
        x - x mod lba_align args].
Proof.
  revert prev. induction n as [|n IH]; intros prev; [reflexivity|].
  change (seq_lbas args (S (S n)) prev)
    with ((seq_next args prev - seq_next args prev mod lba_align args)
          :: seq_lbas args (S n) (seq_next args prev)).
  rewrite IH. rewrite (Nat.iter_succ_r n). reflexivity.
Qed.

Section SeqInv.
Variable E : environment.
Variable a1 : ioworker_args.
Variable sl0 : list Z.
Hypothesis a1_seq : lba_random a1 = 0.
Hypothesis a1_align : 0 <= lba_align a1.
Hypothesis a1_start : 0 <= region_start a1 < 2^64.
Hypothesis a1_count : 0 <= io_count a1 < 2^64.

Lemma seq_inv_send n i k w r k' w' :
  seq_inv a1 sl0 n k (trace w) ->
  Z.of_nat n < io_count a1 ->
  ioworker_send_one E i k w = inr (r, k', w') ->
  seq_inv a1 sl0 (S n) k' (trace w').
Proof.
  intros (Ha & Hs & Hq & Hc) Hn H.
  pose proof (ioworker_send_one_count _ _ _ _ _ _ _ H) as (Hbad & Hgood).
  apply ioworker_send_one_view in H; rewrite ?Ha; auto.
  unfold seq_view in H. injection H as Hk Hq' Hs'.
  split; [congruence|]. split; [|split].
  - rewrite Hs', Hs, seq_lbas_snoc, <- app_assoc, Ha, Hq. reflexivity.
  - rewrite Hq', Ha, Hq. reflexivity.
  - intros Hf. destruct (Z.eq_dec r 0) as [Hr|Hr].
    + destruct (Hgood Hr) as [Hfl ->]. rewrite Hc by congruence.
      rewrite u64_id; lia.
    + rewrite (Hbad Hr) in Hf. discriminate.
Qed.

Lemma seq_inv_view n k w k' w' :
  seq_view k' w' = seq_view k w ->
  (flag_finish (wk_gctx k') = false ->
   flag_finish (wk_gctx k) = false
   /\ io_count_sent (wk_gctx k') = io_count_sent (wk_gctx k)) ->
  seq_inv a1 sl0 n k (trace w) -> seq_inv a1 sl0 n k' (trace w').
Proof.
  unfold seq_view, seq_inv. intros H Hf (Ha & Hs & Hq & Hc).
  injection H as -> -> ->. repeat split; auto.
  intros Hf'. destruct (Hf Hf') as [Hk ->]. auto.
Qed.

Lemma run_inv_cb i c k w k' w' :
  run_inv a1 sl0 k (trace w) ->
  ioworker_one_cb E i c k w = inr (k', w') ->
  run_inv a1 sl0 k' (trace w').
Proof.
  intros (n & HQ & Hn) H. apply ioworker_one_cb_view in H.
  destruct H as [[Hv Hf]|(k7 & w4 & r & Hv & H & Hf7 & Hf & Hs7 & Hlt)].
  - exists n. split; [|exact Hn].
    eapply seq_inv_view; [exact Hv| |exact HQ].
    rewrite Hf. discriminate.
  - assert (HQ7 : seq_inv a1 sl0 n k7 (trace w4)).
    { eapply seq_inv_view; [exact Hv| |exact HQ]. auto. }
    destruct HQ as (Ha & _ & _ & Hc).
    assert (Hnn : Z.of_nat n < io_count a1).
    { rewrite <- Ha, <- (Hc Hf), <- Hs7. exact Hlt. }
    exists (S n). split; [|lia].
    eapply seq_inv_send; eauto.
Qed.

Lemma seq_inv_first_batch cnt :
  forall n i ss k w k' w',
    seq_inv a1 sl0 n k (trace w) ->
    Z.of_nat (n + cnt) <= io_count a1 ->
    ioworker_first_batch E cnt i ss k w = inr (k', w') ->
    seq_inv a1 sl0 (n + cnt) k' (trace w').
Proof.
  induction cnt as [|cnt IH]; simpl; intros n i ss k w k' w' HQ Hn H.
  - res_all. rewrite Nat.add_0_r. exact HQ.
  - res_all. replace (n + S cnt)%nat with (S n + cnt)%nat by lia.
    eapply IH; [| |exact H]; [|lia].
    eapply seq_inv_send; [| |eassumption]; [|lia].
    exact HQ.
Qed.

Lemma run_inv_entry fuel ns qpair args ps pl w ret k' w' :
  ioworker_entry E fuel ns qpair args ps pl w = Some (inr (ret, k', w')) ->
  ret <> -2 ->
  ioworker_revise_args (u64 (ns_num_sectors ns)) args = inr a1 ->
  qdepth a1 <= io_count a1 ->
  sl0 = submitted_lbas (trace w) ->
  run_inv a1 sl0 k' (trace w').
Proof.
  intros H Hret Hrev Hqd Hsl.
  unfold ioworker_entry in H.
  destruct (ioworker_check_args args) as [f|[]]; [discriminate|].
  destruct (_ <? _).
  { injection H as <- _ _. lia. }
  rewrite Hrev in H. unfold gettimeofday in H.
  match type of H with
  | match ?m with _ => _ end = _ => destruct m as [f|[k1 w2]] eqn:Hb
  end; [discriminate|].
  destruct (ioworker_poll_loop E fuel (gettimeofday_nth E (n_clock w)) k1 w2)
    as [[f|[[ret0 k2] w3]]|] eqn:Hl; try discriminate.
  unfold ioworker_get_duration, gettimeofday in H.
  match type of H with
  | match ?m with _ => _ end = _ => destruct m as [f|w5] eqn:Hrel
  end; [discriminate|].
  injection H as <- <- <-.
  apply rbind_inr in Hb. destruct Hb as (u & _ & Hb).
  apply ioworker_release_trace in Hrel. rewrite Hrel. simpl.
  assert (HQ : run_inv a1 sl0 k2 (trace w3)).
  { eapply (ioworker_poll_loop_inv E (run_inv a1 sl0)); [| |  |exact Hl].
    - intros k0 t fn arg c (n & (Ha & Hs & Hq & Hc) & Hn).
      exists n. split; [|exact Hn]. repeat split; auto.
      rewrite submitted_lbas_app. simpl. rewrite app_nil_r. exact Hs.
    - intros; eapply run_inv_cb; eauto.
    - exists (0 + Z.to_nat (qdepth a1))%nat. split; [|lia].
      eapply seq_inv_first_batch; [| |exact Hb]; [|lia].
      simpl. repeat split; auto. rewrite app_nil_r. auto. }
  destruct HQ as (n & (Ha & Hs & Hq & Hc) & Hn).
  exists n. split; [|exact Hn]. repeat split; auto.
Qed.

End SeqInv.

(** ** Sequential LBAs: the region wrap *)

Lemma seq_lbas_wrap a1 :
  region_start a1 = 0 -> region_end a1 = 6 -> lba_align a1 = 1 ->
  forall n p, 0 <= p <= 6 ->
    seq_lbas a1 n p
    = map (fun j => (p + 1 + Z.of_nat j) mod 7) (seq 0 n).
Proof.
  intros Hs He Ha. induction n as [|n IH]; intros p Hp; [reflexivity|].
  simpl. rewrite <- seq_shift, map_map.
  assert (Hn : seq_next a1 p = (p + 1) mod 7).
  { unfold seq_next. rewrite Hs, He, Ha. rewrite u64_id by lia.
    destruct (Z.ltb_spec 6 (p + 1)).
    - assert (p = 6) by lia. subst. reflexivity.
    - rewrite Z.mod_small; lia. }
  rewrite Hn, Ha, Z.mod_1_r, Z.sub_0_r, Z.add_0_r.
  f_equal.
  pose proof (Z.mod_pos_bound (p + 1) 7 ltac:(lia)) as Hb.
  rewrite IH by lia.
  apply map_ext. intros j.
  rewrite Nat2Z.inj_succ.
  replace (p + 1 + Z.succ (Z.of_nat j)) with ((p + 1) + (1 + Z.of_nat j)) by lia.
  rewrite <- (Zplus_mod_idemp_l (p + 1)). f_equal. lia.
Qed.

Section RegionWrap.
Variable E : environment.

(** C4 (amended).  In sequential mode the next LBA is [prev + lba_align],
    replaced by [region_start] when it exceeds [region_end], then aligned
    down to [lba_align]; [prev] starts as [lba_start] and [region_end] is
    the revised one.  For region [0,8), [lba_align] = 1, [lba_size] = 1,
    [lba_start] = 0, [io_count] = 20 on a namespace of at least 8 blocks the
    revised [region_end] is 6 and the LBAs handed to the driver are, in
    order, the first [n <= 20] of 1,2,3,4,5,6,0,1,2,...: the first I/O goes
    to LBA 1 and the sequence wraps after LBA 6. *)
Theorem ioworker_sequential_lbas :
  forall fuel ns qpair args ps pl w ret k' w',
    (forall g w0,
       lba_random args = 0 -> lba_align args <> 0 ->
       let next :=
         if region_end args <? u64 (sequential_lba g + lba_align args)
         then region_start args
         else u64 (sequential_lba g + lba_align args) in
       ioworker_send_one_lba_sequential args g = next
       /\ ioworker_send_one_lba E args g w0
          = inr (next - next mod lba_align args,
                 set_sequential_lba next g, w0))
    /\ (region_start args = 0 -> region_end args = 8 ->
        lba_align args = 1 -> a_lba_size args = 1 ->
        lba_random args = 0 -> lba_start args = 0 -> io_count args = 20 ->
        8 <= u64 (ns_num_sectors ns) ->
        ioworker_entry E fuel ns qpair args ps pl w
          = Some (inr (ret, k', w')) ->
        ret <> -2 ->
        region_end (wk_args k') = 6
        /\ sequential_lba (wk_gctx k') <= 6
        /\ exists n : nat,
             (n <= 20)%nat
             /\ submitted_lbas (trace w')
                = submitted_lbas (trace w) ++ wrap_cycle n).
Proof.
  intros fuel ns qpair args ps pl w ret k' w'. split.
  { intros g w0 Hr Ha.
    exact (ioworker_send_one_lba_sequential_rule E args g w0 Hr Ha). }
  intros Hrs Hre Hal Hls Hrnd Hst Hio Hns H Hret.
  pose proof (ioworker_entry_final_args E _ _ _ _ _ _ _ _ _ _ H)
    as [[-> _]|(_ & Hc & Hrev)]; [lia|].
  pose proof (ioworker_revise_args_fields _ _ _ Hc Hrev)
    as (_ & Hal' & Hrnd' & _ & _ & _ & _ & _ & Hio' & _
        & Hup & Hdown & Hst' & Hqd).
  rewrite Hrs, Hal in Hup. rewrite Hre, Hal, Hls in Hdown.
  rewrite Hio in Hio'. simpl in Hio'.
  injection Hup as Hup.
  rewrite Z.min_l in Hdown by lia. injection Hdown as Hdown.
  rewrite <- Hup, Hst in Hst'. change (Z.max 0 0) with 0 in Hst'.
  assert (Hinv := run_inv_entry E (wk_args k') (submitted_lbas (trace w))).
  rewrite Hrnd', Hrnd, Hal', Hal, <- Hup, Hio' in Hinv.
  assert (Hq20 : qdepth (wk_args k') <= 20) by lia.
  assert (H01 : 0 <= 1) by lia.
  assert (H00 : 0 <= 0 < 2 ^ 64) by lia.
  assert (H20 : 0 <= 20 < 2 ^ 64) by lia.
  specialize (Hinv eq_refl H01 H00 H20
                _ _ _ _ _ _ _ _ _ _ H Hret Hrev Hq20 eq_refl).
  destruct Hinv as (n & (_ & Hs & Hq & _) & Hn).
  split; [symmetry; exact Hdown|].
  rewrite Hst' in Hs, Hq.
  rewrite (seq_lbas_wrap (wk_args k')) in Hs by (auto; lia).
  split.
  - rewrite Hq. clear - Hup Hdown Hal Hal'.
    induction n as [|n IH]; [simpl; lia|].
    rewrite Nat.iter_succ. unfold seq_next at 1.
    rewrite <- Hup, <- Hdown, Hal', Hal.
    change (u64 (8 - 1 - 1) - u64 (8 - 1 - 1) mod 1) with 6.
    destruct (Z.ltb_spec 6
                (u64 (Nat.iter n (seq_next (wk_args k')) 0 + 1))); lia.
  - exists n. split; [lia|]. rewrite Hs. f_equal.
    apply map_ext. intros j. f_equal. lia.
Qed.

End RegionWrap.

(** ** Reading and writing buffer bytes *)

Lemma le_bytes_length n v : length (le_bytes n v) = n.
Proof. revert v. induction n as [|n IH]; intros v; simpl; [|rewrite IH]; reflexivity. Qed.

Lemma mem_read_Some off len (m : list Z) :
  0 <= off -> 0 <= len -> off + len <= Z.of_nat (length m) ->
  mem_read off len m = Some (take (Z.to_nat len) (drop (Z.to_nat off) m)).
Proof.
  intros H1 H2 H3. unfold mem_read.
  destruct (Z.leb_spec 0 off); [|lia].
  destruct (Z.leb_spec 0 len); [|lia].
  destruct (Z.leb_spec (off + len) (Z.of_nat (length m))); [|lia].
  reflexivity.
Qed.

Lemma mem_read_inv off len (m r : list Z) :
  mem_read off len m = Some r ->
  0 <= off /\ 0 <= len /\ off + len <= Z.of_nat (length m)
  /\ r = take (Z.to_nat len) (drop (Z.to_nat off) m).
Proof.
  unfold mem_read.
  destruct (Z.leb_spec 0 off); [|discriminate].
  destruct (Z.leb_spec 0 len); [|discriminate].
  destruct (Z.leb_spec (off + len) (Z.of_nat (length m))); [|discriminate].
  simpl. intros Hr. injection Hr as <-. auto.
Qed.

Lemma mem_read_length off len (m r : list Z) :
  mem_read off len m = Some r -> length r = Z.to_nat len.
Proof.
  intros H. apply mem_read_inv in H. destruct H as (H1 & H2 & H3 & ->).
  rewrite length_take, length_drop. lia.
Qed.

Lemma mem_read_lookup off len (m r : list Z) (p : nat) :
  mem_read off len m = Some r ->
  (p < Z.to_nat len)%nat ->
  r !! p = m !! (Z.to_nat off + p)%nat.
Proof.
  intros H Hp. apply mem_read_inv in H. destruct H as (H1 & H2 & H3 & ->).
  rewrite lookup_take_lt by exact Hp. apply lookup_drop.
Qed.

Lemma mem_read_ext off len (m m' : list Z) :
  length m = length m' ->
  (forall p : nat, (Z.to_nat off <= p < Z.to_nat off + Z.to_nat len)%nat ->
                   m !! p = m' !! p) ->
  mem_read off len m = mem_read off len m'.
Proof.
  intros Hl Hp. unfold mem_read. rewrite Hl.
  destruct ((0 <=? off) && (0 <=? len) && (off + len <=? Z.of_nat (length m')));
    [|reflexivity].
  f_equal. apply list_eq. intros p.
  destruct (decide (p < Z.to_nat len)%nat) as [Hlt|Hge].
  - rewrite !lookup_take_lt by exact Hlt. rewrite !lookup_drop.
    apply Hp. lia.
  - rewrite !lookup_take_ge by lia. reflexivity.
Qed.

Lemma mem_write_Some off (bs m : list Z) :
  0 <= off -> off + Z.of_nat (length bs) <= Z.of_nat (length m) ->
  exists m',
    mem_write off bs m = Some m'
    /\ length m' = length m
    /\ forall p : nat,
         m' !! p
         = if decide (Z.to_nat off <= p < Z.to_nat off + length bs)%nat
           then bs !! (p - Z.to_nat off)%nat
           else m !! p.
Proof.
  intros H1 H2. unfold mem_write.
  destruct (Z.leb_spec 0 off); [|lia].
  destruct (Z.leb_spec (off + Z.of_nat (length bs)) (Z.of_nat (length m)));
    [|lia].
  simpl. eexists. split; [reflexivity|]. split.
  - rewrite !length_app, length_take, length_drop. lia.
  - intros p. destruct (decide (Z.to_nat off <= p < Z.to_nat off + length bs)%nat)
      as [Hin|Hout].
    + rewrite lookup_app_r by (rewrite length_take; lia).
      rewrite length_take, Nat.min_l by lia.
      rewrite lookup_app_l by lia. reflexivity.
    + destruct (decide (p < Z.to_nat off)%nat) as [Hlt|Hge].
      * rewrite lookup_app_l by (rewrite length_take; lia).
        apply lookup_take_lt. exact Hlt.
      * rewrite lookup_app_r by (rewrite length_take; lia).
        rewrite length_take, Nat.min_l by lia.
        rewrite lookup_app_r by lia.
        rewrite lookup_drop. f_equal. lia.
Qed.

Lemma store64_Some off v (m : list Z) :
  0 <= off -> off + 8 <= Z.of_nat (length m) ->
  exists m',
    store64 off v m = Some m'
    /\ length m' = length m
    /\ forall p : nat,
         m' !! p
         = if decide (Z.to_nat off <= p < Z.to_nat off + 8)%nat
           then le_bytes 8 v !! (p - Z.to_nat off)%nat
           else m !! p.
Proof.
  intros H1 H2. unfold store64.
  destruct (mem_write_Some off (le_bytes 8 v) m H1) as (m' & Hw & Hl & Hp).
  - rewrite le_bytes_length. lia.
  - exists m'. rewrite le_bytes_length in Hp. auto.
Qed.

(** ** The write loop on 512-byte blocks *)

Section Fill512.
Variable crc32c : list Z -> Z -> Z.
Variable b tok : Z.

Lemma fill_one_block i lba (m : list Z) :
  0 <= i < 2^16 -> 512 * (i + 1) <= Z.of_nat (length m) ->
  exists m1 m2 data,
    store64 (512 * i) lba m = Some m1
    /\ store64 (512 * i + 504) (u64 (tok + i)) m1 = Some m2
    /\ mem_read (512 * i) 512 m2 = Some data
    /\ length m2 = length m
    /\ (forall p : nat, ~ (512 * i <= Z.of_nat p < 512 * (i + 1)) ->
                        m2 !! p = m !! p)
    /\ mem_read 0 8 data = Some (le_bytes 8 lba)
    /\ mem_read 504 8 data = Some (le_bytes 8 (u64 (tok + i)))
    /\ mem_read 8 496 data = mem_read (512 * i + 8) 496 m.
Proof.
  intros Hi Hm.
  destruct (store64_Some (512 * i) lba m) as (m1 & Hs1 & Hl1 & Hp1); [lia..|].
  destruct (store64_Some (512 * i + 504) (u64 (tok + i)) m1)
    as (m2 & Hs2 & Hl2 & Hp2); [lia..|].
  pose proof (mem_read_Some (512 * i) 512 m2 ltac:(lia) ltac:(lia) ltac:(lia))
    as Hr.
  exists m1, m2, (take (Z.to_nat 512) (drop (Z.to_nat (512 * i)) m2)).
  assert (Hd : forall p : nat, (p < 512)%nat ->
            take (Z.to_nat 512) (drop (Z.to_nat (512 * i)) m2) !! p
            = m2 !! (Z.to_nat (512 * i) + p)%nat).
  { intros p Hp. rewrite lookup_take_lt by lia. apply lookup_drop. }
  assert (Hdl : length (take (Z.to_nat 512) (drop (Z.to_nat (512 * i)) m2))
                = 512%nat).
  { rewrite length_take, length_drop. lia. }
  split; [exact Hs1|]. split; [exact Hs2|]. split; [exact Hr|].
  split; [congruence|]. split; [|split; [|split]].
  - intros p Hp. rewrite Hp2, Hp1.
    destruct (decide _); [lia|]. destruct (decide _); [lia|]. reflexivity.
  - rewrite mem_read_Some by lia. f_equal. apply list_eq. intros p.
    destruct (decide (p < 8)%nat) as [Hlt|Hge].
    + rewrite lookup_take_lt by lia. rewrite lookup_drop. simpl.
      rewrite Hd by lia. rewrite Hp2, Hp1.
      destruct (decide _); [lia|]. destruct (decide _); [|lia].
      f_equal. lia.
    + rewrite lookup_take_ge by lia. symmetry. apply lookup_ge_None.
      rewrite le_bytes_length. lia.
  - rewrite mem_read_Some by lia. f_equal. apply list_eq. intros p.
    destruct (decide (p < 8)%nat) as [Hlt|Hge].
    + rewrite lookup_take_lt by lia. rewrite lookup_drop.
      rewrite Hd by lia. rewrite Hp2.
      destruct (decide _); [|lia]. f_equal. lia.
    + rewrite lookup_take_ge by lia. symmetry. apply lookup_ge_None.
      rewrite le_bytes_length. lia.
  - rewrite !mem_read_Some by lia. f_equal. apply list_eq. intros p.
    destruct (decide (p < 496)%nat) as [Hlt|Hge].
    + rewrite !lookup_take_lt by lia. rewrite !lookup_drop.
      rewrite Hd by lia. rewrite Hp2, Hp1.
      destruct (decide _); [lia|]. destruct (decide _); [lia|].
      f_equal. lia.
    + rewrite !lookup_take_ge by lia. reflexivity.
Qed.

Lemma fill_events_ext tbl1 tbl2 k :
  forall i lba,
    0 <= lba ->
    (forall s : nat, lba <= Z.of_nat s < lba + Z.of_nat k ->
                     tbl1 !! s = tbl2 !! s) ->
    fill_events b tbl1 k i lba tok = fill_events b tbl2 k i lba tok.
Proof.
  induction k as [|k IH]; intros i lba Hl H; [reflexivity|].
  simpl. rewrite (H (Z.to_nat lba)) by lia. do 2 f_equal.
  apply IH; [lia|]. intros s Hs. apply H. lia.
Qed.

Lemma buffer_fill_blocks_512 k :
  forall i lba (m tbl : list Z) evs,
    0 <= i -> i + Z.of_nat k <= 2^16 ->
    512 * (i + Z.of_nat k) <= Z.of_nat (length m) ->
    0 <= lba -> lba + Z.of_nat k <= Z.of_nat (length tbl) ->
    Z.of_nat (length tbl) < 2^64 ->
    exists m' tbl',
      buffer_fill_blocks crc32c b k i lba tok 512 m tbl evs
      = inr (m', tbl', evs ++ fill_events b tbl' k i lba tok)
      /\ length m' = length m
      /\ length tbl' = length tbl
      /\ (forall p : nat,
            ~ (512 * i <= Z.of_nat p < 512 * (i + Z.of_nat k)) ->
            m' !! p = m !! p)
      /\ (forall s : nat,
            ~ (lba <= Z.of_nat s < lba + Z.of_nat k) -> tbl' !! s = tbl !! s)
      /\ (forall j, 0 <= j < Z.of_nat k ->
            block_written crc32c m m' tbl' (i + j) (lba + j)
              (u64 (tok + (i + j)))).
Proof.
  induction k as [|k IH]; intros i lba m tbl evs Hi Hik Hm Hl Hlt Hl64.
  - exists m, tbl. simpl. rewrite app_nil_r.
    repeat split; auto. intros j Hj. lia.
  - destruct (fill_one_block i lba m) as
      (m1 & m2 & data & Hs1 & Hs2 & Hr & Hl2 & Hf2 & Hd0 & Hd504 & Hd8);
      [lia..|].
    set (crc := buffer_calc_csum crc32c data).
    destruct (IH (i + 1) (lba + 1) m2 (<[Z.to_nat lba := crc]> tbl)
                (evs ++ [EvStamp b (512 * i) lba (u64 (tok + i));
                         EvOracleStore lba crc]))
      as (m' & tbl' & Hrun & Hlm & Hlt' & Hfm & Hft & Hblk);
      [try rewrite length_insert; lia..|].
    rewrite length_insert in Hlt'.
    assert (Hslot : tbl' !! Z.to_nat lba = Some crc).
    { rewrite Hft by lia. apply list_lookup_insert_eq. lia. }
    exists m', tbl'. split; [|split; [|split; [|split; [|split]]]].
    + cbn [buffer_fill_blocks].
      replace (u32 (i * 512)) with (512 * i) by (rewrite u32_id; lia).
      replace (512 * i + 8 * u64 (512 `div` 8 - 1)) with (512 * i + 504)
        by (change (u64 (512 `div` 8 - 1)) with 63; lia).
      change (csum_len 512) with 512.
      rewrite Hs1. cbn [of_option rbind ok].
      rewrite Hs2. cbn [of_option rbind ok].
      rewrite Hr. cbn [of_option rbind ok].
      destruct (Z.leb_spec 0 lba); [|lia].
      destruct (tbl !! Z.to_nat lba) eqn:Hsl;
        [|apply lookup_ge_None in Hsl; lia].
      cbn [of_option rbind ok].
      assert (Hi1 : 0 <= i + 1 < 2 ^ 32).
      { change (2 ^ 32) with 4294967296. change (2 ^ 16) with 65536 in Hik.
        lia. }
      assert (Hl1 : 0 <= lba + 1 < 2 ^ 64).
      { change (2 ^ 64) with 18446744073709551616 in *. lia. }
      rewrite (u32_id (i + 1)) by exact Hi1.
      rewrite (u64_id (lba + 1)) by exact Hl1.
      fold crc. rewrite Hrun, <- app_assoc. cbn [app fill_events].
      rewrite Hslot. reflexivity.
    + congruence.
    + exact Hlt'.
    + intros p Hp. rewrite Hfm by lia. apply Hf2. lia.
    + intros s Hs. rewrite Hft by lia.
      apply list_lookup_insert_ne. lia.
    + intros j Hj. destruct (Z.eq_dec j 0) as [->|Hj0].
      * rewrite !Z.add_0_r. exists data.
        split; [|repeat split; auto].
        rewrite <- Hr. apply mem_read_ext; [exact Hlm|].
        intros p Hp. apply Hfm. lia.
      * destruct (Hblk (j - 1) ltac:(lia))
          as (blk & Hb1 & Hb2 & Hb3 & Hb4 & Hb5).
        replace (i + 1 + (j - 1)) with (i + j) in * by lia.
        replace (lba + 1 + (j - 1)) with (lba + j) in * by lia.
        exists blk. repeat split; auto.
        rewrite Hb4. apply mem_read_ext; [exact Hl2|].
        intros p Hp. apply Hf2. lia.
Qed.

End Fill512.

(** ** A write through [ns_cmd_read_write] *)

Section Write.
Variable E : environment.

Lemma buffer_fill_data_512 b L n w (m tbl : list Z) T :
  0 < n < 2^16 -> 0 <= L ->
  dma w !! b = Some m -> 512 * n <= Z.of_nat (length m) ->
  g_driver_csum_table_ptr w = Some tbl ->
  L + n <= Z.of_nat (length tbl) -> Z.of_nat (length tbl) < 2^64 ->
  g_driver_io_token_ptr w = Some T ->
  exists m' tbl',
    buffer_fill_data E b L n 512 w
    = inr (log_events (fill_events b tbl' (Z.to_nat n) 0 L T)
             (set_csum_table (Some tbl')
                (set_dma (<[b := m']> (dma w))
                   (log_events [EvTokenFetchAdd T n]
                      (set_token (Some (u64 (T + n))) w)))))
    /\ length m' = length m
    /\ length tbl' = length tbl
    /\ (forall p : nat, 512 * n <= Z.of_nat p -> m' !! p = m !! p)
    /\ (forall s : nat, ~ (L <= Z.of_nat s < L + n) -> tbl' !! s = tbl !! s)
    /\ (forall i, 0 <= i < n ->
          block_written (spdk_crc32c_update E) m m' tbl' i (L + i)
            (u64 (T + i))).
Proof.
  intros Hn HL Hm Hml Ht Htl Ht64 HT.
  destruct (buffer_fill_blocks_512 (spdk_crc32c_update E) b T (Z.to_nat n)
              0 L m tbl []) as (m' & tbl' & Hrun & Hl1 & Hl2 & Hf1 & Hf2 & Hb);
    [lia..|].
  exists m', tbl'. split; [|repeat split; auto].
  - unfold buffer_fill_data. rewrite HT. cbn [of_option rbind ok].
    destruct (Z.to_nat n) eqn:Hk; [lia|].
    cbn [dma set_token log_events g_driver_csum_table_ptr].
    rewrite Hm, Ht. cbn [of_option rbind ok].
    rewrite Hrun. reflexivity.
  - intros p Hp. apply Hf1. lia.
  - intros s Hs. apply Hf2. lia.
  - intros i Hi. specialize (Hb i ltac:(lia)).
    rewrite Z.add_0_l in Hb. exact Hb.
Qed.

Lemma cmd_log_add_cmd_Some qid b lba n ls c fn arg w logt :
  cmd_log_queue_table w !! qid = Some logt ->
  qid < CMD_LOG_MAX_Q ->
  0 <= tail_index logt < CMD_LOG_DEPTH ->
  Z.of_nat (length (table logt)) = CMD_LOG_DEPTH ->
  exists old tail',
    table logt !! Z.to_nat (tail_index logt) = Some old
    /\ cmd_log_add_cmd E qid b lba n ls c fn arg w
       = inr (mk_ref qid (tail_index logt),
              set_cmd_logs
                (<[qid := mk_table
                            (<[Z.to_nat (tail_index logt) :=
                                 mk_entry (gettimeofday_nth E (n_clock w)) c
                                   (time_cpl old) (cpl old) b lba n ls fn arg]>
                               (table logt)) tail']>
                   (cmd_log_queue_table w)) (tick_clock w)).
Proof.
  intros Hq Hlt Htail Hlen.
  destruct (table logt !! Z.to_nat (tail_index logt)) as [old|] eqn:Ho;
    [|apply lookup_ge_None in Ho; lia].
  exists old. eexists. split; [reflexivity|].
  unfold cmd_log_add_cmd. rewrite Hq. cbn [of_option rbind ok].
  destruct (Z.ltb_spec qid CMD_LOG_MAX_Q); [|lia].
  destruct (Z.ltb_spec (tail_index logt) CMD_LOG_DEPTH); [|lia].
  cbn [assert rbind ok].
  unfold log_entry_at. cbn [ref_qid ref_idx]. rewrite Hq.
  destruct (Z.leb_spec 0 (tail_index logt)); [|lia].
  rewrite Ho. cbn [of_option rbind ok gettimeofday].
  reflexivity.
Qed.

Lemma spdk_io_raw_frame qid c b len r w :
  let res := spdk_nvme_ctrlr_cmd_io_raw E qid c b len r w in
  dma (snd res) = dma w
  /\ g_driver_csum_table_ptr (snd res) = g_driver_csum_table_ptr w
  /\ g_driver_io_token_ptr (snd res) = g_driver_io_token_ptr w
  /\ trace (snd res) = trace w ++ [EvSubmitIo qid c b (fst res)].
Proof.
  unfold spdk_nvme_ctrlr_cmd_io_raw. cbn.
  destruct (submit_rc_nth E (n_submit w) =? 0); cbn; auto.
Qed.


(** Each block's oracle store is in the events of the write loop. *)
Lemma fill_events_store b0 tbl' tok0 k :
  forall i lba j,
    0 <= j < Z.of_nat k ->
    EvOracleStore (lba + j) (default 0 (tbl' !! Z.to_nat (lba + j)))
    ∈ fill_events b0 tbl' k i lba tok0.
Proof.
  induction k as [|k IH]; intros i lba j Hj; [lia|].
  cbn [fill_events]. destruct (Z.eq_dec j 0) as [->|Hne].
  - rewrite Z.add_0_r. apply elem_of_cons. right.
    apply elem_of_cons. left. reflexivity.
  - apply elem_of_cons. right. apply elem_of_cons. right.
    replace (lba + j) with (lba + 1 + (j - 1)) by lia.
    apply IH. lia.
Qed.

(** C6.  The checksum a write stores.  [buffer_fill_data] on [n] 512-byte
    blocks for LBAs [L .. L+n-1] inside the table returns, and for every
    block [i] it has stored, in the oracle slot of [L + i], the CRC32C of
    the 512 bytes of block [i] as the buffer then holds them, with 0 moved
    to 1 and 0xFFFFFFFF moved to 0xFFFFFFFE: the store is in the history,
    the slot holds the value when the call returns, the value lies in [1,
    0xFFFFFFFE] and so is neither sentinel.  The slots outside
    [L .. L+n-1] keep their values, so every slot afterwards either kept
    its value or holds such a checksum. *)
Theorem buffer_fill_data_csum_normalized :
  forall b L n w (m tbl : list Z) T,
    0 < n < 2^16 -> 0 <= L ->
    dma w !! b = Some m -> 512 * n <= Z.of_nat (length m) ->
    g_driver_csum_table_ptr w = Some tbl ->
    L + n <= Z.of_nat (length tbl) -> Z.of_nat (length tbl) < 2^64 ->
    g_driver_io_token_ptr w = Some T ->
    exists w' m' tbl' new,
      buffer_fill_data E b L n 512 w = inr w'
      /\ dma w' !! b = Some m'
      /\ g_driver_csum_table_ptr w' = Some tbl'
      /\ trace w' = trace w ++ new
      /\ (forall i, 0 <= i < n ->
            exists blk c,
              mem_read (512 * i) 512 m' = Some blk
              /\ c = crc_normalize_spec (u32 (spdk_crc32c_update E blk 0))
              /\ EvOracleStore (L + i) c ∈ new
              /\ tbl' !! Z.to_nat (L + i) = Some c
              /\ 1 <= c <= 0xfffffffe /\ c <> 0 /\ c <> 0xffffffff)
      /\ (forall l c, EvOracleStore l c ∈ new ->
            L <= l < L + n
            /\ exists data,
                 c = crc_normalize_spec (u32 (spdk_crc32c_update E data 0)))
      /\ (forall s : nat, ~ (L <= Z.of_nat s < L + n) -> tbl' !! s = tbl !! s)
      /\ (forall (s : nat) v, tbl' !! s = Some v ->
            tbl !! s = Some v
            \/ (1 <= v <= 0xfffffffe /\ v <> 0 /\ v <> 0xffffffff)).
Proof.
  intros b L n w m tbl T Hn HL Hm Hml Ht Htl Ht64 HT.
  destruct (buffer_fill_data_512 b L n w m tbl T Hn HL Hm Hml Ht Htl Ht64 HT)
    as (m' & tbl' & Hfill & Hl1 & Hl2 & Hf1 & Hf2 & Hblk).
  eexists _, m', tbl',
    (EvTokenFetchAdd T n :: fill_events b tbl' (Z.to_nat n) 0 L T).
  split; [exact Hfill|].
  cbn [dma g_driver_csum_table_ptr trace log_events set_csum_table set_dma
       set_token].
  split; [apply lookup_insert_eq|]. split; [reflexivity|].
  split; [rewrite <- app_assoc; reflexivity|].
  split.
  { intros i Hi. destruct (Hblk i Hi) as (blk & Hrd & _ & _ & _ & Hslot).
    exists blk, (buffer_calc_csum (spdk_crc32c_update E) blk).
    split; [exact Hrd|].
    split; [apply buffer_calc_csum_normalizes|].
    split.
    { apply elem_of_cons. right.
      pose proof (fill_events_store b tbl' T (Z.to_nat n) 0 L i ltac:(lia))
        as Hin.
      rewrite Hslot in Hin. exact Hin. }
    split; [exact Hslot|].
    pose proof (buffer_calc_csum_range (spdk_crc32c_update E) blk). lia. }
  split.
  { intros l c Hin. apply elem_of_cons in Hin.
    destruct Hin as [Hin|Hin]; [discriminate|].
    clear - Hin Hblk Hn HL.
    assert (Hgen : forall k i lba,
              EvOracleStore l c ∈ fill_events b tbl' k i lba T ->
              lba <= l < lba + Z.of_nat k
              /\ c = default 0 (tbl' !! Z.to_nat l)).
    { induction k as [|k IH]; intros i lba Hk; cbn [fill_events] in Hk.
      - inversion Hk.
      - apply elem_of_cons in Hk. destruct Hk as [Hk|Hk]; [discriminate|].
        apply elem_of_cons in Hk. destruct Hk as [Hk|Hk].
        + injection Hk as -> ->. split; [lia|reflexivity].
        + apply IH in Hk. split; [lia|tauto]. }
    apply Hgen in Hin. destruct Hin as [Hr ->].
    split; [lia|].
    destruct (Hblk (l - L) ltac:(lia)) as (blk & _ & _ & _ & _ & Hslot).
    replace (L + (l - L)) with l in Hslot by lia. rewrite Hslot.
    exists blk. apply buffer_calc_csum_normalizes. }
  split; [exact Hf2|].
  intros s v Hs.
  destruct (Z_le_dec L (Z.of_nat s)) as [Hlo|Hlo];
    [destruct (Z_lt_dec (Z.of_nat s) (L + n)) as [Hhi|Hhi]|].
  - right. destruct (Hblk (Z.of_nat s - L) ltac:(lia))
      as (blk & _ & _ & _ & _ & Hslot).
    replace (L + (Z.of_nat s - L)) with (Z.of_nat s) in Hslot by lia.
    rewrite Nat2Z.id, Hs in Hslot. injection Hslot as ->.
    pose proof (buffer_calc_csum_range (spdk_crc32c_update E) blk). lia.
  - left. rewrite <- Hf2 by lia. exact Hs.
  - left. rewrite <- Hf2 by lia. exact Hs.
Qed.

End Write.

(** ** The verification loop on 512-byte blocks *)

Section Verify.
Variable crc32c : list Z -> Z -> Z.

Lemma verify_outcome_step m tbl i lba n r :
  0 <= n ->
  verdict_ok (block_verdict crc32c m tbl i lba) ->
  verify_outcome crc32c m tbl (i + 1) (lba + 1) n r ->
  verify_outcome crc32c m tbl i lba (n + 1) r.
Proof.
  intros Hn Hok [[-> Hall]|(j & Hj & Hpre & Hf)].
  - left. split; [reflexivity|]. intros j Hj.
    destruct (Z.eq_dec j 0) as [->|Hne].
    + rewrite !Z.add_0_r. exact Hok.
    + specialize (Hall (j - 1) ltac:(lia)).
      replace (i + 1 + (j - 1)) with (i + j) in Hall by lia.
      replace (lba + 1 + (j - 1)) with (lba + j) in Hall by lia. exact Hall.
  - right. exists (j + 1). split; [lia|]. split.
    + intros j' Hj'. destruct (Z.eq_dec j' 0) as [->|Hne].
      * rewrite !Z.add_0_r. exact Hok.
      * specialize (Hpre (j' - 1) ltac:(lia)).
        replace (i + 1 + (j' - 1)) with (i + j') in Hpre by lia.
        replace (lba + 1 + (j' - 1)) with (lba + j') in Hpre by lia.
        exact Hpre.
    + replace (i + (j + 1)) with (i + 1 + j) by lia.
      replace (lba + (j + 1)) with (lba + 1 + j) by lia. exact Hf.
Qed.

Lemma verify_outcome_fail m tbl i lba n r :
  0 <= n ->
  verdict_fails (block_verdict crc32c m tbl i lba) r ->
  verify_outcome crc32c m tbl i lba (n + 1) r.
Proof.
  intros Hn Hf. right. exists 0. split; [lia|]. split.
  - intros j' Hj'. lia.
  - rewrite !Z.add_0_r. exact Hf.
Qed.

Lemma buffer_verify_blocks_512 k :
  forall i lba (m tbl : list Z) r,
    0 <= i -> i + Z.of_nat k <= 2^16 ->
    0 <= lba -> lba + Z.of_nat k <= 2^64 ->
    buffer_verify_blocks crc32c k i lba 512 m tbl = inr r ->
    verify_outcome crc32c m tbl i lba (Z.of_nat k) r.
Proof.
  induction k as [|k IH]; intros i lba m tbl r Hi Hik Hl Hlk H.
  - simpl in H. injection H as <-. left. split; [reflexivity|]. intros j Hj. lia.
  - rewrite Nat2Z.inj_succ, <- Z.add_1_r.
    cbn [buffer_verify_blocks] in H.
    destruct (Z.leb_spec 0 lba); [|lia].
    apply rbind_inr in H. destruct H as (slot & Hslot & H).
    apply of_option_inr in Hslot.
    assert (Hrec : forall r0,
              buffer_verify_blocks crc32c k (u32 (i + 1)) (u64 (lba + 1)) 512
                m tbl = inr r0 ->
              verify_outcome crc32c m tbl (i + 1) (lba + 1) (Z.of_nat k) r0).
    { intros r0 Hr0. destruct k as [|k'].
      - simpl in Hr0. injection Hr0 as <-. left. split; [reflexivity|].
        intros j Hj. lia.
      - rewrite u32_id in Hr0 by lia. rewrite u64_id in Hr0 by lia.
        apply IH; auto; lia. }
    replace (u32 (i * 512)) with (512 * i) in H by (rewrite u32_id; lia).
    change (csum_len 512) with 512 in H.
    destruct (Z.eqb_spec slot 0) as [->|Hs0].
    { apply verify_outcome_step; [lia| |apply Hrec; exact H].
      left. unfold block_verdict. rewrite Hslot. reflexivity. }
    destruct (Z.eqb_spec slot 0xffffffff) as [->|Hs1].
    { injection H as <-. apply verify_outcome_fail; [lia|].
      left. split; [|reflexivity]. unfold block_verdict. rewrite Hslot.
      reflexivity. }
    apply rbind_inr in H. destruct H as (stored & Hst & H).
    apply of_option_inr in Hst.
    destruct (Z.eqb_spec lba stored) as [<-|Hne]; cbn [negb] in H.
    + apply rbind_inr in H. destruct H as (data & Hd & H).
      apply of_option_inr in Hd.
      destruct (Z.eqb_spec (buffer_calc_csum crc32c data) slot) as [Hc|Hc];
        cbn [negb] in H.
      * apply verify_outcome_step; [lia| |apply Hrec; exact H].
        right. unfold block_verdict. rewrite Hslot.
        destruct (Z.eqb_spec slot 0); [contradiction|].
        destruct (Z.eqb_spec slot 4294967295); [contradiction|].
        rewrite Hst, Z.eqb_refl, Hd.
        destruct (Z.eqb_spec (buffer_calc_csum crc32c data) slot);
          [reflexivity|contradiction].
      * injection H as <-. apply verify_outcome_fail; [lia|].
        right. right. split; [|reflexivity].
        unfold block_verdict. rewrite Hslot.
        destruct (Z.eqb_spec slot 0); [contradiction|].
        destruct (Z.eqb_spec slot 4294967295); [contradiction|].
        rewrite Hst, Z.eqb_refl, Hd.
        destruct (Z.eqb_spec (buffer_calc_csum crc32c data) slot);
          [contradiction|reflexivity].
    + injection H as <-. apply verify_outcome_fail; [lia|].
      right. left. split; [|reflexivity].
      unfold block_verdict. rewrite Hslot.
      destruct (Z.eqb_spec slot 0); [contradiction|].
      destruct (Z.eqb_spec slot 4294967295); [contradiction|].
      rewrite Hst.
      destruct (Z.eqb_spec stored lba); [congruence|reflexivity].
Qed.

(** The loop returns as long as the blocks lie inside the buffer and their
    slots inside the table. *)
Lemma buffer_verify_blocks_returns k :
  forall i lba (m tbl : list Z),
    0 <= i -> i + Z.of_nat k <= 2^16 ->
    0 <= lba -> lba + Z.of_nat k <= 2^64 ->
    512 * (i + Z.of_nat k) <= Z.of_nat (length m) ->
    lba + Z.of_nat k <= Z.of_nat (length tbl) ->
    exists r, buffer_verify_blocks crc32c k i lba 512 m tbl = inr r.
Proof.
  induction k as [|k IH]; intros i lba m tbl Hi Hik Hl Hlk Hm Ht.
  - exists 0. reflexivity.
  - rewrite Nat2Z.inj_succ, <- Z.add_1_r in *.
    assert (Hrec : exists r,
              buffer_verify_blocks crc32c k (u32 (i + 1)) (u64 (lba + 1)) 512
                m tbl = inr r).
    { destruct k as [|k']; [exists 0; reflexivity|].
      rewrite u32_id by lia. rewrite u64_id by lia.
      apply IH; lia. }
    cbn [buffer_verify_blocks].
    destruct (Z.leb_spec 0 lba); [|lia].
    destruct (lookup_lt_is_Some_2 tbl (Z.to_nat lba)) as [slot Hslot]; [lia|].
    rewrite Hslot. cbn [of_option rbind ok].
    destruct (slot =? 0); [exact Hrec|].
    destruct (slot =? 4294967295); [exists (-1); reflexivity|].
    replace (u32 (i * 512)) with (512 * i) by (rewrite u32_id; lia).
    change (csum_len 512) with 512.
    unfold load64. rewrite !mem_read_Some by lia.
    cbn [fmap option_fmap option_map of_option rbind ok].
    match goal with |- context [negb ?b] => destruct b end; cbn [negb];
      [|exists (-2); reflexivity].
    match goal with |- context [negb ?b] => destruct b end; cbn [negb];
      [exact Hrec | exists (-3); reflexivity].
Qed.

End Verify.

(** ** The completion trampoline on a read *)

Lemma cpl_dword2_set v c :
  0 <= v < 2^32 -> cpl_dword2 (set_cpl_dword2 v c) = v.
Proof.
  intros Hv. unfold cpl_dword2, set_cpl_dword2. cbn [sqhd sqid].
  rewrite !Z.mod_mod by lia.
  rewrite (Z.mod_small (v / 2^16)).
  - rewrite Z.add_comm. symmetry. apply Z.div_mod. lia.
  - split; [apply Z.div_pos; lia|]. apply Z.div_lt_upper_bound; lia.
Qed.

Lemma timeval_to_us_range t : 0 <= timeval_to_us t < 2^32.
Proof. unfold timeval_to_us. apply u32_range. Qed.

Lemma log_entry_at_set r e w old :
  log_entry_at r w = Some old ->
  log_entry_at r (set_log_entry r e w) = Some e.
Proof.
  unfold log_entry_at, set_log_entry.
  destruct (cmd_log_queue_table w !! ref_qid r) as [t|] eqn:Ht; [|discriminate].
  destruct (Z.leb_spec 0 (ref_idx r)); [|discriminate].
  intros Ho. cbn [cmd_log_queue_table set_cmd_logs].
  rewrite lookup_insert_eq. cbn [table].
  destruct (Z.leb_spec 0 (ref_idx r)); [|lia].
  apply list_lookup_insert_eq. apply lookup_lt_Some in Ho. exact Ho.
Qed.


Section Trampoline.
Variable E : environment.


End Trampoline.

(** ** Raw commands *)

Section Raw.
Variable E : environment.






End Raw.

(** ** Tokens *)

Lemma stamped_tokens_app a b :
  stamped_tokens (a ++ b) = stamped_tokens a ++ stamped_tokens b.
Proof. apply omap_app. Qed.

Lemma buffer_fill_blocks_tokens crc32c b k :
  forall i lba tok ls m tbl evs m' tbl' evs',
    0 <= i -> i + Z.of_nat k <= 2^32 ->
    0 <= tok -> tok + i + Z.of_nat k <= 2^64 ->
    buffer_fill_blocks crc32c b k i lba tok ls m tbl evs = inr (m', tbl', evs') ->
    exists new, evs' = evs ++ new
                /\ stamped_tokens new = seqZ (tok + i) (Z.of_nat k)
                /\ fetched_bases new = [].
Proof.
  induction k as [|k IH]; intros i lba tok ls m tbl evs m' tbl' evs'
                            Hi Hik Ht Htk H.
  - simpl in H. injection H as <- <- <-. exists []. rewrite app_nil_r. auto.
  - cbn [buffer_fill_blocks] in H. res_all.
    destruct k as [|k'].
    + simpl in H. injection H as <- <- <-. eexists. split; [reflexivity|].
      split; [|reflexivity]. cbn. rewrite u64_id by lia. reflexivity.
    + rewrite u32_id in H by lia.
      apply IH in H; try lia.
      destruct H as (new & -> & Hs & Hf).
      eexists. rewrite <- app_assoc. split; [reflexivity|].
      split.
      * rewrite stamped_tokens_app, Hs. cbn [stamped_tokens omap].
        rewrite u64_id by lia.
        rewrite (seqZ_cons (tok + i)) by lia. cbn.
        do 2 f_equal; lia.
      * unfold fetched_bases in *. rewrite omap_app, Hf. reflexivity.
Qed.

Section Token.
Variable E : environment.

Lemma buffer_fill_data_tokens b lba n ls w w1 T :
  buffer_fill_data E b lba n ls w = inr w1 ->
  g_driver_io_token_ptr w = Some T ->
  0 <= n < 2^32 -> 0 <= T -> T + n < 2^64 ->
  let new := drop (length (trace w)) (trace w1) in
  fetched_bases new = [T]
  /\ stamped_tokens new = seqZ T n
  /\ g_driver_io_token_ptr w1 = Some (T + n).
Proof.
  intros H HT Hn HT0 Hw. unfold buffer_fill_data in H.
  rewrite HT in H. cbn [of_option rbind ok] in H.
  destruct (Z.to_nat n) eqn:Hk.
  - injection H as <-. cbn.
    rewrite drop_app_length. assert (n = 0) by lia. subst n.
    rewrite u64_id by lia. auto.
  - rewrite <- Hk in H. cbv beta iota in H. res_all.
    match goal with
    | Hb : buffer_fill_blocks _ _ _ _ _ _ _ _ _ _ = inr _ |- _ =>
        apply buffer_fill_blocks_tokens in Hb; try lia;
        destruct Hb as (new & Hnew & Hs & Hf)
    end.
    simpl in Hnew. subst. cbn.
    rewrite <- app_assoc, drop_app_length.
    unfold fetched_bases at 1. rewrite omap_app. fold (fetched_bases new).
    rewrite stamped_tokens_app, Hf, Hs, Z.add_0_r, Z2Nat.id by lia.
    rewrite u64_id by lia. auto.
Qed.

Lemma write_all_ranges ops :
  forall w T toks w',
    write_all E ops w = inr (toks, w') ->
    g_driver_io_token_ptr w = Some T ->
    Forall (fun o => 0 <= wr_count o < 2^32) ops ->
    0 <= T -> T + foldr Z.add 0 (map wr_count ops) < 2^64 ->
    toks = token_ranges T (map wr_count ops).
Proof.
  induction ops as [|o os IH]; intros w T toks w' H HT Hall HT0 Hsum.
  - simpl in H. injection H as <- _. reflexivity.
  - cbn [write_all] in H. res_all.
    inversion Hall as [|? ? Ho Hos]; subst. simpl in Hsum.
    assert (Hnn : 0 <= foldr Z.add 0 (map wr_count os)).
    { clear - Hos. induction Hos; simpl; lia. }
    match goal with
    | Hf : buffer_fill_data _ _ _ _ _ _ = inr _ |- _ =>
        destruct (buffer_fill_data_tokens _ _ _ _ _ _ _ Hf HT Ho HT0
                    ltac:(lia)) as (Hb & Hs & Hn)
    end.
    match goal with
    | Hw : write_all _ _ _ = inr _ |- _ =>
        eapply IH in Hw; [|exact Hn|exact Hos|lia|lia]
    end.
    subst. cbn. rewrite Hb, Hs. reflexivity.
Qed.

End Token.

Lemma token_ranges_lower counts :
  forall T B ts t,
    Forall (fun n => 0 <= n) counts ->
    (B, ts) ∈ token_ranges T counts -> T <= B /\ (t ∈ ts -> T <= t).
Proof.
  induction counts as [|n ns IH]; intros T B ts t Hall Hin; simpl in Hin.
  - inversion Hin.
  - inversion Hall; subst. apply elem_of_cons in Hin.
    destruct Hin as [Heq|Hin].
    + injection Heq as -> ->. split; [lia|].
      intros Ht. apply elem_of_seqZ in Ht. lia.
    + apply (IH _ _ _ t) in Hin; auto. destruct Hin as [Hlo Hlo'].
      split; [lia|]. intros Ht. specialize (Hlo' Ht). lia.
Qed.

Lemma token_ranges_mono counts :
  forall T (i j : nat) B1 B2 ts1 ts2 n1,
    Forall (fun n => 0 <= n) counts ->
    (i < j)%nat ->
    token_ranges T counts !! i = Some (B1, ts1) ->
    token_ranges T counts !! j = Some (B2, ts2) ->
    counts !! i = Some n1 ->
    ts1 = seqZ B1 n1
    /\ B1 + n1 <= B2
    /\ forall t1 t2, t1 ∈ ts1 -> t2 ∈ ts2 -> t1 < t2.
Proof.
  induction counts as [|n ns IH]; intros T i j B1 B2 ts1 ts2 n1 Hall Hij H1 H2 Hn.
  - discriminate.
  - inversion Hall as [|? ? Hn0 Hns]; subst. destruct j as [|j]; [lia|].
    simpl in H2. destruct i as [|i].
    + simpl in H1, Hn. injection H1 as <- <-. injection Hn as <-.
      apply list_elem_of_lookup_2 in H2.
      split; [reflexivity|]. split.
      * destruct (token_ranges_lower ns _ B2 ts2 0 Hns H2) as [Hlo _]. lia.
      * intros t1 t2 Ht1 Ht2. apply elem_of_seqZ in Ht1.
        destruct (token_ranges_lower ns _ B2 ts2 t2 Hns H2) as [_ Hlo].
        specialize (Hlo Ht2). lia.
    + simpl in H1, Hn. apply (IH (T + n) i j B1 B2 ts1 ts2 n1); auto. lia.
Qed.

(** C7 (amended).  Each write reserves its tokens by one fetch-add of its
    block count on the shared 64-bit counter.  Taking the writes in the
    order of their fetch-adds, and as long as the counter does not wrap
    (its value plus all the counts stays below 2^64): a write that fetched
    base [B1] for [n1] blocks stamps exactly the tokens [B1 .. B1 + n1 - 1],
    each once; every later write fetches a base of at least [B1 + n1]; and
    every token of the earlier write is strictly less than every token of
    the later one. *)
Theorem token_fetch_add_monotonic :
  forall E ops w T toks w' (i j : nat) B1 B2 ts1 ts2 o1,
    write_all E ops w = inr (toks, w') ->
    g_driver_io_token_ptr w = Some T ->
    Forall (fun o => 0 <= wr_count o < 2^32) ops ->
    0 <= T -> T + foldr Z.add 0 (map wr_count ops) < 2^64 ->
    (i < j)%nat ->
    toks !! i = Some (B1, ts1) -> toks !! j = Some (B2, ts2) ->
    ops !! i = Some o1 ->
    ts1 = seqZ B1 (wr_count o1)
    /\ NoDup ts1
    /\ B1 + wr_count o1 <= B2
    /\ forall t1 t2, t1 ∈ ts1 -> t2 ∈ ts2 -> t1 < t2.
Proof.
  intros E ops w T toks w' i j B1 B2 ts1 ts2 o1 Hrun HT Hall HT0 Hsum Hij
    H1 H2 Ho.
  apply (write_all_ranges E ops w T) in Hrun; auto. subst toks.
  assert (Hnn : Forall (fun n => 0 <= n) (map wr_count ops)).
  { rewrite Forall_map. eapply Forall_impl; [exact Hall|].
    simpl. intros o Hc. lia. }
  assert (Hn1 : map wr_count ops !! i = Some (wr_count o1)).
  { rewrite list_lookup_fmap, Ho. reflexivity. }
  destruct (token_ranges_mono _ _ _ _ _ _ _ _ _ Hnn Hij H1 H2 Hn1)
    as (Hts & Hb & Hlt).
  split; [exact Hts|]. split; [|split; [exact Hb|exact Hlt]].
  rewrite Hts. apply NoDup_seqZ.
Qed.

(** ** Closed examples *)

(** Decides a closed arithmetic or equational side condition by
    evaluation. *)
Ltac closed :=
  vm_compute; repeat split;
  first [reflexivity | discriminate | (intro; discriminate)].




Lemma run_wrap_returns :
  exists k' w', run_wrap = Some (inr (0, k', w')).
Proof. vm_compute. eexists _, _. reflexivity. Qed.




Lemma ioworker_sequential_witness :
  exists k' w',
    ioworker_entry env0 100 ns0 (Some 1) args_wrap [] [] world0
    = Some (inr (0, k', w'))
    /\ region_end (wk_args k') = 6
    /\ sequential_lba (wk_gctx k') <= 6
    /\ exists n : nat,
         (n <= 20)%nat
         /\ submitted_lbas (trace w')
            = submitted_lbas (trace world0) ++ wrap_cycle n.
Proof.
  destruct run_wrap_returns as (k' & w' & Hrun).
  exists k', w'. split; [exact Hrun|].
  apply (proj2 (ioworker_sequential_lbas env0 100 ns0 (Some 1) args_wrap
                  [] [] world0 0 k' w')); try reflexivity.
  - vm_compute. intro; discriminate.
  - exact Hrun.
  - lia.
Defined.

(** Scenario 5 hands the driver LBAs 1,2,...,6,0,1,...: it neither starts
    at 0 nor reaches 7. *)
Lemma ioworker_region_wrap_lbas :
  final_lbas run_wrap
  = Some [1;2;3;4;5;6;0;1;2;3;4;5;6;0;1;2;3;4;5;6]
  /\ final_lbas run_wrap
     <> Some [0;1;2;3;4;5;6;7;0;1;2;3;4;5;6;7;0;1;2;3]
  /\ final_ret run_wrap = Some 0.
Proof. closed. Qed.


Lemma buffer_fill_data_csum_witness :
  exists w' m' tbl' new blk c,
    buffer_fill_data env0 4096 3 2 512 world_buf = inr w'
    /\ dma w' !! 4096 = Some m'
    /\ g_driver_csum_table_ptr w' = Some tbl'
    /\ trace w' = trace world_buf ++ new
    /\ mem_read (512 * 1) 512 m' = Some blk
    /\ c = crc_normalize_spec (u32 (crc32c_sw blk 0))
    /\ EvOracleStore (3 + 1) c ∈ new
    /\ tbl' !! Z.to_nat (3 + 1) = Some c
    /\ 1 <= c <= 0xfffffffe
    /\ table_filled !! 3%nat = Some 3260871929.
Proof.
  destruct (buffer_fill_data_csum_normalized env0 4096 3 2 world_buf
              (replicate 1024 0) (replicate 16 0) 0)
    as (w' & m' & tbl' & new & Hrun & Hm & Ht & Htr & Hblk & _); [closed..|].
  destruct (Hblk 1 ltac:(lia)) as (blk & c & Hrd & Hc & Hin & Hslot & Hr & _).
  exists w', m', tbl', new, blk, c.
  repeat (split; [assumption|]). vm_compute. reflexivity.
Defined.

Lemma token_fetch_add_witness :
  tokens_from 0 = [(0, [0; 1]); (2, [2])]
  /\ [0; 1] = seqZ 0 2
  /\ NoDup [0; 1]
  /\ 0 + 2 <= 2
  /\ forall t1 t2, t1 ∈ [0; 1] -> t2 ∈ [2] -> t1 < t2.
Proof.
  split; [vm_compute; reflexivity|].
  assert (Hrun : exists w',
            write_all env0 two_writes (set_token (Some 0) world_buf)
            = inr ([(0, [0; 1]); (2, [2])], w'))
    by (vm_compute; eexists; reflexivity).
  destruct Hrun as (w' & Hrun).
  apply (token_fetch_add_monotonic env0 two_writes
           (set_token (Some 0) world_buf) 0 [(0, [0; 1]); (2, [2])] w'
           0%nat 1%nat 0 2 [0; 1] [2] (mk_write 4096 3 2 512) Hrun);
    try reflexivity; try lia.
  repeat constructor; simpl; lia.
Defined.

(** With the counter at 2^64 - 1 the first write stamps 2^64 - 1 and 0,
    the second fetches base 1: the earlier write holds a larger token than
    the later one, and the later base is below the earlier base plus its
    count. *)
Lemma token_counter_wraps :
  tokens_from (2^64 - 1)
  = [(18446744073709551615, [18446744073709551615; 0]); (1, [1])]
  /\ 1 < 18446744073709551615
  /\ 1 < 18446744073709551615 + 2.
Proof. closed. Qed.


(** * Further properties *)

(** ** Write, then verify *)

Lemma le_value_le_bytes n v :
  le_value (le_bytes n v) = v mod 256 ^ Z.of_nat n.
Proof.
  revert v. induction n as [|n IH]; intros v.
  - simpl. rewrite Z.mod_1_r. reflexivity.
  - cbn [le_bytes le_value]. rewrite IH.
    rewrite Nat2Z.inj_succ, Z.pow_succ_r by lia.
    rewrite Z.rem_mul_r by lia. lia.
Qed.

Lemma mem_read_sub off len (m blk : list Z) o l :
  mem_read off len m = Some blk ->
  0 <= o -> 0 <= l -> o + l <= len ->
  mem_read (off + o) l m = mem_read o l blk.
Proof.
  intros H Ho Hl Hol.
  pose proof (mem_read_length _ _ _ _ H) as Hlen.
  pose proof H as H'. apply mem_read_inv in H'.
  destruct H' as (H1 & H2 & H3 & Hblk).
  rewrite (mem_read_Some (off + o) l m) by lia.
  rewrite (mem_read_Some o l blk) by lia.
  f_equal. subst blk.
  apply list_eq. intros p.
  destruct (decide (p < Z.to_nat l)%nat) as [Hp|Hp].
  - rewrite !lookup_take_lt by exact Hp. rewrite !lookup_drop.
    rewrite lookup_take_lt by lia. rewrite lookup_drop.
    f_equal. lia.
  - rewrite !lookup_take_ge by lia. reflexivity.
Qed.

Section RoundTrip.
Variable E : environment.

Lemma block_written_verdict (m m' tbl' : list Z) i lba tok :
  0 <= i -> 0 <= lba < 2^64 ->
  block_written (spdk_crc32c_update E) m m' tbl' i lba tok ->
  block_verdict (spdk_crc32c_update E) m' tbl' i lba = Some VPass.
Proof.
  intros Hi Hl (blk & Hblk & Hhead & _ & _ & Hslot).
  unfold block_verdict. rewrite Hslot.
  pose proof (buffer_calc_csum_range (spdk_crc32c_update E) blk) as Hr.
  destruct (Z.eqb_spec (buffer_calc_csum (spdk_crc32c_update E) blk) 0); [lia|].
  destruct (Z.eqb_spec (buffer_calc_csum (spdk_crc32c_update E) blk)
              4294967295); [lia|].
  unfold load64.
  replace (mem_read (512 * i) 8 m') with (mem_read 0 8 blk).
  2:{ symmetry. rewrite <- (mem_read_sub (512 * i) 512 m' blk 0 8 Hblk) by lia.
      f_equal. lia. }
  rewrite Hhead. cbn [fmap option_fmap option_map].
  rewrite le_value_le_bytes.
  change (256 ^ Z.of_nat 8) with (2^64). rewrite Z.mod_small by lia.
  rewrite Z.eqb_refl, Hblk, Z.eqb_refl. reflexivity.
Qed.

Lemma verify_outcome_all_ok crc32c (m tbl : list Z) i lba n r :
  (forall j, 0 <= j < n ->
     verdict_ok (block_verdict crc32c m tbl (i + j) (lba + j))) ->
  verify_outcome crc32c m tbl i lba n r -> r = 0.
Proof.
  intros Hok [[-> _]|(j & Hj & _ & Hf)]; [reflexivity|].
  specialize (Hok j Hj).
  destruct Hok as [Hv|Hv]; rewrite Hv in Hf;
    destruct Hf as [[Hx _]|[[Hx _]|[Hx _]]]; discriminate Hx.
Qed.

(** X1.  Write, then verify: a buffer just stamped by [buffer_fill_data] for
    [n] blocks at LBA [L] verifies against the oracle for the same blocks
    with result 0. *)
Theorem buffer_fill_then_verify :
  forall b L n w (m tbl : list Z) T,
    0 < n < 2^16 -> 0 <= L ->
    dma w !! b = Some m -> 512 * n <= Z.of_nat (length m) ->
    g_driver_csum_table_ptr w = Some tbl ->
    L + n <= Z.of_nat (length tbl) -> Z.of_nat (length tbl) < 2^64 ->
    g_driver_io_token_ptr w = Some T ->
    exists w',
      buffer_fill_data E b L n 512 w = inr w'
      /\ buffer_verify_data E b L n 512 w' = inr 0.
Proof.
  intros b L n w m tbl T Hn HL Hm Hlen Ht Htl Hmax HT.
  destruct (buffer_fill_data_512 E b L n w m tbl T Hn HL Hm Hlen Ht Htl Hmax HT)
    as (m' & tbl' & Hfill & Hlm & Hlt & _ & _ & Hblocks).
  eexists. split; [exact Hfill|].
  unfold buffer_verify_data.
  cbn [g_driver_csum_table_ptr dma log_events set_csum_table set_dma
       set_token].
  rewrite lookup_insert_eq. cbn [default of_option rbind ok].
  destruct (Z.to_nat n) eqn:Hk; [lia|]. rewrite <- Hk.
  destruct (buffer_verify_blocks_returns (spdk_crc32c_update E) (Z.to_nat n)
              0 L m' tbl') as [r Hr]; rewrite ?Z2Nat.id; try lia.
  unfold id. rewrite Hr. f_equal.
  apply buffer_verify_blocks_512 in Hr; rewrite ?Z2Nat.id in *; try lia.
  eapply verify_outcome_all_ok; [|exact Hr].
  intros j Hj. right. rewrite Z.add_0_l.
  eapply block_written_verdict; [lia|lia|].
  apply Hblocks. exact Hj.
Qed.

End RoundTrip.

(** ** [crc32_clear] *)

Lemma memset_slots_whole lba c n (tbl : list Z) :
  0 <= lba -> 0 <= n -> lba + n <= Z.of_nat (length tbl) ->
  exists tbl',
    memset_slots lba c (4 * n) tbl = Some tbl'
    /\ length tbl' = length tbl
    /\ (forall s : nat, lba <= Z.of_nat s < lba + n ->
          tbl' !! s = Some (c * 16843009))
    /\ (forall s : nat, ~ (lba <= Z.of_nat s < lba + n) ->
          tbl' !! s = tbl !! s).
Proof.
  intros Hl Hn Hb. unfold memset_slots.
  replace (4 * n / 4) with n by (rewrite Z.mul_comm, Z.div_mul; lia).
  replace ((4 * n) mod 4) with 0 by (rewrite Z.mul_comm, Z.mod_mul; lia).
  cbn [Z.eqb]. rewrite Z.add_0_r.
  destruct (Z.leb_spec 0 lba); [|lia].
  destruct (Z.leb_spec (lba + n) (Z.of_nat (length tbl))); [|lia].
  cbn [andb]. eexists. split; [reflexivity|].
  assert (Hlt : length (take (Z.to_nat lba) tbl) = Z.to_nat lba)
    by (rewrite length_take; lia).
  split; [|split].
  - rewrite !length_app, Hlt, length_replicate, length_drop. lia.
  - intros s Hs. rewrite lookup_app_r by lia. rewrite Hlt.
    rewrite lookup_app_l by (rewrite length_replicate; lia).
    apply lookup_replicate_2. lia.
  - intros s Hs. destruct (decide (Z.of_nat s < lba)) as [Hlo|Hhi].
    + rewrite lookup_app_l by lia. apply lookup_take_lt. lia.
    + rewrite lookup_app_r by lia. rewrite Hlt.
      rewrite lookup_app_r by (rewrite length_replicate; lia).
      rewrite length_replicate, lookup_drop. f_equal. lia.
Qed.

Lemma buffer_verify_blocks_unmapped crc32c k :
  forall i lba (m tbl : list Z),
    0 <= lba -> lba + Z.of_nat k <= 2^64 ->
    (forall s : nat, lba <= Z.of_nat s < lba + Z.of_nat k ->
       tbl !! s = Some 0) ->
    buffer_verify_blocks crc32c k i lba 512 m tbl = inr 0.
Proof.
  induction k as [|k IH]; intros i lba m tbl Hl Hk Hz; [reflexivity|].
  rewrite Nat2Z.inj_succ, <- Z.add_1_r in *.
  cbn [buffer_verify_blocks].
  destruct (Z.leb_spec 0 lba); [|lia].
  rewrite (Hz (Z.to_nat lba)) by lia. cbn [of_option rbind ok Z.eqb].
  destruct k as [|k']; [reflexivity|].
  rewrite (u64_id (lba + 1)) by lia.
  apply IH; [lia|lia|]. intros s Hs. apply Hz. lia.
Qed.

Lemma crc32_clear_slots :
  forall lba n sanitize uncorr w (tbl : list Z),
    sanitize <> 1 ->
    g_driver_csum_table_ptr w = Some tbl ->
    0 <= lba -> 0 <= n -> lba + n <= Z.of_nat (length tbl) ->
    n < 2^62 ->
    exists tbl',
      crc32_clear lba n sanitize uncorr w
      = inr (log_events
               [EvOracleClear lba (4 * n) (if uncorr =? 0 then 0 else 255)]
               (set_csum_table (Some tbl') w))
      /\ length tbl' = length tbl
      /\ (forall s : nat, lba <= Z.of_nat s < lba + n ->
            tbl' !! s = Some (slot_fill uncorr))
      /\ (forall s : nat, ~ (lba <= Z.of_nat s < lba + n) ->
            tbl' !! s = tbl !! s).
Proof.
  intros lba n sanitize uncorr w tbl Hs Ht Hl Hn Hb Hmax.
  destruct (memset_slots_whole lba (if uncorr =? 0 then 0 else 255) n tbl
              Hl Hn Hb) as (tbl' & Hm & Hlen & Hin & Hout).
  exists tbl'. unfold crc32_clear.
  destruct (Z.eqb_spec sanitize 1); [contradiction|].
  rewrite Ht. cbn [rbind ok assert of_option bool_decide is_Some].
  rewrite bool_decide_eq_true_2 by eauto. cbn [assert rbind ok].
  replace (u64 (n * 4)) with (4 * n) by (rewrite u64_id; lia).
  rewrite Hm. cbn [of_option rbind ok].
  split; [reflexivity|]. split; [exact Hlen|]. split; [|exact Hout].
  intros s Hs'. rewrite (Hin s Hs'). unfold slot_fill.
  destruct (uncorr =? 0); reflexivity.
Qed.

(** X2.  [crc32_clear] on a range (no sanitize): exactly the [n] slots from
    [lba] become 0, or 0xFFFFFFFF when [uncorr] is set; the other slots,
    the token, the buffers and the command logs stay. *)
Theorem crc32_clear_range :
  forall lba n sanitize uncorr w (tbl : list Z),
    sanitize <> 1 ->
    g_driver_csum_table_ptr w = Some tbl ->
    0 <= lba -> 0 <= n -> lba + n <= Z.of_nat (length tbl) ->
    n < 2^62 ->
    exists w' tbl',
      crc32_clear lba n sanitize uncorr w = inr w'
      /\ g_driver_csum_table_ptr w' = Some tbl'
      /\ length tbl' = length tbl
      /\ (forall s : nat, lba <= Z.of_nat s < lba + n ->
            tbl' !! s = Some (slot_fill uncorr))
      /\ (forall s : nat, ~ (lba <= Z.of_nat s < lba + n) ->
            tbl' !! s = tbl !! s)
      /\ g_driver_io_token_ptr w' = g_driver_io_token_ptr w
      /\ dma w' = dma w
      /\ cmd_log_queue_table w' = cmd_log_queue_table w
      /\ inflight w' = inflight w.
Proof.
  intros lba n sanitize uncorr w tbl Hs Ht Hl Hn Hb Hmax.
  destruct (crc32_clear_slots lba n sanitize uncorr w tbl Hs Ht Hl Hn Hb Hmax)
    as (tbl' & Hclr & Hlen & Hin & Hout).
  eexists _, tbl'. split; [exact Hclr|].
  cbn [g_driver_csum_table_ptr g_driver_io_token_ptr dma cmd_log_queue_table
       inflight log_events set_csum_table].
  split; [reflexivity|]. split; [exact Hlen|]. split; [exact Hin|].
  split; [exact Hout|]. repeat split.
Qed.

(** X3.  [crc32_clear] with [sanitize] = 1 ignores the count: it needs
    [lba] = 0 (assertion of line 116) and a reserved table (line 117), and
    then fills all [g_driver_table_size] bytes of the table. *)
Theorem crc32_clear_sanitize :
  forall lba n uncorr w (tbl : list Z),
    g_driver_csum_table_ptr w = Some tbl ->
    (lba <> 0 -> crc32_clear lba n 1 uncorr w = inl (AssertFail 116))
    /\ (lba = 0 -> g_driver_table_size w = 0 ->
        crc32_clear lba n 1 uncorr w = inl (AssertFail 117))
    /\ (lba = 0 -> g_driver_table_size w = 4 * Z.of_nat (length tbl) ->
        tbl <> [] ->
        crc32_clear lba n 1 uncorr w
        = inr (log_events
                 [EvOracleClear 0 (g_driver_table_size w)
                    (if uncorr =? 0 then 0 else 255)]
                 (set_csum_table
                    (Some (replicate (length tbl) (slot_fill uncorr))) w))).
Proof.
  intros lba n uncorr w tbl Ht. unfold crc32_clear. cbn [Z.eqb Pos.eqb].
  split; [|split].
  - intros Hl. destruct (Z.eqb_spec lba 0); [contradiction|]. reflexivity.
  - intros -> Hz. rewrite Hz. reflexivity.
  - intros -> Hz Hne. cbn [Z.eqb assert rbind ok].
    destruct (Z.eqb_spec (g_driver_table_size w) 0) as [H0|H0].
    { destruct tbl; [contradiction|]. simpl length in Hz. lia. }
    cbn [negb assert rbind ok]. rewrite Ht.
    rewrite bool_decide_eq_true_2 by eauto.
    cbn [assert rbind ok of_option].
    destruct (memset_slots_whole 0 (if uncorr =? 0 then 0 else 255)
                (Z.of_nat (length tbl)) tbl) as (tbl' & Hm & Hlen & Hin & _);
      [lia..|].
    rewrite Hz, Hm. cbn [of_option rbind ok].
    assert (tbl' = replicate (length tbl) (slot_fill uncorr)) as ->;
      [|reflexivity].
    apply list_eq. intros s.
    destruct (decide (s < length tbl)%nat) as [Hs|Hs].
    + rewrite Hin by lia. symmetry. rewrite lookup_replicate_2 by lia.
      unfold slot_fill. destruct (uncorr =? 0); reflexivity.
    + rewrite !lookup_ge_None_2; [reflexivity| |lia].
      rewrite length_replicate. lia.
Qed.

Section ClearVerify.
Variable E : environment.

(** X4.  Trim or mark uncorrectable, then read: after [crc32_clear] on a range,
    verifying any blocks inside it never looks at the buffer; it returns 0
    after a trim and -1 after an uncorrectable mark. *)
Theorem crc32_clear_then_verify :
  forall lba n uncorr w (tbl : list Z) b a c,
    g_driver_csum_table_ptr w = Some tbl ->
    0 <= lba -> lba + n <= Z.of_nat (length tbl) ->
    Z.of_nat (length tbl) < 2^62 ->
    lba <= a -> 0 < c -> a + c <= lba + n ->
    exists w',
      crc32_clear lba n 0 uncorr w = inr w'
      /\ buffer_verify_data E b a c 512 w'
         = inr (if uncorr =? 0 then 0 else -1).
Proof.
  intros lba n uncorr w tbl b a c Ht Hl Hb Hmax Ha Hc Hac.
  destruct (crc32_clear_slots lba n 0 uncorr w tbl) as
    (tbl' & Hclr & Hlen & Hin & _); [lia|exact Ht|lia..|].
  eexists. split; [exact Hclr|].
  unfold buffer_verify_data.
  cbn [g_driver_csum_table_ptr log_events set_csum_table of_option rbind ok].
  destruct (Z.to_nat c) as [|k] eqn:Hk; [lia|].
  unfold slot_fill in Hin.
  destruct (Z.eqb_spec uncorr 0) as [Hu|Hu].
  - rewrite <- Hk. apply buffer_verify_blocks_unmapped; [lia| |].
    + rewrite Z2Nat.id by lia. lia.
    + intros s Hs. apply Hin. lia.
  - cbn [buffer_verify_blocks].
    destruct (Z.leb_spec 0 a); [|lia].
    rewrite (Hin (Z.to_nat a)) by lia. reflexivity.
Qed.

End ClearVerify.

(** ** Deallocate through a raw command *)

Lemma le_value_range (bs : list Z) :
  Forall (fun b => 0 <= b < 256) bs ->
  0 <= le_value bs < 256 ^ Z.of_nat (length bs).
Proof.
  induction 1 as [|b bs Hb _ IH]; [simpl; lia|].
  cbn [le_value length]. rewrite Nat2Z.inj_succ, Z.pow_succ_r by lia. lia.
Qed.

Lemma memset_slots_inv lba c n (tbl tbl' : list Z) :
  0 <= n ->
  memset_slots lba c (4 * n) tbl = Some tbl' ->
  0 <= lba /\ lba + n <= Z.of_nat (length tbl).
Proof.
  intros Hn. unfold memset_slots.
  replace (4 * n / 4) with n by (rewrite Z.mul_comm, Z.div_mul; lia).
  replace ((4 * n) mod 4) with 0 by (rewrite Z.mul_comm, Z.mod_mul; lia).
  cbn [Z.eqb]. rewrite Z.add_0_r.
  destruct (Z.leb_spec 0 lba); [|discriminate].
  destruct (Z.leb_spec (lba + n) (Z.of_nat (length tbl))); [|discriminate].
  intros _. lia.
Qed.

(** What a trim that returns has done. *)
Lemma crc32_clear_trim_inv start len w w' (tbl : list Z) :
  0 <= len < 2^62 ->
  g_driver_csum_table_ptr w = Some tbl ->
  crc32_clear start len 0 0 w = inr w' ->
  exists tbl',
    g_driver_csum_table_ptr w' = Some tbl'
    /\ dma w' = dma w
    /\ length tbl' = length tbl
    /\ (forall s : nat, start <= Z.of_nat s < start + len ->
          tbl' !! s = Some 0)
    /\ (forall s : nat, ~ (start <= Z.of_nat s < start + len) ->
          tbl' !! s = tbl !! s).
Proof.
  intros Hlen Ht H.
  assert (Hb : 0 <= start /\ start + len <= Z.of_nat (length tbl)).
  { unfold crc32_clear in H. cbn [Z.eqb rbind ok] in H.
    rewrite Ht in H. rewrite bool_decide_eq_true_2 in H by eauto.
    cbn [assert rbind ok of_option] in H.
    replace (u64 (len * 4)) with (4 * len) in H by (rewrite u64_id; lia).
    destruct (memset_slots start 0 (4 * len) tbl) as [t|] eqn:Hm;
      [|discriminate].
    eapply memset_slots_inv; [|exact Hm]. lia. }
  destruct (crc32_clear_slots start len 0 0 w tbl) as
    (tbl' & Hclr & Hl & Hin & Hout); [lia|exact Ht|lia..|].
  rewrite Hclr in H. injection H as <-.
  exists tbl'. cbn. repeat split; auto.
Qed.

Lemma mem_read_bytes off len (m r : list Z) :
  Forall (fun b => 0 <= b < 256) m ->
  mem_read off len m = Some r ->
  Forall (fun b => 0 <= b < 256) r.
Proof.
  intros Hm H. apply mem_read_inv in H. destruct H as (_ & _ & _ & ->).
  apply Forall_take, Forall_drop, Hm.
Qed.

Section Deallocate.
Variable E : environment.

Lemma nvme_deallocate_ranges_from_unmaps k :
  forall i (ranges : list Z) w w' (tbl : list Z),
    Forall (fun b => 0 <= b < 256) ranges ->
    g_driver_csum_table_ptr w = Some tbl ->
    nvme_deallocate_ranges_from k i ranges w = inr w' ->
    exists tbl',
      g_driver_csum_table_ptr w' = Some tbl'
      /\ dma w' = dma w
      /\ length tbl' = length tbl
      /\ forall s : nat,
           tbl' !! s = if dsm_covers ranges k i (Z.of_nat s) then Some 0
                       else tbl !! s.
Proof.
  induction k as [|k IH]; intros i ranges w w' tbl Hb Ht H.
  - simpl in H. injection H as <-. exists tbl. auto.
  - cbn [nvme_deallocate_ranges_from] in H.
    apply rbind_inr in H. destruct H as (len & Hlen & H).
    apply of_option_inr in Hlen.
    apply rbind_inr in H. destruct H as (start & Hstart & H).
    apply of_option_inr in Hstart.
    apply rbind_inr in H. destruct H as (w1 & Hclr & H).
    destruct (mem_read (16 * i + 4) 4 ranges) as [lb|] eqn:Hlb;
      [|discriminate].
    cbn [fmap option_fmap option_map] in Hlen. injection Hlen as <-.
    assert (Hrange : 0 <= le_value lb < 2^62).
    { pose proof (le_value_range lb (mem_read_bytes _ _ _ _ Hb Hlb)) as Hr.
      rewrite (mem_read_length _ _ _ _ Hlb) in Hr.
      change (256 ^ Z.of_nat (Z.to_nat 4)) with (2^32) in Hr. lia. }
    destruct (crc32_clear_trim_inv start (le_value lb) w w1 tbl Hrange Ht Hclr)
      as (tbl1 & Ht1 & Hd1 & Hl1 & Hin1 & Hout1).
    destruct (IH (i + 1) ranges w1 w' tbl1 Hb Ht1 H)
      as (tbl' & Ht' & Hd' & Hl' & Hs').
    exists tbl'. split; [exact Ht'|]. split; [congruence|].
    split; [congruence|].
    intros s. rewrite Hs'. cbn [dsm_covers]. unfold dsm_range_at.
    rewrite Hstart, Hlb.
    destruct (dsm_covers ranges k (i + 1) (Z.of_nat s));
      [rewrite orb_true_r; reflexivity|].
    rewrite orb_false_r.
    destruct (Z.leb_spec start (Z.of_nat s));
      destruct (Z.ltb_spec (Z.of_nat s) (start + le_value lb)); cbn [andb];
      try (apply Hout1; lia).
    apply Hin1. lia.
Qed.

(** X5.  Deallocate through a raw command: [nvme_send_cmd_raw] with opcode 9 on
    an I/O queue reads [cdw10 + 1] ranges from the buffer and unmaps their
    blocks in the oracle; every other slot keeps its value.  With any other opcode, or on the admin queue, the
    oracle is not touched. *)
Theorem nvme_send_cmd_raw_deallocates :
  forall qpair opcode nsid b len c10 c11 c12 c13 c14 c15 fn arg w rc w'
         (tbl : list Z),
    nvme_send_cmd_raw E qpair opcode nsid b len c10 c11 c12 c13 c14 c15
      fn arg w = inr (rc, w') ->
    g_driver_csum_table_ptr w = Some tbl ->
    Forall (fun x => 0 <= x < 256) (default [] (dma w !! b)) ->
    exists tbl',
      g_driver_csum_table_ptr w' = Some tbl'
      /\ length tbl' = length tbl
      /\ (forall s : nat,
            tbl' !! s
            = if bool_decide (is_Some qpair) && (u32 opcode =? 9)
                 && dsm_covers (default [] (dma w !! b))
                      (Z.to_nat (u32 (c10 + 1))) 0 (Z.of_nat s)
              then Some 0 else tbl !! s)
      /\ dma w' = dma w
      /\ g_driver_io_token_ptr w' = g_driver_io_token_ptr w.
Proof.
  intros qpair opcode nsid b len c10 c11 c12 c13 c14 c15 fn arg w rc w' tbl
    H Ht Hb.
  unfold nvme_send_cmd_raw in H.
  apply rbind_inr in H. destruct H as ([r w1] & Hadd & H).
  assert (Hw1 : g_driver_csum_table_ptr w1 = Some tbl /\ dma w1 = dma w
                /\ g_driver_io_token_ptr w1 = g_driver_io_token_ptr w).
  { unfold cmd_log_add_cmd in Hadd. res_all. unfold gettimeofday in *.
    res_all. cbn. auto. }
  destruct Hw1 as (Ht1 & Hd1 & Hk1).
  destruct qpair as [q|].
  - apply rbind_inr in H. destruct H as (w2 & Hdsm & H).
    injection H as H.
    pose proof (spdk_io_raw_frame E q
                  (mk_cmd (u8 opcode) (u32 nsid) (u32 c10) (u32 c11) (u32 c12)
                     (u32 c13) (u32 c14) (u32 c15)) b len r w2) as Hf.
    rewrite H in Hf. cbn [fst snd] in Hf.
    destruct Hf as (Hfd & Hft & Hfk & _).
    rewrite bool_decide_eq_true_2 by eauto. cbn [andb].
    destruct (u32 opcode =? 9).
    + unfold nvme_deallocate_ranges in Hdsm. rewrite Hd1 in Hdsm.
      destruct (nvme_deallocate_ranges_from_unmaps _ _ _ _ _ _ Hb Ht1 Hdsm)
        as (tbl' & Ht' & Hd' & Hl' & Hs').
      exists tbl'. rewrite Hft, Hfd, Hfk.
      split; [exact Ht'|]. split; [exact Hl'|].
      split; [intros s; cbn [andb]; apply Hs'|].
      split; [congruence|].
      rewrite <- Hk1. clear - Hdsm.
      revert Hdsm. generalize 0 at 1. generalize (Z.to_nat (u32 (c10 + 1))).
      intros k. revert w1. induction k as [|k IH]; intros w1 i Hdsm.
      * simpl in Hdsm. injection Hdsm as <-. reflexivity.
      * cbn [nvme_deallocate_ranges_from] in Hdsm. res_all.
        match goal with
        | Hr : nvme_deallocate_ranges_from _ _ _ ?w3 = inr _,
          Hc : crc32_clear _ _ _ _ _ = inr ?w3 |- _ =>
            rewrite (IH _ _ Hr); unfold crc32_clear in Hc; res_all;
            reflexivity
        end.
    + injection Hdsm as <-. exists tbl. rewrite Hft, Hfd, Hfk.
      cbn [andb]. auto.
  - injection H as H. cbn [andb].
    rewrite bool_decide_eq_false_2 by (intros [? ?]; discriminate).
    assert (Hf : dma w' = dma w1
                 /\ g_driver_csum_table_ptr w' = g_driver_csum_table_ptr w1
                 /\ g_driver_io_token_ptr w' = g_driver_io_token_ptr w1).
    { unfold spdk_nvme_ctrlr_cmd_admin_raw in H.
      destruct (submit_rc_nth E (n_submit w1) =? 0);
        injection H as _ <-; cbn; auto. }
    destruct Hf as (Hfd & Hft & Hfk).
    exists tbl. rewrite Hft, Hfd, Hfk. cbn [andb]. auto.
Qed.

End Deallocate.

(** ** The command log as a ring *)

Section Ring.
Variable E : environment.

Lemma cmd_log_add_cmd_ring qid x w t :
  qid < CMD_LOG_MAX_Q -> 0 <= t < CMD_LOG_DEPTH ->
  log_table_at w qid t ->
  exists w1 e,
    cmd_log_add_cmd E qid (it_buf x) (it_lba x) (it_count x) (it_size x)
      (it_cmd x) (it_fn x) (it_arg x) w = inr (mk_ref qid t, w1)
    /\ log_table_at w1 qid ((t + 1) mod CMD_LOG_DEPTH)
    /\ log_entry_at (mk_ref qid t) w1 = Some e /\ logs_item e x
    /\ (forall r, r <> mk_ref qid t ->
          log_entry_at r w1 = log_entry_at r w)
    /\ g_driver_csum_table_ptr w1 = g_driver_csum_table_ptr w
    /\ dma w1 = dma w.
Proof.
  intros Hq Ht (logt & Hl & Htail & Hlen). subst t.
  destruct (cmd_log_add_cmd_Some E qid (it_buf x) (it_lba x) (it_count x)
              (it_size x) (it_cmd x) (it_fn x) (it_arg x) w logt Hl Hq Ht Hlen)
    as (old & tail' & Hold & Hadd).
  eexists _, _. split; [exact Hadd|].
  assert (Htl : tail' = (tail_index logt + 1) mod CMD_LOG_DEPTH).
  { unfold cmd_log_add_cmd in Hadd. rewrite Hl in Hadd.
    cbn [of_option rbind ok] in Hadd.
    destruct (Z.ltb_spec qid CMD_LOG_MAX_Q); [|lia].
    destruct (Z.ltb_spec (tail_index logt) CMD_LOG_DEPTH); [|lia].
    cbn [assert rbind ok] in Hadd.
    unfold log_entry_at in Hadd. cbn [ref_qid ref_idx] in Hadd.
    rewrite Hl in Hadd.
    destruct (Z.leb_spec 0 (tail_index logt)); [|lia].
    rewrite Hold in Hadd. cbn [of_option rbind ok gettimeofday] in Hadd.
    injection Hadd as Hadd.
    apply (f_equal (fun m => tail_index <$> m !! qid)) in Hadd.
    rewrite !lookup_insert_eq in Hadd. cbn in Hadd. injection Hadd as <-.
    unfold CMD_LOG_DEPTH in *. rewrite u32_id by lia.
    destruct (Z.eqb_spec (tail_index logt + 1) 2048) as [He|He].
    - rewrite He. reflexivity.
    - rewrite Z.mod_small by lia. reflexivity. }
  split; [|split; [|split; [|split; [|split]]]].
  - eexists. cbn [cmd_log_queue_table set_cmd_logs].
    rewrite lookup_insert_eq. split; [reflexivity|]. cbn [tail_index table].
    split; [exact Htl|]. rewrite length_insert. exact Hlen.
  - unfold log_entry_at. cbn [ref_qid ref_idx cmd_log_queue_table set_cmd_logs].
    rewrite lookup_insert_eq. cbn [table].
    destruct (Z.leb_spec 0 (tail_index logt)); [|lia].
    apply list_lookup_insert_eq. apply lookup_lt_Some in Hold. exact Hold.
  - repeat split.
  - intros [q j] Hne. unfold log_entry_at.
    cbn [ref_qid ref_idx cmd_log_queue_table set_cmd_logs tick_clock].
    destruct (decide (q = qid)) as [->|Hqq].
    + rewrite lookup_insert_eq, Hl. cbn [table].
      destruct (Z.leb_spec 0 j); [|reflexivity].
      apply list_lookup_insert_ne. intros Heq.
      apply Hne. f_equal. lia.
    + rewrite lookup_insert_ne by congruence. reflexivity.
  - reflexivity.
  - reflexivity.
Qed.

Lemma ring_shift t k :
  ((t + 1) mod CMD_LOG_DEPTH + k) mod CMD_LOG_DEPTH
  = (t + (1 + k)) mod CMD_LOG_DEPTH.
Proof. rewrite Zplus_mod_idemp_l. f_equal. lia. Qed.

Lemma ring_distinct t k :
  0 <= t < CMD_LOG_DEPTH -> 0 < k < CMD_LOG_DEPTH ->
  (t + k) mod CMD_LOG_DEPTH <> t.
Proof.
  unfold CMD_LOG_DEPTH. intros Ht Hk Heq.
  pose proof (Z.div_mod (t + k) 2048 ltac:(lia)) as Hdm.
  rewrite Heq in Hdm. lia.
Qed.

Lemma cmd_log_add_many_ring :
  forall (xs : list log_item) qid w t,
    qid < CMD_LOG_MAX_Q -> 0 <= t < CMD_LOG_DEPTH ->
    log_table_at w qid t ->
    exists refs w',
      cmd_log_add_many E qid xs w = inr (refs, w')
      /\ log_table_at w' qid ((t + Z.of_nat (length xs)) mod CMD_LOG_DEPTH)
      /\ (forall (k : nat) x, xs !! k = Some x ->
            let r := mk_ref qid ((t + Z.of_nat k) mod CMD_LOG_DEPTH) in
            refs !! k = Some r
            /\ (Z.of_nat (length xs) <= Z.of_nat k + CMD_LOG_DEPTH ->
                exists e, log_entry_at r w' = Some e /\ logs_item e x))
      /\ (forall r,
            (forall k : nat, (k < length xs)%nat ->
               r <> mk_ref qid ((t + Z.of_nat k) mod CMD_LOG_DEPTH)) ->
            log_entry_at r w' = log_entry_at r w).
Proof.
  induction xs as [|x xs IH]; intros qid w t Hq Ht Hw.
  - exists [], w. split; [reflexivity|]. split.
    + cbn [length]. rewrite Z.add_0_r, Z.mod_small by exact Ht. exact Hw.
    + split; [intros k x Hk; discriminate|reflexivity].
  - destruct (cmd_log_add_cmd_ring qid x w t Hq Ht Hw)
      as (w1 & e & Hadd & Hw1 & He & Hx & Hother & _).
    assert (Ht1 : 0 <= (t + 1) mod CMD_LOG_DEPTH < CMD_LOG_DEPTH)
      by (apply Z.mod_pos_bound; reflexivity).
    destruct (IH qid w1 _ Hq Ht1 Hw1) as (refs & w' & Hmany & Hw' & Hks & Hrest).
    exists (mk_ref qid t :: refs), w'.
    cbn [cmd_log_add_many]. rewrite Hadd. cbn [rbind]. rewrite Hmany.
    cbn [rbind ok]. split; [reflexivity|]. split; [|split].
    + rewrite ring_shift in Hw'. cbn [length]. rewrite Nat2Z.inj_succ.
      replace (t + Z.succ (Z.of_nat (length xs)))
        with (t + (1 + Z.of_nat (length xs))) by lia. exact Hw'.
    + intros [|k] y Hk; cbn zeta.
      * cbn in Hk. injection Hk as <-.
        cbn [Z.of_nat]. rewrite Z.add_0_r, Z.mod_small by exact Ht.
        split; [reflexivity|]. intros Hlen. exists e. split; [|exact Hx].
        rewrite Hrest; [exact He|].
        intros k Hk Heq. injection Heq as Heq.
        rewrite ring_shift in Heq. symmetry in Heq.
        revert Heq. apply ring_distinct; [exact Ht|].
        cbn [length] in Hlen. unfold CMD_LOG_DEPTH in *. lia.
      * cbn [lookup] in Hk. change ((x :: xs) !! S k) with (xs !! k) in Hk.
        destruct (Hks k y Hk) as (Hr & Hsurv).
        rewrite ring_shift in Hr, Hsurv.
        replace (t + Z.of_nat (S k)) with (t + (1 + Z.of_nat k)) by lia.
        split; [exact Hr|]. intros Hlen. apply Hsurv.
        cbn [length] in Hlen. lia.
    + intros r Hr. rewrite Hrest.
      * apply Hother. specialize (Hr 0%nat ltac:(cbn [length]; lia)).
        cbn [Z.of_nat] in Hr. rewrite Z.add_0_r, Z.mod_small in Hr by exact Ht.
        exact Hr.
      * intros k Hk. rewrite ring_shift.
        specialize (Hr (S k) ltac:(cbn [length]; lia)).
        replace (t + Z.of_nat (S k)) with (t + (1 + Z.of_nat k)) in Hr by lia.
        exact Hr.
Qed.

(** X6.  The command log of a queue is a ring of [CMD_LOG_DEPTH] = 2048
    entries.  On a queue that has its table, any number of commands can be
    logged: the k-th goes to slot [(tail + k) mod 2048], the tail ends at
    [(tail + n) mod 2048], each of the last 2048 commands is still found
    in its slot with what was logged, command [k + 2048] takes the slot of
    command [k], and every slot not used is as it was. *)
Theorem cmd_log_ring :
  forall (xs : list log_item) qid w t,
    qid < CMD_LOG_MAX_Q -> 0 <= t < CMD_LOG_DEPTH ->
    log_table_at w qid t ->
    exists refs w',
      cmd_log_add_many E qid xs w = inr (refs, w')
      /\ log_table_at w' qid ((t + Z.of_nat (length xs)) mod CMD_LOG_DEPTH)
      /\ (forall (k : nat) x, xs !! k = Some x ->
            let r := mk_ref qid ((t + Z.of_nat k) mod CMD_LOG_DEPTH) in
            refs !! k = Some r
            /\ (Z.of_nat (length xs) <= Z.of_nat k + CMD_LOG_DEPTH ->
                exists e, log_entry_at r w' = Some e /\ logs_item e x))
      /\ (forall (k : nat) x, xs !! (k + 2048)%nat = Some x ->
            refs !! (k + 2048)%nat = refs !! k)
      /\ (forall r,
            (forall k : nat, (k < length xs)%nat ->
               r <> mk_ref qid ((t + Z.of_nat k) mod CMD_LOG_DEPTH)) ->
            log_entry_at r w' = log_entry_at r w).
Proof.
  intros xs qid w t Hq Ht Hw.
  destruct (cmd_log_add_many_ring xs qid w t Hq Ht Hw)
    as (refs & w' & Hmany & Htail & Hks & Hrest).
  exists refs, w'. split; [exact Hmany|]. split; [exact Htail|].
  split; [exact Hks|]. split; [|exact Hrest].
  intros k x Hk.
  assert (Hk0 : is_Some (xs !! k)).
  { apply lookup_lt_is_Some. apply lookup_lt_Some in Hk. lia. }
  destruct Hk0 as [x0 Hk0].
  destruct (Hks _ _ Hk) as [Hr _]. destruct (Hks _ _ Hk0) as [Hr0 _].
  rewrite Hr, Hr0. do 2 f_equal.
  rewrite Nat2Z.inj_add. change (Z.of_nat 2048) with (1 * CMD_LOG_DEPTH).
  rewrite Z.add_assoc. apply Z.mod_add. discriminate.
Qed.

End Ring.

(** ** One completion, one send: the steps of the worker *)

Section Decompose.
Variable E : environment.

Lemma ioworker_one_cb_error_fixed c k :
  worker_fixed (ioworker_one_cb_error c k) = worker_fixed k
  /\ io_count_cplt (wk_gctx (ioworker_one_cb_error c k))
     = io_count_cplt (wk_gctx k)
  /\ io_count_read (wk_rets (ioworker_one_cb_error c k))
     = io_count_read (wk_rets k)
  /\ io_count_write (wk_rets (ioworker_one_cb_error c k))
     = io_count_write (wk_rets k)
  /\ (flag_finish (wk_gctx k) = true ->
      flag_finish (wk_gctx (ioworker_one_cb_error c k)) = true).
Proof.
  unfold ioworker_one_cb_error.
  repeat match goal with |- context [if ?b then _ else _] => destruct b end;
    cbn; auto.
Qed.

Lemma ioworker_update_per_second_fixed k k' :
  ioworker_update_io_count_per_second k = inr k' ->
  worker_fixed k' = worker_fixed k
  /\ io_count_cplt (wk_gctx k') = io_count_cplt (wk_gctx k)
  /\ wk_rets k' = wk_rets k
  /\ flag_finish (wk_gctx k') = flag_finish (wk_gctx k).
Proof.
  unfold ioworker_update_io_count_per_second, array_update. intros H.
  res_all. cbn. auto.
Qed.

(** A completion handled by [ioworker_one_cb]: the bookkeeping up to the
    final decision ([k7], [w4]), then at most one [ioworker_send_one]. *)
Lemma ioworker_one_cb_steps_sts i c k w k' w' :
  ioworker_one_cb E i c k w = inr (k', w') ->
  exists ctx k7 w4 sleeps,
    (exists tbl old,
       g_ioworker_status_table w = Some tbl
       /\ 0 <= wid (wk_args k)
       /\ tbl !! Z.to_nat (wid (wk_args k)) = Some old
       /\ g_ioworker_status_table w4
          = Some (<[Z.to_nat (wid (wk_args k)) :=
                     mk_sts (sts_io_count_sent old)
                       (u64 (io_count_cplt (wk_gctx k) + 1))]> tbl))
    /\ (io_delay_time (wk_gctx k7) = io_delay_time (wk_gctx k)
        /\ (tv_usec (io_delay_time (wk_gctx k)) = 0 -> sleeps = []))
    /\ 0 <= i /\ wk_io_ctx k !! Z.to_nat i = Some ctx
    /\ worker_fixed k7 = worker_fixed k
    /\ io_count_cplt (wk_gctx k7) = u64 (io_count_cplt (wk_gctx k) + 1)
    /\ io_count_read (wk_rets k7)
       = (if is_read ctx then u64 (io_count_read (wk_rets k) + 1)
          else io_count_read (wk_rets k))
    /\ io_count_write (wk_rets k7)
       = (if is_read ctx then io_count_write (wk_rets k)
          else u64 (io_count_write (wk_rets k) + 1))
    /\ world_fixed w4 = world_fixed w
    /\ trace w4 = trace w ++ sleeps /\ Forall is_sleep sleeps
    /\ (flag_finish (wk_gctx k) = true -> flag_finish (wk_gctx k7) = true)
    /\ (finish_after c (read_percentage (wk_args k))
          (flag_finish (wk_gctx k)) = true ->
        flag_finish (wk_gctx k7) = true)
    /\ ((flag_finish (wk_gctx k7) = true /\ k' = k7 /\ w' = w4)
        \/ (flag_finish (wk_gctx k7) = false
            /\ io_count_sent (wk_gctx k7) < io_count (wk_args k7)
            /\ exists r, ioworker_send_one E i k7 w4 = inr (r, k', w'))).
Proof.
  unfold ioworker_one_cb. intros H.
  apply rbind_inr in H. destruct H as (ctx & Hctx & H).
  apply of_option_inr in Hctx.
  destruct (Z.leb_spec 0 i); [|discriminate].
  apply rbind_inr in H. destruct H as (w1 & Hsts & H).
  unfold gettimeofday in H.
  destruct (ioworker_update_rets ctx _ _) as [lat rets1] eqn:Hur.
  apply rbind_inr in H. destruct H as (k3 & Hk3 & H).
  match type of H with
  | (let (_, _) := ?x in _) = _ => destruct x as [k4 w3] eqn:Hthr
  end.
  apply rbind_inr in H. destruct H as (k6 & Hk6 & H).
  apply rbind_inr in H. destruct H as ([k7 w4] & Hfin & H).
  exists ctx, k7, w4.
  (* the status store *)
  assert (Hw1 : world_fixed w1 = world_fixed w /\ trace w1 = trace w).
  { clear - Hsts. unfold sts_store in Hsts. res_all. cbn. auto. }
  assert (Hs1 : exists tbl old,
            g_ioworker_status_table w = Some tbl
            /\ 0 <= wid (wk_args k)
            /\ tbl !! Z.to_nat (wid (wk_args k)) = Some old
            /\ g_ioworker_status_table w1
               = Some (<[Z.to_nat (wid (wk_args k)) :=
                          mk_sts (sts_io_count_sent old)
                            (u64 (io_count_cplt (wk_gctx k) + 1))]> tbl)).
  { clear - Hsts. unfold sts_store in Hsts.
    apply rbind_inr in Hsts. destruct Hsts as (tbl & Htbl & Hsts).
    apply of_option_inr in Htbl.
    apply rbind_inr in Hsts. destruct Hsts as (old & Hold & Hsts).
    apply of_option_inr in Hold.
    destruct (Z.leb_spec 0 (wid (wk_args k))); [|discriminate].
    injection Hsts as <-. exists tbl, old. cbn. auto. }
  (* the returns *)
  assert (Hrets : io_count_read rets1
                  = (if is_read ctx then u64 (io_count_read (wk_rets k) + 1)
                     else io_count_read (wk_rets k))
                  /\ io_count_write rets1
                     = (if is_read ctx then io_count_write (wk_rets k)
                        else u64 (io_count_write (wk_rets k) + 1))).
  { unfold ioworker_update_rets in Hur. destruct (is_read ctx);
      injection Hur as _ <-; cbn; auto. }
  (* the latency counters *)
  assert (H3 : worker_fixed k3 = worker_fixed k
               /\ io_count_cplt (wk_gctx k3) = u64 (io_count_cplt (wk_gctx k) + 1)
               /\ wk_rets k3 = rets1
               /\ flag_finish (wk_gctx k3) = flag_finish (wk_gctx k)).
  { destruct (negb (io_counter_per_latency (wk_args k) =? 0)).
    - clear - Hk3. unfold array_update in Hk3. res_all. cbn. auto.
    - injection Hk3 as <-. cbn. auto. }
  destruct H3 as (H3f & H3c & H3r & H3g).
  assert (Hd3 : io_delay_time (wk_gctx k3) = io_delay_time (wk_gctx k)).
  { destruct (negb (io_counter_per_latency (wk_args k) =? 0)).
    - clear - Hk3. unfold array_update in Hk3. res_all. reflexivity.
    - injection Hk3 as <-. reflexivity. }
  (* the throttle *)
  assert (H4 : worker_fixed k4 = worker_fixed k3
               /\ io_count_cplt (wk_gctx k4) = io_count_cplt (wk_gctx k3)
               /\ wk_rets k4 = wk_rets k3
               /\ flag_finish (wk_gctx k4) = flag_finish (wk_gctx k3)
               /\ world_fixed w3 = world_fixed w1
               /\ exists sl, trace w3 = trace w1 ++ sl /\ Forall is_sleep sl
                    /\ (tv_usec (io_delay_time (wk_gctx k3)) = 0 -> sl = [])).
  { destruct (negb (tv_usec (io_delay_time (wk_gctx k3)) =? 0)) eqn:Hz.
    - unfold ioworker_one_io_throttle in Hthr.
      destruct (timercmp_gt _ _); injection Hthr as <- <-; cbn.
      + repeat split; auto. eexists. split; [reflexivity|].
        split; [constructor; [exact I|constructor]|].
        intros Hu. rewrite Hu in Hz. discriminate.
      + repeat split; auto. exists []. rewrite app_nil_r. auto.
    - injection Hthr as <- <-. repeat split; auto.
      exists []. rewrite app_nil_r. auto. }
  destruct H4 as (H4f & H4c & H4r & H4g & H4w & sl & H4t & H4s & H4z).
  assert (Hd4 : io_delay_time (wk_gctx k4) = io_delay_time (wk_gctx k3)).
  { destruct (negb (tv_usec (io_delay_time (wk_gctx k3)) =? 0)).
    - unfold ioworker_one_io_throttle in Hthr.
      injection Hthr as <- _. reflexivity.
    - injection Hthr as <- _. reflexivity. }
  assert (Hd5 : io_delay_time (wk_gctx (ioworker_one_cb_error c k4))
                = io_delay_time (wk_gctx k4)).
  { unfold ioworker_one_cb_error.
    repeat match goal with |- context [if ?b then _ else _] => destruct b end;
      reflexivity. }
  assert (Hs3 : g_ioworker_status_table w3 = g_ioworker_status_table w1).
  { destruct (negb (tv_usec (io_delay_time (wk_gctx k3)) =? 0)).
    - unfold ioworker_one_io_throttle in Hthr.
      destruct (timercmp_gt _ _); injection Hthr as _ <-; reflexivity.
    - injection Hthr as _ <-. reflexivity. }
  exists sl.
  destruct (ioworker_one_cb_error_fixed c k4) as (H5f & H5c & H5rd & H5wr & H5g).
  destruct (ioworker_one_cb_error_effect c k4) as (_ & H5e).
  (* the per-second counters *)
  assert (H6 : worker_fixed k6 = worker_fixed (ioworker_one_cb_error c k4)
               /\ io_count_cplt (wk_gctx k6)
                  = io_count_cplt (wk_gctx (ioworker_one_cb_error c k4))
               /\ wk_rets k6 = wk_rets (ioworker_one_cb_error c k4)
               /\ flag_finish (wk_gctx k6)
                  = flag_finish (wk_gctx (ioworker_one_cb_error c k4))).
  { destruct (negb (io_counter_per_second (wk_args k) =? 0)).
    - destruct (timercmp_gt _ _).
      + apply ioworker_update_per_second_fixed in Hk6. exact Hk6.
      + injection Hk6 as <-. auto.
    - injection Hk6 as <-. auto. }
  destruct H6 as (H6f & H6c & H6r & H6g).
  assert (Hd6 : io_delay_time (wk_gctx k6)
                = io_delay_time (wk_gctx (ioworker_one_cb_error c k4))).
  { destruct (negb (io_counter_per_second (wk_args k) =? 0)).
    - destruct (timercmp_gt _ _).
      + clear - Hk6.
        unfold ioworker_update_io_count_per_second, array_update in Hk6.
        res_all. reflexivity.
      + injection Hk6 as <-. reflexivity.
    - injection Hk6 as <-. reflexivity. }
  (* the finish flag *)
  assert (H7 : worker_fixed k7 = worker_fixed k6
               /\ io_count_cplt (wk_gctx k7) = io_count_cplt (wk_gctx k6)
               /\ wk_rets k7 = wk_rets k6
               /\ world_fixed w4 = world_fixed w3 /\ trace w4 = trace w3
               /\ (flag_finish (wk_gctx k6) = true ->
                   flag_finish (wk_gctx k7) = true)
               /\ (flag_finish (wk_gctx k7) = false ->
                   io_count_sent (wk_gctx k6) < io_count (wk_args k))).
  { destruct (flag_finish (wk_gctx k6)) eqn:Hf6; cbn [negb] in Hfin.
    - injection Hfin as <- <-. repeat split; auto. congruence.
    - apply rbind_inr in Hfin. destruct Hfin as ([fin w5] & Hfin & Hk7).
      injection Hk7 as <- <-.
      unfold ioworker_send_one_is_finish in Hfin.
      destruct (Z.eqb_spec (io_count_sent (wk_gctx k6)) (io_count (wk_args k))).
      + injection Hfin as <- <-. cbn. repeat split; auto. discriminate.
      + apply rbind_inr in Hfin. destruct Hfin as (u & Hlt & Hfin).
        apply assert_inr in Hlt. apply Z.ltb_lt in Hlt.
        unfold gettimeofday in Hfin. injection Hfin as <- <-.
        cbn. repeat split; auto. discriminate. }
  destruct H7 as (H7f & H7c & H7r & H7w & H7t & H7g & H7s).
  assert (Hs4 : g_ioworker_status_table w4 = g_ioworker_status_table w3).
  { destruct (flag_finish (wk_gctx k6)); cbn [negb] in Hfin.
    - injection Hfin as _ <-. reflexivity.
    - apply rbind_inr in Hfin. destruct Hfin as ([fin w5] & Hfin & Hk7).
      injection Hk7 as _ <-.
      unfold ioworker_send_one_is_finish in Hfin.
      destruct (io_count_sent (wk_gctx k6) =? io_count (wk_args k)).
      + injection Hfin as _ <-. reflexivity.
      + apply rbind_inr in Hfin. destruct Hfin as (u & _ & Hfin).
        unfold gettimeofday in Hfin. injection Hfin as _ <-. reflexivity. }
  assert (Hd7 : io_delay_time (wk_gctx k7) = io_delay_time (wk_gctx k6)).
  { destruct (flag_finish (wk_gctx k6)); cbn [negb] in Hfin.
    - injection Hfin as <- _. reflexivity.
    - apply rbind_inr in Hfin. destruct Hfin as ([fin w5] & Hfin & Hk7).
      injection Hk7 as <- _. reflexivity. }
  split.
  { destruct Hs1 as (tbl & old & Ht & Hwid & Hold & Hs1).
    exists tbl, old. rewrite Hs4, Hs3. auto. }
  split.
  { split; [congruence|]. intros Hu. apply H4z. rewrite Hd3. exact Hu. }
  assert (Hfix : worker_fixed k7 = worker_fixed k) by congruence.
  assert (Hargs : wk_args k7 = wk_args k)
    by (unfold worker_fixed in Hfix; congruence).
  assert (Hsent : io_count_sent (wk_gctx k7) = io_count_sent (wk_gctx k6))
    by (unfold worker_fixed in H7f; congruence).
  split; [assumption|]. split; [exact Hctx|]. split; [exact Hfix|].
  split; [congruence|].
  split; [rewrite H7r, H6r, H5rd, H4r, H3r; apply Hrets|].
  split; [rewrite H7r, H6r, H5wr, H4r, H3r; apply Hrets|].
  split; [destruct Hw1; congruence|].
  split; [destruct Hw1; congruence|]. split; [exact H4s|].
  split.
  { intros Hf. apply H7g. rewrite H6g. apply H5g. congruence. }
  split.
  { intros Hf. apply H7g. rewrite H6g, H5e.
    assert (read_percentage (wk_args k4) = read_percentage (wk_args k)) as ->
      by (unfold worker_fixed in *; congruence).
    rewrite H4g, H3g. exact Hf. }
  destruct (flag_finish (wk_gctx k7)) eqn:Hf7; cbn [negb] in H.
  - left. injection H as <- <-. auto.
  - right. split; [reflexivity|]. split; [rewrite Hargs, Hsent; auto|].
    apply rbind_inr in H. destruct H as ([[r k8] w5] & Hsend & H).
    injection H as <- <-. exists r. exact Hsend.
Qed.

Lemma ioworker_one_cb_steps i c k w k' w' :
  ioworker_one_cb E i c k w = inr (k', w') ->
  exists ctx k7 w4 sleeps,
    0 <= i /\ wk_io_ctx k !! Z.to_nat i = Some ctx
    /\ worker_fixed k7 = worker_fixed k
    /\ io_count_cplt (wk_gctx k7) = u64 (io_count_cplt (wk_gctx k) + 1)
    /\ io_count_read (wk_rets k7)
       = (if is_read ctx then u64 (io_count_read (wk_rets k) + 1)
          else io_count_read (wk_rets k))
    /\ io_count_write (wk_rets k7)
       = (if is_read ctx then io_count_write (wk_rets k)
          else u64 (io_count_write (wk_rets k) + 1))
    /\ world_fixed w4 = world_fixed w
    /\ trace w4 = trace w ++ sleeps /\ Forall is_sleep sleeps
    /\ (flag_finish (wk_gctx k) = true -> flag_finish (wk_gctx k7) = true)
    /\ (finish_after c (read_percentage (wk_args k))
          (flag_finish (wk_gctx k)) = true ->
        flag_finish (wk_gctx k7) = true)
    /\ ((flag_finish (wk_gctx k7) = true /\ k' = k7 /\ w' = w4)
        \/ (flag_finish (wk_gctx k7) = false
            /\ io_count_sent (wk_gctx k7) < io_count (wk_args k7)
            /\ exists r, ioworker_send_one E i k7 w4 = inr (r, k', w'))).
Proof.
  intros H. apply ioworker_one_cb_steps_sts in H.
  destruct H as (ctx & k7 & w4 & sl & _ & _ & H). exists ctx, k7, w4, sl.
  exact H.
Qed.

(** One [ioworker_send_one]: the read/write draw, the LBA, the command
    handed to [ns_cmd_read_write], and what becomes of the worker. *)
Lemma ioworker_send_one_steps i k w r k' w' :
  ioworker_send_one E i k w = inr (r, k', w') ->
  exists ctx lba g1 w2 w3,
    let rd := Z.rem (random_nth E (n_random w) mod 2^31) 100
              <? read_percentage (wk_args k) in
    0 <= i /\ wk_io_ctx k !! Z.to_nat i = Some ctx
    /\ ioworker_send_one_lba E (wk_args k) (wk_gctx k) (tick_random w)
       = inr (lba, g1, w2)
    /\ data_buf ctx <> 0
    /\ ns_cmd_read_write E (if rd then 1 else 0) (g_ns (wk_gctx k))
         (g_qpair (wk_gctx k)) (data_buf ctx) (data_buf_len ctx) lba
         (u16 (a_lba_size (wk_args k))) 0 (Some cb_ioworker_one_cb) i w2
       = inr (r, w3)
    /\ wk_args k' = wk_args k /\ wk_rets k' = wk_rets k
    /\ g_ns (wk_gctx k') = g_ns (wk_gctx k)
    /\ g_qpair (wk_gctx k') = g_qpair (wk_gctx k)
    /\ io_count_cplt (wk_gctx k') = io_count_cplt (wk_gctx k)
    /\ sequential_lba (wk_gctx k') = sequential_lba g1
    /\ world_fixed w' = world_fixed w3 /\ trace w' = trace w3
    /\ (r <> 0 ->
        wk_io_ctx k' = wk_io_ctx k
        /\ io_count_sent (wk_gctx k') = io_count_sent (wk_gctx k)
        /\ flag_finish (wk_gctx k') = true)
    /\ (r = 0 ->
        (exists now,
           wk_io_ctx k'
           = <[Z.to_nat i := mk_io_ctx (data_buf ctx) (data_buf_len ctx) rd
                               now]> (wk_io_ctx k))
        /\ io_count_sent (wk_gctx k') = u64 (io_count_sent (wk_gctx k) + 1)
        /\ flag_finish (wk_gctx k') = flag_finish (wk_gctx k)).
Proof.
  unfold ioworker_send_one. intros H.
  apply rbind_inr in H. destruct H as (ctx & Hctx & H).
  apply of_option_inr in Hctx.
  destruct (Z.leb_spec 0 i); [|discriminate].
  unfold ioworker_send_one_is_read, random in H.
  apply rbind_inr in H. destruct H as ([[lba g1] w2] & Hlba & H).
  apply rbind_inr in H. destruct H as (u & Hbuf & H).
  apply assert_inr in Hbuf. apply negb_true_iff in Hbuf.
  apply Z.eqb_neq in Hbuf.
  apply rbind_inr in H. destruct H as ([rc w3] & Hrw & H).
  exists ctx, lba, g1, w2, w3. cbv zeta.
  split; [assumption|]. split; [exact Hctx|]. split; [exact Hlba|].
  split; [exact Hbuf|].
  assert (Hg1 : g_ns g1 = g_ns (wk_gctx k) /\ g_qpair g1 = g_qpair (wk_gctx k)
                /\ io_count_cplt g1 = io_count_cplt (wk_gctx k)
                /\ io_count_sent g1 = io_count_sent (wk_gctx k)
                /\ flag_finish g1 = flag_finish (wk_gctx k)).
  { apply ioworker_send_one_lba_gctx in Hlba.
    destruct Hlba as [->|[x ->]]; cbn; auto. }
  destruct Hg1 as (Hn & Hq & Hc & Hs & Hf).
  destruct (Z.eqb_spec rc 0) as [->|Hrc]; cbn [negb] in H.
  - apply rbind_inr in H. destruct H as (w4 & Hsts & H).
    unfold gettimeofday in H. injection H as <- <- <-.
    assert (Hw4 : world_fixed w4 = world_fixed w3 /\ trace w4 = trace w3
                  /\ n_clock w4 = n_clock w3).
    { clear - Hsts. unfold sts_store in Hsts. res_all. cbn. auto. }
    destruct Hw4 as (Hw4 & Ht4 & Hc4).
    split; [exact Hrw|]. cbn.
    repeat split; auto; try congruence; try contradiction.
    eexists. reflexivity.
  - injection H as <- <- <-. split; [exact Hrw|]. cbn.
    repeat split; auto; try congruence; try contradiction.
Qed.

End Decompose.

(** ** Invariants of a whole run *)

Section EntryInv.
Variable E : environment.
Variable Q : ioworker -> list event -> Prop.
Hypothesis Q_io_ctx : forall i b len k t,
  Q k t ->
  Q (set_io_ctx (<[i := mk_io_ctx b len
                          (default false (is_read <$> wk_io_ctx k !! i))
                          (default (mk_timeval 0 0)
                             (time_sent <$> wk_io_ctx k !! i))]>
                   (wk_io_ctx k)) k) t.
Hypothesis Q_user : forall k t fn arg c,
  Q k t -> Q k (t ++ [EvUserCallback fn arg c]).
Hypothesis Q_send : forall i k w r k' w',
  Q k (trace w) -> ioworker_send_one E i k w = inr (r, k', w') ->
  Q k' (trace w').
Hypothesis Q_cb : forall i c k w k' w',
  Q k (trace w) -> ioworker_one_cb E i c k w = inr (k', w') -> Q k' (trace w').
Hypothesis Q_msec : forall d k t,
  Q k t -> Q (set_rets (set_mseconds d (wk_rets k)) k) t.

Lemma ioworker_first_batch_inv' n :
  forall i ss k w k' w',
    Q k (trace w) ->
    ioworker_first_batch E n i ss k w = inr (k', w') -> Q k' (trace w').
Proof.
  induction n as [|n IH]; cbn [ioworker_first_batch]; intros i ss k w k' w' HQ H.
  - injection H as <- <-. exact HQ.
  - apply rbind_inr in H. destruct H as (old & Hold & H).
    apply of_option_inr in Hold.
    unfold buffer_init in H.
    apply rbind_inr in H. destruct H as ([[r k2] w2] & Hsend & H).
    eapply IH; [|exact H].
    eapply Q_send; [|exact Hsend]. cbn [trace set_dma].
    specialize (Q_io_ctx (Z.to_nat i) (dma_fresh (dma w))
                  (u32 (a_lba_size (wk_args k) * ss)) k (trace w) HQ).
    rewrite Hold in Q_io_ctx. exact Q_io_ctx.
Qed.

(** An invariant of the worker state and the history that the first sends
    and the completion handler keep holds when [ioworker_entry] returns. *)
Lemma ioworker_entry_inv_delay fuel ns qpair args ps pl w ret k' w' :
  ioworker_entry E fuel ns qpair args ps pl w = Some (inr (ret, k', w')) ->
  ret <> -2 ->
  (forall a1 k0,
     ioworker_revise_args (u64 (ns_num_sectors ns)) args = inr a1 ->
     wk_args k0 = a1 -> wk_rets k0 = mk_rets 0 0 0 0 0 ->
     wk_io_ctx k0 = replicate (Z.to_nat (qdepth args)) zero_io_ctx ->
     g_ns (wk_gctx k0) = ns -> g_qpair (wk_gctx k0) = qpair ->
     sequential_lba (wk_gctx k0) = lba_start a1 ->
     io_count_sent (wk_gctx k0) = 0 -> io_count_cplt (wk_gctx k0) = 0 ->
     flag_finish (wk_gctx k0) = false ->
     io_delay_time (wk_gctx k0)
     = mk_timeval 0 (if iops a1 =? 0 then 0 else US_PER_S / iops a1) ->
     Q k0 (trace w)) ->
  Q k' (trace w').
Proof.
  intros H Hret Hinit.
  unfold ioworker_entry in H.
  destruct (ioworker_check_args args) as [f|[]]; [discriminate|].
  destruct (_ <? _).
  { injection H as <- _ _. lia. }
  destruct (ioworker_revise_args (u64 (ns_num_sectors ns)) args)
    as [f|a1] eqn:Hrev; [discriminate|].
  unfold gettimeofday in H.
  match type of H with
  | match ?m with _ => _ end = _ => destruct m as [f|[k1 w2]] eqn:Hb
  end; [discriminate|].
  destruct (ioworker_poll_loop E fuel (gettimeofday_nth E (n_clock w)) k1 w2)
    as [[f|[[ret0 k2] w3]]|] eqn:Hl; try discriminate.
  unfold ioworker_get_duration, gettimeofday in H.
  match type of H with
  | match ?m with _ => _ end = _ => destruct m as [f|w5] eqn:Hrel
  end; [discriminate|].
  injection H as <- <- <-.
  apply rbind_inr in Hb. destruct Hb as (u & _ & Hb).
  apply ioworker_release_trace in Hrel. rewrite Hrel. cbn [trace tick_clock].
  apply Q_msec.
  eapply (ioworker_poll_loop_inv E Q); [| |  |exact Hl].
  - exact Q_user.
  - exact Q_cb.
  - eapply ioworker_first_batch_inv'; [|exact Hb].
    cbn [trace tick_clock]. apply (Hinit a1); reflexivity.
Qed.

Lemma ioworker_entry_inv fuel ns qpair args ps pl w ret k' w' :
  ioworker_entry E fuel ns qpair args ps pl w = Some (inr (ret, k', w')) ->
  ret <> -2 ->
  (forall a1 k0,
     ioworker_revise_args (u64 (ns_num_sectors ns)) args = inr a1 ->
     wk_args k0 = a1 -> wk_rets k0 = mk_rets 0 0 0 0 0 ->
     wk_io_ctx k0 = replicate (Z.to_nat (qdepth args)) zero_io_ctx ->
     g_ns (wk_gctx k0) = ns -> g_qpair (wk_gctx k0) = qpair ->
     sequential_lba (wk_gctx k0) = lba_start a1 ->
     io_count_sent (wk_gctx k0) = 0 -> io_count_cplt (wk_gctx k0) = 0 ->
     flag_finish (wk_gctx k0) = false ->
     Q k0 (trace w)) ->
  Q k' (trace w').
Proof.
  intros H Hret Hinit. eapply ioworker_entry_inv_delay; [exact H|exact Hret|].
  intros a1 k0 ? ? ? ? ? ? ? ? ? ? _. eapply Hinit; eassumption.
Qed.

End EntryInv.

(** ** A run stays in its region *)

Lemma submitted_lbas_sleeps sl :
  Forall is_sleep sl -> submitted_lbas sl = [].
Proof.
  induction 1 as [|e sl He _ IH]; [reflexivity|].
  change (e :: sl) with ([e] ++ sl). rewrite submitted_lbas_app, IH.
  destruct e; try contradiction. reflexivity.
Qed.

Lemma ALIGN_UP_aligned n a v :
  0 <= n -> 0 < a -> n + a < 2^64 ->
  ALIGN_UP n a = inr v ->
  v mod a = 0 /\ n <= v < n + a.
Proof.
  intros Hn Ha Hmax. unfold ALIGN_UP.
  destruct (Z.eqb_spec a 0); [lia|].
  pose proof (Z.mod_pos_bound n a Ha) as Hm.
  destruct (Z.eqb_spec (n mod a) 0) as [H0|H0]; cbn [negb];
    intros H; injection H as <-.
  - split; [exact H0|lia].
  - rewrite (u64_id (n + a)) by lia. rewrite u64_id by lia.
    split; [|lia].
    replace (n + a - n mod a) with (a * (n / a + 1))
      by (pose proof (Z.div_mod n a ltac:(lia)); lia).
    rewrite Z.mul_comm. apply Z.mod_mul. lia.
Qed.

Section Region.
Variable E : environment.
Variable a1 : ioworker_args.
Variable sl0 : list Z.
Hypothesis a1_align : 0 < lba_align a1.
Hypothesis a1_start : region_start a1 mod lba_align a1 = 0.
Hypothesis a1_region : 0 <= region_start a1 <= region_end a1.
Hypothesis a1_end : region_end a1 + lba_align a1 < 2^64.

Lemma ioworker_send_one_lba_region g w lba g1 w2 :
  (lba_random a1 = 0 ->
   region_start a1 <= sequential_lba g
   /\ sequential_lba g + lba_align a1 < 2^64) ->
  ioworker_send_one_lba E a1 g w = inr (lba, g1, w2) ->
  region_start a1 <= lba <= region_end a1
  /\ trace w2 = trace w
  /\ (lba_random a1 = 0 ->
      region_start a1 <= sequential_lba g1
      /\ sequential_lba g1 + lba_align a1 < 2^64).
Proof.
  intros Hseq H. unfold ioworker_send_one_lba in H.
  assert (Hdown : forall x, region_start a1 <= x <= region_end a1 ->
            region_start a1 <= x - x mod lba_align a1 <= region_end a1).
  { intros x Hx.
    pose proof (Z.mod_pos_bound x (lba_align a1) a1_align) as Hm.
    split; [|lia].
    pose proof (Z.div_mod x (lba_align a1) ltac:(lia)) as Hdx.
    pose proof (Z.div_mod (region_start a1) (lba_align a1) ltac:(lia)) as Hds.
    rewrite a1_start in Hds.
    assert (region_start a1 / lba_align a1 <= x / lba_align a1)
      by (apply Z.div_le_mono; lia).
    nia. }
  destruct (Z.eqb_spec (lba_random a1) 0) as [Hr|Hr].
  - destruct (Hseq Hr) as [Hlo Hhi].
    cbn [rbind ok] in H. unfold ALIGN_DOWN in H.
    destruct (Z.eqb_spec (lba_align a1) 0); [lia|].
    cbn [rbind ok] in H. injection H as <- <- <-.
    unfold ioworker_send_one_lba_sequential.
    rewrite (u64_id (sequential_lba g + lba_align a1)) by lia.
    destruct (Z.ltb_spec (region_end a1) (sequential_lba g + lba_align a1)).
    + split; [apply Hdown; lia|]. split; [reflexivity|].
      intros _. cbn. lia.
    + split; [apply Hdown; lia|]. split; [reflexivity|].
      intros _. cbn. lia.
  - apply rbind_inr in H. destruct H as ([[ret gx] wx] & Hrnd & H).
    apply rbind_inr in Hrnd. destruct Hrnd as ([r w1] & Hrnd & Hok).
    injection Hok as <- <- <-.
    unfold ioworker_send_one_lba_random, random in Hrnd.
    set (span := u64 (region_end a1 - region_start a1)) in *.
    destruct (Z.eqb_spec span 0); [discriminate|].
    injection Hrnd as <- <-.
    unfold ALIGN_DOWN in H. destruct (Z.eqb_spec (lba_align a1) 0); [lia|].
    cbn [rbind ok] in H. injection H as <- <- <-.
    assert (Hspan : span = region_end a1 - region_start a1)
      by (unfold span; rewrite u64_id; lia).
    pose proof (Z.mod_pos_bound (random_nth E (n_random w) mod 2 ^ 31) span
                  ltac:(lia)) as Hm.
    rewrite (u64_id (_ + region_start a1)) by lia.
    split; [apply Hdown; lia|]. split; [reflexivity|]. intros; contradiction.
Qed.

Lemma region_inv_send i k w r k' w' :
  region_inv a1 sl0 k (trace w) ->
  ioworker_send_one E i k w = inr (r, k', w') ->
  region_inv a1 sl0 k' (trace w').
Proof.
  intros (Ha & Hseq & new & Hsub & Hall) H.
  apply ioworker_send_one_steps in H.
  destruct H as (ctx & lba & g1 & w2 & w3 & _ & _ & Hlba & _ & Hrw & Ha' & _
                 & _ & _ & _ & Hs' & _ & Ht' & _).
  rewrite Ha in Hlba.
  destruct (ioworker_send_one_lba_region _ _ _ _ _ Hseq Hlba)
    as (Hin & Ht2 & Hseq1).
  apply ns_cmd_read_write_submitted in Hrw; [|lia].
  split; [congruence|]. split; [rewrite Hs'; exact Hseq1|].
  exists (new ++ [lba]). rewrite Ht', Hrw, Ht2. cbn [trace tick_random].
  rewrite Hsub, app_assoc. split; [reflexivity|].
  apply Forall_app. split; [exact Hall|]. constructor; [exact Hin|constructor].
Qed.

Lemma region_inv_cb i c k w k' w' :
  region_inv a1 sl0 k (trace w) ->
  ioworker_one_cb E i c k w = inr (k', w') ->
  region_inv a1 sl0 k' (trace w').
Proof.
  intros (Ha & Hseq & new & Hsub & Hall) H.
  apply ioworker_one_cb_steps in H.
  destruct H as (ctx & k7 & w4 & sl & _ & _ & Hfix & _ & _ & _ & _ & Ht4 & Hsl
                 & _ & _ & Hend).
  assert (HQ7 : region_inv a1 sl0 k7 (trace w4)).
  { unfold worker_fixed in Hfix. injection Hfix as Hf1 _ _ _ _ Hf6.
    split; [congruence|]. split; [rewrite Hf6; exact Hseq|].
    exists new. rewrite Ht4, submitted_lbas_app, (submitted_lbas_sleeps _ Hsl).
    rewrite app_nil_r. auto. }
  destruct Hend as [(_ & -> & ->)|(_ & _ & r & Hsend)]; [exact HQ7|].
  eapply region_inv_send; eauto.
Qed.

End Region.

Section RegionRun.
Variable E : environment.

(** X8.  A run whose revised region is not empty never leaves it.  With the
    revised arguments [a1] ([region_start] aligned up, [region_end]
    lowered to [min(region_end, nsze) - lba_size - 1] and aligned down),
    a positive [lba_align], room for [lba_size] + 1 blocks below
    [min(region_end, nsze)], [region_start a1 <= region_end a1] (the
    argument checks do not ensure it) and no sum reaching 2^64, every LBA
    the worker hands to the driver, sequential or random, lies in
    [[region_start a1, region_end a1]]; so every I/O of [lba_size] blocks
    starts at or after the caller's [region_start] and ends before both
    the caller's [region_end] and the end of the namespace. *)
Theorem ioworker_stays_in_region :
  forall fuel ns qpair args ps pl w ret k' w' a1,
    ioworker_entry E fuel ns qpair args ps pl w = Some (inr (ret, k', w')) ->
    ret <> -2 ->
    ioworker_revise_args (u64 (ns_num_sectors ns)) args = inr a1 ->
    0 < lba_align args -> 0 < a_lba_size args ->
    0 <= region_start args -> region_start args + lba_align args < 2^64 ->
    a_lba_size args + 1 <= Z.min (region_end args) (u64 (ns_num_sectors ns)) ->
    region_start a1 <= region_end a1 ->
    region_end a1 + lba_align a1 < 2^64 ->
    lba_start a1 + lba_align a1 < 2^64 ->
    exists new,
      submitted_lbas (trace w') = submitted_lbas (trace w) ++ new
      /\ Forall (fun l =>
                   region_start args <= l
                   /\ region_start a1 <= l <= region_end a1
                   /\ l + a_lba_size args
                      < Z.min (region_end args) (u64 (ns_num_sectors ns)))
           new.
Proof.
  intros fuel ns qpair args ps pl w ret k' w' a1 H Hret Hrev Hal Hls Hrs Hrsmax
    Hfit Hreg Hend Hstart.
  assert (Hc : ioworker_check_args args = inr tt).
  { apply ioworker_entry_run in H.
    destruct H as [(-> & _)|(? & ? & ? & ? & ? & Hc & _)]; [lia|exact Hc]. }
  destruct (ioworker_revise_args_fields _ _ _ Hc Hrev)
    as (_ & Ha & _ & _ & _ & _ & _ & _ & _ & _ & Hup & Hdown & Hlba & _).
  destruct (ALIGN_UP_aligned _ _ _ Hrs Hal Hrsmax Hup) as (Hmod & Hlo & _).
  assert (Hhi : region_end a1 + a_lba_size args
                < Z.min (region_end args) (u64 (ns_num_sectors ns))).
  { pose proof (u64_range (ns_num_sectors ns)) as Hn.
    unfold ALIGN_DOWN in Hdown.
    destruct (Z.eqb_spec (lba_align args) 0); [lia|].
    injection Hdown as Hdown.
    rewrite u64_id in Hdown by lia.
    pose proof (Z.mod_pos_bound
                  (Z.min (region_end args) (u64 (ns_num_sectors ns))
                   - a_lba_size args - 1) (lba_align args) Hal).
    lia. }
  assert (HQ : region_inv a1 (submitted_lbas (trace w)) k' (trace w')).
  { eapply (ioworker_entry_inv E (region_inv a1 (submitted_lbas (trace w))));
      [| | | | |exact H|exact Hret|].
    - intros i b len k t (Hk & Hs & Hn). split; [exact Hk|]. split; assumption.
    - intros k t fn arg c (Hk & Hs & new & Hn & Hall).
      split; [exact Hk|]. split; [exact Hs|]. exists new.
      rewrite submitted_lbas_app. cbn. rewrite app_nil_r. auto.
    - intros i k0 w0 r k1 w1.
      apply region_inv_send; [lia|congruence|lia|lia].
    - intros i c k0 w0 k1 w1.
      apply region_inv_cb; [lia|congruence|lia|lia].
    - intros k t d (Hk & Hs & Hn). split; [exact Hk|]. split; assumption.
    - intros a2 k0 Hrev2 Hk0 _ _ _ _ Hseq _ _ _.
      rewrite Hrev in Hrev2. injection Hrev2 as <-.
      split; [exact Hk0|]. split.
      + intros _. rewrite Hseq. lia.
      + exists []. rewrite app_nil_r. auto. }
  destruct HQ as (_ & _ & new & Hsub & Hall).
  exists new. split; [exact Hsub|].
  eapply Forall_impl; [exact Hall|]. cbn. intros l Hl. lia.
Qed.

End RegionRun.

(** ** Submissions in the history *)

Lemma submits_app t1 t2 : submits (t1 ++ t2) = submits t1 ++ submits t2.
Proof. apply omap_app. Qed.

Lemma accepted_app t1 t2 : accepted (t1 ++ t2) = accepted t1 + accepted t2.
Proof.
  unfold accepted. rewrite submits_app, filter_app, length_app. lia.
Qed.

Lemma submits_sleeps sl : Forall is_sleep sl -> submits sl = [].
Proof.
  induction 1 as [|e sl He _ IH]; [reflexivity|].
  change (e :: sl) with ([e] ++ sl). rewrite submits_app, IH.
  destruct e; try contradiction. reflexivity.
Qed.

Lemma submits_csum_stores crc32c evs :
  Forall (is_csum_store crc32c) evs -> submits evs = [].
Proof.
  induction 1 as [|e evs He _ IH]; [reflexivity|].
  change (e :: evs) with ([e] ++ evs). rewrite submits_app, IH.
  destruct e; try contradiction; reflexivity.
Qed.

Section SendTrace.
Variable E : environment.

Lemma buffer_fill_data_submits b lba n ls w w' :
  buffer_fill_data E b lba n ls w = inr w' ->
  exists new, trace w' = trace w ++ new /\ submits new = [].
Proof.
  unfold buffer_fill_data. intros H.
  apply rbind_inr in H. destruct H as (tok & Htok & H).
  destruct (Z.to_nat n).
  - injection H as <-. eexists. split; [reflexivity|reflexivity].
  - cbv beta iota in H.
    apply rbind_inr in H. destruct H as (m & _ & H).
    apply rbind_inr in H. destruct H as (tbl & _ & H).
    apply rbind_inr in H. destruct H as ([[m' tbl'] evs] & Hb & H).
    injection H as <-.
    apply buffer_fill_blocks_stores in Hb.
    destruct Hb as ((new & Hnew & Hall) & _). cbn in Hnew. subst evs.
    cbn [trace log_events set_csum_table set_dma set_token].
    rewrite <- app_assoc. eexists. split; [reflexivity|].
    rewrite submits_app, (submits_csum_stores _ _ Hall). reflexivity.
Qed.

(** The history of one [ns_cmd_read_write] that returns: stores that are
    no submissions, then the one submission, with opcode 2 for a read and 1
    otherwise. *)
Lemma ns_cmd_read_write_submits isr ns qp b len lba n fl fn arg w rc w' :
  ns_cmd_read_write E isr ns qp b len lba n fl fn arg w = inr (rc, w') ->
  exists c,
    submits (drop (length (trace w)) (trace w')) = [(c, rc)]
    /\ (exists new, trace w' = trace w ++ new)
    /\ opc c = (if isr =? 0 then 1 else 2).
Proof.
  unfold ns_cmd_read_write. intros H.
  apply rbind_inr in H. destruct H as (qid & _ & H).
  apply rbind_inr in H. destruct H as (u1 & _ & H).
  apply rbind_inr in H. destruct H as (u2 & _ & H).
  apply rbind_inr in H. destruct H as (u3 & _ & H).
  apply rbind_inr in H. destruct H as (u4 & _ & H).
  apply rbind_inr in H. destruct H as (w1 & Hfill & H).
  apply rbind_inr in H. destruct H as ([r w2] & Hadd & H).
  injection H as H.
  apply cmd_log_add_cmd_trace in Hadd.
  assert (Hw1 : exists new, trace w1 = trace w ++ new /\ submits new = []).
  { destruct (negb (isr =? 1)).
    - eapply buffer_fill_data_submits. exact Hfill.
    - injection Hfill as <-. exists []. rewrite app_nil_r. auto. }
  destruct Hw1 as (new & Hnew & Hsub).
  match type of H with
  | spdk_nvme_ctrlr_cmd_io_raw _ _ ?c0 _ _ _ _ = _ => set (c := c0) in *
  end.
  exists c.
  assert (Ht : trace w' = trace w ++ new ++ [EvSubmitIo qid c b rc]).
  { unfold spdk_nvme_ctrlr_cmd_io_raw in H.
    destruct (submit_rc_nth E (n_submit w2) =? 0);
      injection H as <- <-; cbn; rewrite Hadd, Hnew, <- app_assoc;
      reflexivity. }
  rewrite Ht. rewrite drop_app_length. rewrite submits_app, Hsub.
  split; [reflexivity|]. split; [eexists; reflexivity|]. reflexivity.
Qed.

End SendTrace.

(** ** The counters of a run *)

Lemma u64_succ x : u64 (u64 x + 1) = u64 (x + 1).
Proof. unfold u64. apply Zplus_mod_idemp_l. Qed.

Section Counting.
Variable E : environment.

Lemma ioworker_send_one_lba_trace a g w lba g1 w2 :
  ioworker_send_one_lba E a g w = inr (lba, g1, w2) -> trace w2 = trace w.
Proof.
  unfold ioworker_send_one_lba, ioworker_send_one_lba_random, random, ALIGN_DOWN.
  intros H. res_all; reflexivity.
Qed.

(** The history of one [ioworker_send_one] that returns. *)
Lemma ioworker_send_one_submits i k w r k' w' :
  ioworker_send_one E i k w = inr (r, k', w') ->
  exists new c,
    trace w' = trace w ++ new
    /\ submits new = [(c, r)]
    /\ opc c = (if Z.rem (random_nth E (n_random w) mod 2^31) 100
                   <? read_percentage (wk_args k) then 2 else 1).
Proof.
  intros H. apply ioworker_send_one_steps in H.
  destruct H as (ctx & lba & g1 & w2 & w3 & _ & _ & Hlba & _ & Hrw & _ & _
                 & _ & _ & _ & _ & _ & Ht' & _).
  apply ioworker_send_one_lba_trace in Hlba. cbn [trace tick_random] in Hlba.
  apply ns_cmd_read_write_submits in Hrw.
  destruct Hrw as (c & Hsub & (new & Hnew) & Hopc).
  rewrite Hnew, Hlba, drop_app_length in Hsub.
  exists new, c. split; [congruence|]. split; [exact Hsub|].
  rewrite Hopc. destruct (_ <? _); reflexivity.
Qed.

Lemma count_inv_send t0 i k w r k' w' :
  count_inv t0 k (trace w) ->
  ioworker_send_one E i k w = inr (r, k', w') ->
  count_inv t0 k' (trace w').
Proof.
  intros (new & Ht & Hsent & Hcplt) H.
  destruct (ioworker_send_one_submits _ _ _ _ _ _ H) as (nx & c & Htx & Hsx & _).
  apply ioworker_send_one_steps in H.
  destruct H as (ctx & lba & g1 & w2 & w3 & _ & _ & _ & _ & _ & _ & Hr'
                 & _ & _ & Hc' & _ & _ & _ & Hbad & Hgood).
  exists (new ++ nx). split; [rewrite Htx, Ht, app_assoc; reflexivity|].
  split; [|rewrite Hc', Hr'; exact Hcplt].
  rewrite accepted_app. unfold accepted at 2. rewrite Hsx.
  destruct (decide (r = 0)) as [->|Hr].
  - destruct (Hgood eq_refl) as (_ & -> & _).
    rewrite Hsent, u64_succ. reflexivity.
  - destruct (Hbad Hr) as (_ & -> & _). rewrite Hsent.
    rewrite filter_cons_False by exact Hr. cbn. rewrite Z.add_0_r.
    reflexivity.
Qed.

Lemma count_inv_cb t0 i c k w k' w' :
  count_inv t0 k (trace w) ->
  ioworker_one_cb E i c k w = inr (k', w') ->
  count_inv t0 k' (trace w').
Proof.
  intros (new & Ht & Hsent & Hcplt) H.
  apply ioworker_one_cb_steps in H.
  destruct H as (ctx & k7 & w4 & sl & _ & _ & Hfix & Hc7 & Hrd & Hwr & _ & Ht4
                 & Hsl & _ & _ & Hend).
  assert (HQ7 : count_inv t0 k7 (trace w4)).
  { unfold worker_fixed in Hfix. injection Hfix as _ _ _ _ Hs7 _.
    exists (new ++ sl). split; [rewrite Ht4, Ht, app_assoc; reflexivity|].
    split.
    - rewrite Hs7, Hsent, accepted_app. unfold accepted at 3.
      rewrite (submits_sleeps _ Hsl). cbn. rewrite Z.add_0_r. reflexivity.
    - rewrite Hc7, Hcplt, Hrd, Hwr, u64_succ.
      destruct (is_read ctx); unfold u64.
      + rewrite Zplus_mod_idemp_l. f_equal. lia.
      + rewrite Zplus_mod_idemp_r. f_equal. lia. }
  destruct Hend as [(_ & -> & ->)|(_ & _ & r & Hsend)]; [exact HQ7|].
  eapply count_inv_send; eauto.
Qed.

(** X9.  The counters a run returns.  When [ioworker_entry] returns (not -2),
    [io_count_sent] is the number of submissions the driver accepted
    during the run and [io_count_cplt] the sum of the read and write counts
    in [rets], modulo 2^64; on return 0 the two agree: every accepted I/O
    has been counted once, as a read or as a write. *)
Theorem ioworker_counts_add_up :
  forall fuel ns qpair args ps pl w ret k' w',
    ioworker_entry E fuel ns qpair args ps pl w = Some (inr (ret, k', w')) ->
    ret <> -2 ->
    exists new,
      trace w' = trace w ++ new
      /\ io_count_sent (wk_gctx k') = u64 (accepted new)
      /\ io_count_cplt (wk_gctx k')
         = u64 (io_count_read (wk_rets k') + io_count_write (wk_rets k'))
      /\ (ret = 0 ->
          u64 (io_count_read (wk_rets k') + io_count_write (wk_rets k'))
          = u64 (accepted new)).
Proof.
  intros fuel ns qpair args ps pl w ret k' w' H Hret.
  assert (HQ : count_inv (trace w) k' (trace w')).
  { eapply (ioworker_entry_inv E (count_inv (trace w)));
      [| | | | |exact H|exact Hret|].
    - intros i b len k t (new & Ht & Hs & Hc). exists new. auto.
    - intros k t fn arg c (new & Ht & Hs & Hc).
      exists (new ++ [EvUserCallback fn arg c]).
      split; [rewrite Ht, app_assoc; reflexivity|].
      split; [|exact Hc]. rewrite accepted_app. cbn. rewrite Z.add_0_r.
      exact Hs.
    - intros i k0 w0 r k1 w1. apply count_inv_send.
    - intros i c k0 w0 k1 w1. apply count_inv_cb.
    - intros d k t (new & Ht & Hs & Hc). exists new. auto.
    - intros a1 k0 _ _ Hr _ _ _ _ Hs Hc _.
      exists []. rewrite app_nil_r, Hs, Hc, Hr. cbn. auto. }
  destruct HQ as (new & Ht & Hs & Hc).
  exists new. split; [exact Ht|]. split; [exact Hs|]. split; [exact Hc|].
  intros ->. rewrite <- Hs, <- Hc.
  apply ioworker_entry_run in H.
  destruct H as [(H & _)|(a1 & k1 & w2 & k2 & w3 & _ & _ & _ & _ & Hl & -> & _)];
    [discriminate|].
  apply ioworker_poll_loop_ret in Hl.
  destruct Hl as [(_ & Hp)|(Hx & _)]; [|discriminate].
  cbn [wk_gctx set_rets]. unfold ioworker_pending in Hp.
  apply orb_false_iff in Hp. destruct Hp as [Hp _].
  apply negb_false_iff, Z.eqb_eq in Hp. congruence.
Qed.

End Counting.

(** ** All writes, all reads *)

Section Mix.
Variable E : environment.

Lemma random_rem_100 n :
  0 <= Z.rem (random_nth E n mod 2^31) 100 < 100.
Proof.
  pose proof (Z.mod_pos_bound (random_nth E n) (2^31) ltac:(lia)) as Hr.
  rewrite Z.rem_mod_nonneg by lia.
  apply Z.mod_pos_bound. lia.
Qed.

Lemma mix_inv_send a1 t0 i k w r k' w' :
  mix_inv a1 t0 k (trace w) ->
  ioworker_send_one E i k w = inr (r, k', w') ->
  mix_inv a1 t0 k' (trace w').
Proof.
  intros (Ha & new & Ht & H0 & H100) H.
  destruct (ioworker_send_one_submits E _ _ _ _ _ _ H)
    as (nx & c & Htx & Hsx & Hopc).
  apply ioworker_send_one_steps in H.
  destruct H as (ctx & lba & g1 & w2 & w3 & _ & Hctx & _ & _ & _ & Ha' & Hr'
                 & _ & _ & _ & _ & _ & _ & Hbad & Hgood).
  pose proof (random_rem_100 (n_random w)) as Hrem.
  split; [congruence|].
  exists (new ++ nx). split; [rewrite Htx, Ht, app_assoc; reflexivity|].
  rewrite submits_app, Hsx. rewrite Ha in Hopc. split.
  - intros Hz. destruct (H0 Hz) as (Hops & Hctxs & Hrd).
    rewrite Ha, Hz in Hgood.
    destruct (Z.ltb_spec (Z.rem (random_nth E (n_random w) mod 2 ^ 31) 100) 0);
      [lia|].
    rewrite Hz in Hopc.
    destruct (Z.ltb_spec (Z.rem (random_nth E (n_random w) mod 2 ^ 31) 100) 0);
      [lia|].
    split; [apply Forall_app; split; [exact Hops|]; repeat constructor;
            exact Hopc|].
    split; [|rewrite Hr'; exact Hrd].
    destruct (decide (r = 0)) as [->|Hr].
    + destruct (Hgood eq_refl) as ((now & ->) & _).
      apply Forall_insert; [exact Hctxs|reflexivity].
    + destruct (Hbad Hr) as (-> & _). exact Hctxs.
  - intros Hz. rewrite Hz in Hopc.
    destruct (Z.ltb_spec (Z.rem (random_nth E (n_random w) mod 2 ^ 31) 100) 100);
      [|lia].
    apply Forall_app. split; [exact (H100 Hz)|]. repeat constructor.
    exact Hopc.
Qed.

Lemma mix_inv_cb a1 t0 i c k w k' w' :
  mix_inv a1 t0 k (trace w) ->
  ioworker_one_cb E i c k w = inr (k', w') ->
  mix_inv a1 t0 k' (trace w').
Proof.
  intros (Ha & new & Ht & H0 & H100) H.
  apply ioworker_one_cb_steps in H.
  destruct H as (ctx & k7 & w4 & sl & _ & Hctx & Hfix & _ & Hrd & _ & _ & Ht4
                 & Hsl & _ & _ & Hend).
  assert (HQ7 : mix_inv a1 t0 k7 (trace w4)).
  { unfold worker_fixed in Hfix. injection Hfix as Hf1 Hf2 _ _ _ _.
    split; [congruence|].
    exists (new ++ sl). split; [rewrite Ht4, Ht, app_assoc; reflexivity|].
    rewrite submits_app, (submits_sleeps _ Hsl), app_nil_r.
    split; [|exact H100].
    intros Hz. destruct (H0 Hz) as (Hops & Hctxs & Hr0).
    split; [exact Hops|]. split; [rewrite Hf2; exact Hctxs|].
    rewrite Hrd.
    rewrite Forall_lookup in Hctxs. rewrite (Hctxs _ _ Hctx). exact Hr0. }
  destruct Hend as [(_ & -> & ->)|(_ & _ & r & Hsend)]; [exact HQ7|].
  eapply mix_inv_send; eauto.
Qed.

(** X10.  All writes, all reads.  A run with [read_percentage] = 0 hands only
    Write commands (opcode 1) to the driver and returns a read count of 0;
    a run with [read_percentage] = 100 hands over only Read commands
    (opcode 2). *)
Theorem ioworker_read_percentage_ends :
  forall fuel ns qpair args ps pl w ret k' w',
    ioworker_entry E fuel ns qpair args ps pl w = Some (inr (ret, k', w')) ->
    ret <> -2 ->
    exists new,
      trace w' = trace w ++ new
      /\ (read_percentage args = 0 ->
          Forall (fun x => opc (fst x) = 1) (submits new)
          /\ io_count_read (wk_rets k') = 0)
      /\ (read_percentage args = 100 ->
          Forall (fun x => opc (fst x) = 2) (submits new)).
Proof.
  intros fuel ns qpair args ps pl w ret k' w' H Hret.
  pose proof H as Hrun. apply ioworker_entry_run in Hrun.
  destruct Hrun as [(Hx & _)|(a1 & k1 & w2 & k2 & w3 & Hc & _ & Hrev & _)];
    [contradiction|].
  destruct (ioworker_revise_args_fields _ _ _ Hc Hrev)
    as (_ & _ & _ & Hrp & _).
  assert (HQ : mix_inv a1 (trace w) k' (trace w')).
  { eapply (ioworker_entry_inv E (mix_inv a1 (trace w)));
      [| | | | |exact H|exact Hret|].
    - intros i b len k t (Hk & new & Ht & H0 & H100).
      split; [exact Hk|]. exists new. split; [exact Ht|]. split; [|exact H100].
      intros Hz. destruct (H0 Hz) as (Hops & Hctxs & Hr0).
      split; [exact Hops|]. split; [|exact Hr0].
      cbn [wk_io_ctx set_io_ctx].
      destruct (wk_io_ctx k !! i) as [old|] eqn:Hold.
      + apply Forall_insert; [exact Hctxs|]. cbn.
        rewrite Forall_lookup in Hctxs. exact (Hctxs _ _ Hold).
      + rewrite list_insert_ge; [exact Hctxs|].
        apply lookup_ge_None. exact Hold.
    - intros k t fn arg c (Hk & new & Ht & H0 & H100).
      split; [exact Hk|]. exists (new ++ [EvUserCallback fn arg c]).
      split; [rewrite Ht, app_assoc; reflexivity|].
      rewrite submits_app. cbn. rewrite app_nil_r. auto.
    - intros i k0 w0 r k1' w1. apply mix_inv_send.
    - intros i c k0 w0 k1' w1. apply mix_inv_cb.
    - intros d k t (Hk & new & Ht & H0 & H100).
      split; [exact Hk|]. exists new. auto.
    - intros a2 k0 Hrev2 Hk0 Hr Hio _ _ _ _ _ _.
      rewrite Hrev in Hrev2. injection Hrev2 as <-.
      split; [exact Hk0|]. exists []. rewrite app_nil_r.
      split; [reflexivity|]. split; [|intros; constructor].
      intros _. split; [constructor|]. rewrite Hio, Hr.
      split; [|reflexivity]. apply Forall_replicate. reflexivity. }
  destruct HQ as (_ & new & Ht & H0 & H100).
  exists new. split; [exact Ht|]. rewrite Hrp in *. split.
  - intros Hz. destruct (H0 Hz) as (Hops & _ & Hr0). auto.
  - exact H100.
Qed.

End Mix.

(** ** Draining, and an unchecked argument *)

Section Finish.
Variable E : environment.

(** X11.  Draining.  Once the finish flag is set, and from the very completion
    that reports an error the worker does not ignore, [ioworker_one_cb]
    hands nothing more to the driver: the flag stays set, [io_count_sent]
    and the outstanding requests are as before, and the history grows by
    sleeps at most. *)
Theorem ioworker_one_cb_drains :
  forall i c k w k' w',
    ioworker_one_cb E i c k w = inr (k', w') ->
    flag_finish (wk_gctx k) = true
    \/ (spdk_nvme_cpl_is_error c = true
        /\ ~ (cpl_error_code c = 0x0281
              /\ read_percentage (wk_args k) < 100)) ->
    flag_finish (wk_gctx k') = true
    /\ io_count_sent (wk_gctx k') = io_count_sent (wk_gctx k)
    /\ io_count_cplt (wk_gctx k') = u64 (io_count_cplt (wk_gctx k) + 1)
    /\ inflight w' = inflight w
    /\ n_submit w' = n_submit w
    /\ exists sleeps,
         trace w' = trace w ++ sleeps /\ Forall is_sleep sleeps
         /\ submits sleeps = [].
Proof.
  intros i c k w k' w' H Hwhy.
  apply ioworker_one_cb_steps in H.
  destruct H as (ctx & k7 & w4 & sl & _ & _ & Hfix & Hc7 & _ & _ & Hw4 & Ht4
                 & Hsl & Hkeep & Hfin & Hend).
  assert (Hf7 : flag_finish (wk_gctx k7) = true).
  { destruct Hwhy as [Hf|[Herr Hno]]; [exact (Hkeep Hf)|].
    apply Hfin. unfold finish_after. rewrite Herr.
    destruct (Z.eqb_spec (cpl_error_code c) 641);
      destruct (Z.ltb_spec (read_percentage (wk_args k)) 100);
      cbn [andb]; try reflexivity.
    exfalso. apply Hno. auto. }
  destruct Hend as [(_ & -> & ->)|(Hf & _)]; [|congruence].
  unfold worker_fixed in Hfix. injection Hfix as _ _ _ _ Hs7 _.
  unfold world_fixed in Hw4. injection Hw4 as _ _ _ _ Hin _ Hsub _.
  repeat split; auto.
  exists sl. split; [exact Ht4|]. split; [exact Hsl|].
  apply submits_sleeps. exact Hsl.
Qed.

(** X12.  [lba_align] = 0 is not among the checked arguments: a run that passes
    the checks and the transfer-size test stops with a division by zero in
    [ALIGN_UP], before any I/O. *)
Theorem ioworker_entry_align_zero :
  forall fuel ns qpair args ps pl w,
    ioworker_check_args args = inr tt ->
    u32 (a_lba_size args * u32 (ns_sector_size ns))
      <= u32 (ns_max_xfer_size ns) ->
    lba_align args = 0 ->
    ioworker_entry E fuel ns qpair args ps pl w = Some (inl DivByZero).
Proof.
  intros fuel ns qpair args ps pl w Hc Hx Ha.
  unfold ioworker_entry. rewrite Hc.
  destruct (Z.ltb_spec (u32 (ns_max_xfer_size ns))
              (u32 (a_lba_size args * u32 (ns_sector_size ns)))); [lia|].
  unfold ioworker_revise_args, ALIGN_UP. rewrite Ha. reflexivity.
Qed.

End Finish.

(** ** Refused submissions *)

Section Refused.
Variable E : environment.
Hypothesis refuses : forall n, submit_rc_nth E n <> 0.

Lemma ns_cmd_read_write_refused isr ns qp b len lba n fl fn arg w rc w' :
  ns_cmd_read_write E isr ns qp b len lba n fl fn arg w = inr (rc, w') ->
  rc <> 0.
Proof.
  unfold ns_cmd_read_write. intros H.
  apply rbind_inr in H. destruct H as (qid & _ & H).
  apply rbind_inr in H. destruct H as (u1 & _ & H).
  apply rbind_inr in H. destruct H as (u2 & _ & H).
  apply rbind_inr in H. destruct H as (u3 & _ & H).
  apply rbind_inr in H. destruct H as (u4 & _ & H).
  apply rbind_inr in H. destruct H as (w1 & _ & H).
  apply rbind_inr in H. destruct H as ([r w2] & _ & H).
  injection H as H. unfold spdk_nvme_ctrlr_cmd_io_raw in H.
  destruct (submit_rc_nth E (n_submit w2) =? 0);
    injection H as <- _; apply refuses.
Qed.

Lemma refused_inv_send t0 i k w r k' w' :
  refused_inv t0 k (trace w) ->
  ioworker_send_one E i k w = inr (r, k', w') ->
  refused_inv t0 k' (trace w') /\ flag_finish (wk_gctx k') = true.
Proof.
  intros (Hs & Hc & Hr & new & Ht & Hacc) H.
  destruct (ioworker_send_one_submits E _ _ _ _ _ _ H)
    as (nx & c & Htx & Hsx & _).
  apply ioworker_send_one_steps in H.
  destruct H as (ctx & lba & g1 & w2 & w3 & _ & _ & _ & _ & Hrw & _ & Hr'
                 & _ & _ & Hc' & _ & _ & _ & Hbad & _).
  apply ns_cmd_read_write_refused in Hrw.
  destruct (Hbad Hrw) as (_ & Hs' & Hf').
  split; [|exact Hf'].
  split; [congruence|]. split; [congruence|]. split; [congruence|].
  exists (new ++ nx). split; [rewrite Htx, Ht, app_assoc; reflexivity|].
  rewrite accepted_app, Hacc. unfold accepted. rewrite Hsx.
  rewrite filter_cons_False by exact Hrw. reflexivity.
Qed.

Lemma refused_first_batch n :
  forall i ss k w k' w' t0,
    refused_inv t0 k (trace w) ->
    ioworker_first_batch E n i ss k w = inr (k', w') ->
    refused_inv t0 k' (trace w')
    /\ (flag_finish (wk_gctx k) = true \/ n <> 0%nat ->
        flag_finish (wk_gctx k') = true).
Proof.
  induction n as [|n IH]; cbn [ioworker_first_batch];
    intros i ss k w k' w' t0 HQ H.
  - injection H as <- <-. split; [exact HQ|]. intros [Hf|Hn]; [exact Hf|lia].
  - apply rbind_inr in H. destruct H as (old & Hold & H).
    unfold buffer_init in H.
    apply rbind_inr in H. destruct H as ([[r k2] w2] & Hsend & H).
    eapply (refused_inv_send t0) in Hsend.
    2:{ destruct HQ as (Hs & Hc & Hr & Hn). unfold refused_inv. cbn. auto. }
    destruct Hsend as (HQ2 & Hf2).
    destruct (IH _ _ _ _ _ _ _ HQ2 H) as (HQ' & Hf').
    split; [exact HQ'|]. intros _. apply Hf'. left. exact Hf2.
Qed.

(** X13.  A refused submission is not reported.  If the driver refuses every
    submission, a run with a queue depth of at least 1 ends at once with
    return code 0 and [rets.error] = 0, all counters 0: nothing tells the
    caller that no I/O was done. *)
Theorem ioworker_entry_refused_returns_0 :
  forall fuel ns qpair args ps pl w ret k' w',
    ioworker_entry E fuel ns qpair args ps pl w = Some (inr (ret, k', w')) ->
    ret <> -2 ->
    0 < qdepth args -> 0 <= io_count args ->
    ret = 0
    /\ error (wk_rets k') = 0
    /\ io_count_read (wk_rets k') = 0 /\ io_count_write (wk_rets k') = 0
    /\ io_count_sent (wk_gctx k') = 0 /\ io_count_cplt (wk_gctx k') = 0
    /\ exists new, trace w' = trace w ++ new /\ accepted new = 0.
Proof.
  intros fuel ns qpair args ps pl w ret k' w' H Hret Hqd Hio.
  unfold ioworker_entry in H.
  destruct (ioworker_check_args args) as [f|[]] eqn:Hc; [discriminate|].
  destruct (_ <? _).
  { injection H as <- _ _. lia. }
  destruct (ioworker_revise_args (u64 (ns_num_sectors ns)) args)
    as [f|a1] eqn:Hrev; [discriminate|].
  destruct (ioworker_revise_args_fields _ _ _ Hc Hrev)
    as (_ & _ & _ & _ & _ & _ & _ & _ & Hcnt & _ & _ & _ & _ & Hq1).
  unfold gettimeofday in H.
  match type of H with
  | match ?m with _ => _ end = _ => destruct m as [f|[k1 w2]] eqn:Hb
  end; [discriminate|].
  apply rbind_inr in Hb. destruct Hb as (u & _ & Hb).
  apply (refused_first_batch _ _ _ _ _ _ _ (trace w)) in Hb.
  2:{ cbn. repeat split; auto. exists []. rewrite app_nil_r. auto. }
  destruct Hb as ((Hs & Hcp & Hr & new & Ht & Hacc) & Hf).
  assert (Hf1 : flag_finish (wk_gctx k1) = true).
  { apply Hf. right. cbn [wk_args].
    assert (0 < qdepth a1); [|lia].
    rewrite Hq1, Hcnt. destruct (io_count args =? 0) eqn:H0; [lia|].
    apply Z.eqb_neq in H0. lia. }
  assert (Hp : ioworker_pending (wk_gctx k1) = false).
  { unfold ioworker_pending. rewrite Hs, Hcp, Hf1. reflexivity. }
  destruct fuel as [|fuel]; [discriminate|].
  rewrite (ioworker_poll_loop_done E fuel _ k1 w2 Hp) in H.
  unfold ioworker_get_duration, gettimeofday in H.
  match type of H with
  | match ?m with _ => _ end = _ => destruct m as [f|w5] eqn:Hrel
  end; [discriminate|].
  injection H as <- <- <-.
  apply ioworker_release_trace in Hrel. cbn [trace tick_clock] in Hrel.
  cbn [wk_rets wk_gctx set_rets set_mseconds error io_count_read
       io_count_write]. rewrite Hr. cbn.
  repeat split; auto. exists new. rewrite Hrel. auto.
Qed.

End Refused.

(** ** The I/O budget *)

Section Budget.
Variable E : environment.
Variable a1 : ioworker_args.
Variable t0 : list event.
Hypothesis a1_count : 0 <= io_count a1 < 2^64.

Lemma budget_inv_send n i k w r k' w' :
  budget_inv a1 t0 n k (trace w) -> 0 <= n < io_count a1 ->
  ioworker_send_one E i k w = inr (r, k', w') ->
  budget_inv a1 t0 (n + 1) k' (trace w').
Proof.
  intros (Ha & (new & Ht & Hn) & Hs) Hlt H.
  destruct (ioworker_send_one_submits E _ _ _ _ _ _ H)
    as (nx & c & Htx & Hsx & _).
  apply ioworker_send_one_steps in H.
  destruct H as (ctx & lba & g1 & w2 & w3 & _ & _ & _ & _ & _ & Ha' & _
                 & _ & _ & _ & _ & _ & _ & Hbad & Hgood).
  split; [congruence|]. split.
  - exists (new ++ nx). split; [rewrite Htx, Ht, app_assoc; reflexivity|].
    rewrite submits_app, Hsx, length_app. cbn [length]. lia.
  - intros Hf. destruct (decide (r = 0)) as [->|Hr].
    + destruct (Hgood eq_refl) as (_ & -> & Hf').
      rewrite Hs by congruence. apply u64_id. lia.
    + destruct (Hbad Hr) as (_ & _ & Hf'). congruence.
Qed.

Lemma within_budget_cb i c k w k' w' :
  within_budget a1 t0 k (trace w) ->
  ioworker_one_cb E i c k w = inr (k', w') ->
  within_budget a1 t0 k' (trace w').
Proof.
  intros (n & (Ha & (new & Ht & Hn) & Hs) & Hle) H.
  apply ioworker_one_cb_steps in H.
  destruct H as (ctx & k7 & w4 & sl & _ & _ & Hfix & _ & _ & _ & _ & Ht4 & Hsl
                 & Hkeep & _ & Hend).
  unfold worker_fixed in Hfix. injection Hfix as Hf1 _ _ _ Hf5 _.
  assert (HQ7 : budget_inv a1 t0 n k7 (trace w4)).
  { split; [congruence|]. split.
    - exists (new ++ sl). split; [rewrite Ht4, Ht, app_assoc; reflexivity|].
      rewrite submits_app, (submits_sleeps _ Hsl), app_nil_r. exact Hn.
    - intros Hf7. rewrite Hf5. apply Hs.
      destruct (flag_finish (wk_gctx k)) eqn:Hf; [|reflexivity].
      rewrite (Hkeep eq_refl) in Hf7. discriminate. }
  destruct Hend as [(_ & -> & ->)|(Hf7 & Hlt & r & Hsend)].
  - exists n. auto.
  - exists (n + 1). destruct HQ7 as (Ha7 & Hn7 & Hs7).
    rewrite (Hs7 Hf7), Ha7 in Hlt.
    split; [|lia].
    eapply budget_inv_send; [|lia|exact Hsend].
    split; [exact Ha7|]. split; [exact Hn7|exact Hs7].
Qed.

Lemma budget_first_batch cnt :
  forall n i ss k w k' w',
    budget_inv a1 t0 n k (trace w) -> 0 <= n ->
    n + Z.of_nat cnt <= io_count a1 ->
    ioworker_first_batch E cnt i ss k w = inr (k', w') ->
    budget_inv a1 t0 (n + Z.of_nat cnt) k' (trace w').
Proof.
  induction cnt as [|cnt IH]; cbn [ioworker_first_batch];
    intros n i ss k w k' w' HQ Hn Hle H.
  - injection H as <- <-. cbn. rewrite Z.add_0_r. exact HQ.
  - apply rbind_inr in H. destruct H as (old & Hold & H).
    unfold buffer_init in H.
    apply rbind_inr in H. destruct H as ([[r k2] w2] & Hsend & H).
    apply (budget_inv_send n) in Hsend; [| |lia].
    2:{ destruct HQ as (Ha & Hnew & Hs). split; [exact Ha|]. split; assumption. }
    replace (n + Z.of_nat (S cnt)) with (n + 1 + Z.of_nat cnt) by lia.
    eapply IH; [exact Hsend|lia|lia|exact H].
Qed.

End Budget.

Section BudgetRun.
Variable E : environment.

(** X14.  The I/O budget.  A run hands at most [io_count] commands to the
    driver ([io_count] as revised: 2^64 - 1 when the caller gave 0),
    whatever the mode, the queue depth or the clock. *)
Theorem ioworker_within_io_count :
  forall fuel ns qpair args ps pl w ret k' w' a1,
    ioworker_entry E fuel ns qpair args ps pl w = Some (inr (ret, k', w')) ->
    ret <> -2 ->
    ioworker_revise_args (u64 (ns_num_sectors ns)) args = inr a1 ->
    0 <= io_count args < 2^64 -> 0 <= qdepth args ->
    exists new,
      trace w' = trace w ++ new
      /\ Z.of_nat (length (submits new)) <= io_count a1
      /\ io_count a1 = (if io_count args =? 0 then 2^64 - 1
                        else io_count args).
Proof.
  intros fuel ns qpair args ps pl w ret k' w' a1 H Hret Hrev Hio Hqd.
  unfold ioworker_entry in H.
  destruct (ioworker_check_args args) as [f|[]] eqn:Hc; [discriminate|].
  destruct (_ <? _).
  { injection H as <- _ _. lia. }
  rewrite Hrev in H.
  destruct (ioworker_revise_args_fields _ _ _ Hc Hrev)
    as (_ & _ & _ & _ & _ & _ & _ & _ & Hcnt & _ & _ & _ & _ & Hq1).
  assert (Hio1 : 0 <= io_count a1 < 2^64).
  { rewrite Hcnt. destruct (io_count args =? 0); lia. }
  unfold gettimeofday in H.
  match type of H with
  | match ?m with _ => _ end = _ => destruct m as [f|[k1 w2]] eqn:Hb
  end; [discriminate|].
  destruct (ioworker_poll_loop E fuel (gettimeofday_nth E (n_clock w)) k1 w2)
    as [[f|[[ret0 k2] w3]]|] eqn:Hl; try discriminate.
  unfold ioworker_get_duration, gettimeofday in H.
  match type of H with
  | match ?m with _ => _ end = _ => destruct m as [f|w5] eqn:Hrel
  end; [discriminate|].
  injection H as <- <- <-.
  apply rbind_inr in Hb. destruct Hb as (u & _ & Hb).
  apply ioworker_release_trace in Hrel. cbn [trace tick_clock] in Hrel.
  assert (HQ : within_budget a1 (trace w) k2 (trace w3)).
  { eapply (ioworker_poll_loop_inv E (within_budget a1 (trace w)));
      [| | |exact Hl].
    - intros k0 t fn arg c (n & (Ha & (new & Ht & Hn) & Hs) & Hle).
      exists n. split; [|exact Hle]. split; [exact Ha|]. split; [|exact Hs].
      exists (new ++ [EvUserCallback fn arg c]).
      split; [rewrite Ht, app_assoc; reflexivity|].
      rewrite submits_app. cbn. rewrite app_nil_r. exact Hn.
    - intros i c k0 w0 k3 w4. apply within_budget_cb. exact Hio1.
    - exists (0 + Z.of_nat (Z.to_nat (qdepth a1))).
      assert (Hq : 0 <= qdepth a1 <= io_count a1) by lia.
      split; [|lia].
      eapply (budget_first_batch E a1 (trace w) Hio1); [|lia|lia|exact Hb].
      split; [reflexivity|]. split; [|reflexivity].
      exists []. cbn. rewrite app_nil_r. auto. }
  destruct HQ as (n & (_ & (new & Ht & Hn) & _) & Hle).
  exists new. rewrite Hrel. split; [exact Ht|]. split; [lia|exact Hcnt].
Qed.

End BudgetRun.

(** ** Sequential runs in general *)

Section SequentialRun.
Variable E : environment.

(** X15.  Every sequential run follows the rule.  With the revised arguments
    [a1], the LBAs a sequential run hands to the driver are, in order, the
    first [n] terms of the sequence that starts after [lba_start] and goes
    by [prev + lba_align], back to [region_start] past [region_end], each
    aligned down; [n] is at most [io_count], and the worker's
    [sequential_lba] ends at the n-th term. *)
Theorem ioworker_sequential_run :
  forall fuel ns qpair args ps pl w ret k' w' a1,
    ioworker_entry E fuel ns qpair args ps pl w = Some (inr (ret, k', w')) ->
    ret <> -2 ->
    ioworker_revise_args (u64 (ns_num_sectors ns)) args = inr a1 ->
    lba_random args = 0 -> 0 <= lba_align args ->
    0 <= region_start a1 < 2^64 -> 0 <= io_count args < 2^64 ->
    exists n : nat,
      Z.of_nat n <= io_count a1
      /\ submitted_lbas (trace w')
         = submitted_lbas (trace w) ++ seq_lbas a1 n (lba_start a1)
      /\ sequential_lba (wk_gctx k')
         = Nat.iter n (seq_next a1) (lba_start a1).
Proof.
  intros fuel ns qpair args ps pl w ret k' w' a1 H Hret Hrev Hseq Hal Hrs Hio.
  assert (Hc : ioworker_check_args args = inr tt).
  { apply ioworker_entry_run in H.
    destruct H as [(-> & _)|(? & ? & ? & ? & ? & Hc & _)]; [lia|exact Hc]. }
  destruct (ioworker_revise_args_fields _ _ _ Hc Hrev)
    as (_ & Ha & Hr & _ & _ & _ & _ & _ & Hcnt & _ & _ & _ & _ & Hq1).
  assert (Hio1 : 0 <= io_count a1 < 2^64).
  { rewrite Hcnt. destruct (io_count args =? 0); lia. }
  destruct (run_inv_entry E a1 (submitted_lbas (trace w)) ltac:(congruence)
              ltac:(lia) Hrs Hio1 _ _ _ _ _ _ _ _ _ _ H Hret Hrev ltac:(lia)
              eq_refl) as (n & (_ & Hs & Hq & _) & Hn).
  exists n. auto.
Qed.

End SequentialRun.

(** ** Namespace set-up *)

(** X16.  One namespace set-up per primary process.  After an [ns_init] that
    returned the namespace, the sizes and the three tables are the zones'.
    A second [ns_init] in a primary process stops at the assertion of
    line 71; after [ns_fini], which clears the token and the checksum table
    but leaves [g_ioworker_status_table] set, it stops at the assertion of
    line 73.  A secondary process asserts nothing and attaches again. *)
Theorem ns_init_once_per_primary :
  forall M M2 n n2 w w1,
    ns_init M (Some n) w = inr (Some n, w1) ->
    (g_driver_table_size w1 = u64 (4 * u64 (ns_num_sectors n))
     /\ g_driver_csum_table_ptr w1 = zone_crc32_table M
     /\ g_driver_io_token_ptr w1 = zone_io_token M
     /\ g_ioworker_status_table w1 = zone_status_table M
     /\ is_Some (zone_crc32_table M) /\ is_Some (zone_io_token M)
     /\ is_Some (zone_status_table M))
    /\ g_driver_csum_table_ptr (snd (ns_fini w1)) = None
    /\ g_driver_io_token_ptr (snd (ns_fini w1)) = None
    /\ g_ioworker_status_table (snd (ns_fini w1)) = zone_status_table M
    /\ (process_is_primary M2 = true ->
        ns_init M2 (Some n2) w1 = inl (AssertFail 71)
        /\ ns_init M2 (Some n2) (snd (ns_fini w1)) = inl (AssertFail 73))
    /\ (process_is_primary M2 = false ->
        exists r w2,
          ns_init M2 (Some n2) (snd (ns_fini w1)) = inr (r, w2)
          /\ g_driver_csum_table_ptr w2 = zone_crc32_table M2
          /\ g_driver_io_token_ptr w2 = zone_io_token M2).
Proof.
  intros M M2 n n2 w w1 H.
  unfold ns_init in H. cbn [of_option rbind ok] in H.
  apply rbind_inr in H. destruct H as ([rc w0] & Hres & H).
  destruct (Z.eqb_spec rc 0) as [->|Hrc]; cbn [negb] in H; unfold ok in H;
    [|discriminate H].
  injection H as <-.
  unfold memzone_reserve_shared_memory in Hres.
  apply rbind_inr in Hres. destruct Hres as (u & _ & Hres).
  cbn [g_driver_io_token_ptr g_driver_csum_table_ptr g_ioworker_status_table
       set_status_table set_token set_csum_table set_table_size] in Hres.
  assert (Hz : is_Some (zone_io_token M) /\ is_Some (zone_crc32_table M)
               /\ is_Some (zone_status_table M)).
  { unfold ok in Hres.
    destruct (bool_decide (is_Some (zone_io_token M))) eqn:H1;
      [|discriminate].
    destruct (bool_decide (is_Some (zone_crc32_table M))) eqn:H2;
      [|discriminate].
    destruct (bool_decide (is_Some (zone_status_table M))) eqn:H3;
      [|discriminate].
    apply bool_decide_eq_true in H1, H2, H3. auto. }
  destruct Hz as (Hz1 & Hz2 & Hz3).
  rewrite !bool_decide_eq_true_2 in Hres by assumption. cbn [andb] in Hres.
  injection Hres as <-. cbn.
  split; [repeat split; assumption|].
  split; [reflexivity|]. split; [reflexivity|]. split; [reflexivity|].
  split.
  - intros Hp. unfold ns_init, memzone_reserve_shared_memory.
    cbn [of_option rbind ok]. rewrite Hp.
    cbn [g_driver_io_token_ptr g_driver_csum_table_ptr
         g_ioworker_status_table set_status_table set_token set_csum_table
         set_table_size ns_fini crc32_fini snd].
    rewrite !bool_decide_eq_true_2 by assumption.
    rewrite (bool_decide_eq_false_2 (is_Some None))
      by (intros [? ?]; discriminate).
    split; reflexivity.
  - intros Hp. unfold ns_init, memzone_reserve_shared_memory.
    cbn [of_option rbind ok]. rewrite Hp. cbn [rbind ok].
    match goal with
    | |- context [if ?b then ok (0, ?w2) else _] =>
        destruct b; cbn [rbind ok Z.eqb negb];
        eexists _, w2; (split; [reflexivity|split; reflexivity])
    end.
Qed.

(** ** Dumping the command log *)

Lemma log_cmd_dump_from_slots k :
  forall i (t : list cmd_log_entry_t),
    0 <= i -> i + Z.of_nat k <= Z.of_nat (length t) ->
    exists out,
      log_cmd_dump_from k i t = inr out
      /\ length out = k
      /\ forall j : nat, (j < k)%nat ->
           exists e, out !! j = Some (i + Z.of_nat j, e)
                     /\ t !! Z.to_nat (i + Z.of_nat j) = Some e.
Proof.
  induction k as [|k IH]; intros i t Hi Hk.
  - exists []. split; [reflexivity|]. split; [reflexivity|]. intros j Hj. lia.
  - cbn [log_cmd_dump_from].
    destruct (lookup_lt_is_Some_2 t (Z.to_nat i)) as [e He]; [lia|].
    rewrite He. cbn [of_option rbind ok].
    destruct (IH (i + 1) t) as (rest & Hrest & Hlen & Hj); [lia|lia|].
    rewrite Hrest. cbn [rbind ok].
    exists ((i, e) :: rest). split; [reflexivity|].
    split; [cbn; lia|].
    intros [|j] Hlt.
    + exists e. cbn. rewrite Z.add_0_r. auto.
    + destruct (Hj j ltac:(lia)) as (e' & Ho & Ht).
      exists e'. cbn [lookup]. change (((i, e) :: rest) !! S j) with (rest !! j).
      replace (i + Z.of_nat (S j)) with (i + 1 + Z.of_nat j) by lia. auto.
Qed.

Section Dump.
Variable E : environment.

(** X7.  Log, then dump.  On a queue just given its table by
    [cmd_log_table_create], logging [n] commands (1 <= n <= 2048) and then
    dumping [n] entries shows exactly those commands, in the order they
    were logged, as slots 0 .. n-1; dumping with count 0 shows all 2048
    slots. *)
Theorem cmd_log_create_log_dump :
  forall qid (xs : list log_item) w0,
    0 <= qid < CMD_LOG_MAX_Q ->
    xs <> [] -> Z.of_nat (length xs) <= CMD_LOG_DEPTH ->
    fst (cmd_log_table_create qid w0) = 0
    /\ exists refs w',
         cmd_log_add_many E qid xs (snd (cmd_log_table_create qid w0))
         = inr (refs, w')
         /\ (exists out,
               log_cmd_dump (Some qid) (Z.of_nat (length xs)) w' = inr out
               /\ length out = length xs
               /\ forall (k : nat) x, xs !! k = Some x ->
                    exists e, out !! k = Some (Z.of_nat k, e)
                              /\ logs_item e x)
         /\ (exists all,
               log_cmd_dump (Some qid) 0 w' = inr all
               /\ Z.of_nat (length all) = CMD_LOG_DEPTH).
Proof.
  intros qid xs w0 Hq Hne Hlen.
  unfold cmd_log_table_create.
  destruct (Z.leb_spec CMD_LOG_MAX_Q qid); [lia|]. cbn [fst snd].
  split; [reflexivity|].
  set (w1 := set_cmd_logs _ w0).
  assert (Hw1 : log_table_at w1 qid 0).
  { eexists. unfold w1. cbn [cmd_log_queue_table set_cmd_logs].
    rewrite lookup_insert_eq. split; [reflexivity|]. cbn [tail_index table].
    split; [reflexivity|]. rewrite length_replicate. reflexivity. }
  destruct (cmd_log_add_many_ring E xs qid w1 0 ltac:(lia)
              ltac:(unfold CMD_LOG_DEPTH; lia) Hw1)
    as (refs & w' & Hmany & (logt & Hl & _ & Hll) & Hks & _).
  exists refs, w'. split; [exact Hmany|].
  assert (Hdump : forall count,
            log_cmd_dump (Some qid) count w'
            = log_cmd_dump_from
                (Z.to_nat (if (count =? 0) || (CMD_LOG_DEPTH <? count)
                           then CMD_LOG_DEPTH else count)) 0 (table logt)).
  { intros count. unfold log_cmd_dump. cbn [of_option rbind ok].
    destruct (Z.ltb_spec qid CMD_LOG_MAX_Q); [|lia]. rewrite Hl.
    rewrite bool_decide_eq_true_2 by eauto. reflexivity. }
  assert (Hn : 0 < Z.of_nat (length xs)).
  { destruct xs; [contradiction|]. cbn [length]. lia. }
  split.
  - rewrite Hdump.
    destruct (Z.eqb_spec (Z.of_nat (length xs)) 0); [lia|].
    destruct (Z.ltb_spec CMD_LOG_DEPTH (Z.of_nat (length xs))); [lia|].
    cbn [orb]. rewrite Nat2Z.id.
    destruct (log_cmd_dump_from_slots (length xs) 0 (table logt))
      as (out & Hout & Hol & Hslots); [lia|lia|].
    exists out. split; [exact Hout|]. split; [exact Hol|].
    intros k x Hk.
    destruct (Hslots k) as (e & Hoe & Hte);
      [apply lookup_lt_Some in Hk; exact Hk|].
    exists e. split; [exact Hoe|].
    destruct (Hks k x Hk) as (_ & Hsurv).
    destruct Hsurv as (e' & He' & Hx); [lia|].
    assert (Hkk : (0 + Z.of_nat k) mod CMD_LOG_DEPTH = Z.of_nat k).
    { apply lookup_lt_Some in Hk. rewrite Z.add_0_l.
      apply Z.mod_small. lia. }
    rewrite Hkk in He'. unfold log_entry_at in He'.
    cbn [ref_qid ref_idx] in He'. rewrite Hl in He'.
    destruct (Z.leb_spec 0 (Z.of_nat k)); [|lia].
    rewrite Z.add_0_l in Hte. congruence.
  - rewrite Hdump. cbn [Z.eqb orb].
    destruct (log_cmd_dump_from_slots (Z.to_nat CMD_LOG_DEPTH) 0 (table logt))
      as (out & Hout & Hol & _); [lia|rewrite Z2Nat.id by (unfold CMD_LOG_DEPTH; lia); lia|].
    exists out. split; [exact Hout|]. rewrite Hol. reflexivity.
Qed.

End Dump.

(** ** Closed examples of the further properties *)

Lemma buffer_fill_then_verify_witness :
  exists w',
    buffer_fill_data env0 4096 3 2 512 world_buf = inr w'
    /\ buffer_verify_data env0 4096 3 2 512 w' = inr 0.
Proof.
  apply (buffer_fill_then_verify env0 4096 3 2 world_buf (replicate 1024 0)
           (replicate 16 0) 0); closed.
Defined.

Lemma crc32_clear_range_witness :
  exists w' tbl',
    crc32_clear 3 2 0 1 world0 = inr w'
    /\ g_driver_csum_table_ptr w' = Some tbl'
    /\ length tbl' = 16%nat
    /\ tbl' !! 3%nat = Some 0xffffffff
    /\ tbl' !! 5%nat = Some 0
    /\ cmd_log_queue_table w' = cmd_log_queue_table world0.
Proof.
  destruct (crc32_clear_range 3 2 0 1 world0 (replicate 16 0))
    as (w' & tbl' & Hrun & Ht & Hlen & Hin & Hout & _ & _ & Hlogs & _);
    [closed..|].
  exists w', tbl'. split; [exact Hrun|]. split; [exact Ht|].
  split; [exact Hlen|].
  split; [apply (Hin 3%nat); lia|].
  split; [|exact Hlogs].
  rewrite (Hout 5%nat) by lia. reflexivity.
Defined.

Lemma crc32_clear_sanitize_witness :
  crc32_clear 1 0 1 0 world0 = inl (AssertFail 116)
  /\ crc32_clear 0 0 1 1 world0
     = inr (log_events [EvOracleClear 0 64 255]
              (set_csum_table (Some (replicate 16 0xffffffff)) world0)).
Proof.
  destruct (crc32_clear_sanitize 1 0 0 world0 (replicate 16 0) eq_refl)
    as (H116 & _).
  destruct (crc32_clear_sanitize 0 0 1 world0 (replicate 16 0) eq_refl)
    as (_ & _ & Hall).
  split; [apply H116; lia|].
  apply Hall; [reflexivity|reflexivity|discriminate].
Defined.

Lemma crc32_clear_then_verify_witness :
  exists w',
    crc32_clear 3 2 0 1 world0 = inr w'
    /\ buffer_verify_data env0 0 4 1 512 w' = inr (-1).
Proof.
  apply (crc32_clear_then_verify env0 3 2 1 world0 (replicate 16 0) 0 4 1);
    closed.
Defined.

Lemma nvme_send_cmd_raw_deallocates_witness :
  table_filled !! 3%nat = Some 3260871929
  /\ exists rc w' tbl',
       nvme_send_cmd_raw env0 (Some 1) 9 1 8192 16 0 0 0 0 0 0 None 0 world_dsm
       = inr (rc, w')
       /\ g_driver_csum_table_ptr w' = Some tbl'
       /\ tbl' !! 3%nat = Some 0 /\ tbl' !! 4%nat = Some 0
       /\ tbl' !! 5%nat = table_filled !! 5%nat.
Proof.
  split; [vm_compute; reflexivity|].
  assert (Hrun : exists rc w',
            nvme_send_cmd_raw env0 (Some 1) 9 1 8192 16 0 0 0 0 0 0 None 0
              world_dsm = inr (rc, w'))
    by (vm_compute; eexists _, _; reflexivity).
  destruct Hrun as (rc & w' & Hrun). exists rc, w'.
  destruct (nvme_send_cmd_raw_deallocates env0 (Some 1) 9 1 8192 16 0 0 0 0 0 0
              None 0 world_dsm rc w' table_filled Hrun)
    as (tbl' & Ht & _ & Hs & _).
  - vm_compute. reflexivity.
  - vm_compute. repeat constructor; discriminate.
  - exists tbl'. split; [exact Hrun|]. split; [exact Ht|].
    rewrite !Hs. vm_compute. auto.
Defined.

Lemma world0_log_table : log_table_at world0 1 0.
Proof.
  exists logt0. split; [vm_compute; reflexivity|].
  split; reflexivity.
Qed.

Lemma cmd_log_ring_witness :
  exists refs w',
    cmd_log_add_many env0 1 three_items world0 = inr (refs, w')
    /\ refs !! 1%nat = Some (mk_ref 1 1)
    /\ log_table_at w' 1 3
    /\ exists e, log_entry_at (mk_ref 1 1) w' = Some e
                 /\ opc (cmd e) = 2 /\ buf e = 4096.
Proof.
  destruct (cmd_log_ring env0 three_items 1 world0 0) as
    (refs & w' & Hrun & Htail & Hks & _ & _);
    [closed|closed|exact world0_log_table|].
  exists refs, w'. split; [exact Hrun|].
  destruct (Hks 1%nat _ eq_refl) as (Hr & Hsurv).
  split; [exact Hr|]. split; [exact Htail|].
  destruct Hsurv as (e & He & Hb & _ & _ & _ & Hc & _); [closed|].
  exists e. split; [exact He|]. rewrite Hc, Hb. split; reflexivity.
Defined.

Lemma cmd_log_create_log_dump_witness :
  exists refs w' out,
    cmd_log_add_many env0 5 three_items (snd (cmd_log_table_create 5 world0))
    = inr (refs, w')
    /\ log_cmd_dump (Some 5) 3 w' = inr out
    /\ length out = 3%nat
    /\ exists e, out !! 2%nat = Some (2, e) /\ opc (cmd e) = 0.
Proof.
  destruct (cmd_log_create_log_dump env0 5 three_items world0) as
    (_ & refs & w' & Hrun & (out & Hdump & Hlen & Hks) & _); [closed..|].
  exists refs, w', out. split; [exact Hrun|]. split; [exact Hdump|].
  split; [exact Hlen|].
  destruct (Hks 2%nat _ eq_refl) as (e & He & _ & _ & _ & _ & Hc & _).
  exists e. split; [exact He|]. rewrite Hc. reflexivity.
Defined.

Lemma run_wrap_check : ioworker_check_args args_wrap = inr tt.
Proof. reflexivity. Qed.

Lemma ioworker_stays_in_region_witness :
  exists k' w' new,
    ioworker_entry env0 100 ns0 (Some 1) args_wrap [] [] world0
    = Some (inr (0, k', w'))
    /\ submitted_lbas (trace w') = submitted_lbas (trace world0) ++ new
    /\ Forall (fun l => 0 <= l /\ 0 <= l <= 6 /\ l + 1 < 8) new.
Proof.
  destruct run_wrap_returns as (k' & w' & Hrun).
  destruct (ioworker_stays_in_region env0 100 ns0 (Some 1) args_wrap [] []
              world0 0 k' w' args_wrap_revised Hrun)
    as (new & Hsub & Hall); [closed..|].
  exists k', w', new. split; [exact Hrun|]. split; [exact Hsub|exact Hall].
Defined.

Lemma ioworker_counts_add_up_witness :
  exists k' w' new,
    ioworker_entry env0 100 ns0 (Some 1) args_wrap [] [] world0
    = Some (inr (0, k', w'))
    /\ trace w' = trace world0 ++ new
    /\ u64 (io_count_read (wk_rets k') + io_count_write (wk_rets k'))
       = u64 (accepted new).
Proof.
  destruct run_wrap_returns as (k' & w' & Hrun).
  destruct (ioworker_counts_add_up env0 100 ns0 (Some 1) args_wrap [] []
              world0 0 k' w' Hrun) as (new & Ht & _ & _ & Hsum); [closed|].
  exists k', w', new. split; [exact Hrun|]. split; [exact Ht|].
  apply Hsum. reflexivity.
Defined.

Lemma ioworker_read_percentage_witness :
  exists k' w' new,
    ioworker_entry env0 100 ns0 (Some 1) args_wrap [] [] world0
    = Some (inr (0, k', w'))
    /\ trace w' = trace world0 ++ new
    /\ Forall (fun x => opc (fst x) = 1) (submits new)
    /\ io_count_read (wk_rets k') = 0.
Proof.
  destruct run_wrap_returns as (k' & w' & Hrun).
  destruct (ioworker_read_percentage_ends env0 100 ns0 (Some 1) args_wrap [] []
              world0 0 k' w' Hrun) as (new & Ht & H0 & _); [closed|].
  exists k', w', new. split; [exact Hrun|]. split; [exact Ht|].
  apply H0. reflexivity.
Defined.

Lemma ioworker_within_io_count_witness :
  exists k' w' new,
    ioworker_entry env0 100 ns0 (Some 1) args_wrap [] [] world0
    = Some (inr (0, k', w'))
    /\ trace w' = trace world0 ++ new
    /\ Z.of_nat (length (submits new)) <= 20.
Proof.
  destruct run_wrap_returns as (k' & w' & Hrun).
  destruct (ioworker_within_io_count env0 100 ns0 (Some 1) args_wrap [] []
              world0 0 k' w' args_wrap_revised Hrun)
    as (new & Ht & Hn & _); [closed..|].
  exists k', w', new. split; [exact Hrun|]. split; [exact Ht|exact Hn].
Defined.

Lemma ioworker_sequential_run_witness :
  exists k' w' (n : nat),
    ioworker_entry env0 100 ns0 (Some 1) args_wrap [] [] world0
    = Some (inr (0, k', w'))
    /\ Z.of_nat n <= 20
    /\ submitted_lbas (trace w')
       = submitted_lbas (trace world0) ++ seq_lbas args_wrap_revised n 0.
Proof.
  destruct run_wrap_returns as (k' & w' & Hrun).
  destruct (ioworker_sequential_run env0 100 ns0 (Some 1) args_wrap [] []
              world0 0 k' w' args_wrap_revised Hrun)
    as (n & Hn & Hs & _); [closed..|].
  exists k', w', n. split; [exact Hrun|]. split; [exact Hn|exact Hs].
Defined.

Lemma ioworker_one_cb_drains_witness :
  flag_finish (wk_gctx (worker_last 100)) = false
  /\ flag_finish (wk_gctx (fst (cb_last 100))) = true
  /\ io_count_sent (wk_gctx (fst (cb_last 100))) = 1
  /\ inflight (snd (cb_last 100)) = inflight world_buf.
Proof.
  assert (Hrun : ioworker_one_cb env0 0 unrecovered_cpl (worker_last 100)
                   world_buf = inr (fst (cb_last 100), snd (cb_last 100)))
    by (vm_compute; reflexivity).
  destruct (ioworker_one_cb_drains env0 0 unrecovered_cpl (worker_last 100)
              world_buf _ _ Hrun) as (Hf & Hs & _ & Hi & _).
  - right. split; [reflexivity|]. intros [_ Hlt]. vm_compute in Hlt.
    discriminate Hlt.
  - split; [reflexivity|]. split; [exact Hf|]. split; [exact Hs|exact Hi].
Defined.

Lemma ioworker_entry_align_zero_witness :
  ioworker_entry env0 100 ns0 (Some 1) args_unaligned [] [] world0
  = Some (inl DivByZero).
Proof.
  apply (ioworker_entry_align_zero env0 100 ns0 (Some 1) args_unaligned [] []
           world0); closed.
Defined.

Lemma ioworker_entry_refused_witness :
  exists k' w',
    ioworker_entry env_refuse 100 ns0 (Some 1) args_wrap [] [] world0
    = Some (inr (0, k', w'))
    /\ error (wk_rets k') = 0
    /\ io_count_write (wk_rets k') = 0
    /\ io_count_sent (wk_gctx k') = 0.
Proof.
  assert (Hrun : exists ret k' w',
            ioworker_entry env_refuse 100 ns0 (Some 1) args_wrap [] [] world0
            = Some (inr (ret, k', w')) /\ ret <> -2).
  { vm_compute. eexists _, _, _. split; [reflexivity|]. intro; discriminate. }
  destruct Hrun as (ret & k' & w' & Hrun & Hret).
  destruct (ioworker_entry_refused_returns_0 env_refuse
              ltac:(intros n; vm_compute; discriminate)
              100 ns0 (Some 1) args_wrap [] [] world0 ret k' w' Hrun Hret)
    as (-> & He & _ & Hw & Hs & _); [closed..|].
  exists k', w'. auto.
Defined.

Lemma ns_init_once_witness :
  ns_init zones0 (Some ns0) world_bare = inr (Some ns0, world_ns)
  /\ g_driver_table_size world_ns = 64
  /\ ns_init zones0 (Some ns0) world_ns = inl (AssertFail 71)
  /\ ns_init zones0 (Some ns0) (snd (ns_fini world_ns)) = inl (AssertFail 73).
Proof.
  assert (Hrun : ns_init zones0 (Some ns0) world_bare
                 = inr (Some ns0, world_ns)) by (vm_compute; reflexivity).
  destruct (ns_init_once_per_primary zones0 zones0 ns0 ns0 world_bare world_ns
              Hrun) as ((Hsz & _) & _ & _ & _ & Hprim & _).
  destruct (Hprim eq_refl) as (H71 & H73).
  split; [exact Hrun|]. split; [rewrite Hsz; reflexivity|].
  split; [exact H71|exact H73].
Defined.

(** ** The world outside the worker: invariants carried through polling *)

Lemma quiet_refl w : quiet w w.
Proof. repeat split; reflexivity. Qed.

Lemma quiet_trans w1 w2 w3 : quiet w1 w2 -> quiet w2 w3 -> quiet w1 w3.
Proof.
  intros (H1 & H2 & H3 & H4) (H5 & H6 & H7 & H8). repeat split; congruence.
Qed.

Section WorldInv.
Variable E : environment.

Lemma dma_deliver_quiet b d w : quiet w (dma_deliver b d w).
Proof.
  unfold dma_deliver. destruct d as [data|]; [|apply quiet_refl].
  destruct (dma w !! b) as [m|] eqn:Hm; [|apply quiet_refl].
  split; [reflexivity|]. split; [|split; reflexivity]. cbn [dma set_dma].
  rewrite dom_insert_L. apply elem_of_dom_2 in Hm. set_solver.
Qed.

Lemma set_log_entry_quiet r e w : quiet w (set_log_entry r e w).
Proof.
  unfold set_log_entry. destruct (cmd_log_queue_table w !! ref_qid r);
    repeat split; reflexivity.
Qed.

Lemma cmd_log_add_cpl_cb_quiet r c w inv w' :
  cmd_log_add_cpl_cb E r c w = inr (inv, w') -> quiet w w'.
Proof.
  unfold cmd_log_add_cpl_cb, gettimeofday. intros H.
  res_all;
    (eapply quiet_trans; [|apply set_log_entry_quiet]); repeat split;
      reflexivity.
Qed.

Section PollWorld.
Context {S : Type}.
Variable run_cb : invocation -> S -> world -> res (S * world).
Variable Q : S -> world -> Prop.
Hypothesis Q_quiet : forall s w w', Q s w -> quiet w w' -> Q s w'.
Hypothesis run_cb_Q : forall inv s w s' w',
  Q s w -> run_cb inv s w = inr (s', w') -> Q s' w'.

Lemma complete_one_winv qid a s w s' w' :
  Q s w -> complete_one E run_cb qid a s w = inr (s', w') -> Q s' w'.
Proof.
  unfold complete_one. intros HQ H.
  destruct (inflight w !! cq_slot a) as [rq|];
    [|injection H as <- <-; exact HQ].
  destruct (negb (rq_admin rq) && (rq_qid rq =? qid));
    [|injection H as <- <-; exact HQ].
  apply rbind_inr in H. destruct H as ([inv w3] & Hcpl & H).
  apply cmd_log_add_cpl_cb_quiet in Hcpl.
  assert (HQ3 : Q s w3).
  { eapply Q_quiet; [exact HQ|].
    eapply quiet_trans; [|exact Hcpl].
    eapply quiet_trans; [|apply dma_deliver_quiet].
    repeat split; reflexivity. }
  destruct inv as [i|].
  - eapply run_cb_Q; eauto.
  - injection H as <- <-. exact HQ3.
Qed.

Lemma complete_all_winv qid l :
  forall s w s' w',
    Q s w -> complete_all E run_cb qid l s w = inr (s', w') -> Q s' w'.
Proof.
  induction l as [|a l IH]; cbn [complete_all]; intros s w s' w' HQ H.
  - injection H as <- <-. exact HQ.
  - apply rbind_inr in H. destruct H as ([s1 w1] & H1 & H).
    eapply IH; [|exact H]. eapply complete_one_winv; eauto.
Qed.

Lemma process_completions_winv qpair s w s' w' :
  Q s w ->
  spdk_nvme_qpair_process_completions E run_cb qpair s w = inr (s', w') ->
  Q s' w'.
Proof.
  unfold spdk_nvme_qpair_process_completions. intros HQ H.
  apply rbind_inr in H. destruct H as (qid & _ & H).
  eapply complete_all_winv; [|exact H].
  eapply Q_quiet; [exact HQ|]. repeat split; reflexivity.
Qed.

End PollWorld.

Section LoopWorld.
Variable Q : ioworker -> world -> Prop.
Hypothesis Q_quiet : forall k w w', Q k w -> quiet w w' -> Q k w'.
Hypothesis Q_cb : forall i c k w k' w',
  Q k w -> ioworker_one_cb E i c k w = inr (k', w') -> Q k' w'.

Lemma ioworker_run_cb_winv inv k w k' w' :
  Q k w -> ioworker_run_cb E inv k w = inr (k', w') -> Q k' w'.
Proof.
  unfold ioworker_run_cb. intros HQ H. destruct (inv_fn inv).
  - eapply Q_cb; eauto.
  - injection H as <- <-. eapply Q_quiet; [exact HQ|].
    repeat split; reflexivity.
Qed.

Lemma ioworker_poll_loop_winv fuel ts :
  forall k w ret k' w',
    Q k w ->
    ioworker_poll_loop E fuel ts k w = Some (inr (ret, k', w')) ->
    Q k' w'.
Proof.
  induction fuel as [|fuel IH]; cbn [ioworker_poll_loop];
    intros k w ret k' w' HQ H; [discriminate|].
  destruct (ioworker_pending (wk_gctx k)).
  - unfold ioworker_get_duration, gettimeofday in H.
    assert (HQ1 : Q k (tick_clock w))
      by (eapply Q_quiet; [exact HQ|repeat split; reflexivity]).
    destruct (watchdog_limit (wk_args k) <? _).
    + injection H as <- <- <-. exact HQ1.
    + destruct (spdk_nvme_qpair_process_completions E (ioworker_run_cb E)
                  (g_qpair (wk_gctx k)) k (tick_clock w)) as [f|[k2 w2]] eqn:Hp;
        [discriminate|].
      eapply IH; [|exact H].
      eapply (process_completions_winv (ioworker_run_cb E) Q Q_quiet
                ioworker_run_cb_winv); [|exact Hp]. exact HQ1.
  - injection H as <- <- <-. exact HQ.
Qed.

End LoopWorld.

Section EntryWorld.
Variable Q : ioworker -> world -> Prop.
Hypothesis Q_sts : forall k w w',
  Q k w ->
  g_ioworker_status_table w' = g_ioworker_status_table w ->
  g_driver_io_token_ptr w' = g_driver_io_token_ptr w ->
  g_driver_csum_table_ptr w' = g_driver_csum_table_ptr w ->
  Q k w'.
Hypothesis Q_io_ctx : forall l k w, Q k w -> Q (set_io_ctx l k) w.
Hypothesis Q_send : forall i k w r k' w',
  Q k w -> ioworker_send_one E i k w = inr (r, k', w') -> Q k' w'.
Hypothesis Q_cb : forall i c k w k' w',
  Q k w -> ioworker_one_cb E i c k w = inr (k', w') -> Q k' w'.
Hypothesis Q_msec : forall d k w,
  Q k w -> Q (set_rets (set_mseconds d (wk_rets k)) k) w.

Lemma ioworker_first_batch_winv n :
  forall i ss k w k' w',
    Q k w -> ioworker_first_batch E n i ss k w = inr (k', w') -> Q k' w'.
Proof.
  induction n as [|n IH]; cbn [ioworker_first_batch]; intros i ss k w k' w' HQ H.
  - injection H as <- <-. exact HQ.
  - apply rbind_inr in H. destruct H as (old & Hold & H).
    unfold buffer_init in H.
    apply rbind_inr in H. destruct H as ([[r k2] w2] & Hsend & H).
    eapply IH; [|exact H].
    eapply Q_send; [|exact Hsend].
    apply Q_io_ctx. eapply Q_sts; [exact HQ|reflexivity..].
Qed.

Lemma ioworker_release_sts n :
  forall i k w w',
    ioworker_release n i k w = inr w' ->
    g_ioworker_status_table w' = g_ioworker_status_table w
    /\ g_driver_io_token_ptr w' = g_driver_io_token_ptr w
    /\ g_driver_csum_table_ptr w' = g_driver_csum_table_ptr w.
Proof.
  induction n as [|n IH]; cbn [ioworker_release]; intros i k w w' H.
  - injection H as <-. auto.
  - apply rbind_inr in H. destruct H as (ctx & _ & H).
    apply rbind_inr in H. destruct H as (w1 & Hfini & H).
    unfold buffer_fini in Hfini.
    apply rbind_inr in Hfini. destruct Hfini as (u & _ & Hfini).
    injection Hfini as <-. apply IH in H. exact H.
Qed.

(** An invariant of the worker state, the status table, the token and the
    checksum table that the sends and the completion handler keep holds
    when [ioworker_entry] returns. *)
Lemma ioworker_entry_winv fuel ns qpair args ps pl w ret k' w' :
  ioworker_entry E fuel ns qpair args ps pl w = Some (inr (ret, k', w')) ->
  ret <> -2 ->
  (forall a1 k0,
     ioworker_revise_args (u64 (ns_num_sectors ns)) args = inr a1 ->
     wk_args k0 = a1 -> wk_rets k0 = mk_rets 0 0 0 0 0 ->
     io_count_sent (wk_gctx k0) = 0 -> io_count_cplt (wk_gctx k0) = 0 ->
     flag_finish (wk_gctx k0) = false ->
     Q k0 w) ->
  Q k' w'.
Proof.
  intros H Hret Hinit.
  unfold ioworker_entry in H.
  destruct (ioworker_check_args args) as [f|[]]; [discriminate|].
  destruct (_ <? _).
  { injection H as <- _ _. lia. }
  destruct (ioworker_revise_args (u64 (ns_num_sectors ns)) args)
    as [f|a1] eqn:Hrev; [discriminate|].
  unfold gettimeofday in H.
  match type of H with
  | match ?m with _ => _ end = _ => destruct m as [f|[k1 w2]] eqn:Hb
  end; [discriminate|].
  destruct (ioworker_poll_loop E fuel (gettimeofday_nth E (n_clock w)) k1 w2)
    as [[f|[[ret0 k2] w3]]|] eqn:Hl; try discriminate.
  unfold ioworker_get_duration, gettimeofday in H.
  match type of H with
  | match ?m with _ => _ end = _ => destruct m as [f|w5] eqn:Hrel
  end; [discriminate|].
  injection H as <- <- <-.
  apply rbind_inr in Hb. destruct Hb as (u & _ & Hb).
  apply ioworker_release_sts in Hrel. destruct Hrel as (Hr1 & Hr2 & Hr3).
  eapply Q_sts; [|exact Hr1|exact Hr2|exact Hr3]. apply Q_msec.
  apply (Q_sts k2 w3); [|reflexivity..].
  eapply (ioworker_poll_loop_winv Q); [| | |exact Hl].
  - intros k w0 w0' HQ (Hq1 & _ & Hq3 & Hq4). eapply Q_sts; eauto.
  - exact Q_cb.
  - eapply ioworker_first_batch_winv; [|exact Hb].
    apply (Q_sts _ w); [|reflexivity..]. apply (Hinit a1); reflexivity.
Qed.

End EntryWorld.
End WorldInv.

(** ** Buffers taken and given back *)

Lemma dma_fresh_bound (d : gmap Z (list Z)) :
  (0 <= map_fold (fun k _ acc => Z.max k acc) 0 d)
  /\ forall b, b ∈ dom d -> b <= map_fold (fun k _ acc => Z.max k acc) 0 d.
Proof.
  apply (map_fold_weak_ind
           (fun acc (m : gmap Z (list Z)) =>
              0 <= acc /\ forall b, b ∈ dom m -> b <= acc)).
  - split; [lia|]. intros b Hb. rewrite dom_empty_L in Hb. set_solver.
  - intros i x m r Hi [H0 Hr]. split; [lia|].
    intros b Hb. rewrite dom_insert_L in Hb.
    apply elem_of_union in Hb. destruct Hb as [Hb|Hb].
    + apply elem_of_singleton in Hb. lia.
    + specialize (Hr b Hb). lia.
Qed.

(** [spdk_dma_zmalloc]'s address is not in use, and is not NULL. *)
Lemma dma_fresh_fresh d : (dma_fresh d ∉ dom d) /\ dma_fresh d <> 0.
Proof.
  unfold dma_fresh. destruct (dma_fresh_bound d) as [H0 Hb]. split; [|lia].
  intros Hin. apply Hb in Hin. lia.
Qed.

Section Bufs.
Variable E : environment.

Lemma buffer_fill_data_dom b lba n ls w w' :
  buffer_fill_data E b lba n ls w = inr w' -> dom (dma w') = dom (dma w).
Proof.
  unfold buffer_fill_data. intros H.
  apply rbind_inr in H. destruct H as (tok & Htok & H).
  destruct (Z.to_nat n).
  - injection H as <-. reflexivity.
  - cbv beta iota in H.
    apply rbind_inr in H. destruct H as (m & Hm & H).
    apply rbind_inr in H. destruct H as (tbl & _ & H).
    apply rbind_inr in H. destruct H as ([[m' tbl'] evs] & Hb & H).
    injection H as <-. apply of_option_inr in Hm.
    cbn [dma log_events set_csum_table set_dma set_token] in *.
    rewrite dom_insert_L. apply elem_of_dom_2 in Hm. set_solver.
Qed.

Lemma cmd_log_add_cmd_dom qid b lba n ls c fn arg w r w' :
  cmd_log_add_cmd E qid b lba n ls c fn arg w = inr (r, w') ->
  dma w' = dma w.
Proof.
  unfold cmd_log_add_cmd, gettimeofday. intros H. res_all. reflexivity.
Qed.

Lemma ns_cmd_read_write_dom isr ns qp b len lba n fl fn arg w rc w' :
  ns_cmd_read_write E isr ns qp b len lba n fl fn arg w = inr (rc, w') ->
  dom (dma w') = dom (dma w).
Proof.
  unfold ns_cmd_read_write. intros H.
  apply rbind_inr in H. destruct H as (qid & _ & H).
  apply rbind_inr in H. destruct H as (u1 & _ & H).
  apply rbind_inr in H. destruct H as (u2 & _ & H).
  apply rbind_inr in H. destruct H as (u3 & _ & H).
  apply rbind_inr in H. destruct H as (u4 & _ & H).
  apply rbind_inr in H. destruct H as (w1 & Hfill & H).
  apply rbind_inr in H. destruct H as ([r w2] & Hadd & H).
  injection H as H.
  apply cmd_log_add_cmd_dom in Hadd.
  assert (Hw1 : dom (dma w1) = dom (dma w)).
  { destruct (negb (isr =? 1)).
    - eapply buffer_fill_data_dom. exact Hfill.
    - injection Hfill as <-. reflexivity. }
  unfold spdk_nvme_ctrlr_cmd_io_raw in H.
  destruct (submit_rc_nth E (n_submit w2) =? 0);
    injection H as <- <-; cbn; rewrite Hadd; exact Hw1.
Qed.

Lemma ioworker_send_one_lba_dma a g w lba g1 w2 :
  ioworker_send_one_lba E a g w = inr (lba, g1, w2) -> dma w2 = dma w.
Proof.
  unfold ioworker_send_one_lba, ioworker_send_one_lba_random, random, ALIGN_DOWN.
  intros H. res_all; reflexivity.
Qed.

(** A send keeps every context's buffer and allocates and frees nothing. *)
Lemma ioworker_send_one_bufs i k w r k' w' :
  ioworker_send_one E i k w = inr (r, k', w') ->
  data_buf <$> wk_io_ctx k' = data_buf <$> wk_io_ctx k
  /\ dom (dma w') = dom (dma w).
Proof.
  intros H. apply ioworker_send_one_steps in H.
  destruct H as (ctx & lba & g1 & w2 & w3 & Hi & Hctx & Hlba & Hb & Hrw & _ & _
                 & _ & _ & _ & _ & Hfix & _ & Hne & Heq).
  apply ioworker_send_one_lba_dma in Hlba.
  apply ns_cmd_read_write_dom in Hrw.
  split.
  - destruct (Z.eq_dec r 0) as [Hr|Hr].
    + destruct (Heq Hr) as ((now & ->) & _).
      rewrite list_fmap_insert. cbn [data_buf].
      apply list_insert_id. rewrite list_lookup_fmap, Hctx. reflexivity.
    + destruct (Hne Hr) as (-> & _). reflexivity.
  - unfold world_fixed in Hfix.
    assert (dma w' = dma w3) as -> by congruence.
    rewrite Hrw, Hlba. reflexivity.
Qed.

Lemma ioworker_one_cb_bufs i c k w k' w' :
  ioworker_one_cb E i c k w = inr (k', w') ->
  data_buf <$> wk_io_ctx k' = data_buf <$> wk_io_ctx k
  /\ dom (dma w') = dom (dma w).
Proof.
  intros H. apply ioworker_one_cb_steps in H.
  destruct H as (ctx & k7 & w4 & sleeps & _ & _ & Hk7 & _ & _ & _ & Hw4 & _ & _
                 & _ & _ & Hend).
  assert (Hio : wk_io_ctx k7 = wk_io_ctx k) by (unfold worker_fixed in Hk7; congruence).
  assert (Hd : dma w4 = dma w) by (unfold world_fixed in Hw4; congruence).
  destruct Hend as [(_ & -> & ->)|(_ & _ & r & Hsend)].
  - rewrite Hio, Hd. auto.
  - apply ioworker_send_one_bufs in Hsend. destruct Hsend as [-> ->].
    rewrite Hio, Hd. auto.
Qed.

Lemma bufs_inv_quiet D0 n k w w' :
  bufs_inv D0 n k w -> quiet w w' -> bufs_inv D0 n k w'.
Proof. intros [H1 H2] (_ & Hq & _). split; [congruence|exact H2]. Qed.

Lemma bufs_inv_cb D0 n i c k w k' w' :
  bufs_inv D0 n k w -> ioworker_one_cb E i c k w = inr (k', w') ->
  bufs_inv D0 n k' w'.
Proof.
  intros [H1 H2] H. apply ioworker_one_cb_bufs in H. destruct H as [Hb Hd].
  unfold bufs_inv. rewrite Hb, Hd. auto.
Qed.

(** The first batch allocates one buffer per context it starts. *)
Lemma bufs_inv_first_batch D0 n :
  forall i ss k w k' w',
    bufs_inv D0 i k w ->
    ioworker_first_batch E n (Z.of_nat i) ss k w = inr (k', w') ->
    bufs_inv D0 (i + n) k' w'.
Proof.
  induction n as [|n IH]; cbn [ioworker_first_batch]; intros i ss k w k' w' HQ H.
  - injection H as <- <-. rewrite Nat.add_0_r. exact HQ.
  - apply rbind_inr in H. destruct H as (old & Hold & H).
    apply of_option_inr in Hold. rewrite Nat2Z.id in Hold.
    unfold buffer_init in H. rewrite Nat2Z.id in H.
    apply rbind_inr in H. destruct H as ([[r k2] w2] & Hsend & H).
    replace (Z.of_nat i + 1) with (Z.of_nat (S i)) in H by lia.
    replace (i + S n)%nat with (S i + n)%nat by lia.
    eapply IH; [|exact H].
    apply ioworker_send_one_bufs in Hsend. destruct Hsend as [Hb Hd].
    destruct HQ as [H1 H2]. unfold bufs_inv. rewrite Hb, Hd.
    cbn [wk_io_ctx set_io_ctx dma set_dma].
    rewrite list_fmap_insert. cbn [data_buf].
    destruct (dma_fresh_fresh (dma w)) as [Hfresh _].
    assert (Hlen : (i < length (data_buf <$> wk_io_ctx k))%nat).
    { rewrite length_fmap. eapply lookup_lt_Some. exact Hold. }
    assert (Ht : take (S i) (<[i := dma_fresh (dma w)]> (data_buf <$> wk_io_ctx k))
                 = take i (data_buf <$> wk_io_ctx k) ++ [dma_fresh (dma w)]).
    { erewrite take_S_r by (apply list_lookup_insert_eq; exact Hlen).
      rewrite take_insert_ge by lia. reflexivity. }
    rewrite Ht. split.
    + rewrite dom_insert_L, H1, list_to_set_app_L. cbn [list_to_set].
      set_solver.
    + apply Forall_app. split; [exact H2|].
      constructor; [|constructor]. rewrite H1 in Hfresh. set_solver.
Qed.

(** Releasing frees the buffers of the contexts from [i] on. *)
Lemma ioworker_release_dom n :
  forall i k w w',
    ioworker_release n (Z.of_nat i) k w = inr w' ->
    dom (dma w')
    = dom (dma w) ∖ list_to_set (take n (drop i (data_buf <$> wk_io_ctx k))).
Proof.
  induction n as [|n IH]; cbn [ioworker_release]; intros i k w w' H.
  - injection H as <-. cbn. set_solver.
  - apply rbind_inr in H. destruct H as (ctx & Hctx & H).
    apply of_option_inr in Hctx. rewrite Nat2Z.id in Hctx.
    apply rbind_inr in H. destruct H as (w1 & Hfini & H).
    unfold buffer_fini in Hfini.
    apply rbind_inr in Hfini. destruct Hfini as (u & _ & Hfini).
    injection Hfini as <-.
    replace (Z.of_nat i + 1) with (Z.of_nat (S i)) in H by lia.
    apply IH in H. rewrite H. cbn [dma set_dma].
    rewrite dom_delete_L.
    assert (Hd : drop i (data_buf <$> wk_io_ctx k)
                 = data_buf ctx :: drop (S i) (data_buf <$> wk_io_ctx k)).
    { apply drop_S. rewrite list_lookup_fmap, Hctx. reflexivity. }
    rewrite Hd. cbn [take list_to_set]. set_solver.
Qed.

(** X17.  When [ioworker_entry] returns, the buffers that are allocated are the
    ones that were allocated when it was called: each buffer it took for a
    context has been given back, and no other buffer has been freed. *)
Theorem ioworker_entry_releases_buffers fuel ns qpair args ps pl w ret k' w' :
  ioworker_entry E fuel ns qpair args ps pl w = Some (inr (ret, k', w')) ->
  dom (dma w') = dom (dma w).
Proof.
  intros H. unfold ioworker_entry in H.
  destruct (ioworker_check_args args) as [f|[]]; [discriminate|].
  destruct (_ <? _).
  { injection H as _ _ <-. reflexivity. }
  destruct (ioworker_revise_args (u64 (ns_num_sectors ns)) args)
    as [f|a1] eqn:Hrev; [discriminate|].
  unfold gettimeofday in H.
  match type of H with
  | match ?m with _ => _ end = _ => destruct m as [f|[k1 w2]] eqn:Hb
  end; [discriminate|].
  destruct (ioworker_poll_loop E fuel (gettimeofday_nth E (n_clock w)) k1 w2)
    as [[f|[[ret0 k2] w3]]|] eqn:Hl; try discriminate.
  unfold ioworker_get_duration, gettimeofday in H.
  match type of H with
  | match ?m with _ => _ end = _ => destruct m as [f|w5] eqn:Hrel
  end; [discriminate|].
  injection H as <- <- <-.
  apply rbind_inr in Hb. destruct Hb as (u & _ & Hb).
  set (n := Z.to_nat (qdepth a1)) in *.
  assert (H1 : bufs_inv (dom (dma w)) n k1 w2).
  { change n with (0 + n)%nat.
    eapply (bufs_inv_first_batch (dom (dma w)) n 0); [|exact Hb].
    split; cbn; [set_solver|constructor]. }
  assert (H2 : bufs_inv (dom (dma w)) n k2 w3).
  { eapply (ioworker_poll_loop_winv E (bufs_inv (dom (dma w)) n));
      [| |exact H1|exact Hl].
    - intros; eapply bufs_inv_quiet; eauto.
    - intros; eapply bufs_inv_cb; eauto. }
  assert (Hargs : wk_args k2 = a1).
  { apply ioworker_poll_loop_args in Hl.
    apply ioworker_first_batch_args in Hb. rewrite Hl, Hb. reflexivity. }
  apply (ioworker_release_dom _ 0) in Hrel.
  rewrite Hrel, drop_0. cbn [wk_args set_rets wk_io_ctx dma tick_clock].
  rewrite Hargs. fold n. destruct H2 as [H2 H3]. rewrite H2.
  cbn [wk_io_ctx set_rets].
  set (l := take n (data_buf <$> wk_io_ctx k2)) in *.
  clearbody l. clear - H3. rewrite Forall_forall in H3.
  apply set_eq. intros b.
  rewrite elem_of_difference, elem_of_union, elem_of_list_to_set.
  split; [intros [[Hb|Hb] Hn]; [exact Hb|contradiction]|].
  intros Hb. split; [left; exact Hb|].
  intros Hl. exact (H3 b Hl Hb).
Qed.

End Bufs.

(** ** What a run requires, and a queue depth of 0 *)

Section Requirements.
Variable E : environment.

(** What [ns_cmd_read_write] asserts before it builds the command. *)
Lemma ns_cmd_read_write_asserts isr ns qp b len lba n fl fn arg w rc w' :
  ns_cmd_read_write E isr ns qp b len lba n fl fn arg w = inr (rc, w') ->
  is_Some qp /\ ns_id ns = 1 /\ b <> 0 /\ u32 (ns_sector_size ns) = 512
  /\ u32 (n * 512) <= len.
Proof.
  unfold ns_cmd_read_write. intros H.
  apply rbind_inr in H. destruct H as (qid & Hq & H).
  apply of_option_inr in Hq.
  apply rbind_inr in H. destruct H as (u1 & H1 & H).
  apply rbind_inr in H. destruct H as (u2 & H2 & H).
  apply rbind_inr in H. destruct H as (u3 & H3 & H).
  apply rbind_inr in H. destruct H as (u4 & H4 & _).
  apply assert_inr in H1, H2, H3, H4.
  apply Z.eqb_eq in H1, H3. apply negb_true_iff, Z.eqb_neq in H2.
  rewrite H3 in H4. apply Z.leb_le in H4.
  split; [rewrite Hq; eauto|]. auto.
Qed.

Lemma ioworker_first_batch_asserts n i ss k w k' w' :
  ioworker_first_batch E (S n) i ss k w = inr (k', w') ->
  is_Some (g_qpair (wk_gctx k)) /\ ns_id (g_ns (wk_gctx k)) = 1
  /\ u32 (ns_sector_size (g_ns (wk_gctx k))) = 512
  /\ u32 (u16 (a_lba_size (wk_args k)) * 512)
     <= u32 (a_lba_size (wk_args k) * ss).
Proof.
  cbn [ioworker_first_batch]. intros H.
  apply rbind_inr in H. destruct H as (old & Hold & H).
  apply of_option_inr in Hold.
  unfold buffer_init in H.
  apply rbind_inr in H. destruct H as ([[r k2] w2] & Hsend & _).
  apply ioworker_send_one_steps in Hsend.
  destruct Hsend as (ctx & lba & g1 & w3 & w4 & Hi & Hctx & _ & _ & Hrw & _).
  cbn [wk_io_ctx set_io_ctx wk_gctx wk_args] in Hctx, Hrw.
  apply ns_cmd_read_write_asserts in Hrw.
  destruct Hrw as (Hq & Hn & _ & Hs & Hlen).
  rewrite list_lookup_insert_eq in Hctx by (eapply lookup_lt_Some; exact Hold).
  injection Hctx as <-. cbn [data_buf_len] in Hlen. auto.
Qed.

(** X18.  A worker that is to send anything runs only on a queue that exists,
    on namespace 1 and with sectors of 512 bytes: when [ioworker_entry]
    returns anything but -2 for a queue depth that is not zero, all three
    hold, since the first send has passed the assertions of
    [ns_cmd_read_write]. *)
Theorem ioworker_entry_requirements :
  forall fuel ns qpair args ps pl w ret k' w',
    ioworker_entry E fuel ns qpair args ps pl w = Some (inr (ret, k', w')) ->
    ret <> -2 -> 0 < qdepth args -> 0 <= io_count args ->
    is_Some qpair /\ ns_id ns = 1 /\ u32 (ns_sector_size ns) = 512.
Proof.
  intros fuel ns qpair args ps pl w ret k' w' H Hret Hq Hc.
  unfold ioworker_entry in H.
  destruct (ioworker_check_args args) as [f|[]]; [discriminate|].
  destruct (_ <? _).
  { injection H as <- _ _. lia. }
  destruct (ioworker_revise_args (u64 (ns_num_sectors ns)) args)
    as [f|a1] eqn:Hrev; [discriminate|].
  unfold gettimeofday in H.
  match type of H with
  | match ?m with _ => _ end = _ => destruct m as [f|[k1 w2]] eqn:Hb
  end; [discriminate|].
  clear H. apply rbind_inr in Hb. destruct Hb as (u & _ & Hb).
  assert (Hq1 : 0 < qdepth a1).
  { clear - Hrev Hq Hc. unfold ioworker_revise_args in Hrev.
    apply rbind_inr in Hrev. destruct Hrev as (rs & _ & Hrev).
    apply rbind_inr in Hrev. destruct Hrev as (re & _ & Hrev).
    injection Hrev as <-. cbn [qdepth].
    destruct (Z.eqb_spec (io_count args) 0).
    - destruct (2 ^ 64 - 1 <? qdepth args); lia.
    - destruct (io_count args <? qdepth args); lia. }
  destruct (Z.to_nat (qdepth a1)) as [|n] eqn:Hn; [lia|].
  apply ioworker_first_batch_asserts in Hb.
  cbn [wk_gctx g_qpair g_ns] in Hb. tauto.
Qed.

Lemma idle_inv_send t0 i k w r k' w' :
  idle_inv t0 k (trace w) -> ioworker_send_one E i k w = inr (r, k', w') ->
  idle_inv t0 k' (trace w').
Proof.
  intros (Hio & _) H. apply ioworker_send_one_steps in H.
  destruct H as (ctx & lba & g1 & w3 & w4 & _ & Hctx & _).
  rewrite Hio in Hctx. discriminate.
Qed.

Lemma idle_inv_cb t0 i c k w k' w' :
  idle_inv t0 k (trace w) -> ioworker_one_cb E i c k w = inr (k', w') ->
  idle_inv t0 k' (trace w').
Proof.
  intros (Hio & _) H. apply ioworker_one_cb_steps in H.
  destruct H as (ctx & k7 & w4 & sl & _ & Hctx & _).
  rewrite Hio in Hctx. discriminate.
Qed.

(** X19.  A queue depth of 0 passes the argument checks.  The worker then has no
    context to send with: it hands no command to the driver and counts no
    I/O, its finish flag never rises, and the only ways out are the
    refusal of the transfer size (-2) and the watchdog (-3). *)
Theorem ioworker_entry_qdepth_zero :
  forall fuel ns qpair args ps pl w ret k' w',
    qdepth args = 0 ->
    ioworker_entry E fuel ns qpair args ps pl w = Some (inr (ret, k', w')) ->
    (ret = -2 \/ ret = -3)
    /\ submits (trace w') = submits (trace w)
    /\ io_count_read (wk_rets k') = 0 /\ io_count_write (wk_rets k') = 0.
Proof.
  intros fuel ns qpair args ps pl w ret k' w' Hq H.
  destruct (Z.eq_dec ret (-2)) as [->|Hret].
  { split; [auto|]. unfold ioworker_entry in H.
    destruct (ioworker_check_args args) as [f|[]]; [discriminate|].
    destruct (_ <? _).
    { injection H as <- <-. cbn. auto. }
    destruct (ioworker_revise_args (u64 (ns_num_sectors ns)) args)
      as [f|a1]; [discriminate|].
    unfold gettimeofday in H.
    match type of H with
    | match ?m with _ => _ end = _ => destruct m as [f|[k1 w2]]
    end; [discriminate|].
    destruct (ioworker_poll_loop E fuel (gettimeofday_nth E (n_clock w)) k1 w2)
      as [[f|[[ret0 k2] w3]]|] eqn:Hl; try discriminate.
    apply ioworker_poll_loop_ret in Hl.
    unfold ioworker_get_duration, gettimeofday in H.
    match type of H with
    | match ?m with _ => _ end = _ => destruct m as [f|w5]
    end; [discriminate|].
    injection H as -> _ _. destruct Hl as [(? & _)|(? & _)]; lia. }
  assert (HQ : idle_inv (trace w) k' (trace w')).
  { eapply (ioworker_entry_inv E (idle_inv (trace w))); [| | | | |exact H| |].
    - intros i b len k t (Hio & Hrest). split; [|exact Hrest].
      cbn [wk_io_ctx set_io_ctx]. rewrite Hio. reflexivity.
    - intros k t fn arg c (H1 & H2 & H3 & H4 & H5).
      repeat split; auto. rewrite submits_app, H5. cbn. apply app_nil_r.
    - intros. eapply idle_inv_send; eauto.
    - intros. eapply idle_inv_cb; eauto.
    - intros d k t (H1 & H2 & H3 & H4 & H5). repeat split; auto.
    - exact Hret.
    - intros a1 k0 _ _ Hr Hio _ _ _ _ _ Hf.
      rewrite Hq in Hio. unfold idle_inv. rewrite Hr. repeat split; auto. }
  destruct HQ as (_ & Hf & Hr & Hw & Hs).
  apply ioworker_entry_run in H. destruct H as [(-> & _)|H]; [lia|].
  destruct H as (a1 & k1 & w2 & k2 & w3 & _ & _ & _ & _ & Hl & -> & _).
  apply ioworker_poll_loop_ret in Hl.
  destruct Hl as [(_ & Hp)|(-> & _)].
  - unfold ioworker_pending in Hp. cbn [wk_gctx set_rets] in Hf.
    rewrite Hf in Hp. rewrite orb_true_r in Hp. discriminate.
  - auto.
Qed.

End Requirements.

(** ** The status table *)

Section Status.
Variable E : environment.

Lemma buffer_fill_data_sts b lba n ls w w' :
  buffer_fill_data E b lba n ls w = inr w' ->
  g_ioworker_status_table w' = g_ioworker_status_table w.
Proof.
  unfold buffer_fill_data. intros H.
  apply rbind_inr in H. destruct H as (tok & Htok & H).
  destruct (Z.to_nat n).
  - injection H as <-. reflexivity.
  - cbv beta iota in H.
    apply rbind_inr in H. destruct H as (m & Hm & H).
    apply rbind_inr in H. destruct H as (tbl & _ & H).
    apply rbind_inr in H. destruct H as ([[m' tbl'] evs] & Hb & H).
    injection H as <-. reflexivity.
Qed.

Lemma cmd_log_add_cmd_sts qid b lba n ls c fn arg w r w' :
  cmd_log_add_cmd E qid b lba n ls c fn arg w = inr (r, w') ->
  g_ioworker_status_table w' = g_ioworker_status_table w.
Proof.
  unfold cmd_log_add_cmd, gettimeofday. intros H. res_all. reflexivity.
Qed.

Lemma ns_cmd_read_write_sts isr ns qp b len lba n fl fn arg w rc w' :
  ns_cmd_read_write E isr ns qp b len lba n fl fn arg w = inr (rc, w') ->
  g_ioworker_status_table w' = g_ioworker_status_table w.
Proof.
  unfold ns_cmd_read_write. intros H.
  apply rbind_inr in H. destruct H as (qid & _ & H).
  apply rbind_inr in H. destruct H as (u1 & _ & H).
  apply rbind_inr in H. destruct H as (u2 & _ & H).
  apply rbind_inr in H. destruct H as (u3 & _ & H).
  apply rbind_inr in H. destruct H as (u4 & _ & H).
  apply rbind_inr in H. destruct H as (w1 & Hfill & H).
  apply rbind_inr in H. destruct H as ([r w2] & Hadd & H).
  injection H as H.
  apply cmd_log_add_cmd_sts in Hadd.
  assert (Hw1 : g_ioworker_status_table w1 = g_ioworker_status_table w).
  { destruct (negb (isr =? 1)).
    - eapply buffer_fill_data_sts. exact Hfill.
    - injection Hfill as <-. reflexivity. }
  unfold spdk_nvme_ctrlr_cmd_io_raw in H.
  destruct (submit_rc_nth E (n_submit w2) =? 0);
    injection H as <- <-; cbn; rewrite Hadd; exact Hw1.
Qed.

Lemma ioworker_send_one_lba_sts a g w lba g1 w2 :
  ioworker_send_one_lba E a g w = inr (lba, g1, w2) ->
  g_ioworker_status_table w2 = g_ioworker_status_table w.
Proof.
  unfold ioworker_send_one_lba, ioworker_send_one_lba_random, random, ALIGN_DOWN.
  intros H. res_all; reflexivity.
Qed.

(** The status table after one [ioworker_send_one]: untouched when the
    driver refuses, and the row's sent count stored when it accepts. *)
Lemma ioworker_send_one_sts i k w r k' w' :
  ioworker_send_one E i k w = inr (r, k', w') ->
  wk_args k' = wk_args k
  /\ io_count_cplt (wk_gctx k') = io_count_cplt (wk_gctx k)
  /\ (r <> 0 ->
      g_ioworker_status_table w' = g_ioworker_status_table w
      /\ io_count_sent (wk_gctx k') = io_count_sent (wk_gctx k))
  /\ (r = 0 ->
      exists tbl old,
        g_ioworker_status_table w = Some tbl
        /\ 0 <= wid (wk_args k)
        /\ tbl !! Z.to_nat (wid (wk_args k)) = Some old
        /\ g_ioworker_status_table w'
           = Some (<[Z.to_nat (wid (wk_args k)) :=
                      mk_sts (io_count_sent (wk_gctx k'))
                        (sts_io_count_cplt old)]> tbl)).
Proof.
  intros H. pose proof (ioworker_send_one_steps E _ _ _ _ _ _ H) as Hst.
  destruct Hst as (ctx0 & lba0 & g0 & w20 & w30 & _ & _ & _ & _ & _ & Ha & _
                   & _ & _ & Hc & _ & _ & _ & Hne & _).
  split; [exact Ha|]. split; [exact Hc|].
  unfold ioworker_send_one in H.
  apply rbind_inr in H. destruct H as (ctx & Hctx & H).
  unfold ioworker_send_one_is_read, random in H.
  apply rbind_inr in H. destruct H as ([[lba g1] w2] & Hlba & H).
  apply rbind_inr in H. destruct H as (u & _ & H).
  apply rbind_inr in H. destruct H as ([rc w3] & Hrw & H).
  apply ioworker_send_one_lba_sts in Hlba.
  apply ns_cmd_read_write_sts in Hrw.
  assert (Hw3 : g_ioworker_status_table w3 = g_ioworker_status_table w)
    by (rewrite Hrw, Hlba; reflexivity).
  destruct (Z.eqb_spec rc 0) as [->|Hrc]; cbn [negb] in H.
  - apply rbind_inr in H. destruct H as (w4 & Hsts & H).
    unfold gettimeofday in H. injection H as <- <- <-.
    split; [intros Hn; contradiction|]. intros _.
    unfold sts_store in Hsts.
    apply rbind_inr in Hsts. destruct Hsts as (tbl & Htbl & Hsts).
    apply of_option_inr in Htbl.
    apply rbind_inr in Hsts. destruct Hsts as (old & Hold & Hsts).
    apply of_option_inr in Hold.
    destruct (Z.leb_spec 0 (wid (wk_args k))); [|discriminate].
    injection Hsts as <-. exists tbl, old. cbn. rewrite <- Hw3. auto.
  - injection H as <- <- <-.
    split; [|intros Hn; contradiction]. intros Hr.
    split; [exact Hw3|]. apply (Hne Hr).
Qed.

Lemma mirror_inv_send tbl0 wd i k w r k' w' :
  mirror_inv tbl0 wd k w -> ioworker_send_one E i k w = inr (r, k', w') ->
  mirror_inv tbl0 wd k' w'.
Proof.
  intros (Hwd & tbl & Ht & Hlen & Hoth & Hrow) H.
  apply ioworker_send_one_sts in H. destruct H as (Ha & Hc & Hne & Heq).
  split; [congruence|].
  destruct (Z.eq_dec r 0) as [Hr|Hr].
  - destruct (Heq Hr) as (tbl1 & old & Ht1 & Hw & Hold & Ht').
    rewrite Ht in Ht1. injection Ht1 as <-. rewrite Hwd in *.
    eexists. split; [exact Ht'|].
    split; [rewrite length_insert; exact Hlen|].
    split.
    + intros j Hj. rewrite list_lookup_insert_ne by congruence. auto.
    + intros s Hs.
      rewrite list_lookup_insert_eq in Hs by (eapply lookup_lt_Some; exact Hold).
      injection Hs as <-. cbn. rewrite Hc.
      destruct (Hrow old Hold) as [_ Hcp]. auto.
  - destruct (Hne Hr) as (Ht' & Hs').
    exists tbl. rewrite Ht', Hs', Hc. auto.
Qed.

Lemma mirror_inv_cb tbl0 wd i c k w k' w' :
  mirror_inv tbl0 wd k w -> ioworker_one_cb E i c k w = inr (k', w') ->
  mirror_inv tbl0 wd k' w'.
Proof.
  intros (Hwd & tbl & Ht & Hlen & Hoth & Hrow) H.
  apply ioworker_one_cb_steps_sts in H.
  destruct H as (ctx & k7 & w4 & sl & (tbl1 & old & Ht1 & Hw & Hold & Ht4) & _
                 & _ & _ & Hk7 & Hc7 & _ & _ & _ & _ & _ & _ & _ & Hend).
  rewrite Ht in Ht1. injection Ht1 as <-. rewrite Hwd in *.
  assert (H7 : mirror_inv tbl0 wd k7 w4).
  { unfold worker_fixed in Hk7. injection Hk7 as Ha7 _ _ _ Hs7 _.
    split; [congruence|].
    eexists. split; [exact Ht4|].
    split; [rewrite length_insert; exact Hlen|].
    split.
    - intros j Hj. rewrite list_lookup_insert_ne by congruence. auto.
    - intros s Hs.
      rewrite list_lookup_insert_eq in Hs by (eapply lookup_lt_Some; exact Hold).
      injection Hs as <-. cbn. rewrite Hc7, Hs7.
      destruct (Hrow old Hold) as [Hsn _]. auto. }
  destruct Hend as [(_ & -> & ->)|(_ & _ & r & Hsend)]; [exact H7|].
  eapply mirror_inv_send; eauto.
Qed.

(** X20.  The status row of a worker against its counters.  When
    [ioworker_entry] returns (not -2) for a worker id within
    [unsigned int], what [ioworker_get_status] gives for that id shows the
    number of I/Os sent, unless none was sent, and the number of
    completions handled, unless there was none (the row is not cleared
    when the worker starts); for every other id it gives what it gave
    before the run. *)
Theorem ioworker_status_mirrors :
  forall fuel ns qpair args ps pl w ret k' w',
    ioworker_entry E fuel ns qpair args ps pl w = Some (inr (ret, k', w')) ->
    ret <> -2 -> 0 <= wid args < 2^32 ->
    (forall s, ioworker_get_status (wid args) w' = inr s ->
       (sts_io_count_sent s = io_count_sent (wk_gctx k')
        \/ io_count_sent (wk_gctx k') = 0)
       /\ (sts_io_count_cplt s = io_count_cplt (wk_gctx k')
           \/ io_count_cplt (wk_gctx k') = 0))
    /\ forall j, u32 j <> wid args ->
         ioworker_get_status j w' = ioworker_get_status j w.
Proof.
  intros fuel ns qpair args ps pl w ret k' w' H Hret Hwid.
  assert (Htbl : exists tbl0, g_ioworker_status_table w = Some tbl0).
  { clear - H Hret. unfold ioworker_entry in H.
    destruct (ioworker_check_args args) as [f|[]]; [discriminate|].
    destruct (_ <? _).
    { injection H as <- _ _. lia. }
    destruct (ioworker_revise_args (u64 (ns_num_sectors ns)) args)
      as [f|a1]; [discriminate|].
    unfold gettimeofday in H.
    match type of H with
    | match ?m with _ => _ end = _ => destruct m as [f|[k1 w2]] eqn:Hb
    end; [discriminate|].
    apply rbind_inr in Hb. destruct Hb as (u & Has & _).
    apply assert_inr in Has. apply bool_decide_eq_true_1 in Has.
    destruct Has as [t Ht]. exists t. exact Ht. }
  destruct Htbl as (tbl0 & Htbl0).
  assert (HQ : mirror_inv tbl0 (wid args) k' w').
  { eapply (ioworker_entry_winv E (mirror_inv tbl0 (wid args)));
      [| | | | |exact H|exact Hret|].
    - intros k w0 w0' (Hwd & tbl & Ht & Hrest) Hs _ _. split; [exact Hwd|].
      exists tbl. rewrite Hs. auto.
    - intros l k w0 HQ. exact HQ.
    - intros. eapply mirror_inv_send; eauto.
    - intros. eapply mirror_inv_cb; eauto.
    - intros d k w0 HQ. exact HQ.
    - intros a1 k0 Hrev Ha _ Hs Hc _. split.
      + rewrite Ha. clear - Hrev. unfold ioworker_revise_args in Hrev.
        apply rbind_inr in Hrev. destruct Hrev as (rs & _ & Hrev).
        apply rbind_inr in Hrev. destruct Hrev as (re & _ & Hrev).
        injection Hrev as <-. reflexivity.
      + exists tbl0. rewrite Hs, Hc. repeat split; auto. }
  destruct HQ as (_ & tbl & Ht & Hlen & Hoth & Hrow).
  assert (Hu : u32 (wid args) = wid args).
  { unfold u32. apply Z.mod_small. lia. }
  split.
  - intros s Hs. unfold ioworker_get_status in Hs. rewrite Ht, Hu in Hs.
    cbn [of_option rbind ok] in Hs. apply of_option_inr in Hs. auto.
  - intros j Hj. unfold ioworker_get_status. rewrite Ht, Htbl0.
    cbn [of_option rbind ok]. rewrite Hoth; [reflexivity|].
    intros Hjn. apply Hj. apply Z2Nat.inj in Hjn; try lia.
    unfold u32. apply Z.mod_pos_bound. lia.
Qed.

End Status.

(** ** Throttling *)

Lemma sleeps_app t1 t2 : sleeps (t1 ++ t2) = sleeps t1 ++ sleeps t2.
Proof. apply omap_app. Qed.

Lemma sleeps_csum_stores crc32c evs :
  Forall (is_csum_store crc32c) evs -> sleeps evs = [].
Proof.
  induction 1 as [|e evs He _ IH]; [reflexivity|].
  change (e :: evs) with ([e] ++ evs). rewrite sleeps_app, IH.
  destruct e; try contradiction; reflexivity.
Qed.

Section Throttle.
Variable E : environment.

Lemma buffer_fill_data_sleeps b lba n ls w w' :
  buffer_fill_data E b lba n ls w = inr w' ->
  sleeps (trace w') = sleeps (trace w).
Proof.
  unfold buffer_fill_data. intros H.
  apply rbind_inr in H. destruct H as (tok & Htok & H).
  destruct (Z.to_nat n).
  - injection H as <-. cbn [trace log_events set_token].
    rewrite sleeps_app. cbn. apply app_nil_r.
  - cbv beta iota in H.
    apply rbind_inr in H. destruct H as (m & _ & H).
    apply rbind_inr in H. destruct H as (tbl & _ & H).
    apply rbind_inr in H. destruct H as ([[m' tbl'] evs] & Hb & H).
    injection H as <-.
    apply buffer_fill_blocks_stores in Hb.
    destruct Hb as ((new & Hnew & Hall) & _). cbn in Hnew. subst evs.
    cbn [trace log_events set_csum_table set_dma set_token].
    rewrite !sleeps_app, (sleeps_csum_stores _ _ Hall). cbn.
    rewrite !app_nil_r. reflexivity.
Qed.

Lemma ns_cmd_read_write_sleeps isr ns qp b len lba n fl fn arg w rc w' :
  ns_cmd_read_write E isr ns qp b len lba n fl fn arg w = inr (rc, w') ->
  sleeps (trace w') = sleeps (trace w).
Proof.
  unfold ns_cmd_read_write. intros H.
  apply rbind_inr in H. destruct H as (qid & _ & H).
  apply rbind_inr in H. destruct H as (u1 & _ & H).
  apply rbind_inr in H. destruct H as (u2 & _ & H).
  apply rbind_inr in H. destruct H as (u3 & _ & H).
  apply rbind_inr in H. destruct H as (u4 & _ & H).
  apply rbind_inr in H. destruct H as (w1 & Hfill & H).
  apply rbind_inr in H. destruct H as ([r w2] & Hadd & H).
  injection H as H.
  apply cmd_log_add_cmd_trace in Hadd.
  assert (Hw1 : sleeps (trace w1) = sleeps (trace w)).
  { destruct (negb (isr =? 1)).
    - eapply buffer_fill_data_sleeps. exact Hfill.
    - injection Hfill as <-. reflexivity. }
  unfold spdk_nvme_ctrlr_cmd_io_raw in H.
  destruct (submit_rc_nth E (n_submit w2) =? 0);
    injection H as <- <-; cbn; rewrite sleeps_app, Hadd, Hw1; cbn;
    apply app_nil_r.
Qed.

(** A send does not sleep and keeps the delay between I/Os. *)
Lemma ioworker_send_one_sleeps i k w r k' w' :
  ioworker_send_one E i k w = inr (r, k', w') ->
  io_delay_time (wk_gctx k') = io_delay_time (wk_gctx k)
  /\ sleeps (trace w') = sleeps (trace w).
Proof.
  intros H. pose proof (ioworker_send_one_steps E _ _ _ _ _ _ H) as Hst.
  destruct Hst as (ctx0 & lba0 & g0 & w20 & w30 & _ & _ & Hlba0 & _ & Hrw0 & _
                   & _ & _ & _ & _ & _ & _ & Ht' & _).
  split.
  - unfold ioworker_send_one in H.
    apply rbind_inr in H. destruct H as (ctx & Hctx & H).
    unfold ioworker_send_one_is_read, random in H.
    apply rbind_inr in H. destruct H as ([[lba g1] w2] & Hlba & H).
    apply rbind_inr in H. destruct H as (u & _ & H).
    apply rbind_inr in H. destruct H as ([rc w3] & Hrw & H).
    assert (Hg1 : io_delay_time g1 = io_delay_time (wk_gctx k)).
    { apply ioworker_send_one_lba_gctx in Hlba.
      destruct Hlba as [->|[x ->]]; reflexivity. }
    destruct (negb (rc =? 0)).
    + injection H as _ <- _. exact Hg1.
    + apply rbind_inr in H. destruct H as (w4 & _ & H).
      unfold gettimeofday in H. injection H as _ <- _. exact Hg1.
  - apply ns_cmd_read_write_sleeps in Hrw0.
    assert (Hl : trace w20 = trace w).
    { clear - Hlba0. revert Hlba0.
      unfold ioworker_send_one_lba, ioworker_send_one_lba_random, random,
        ALIGN_DOWN.
      intros H. res_all; reflexivity. }
    rewrite Ht', Hrw0, Hl. reflexivity.
Qed.

Lemma unthrottled_inv_send t0 i k w r k' w' :
  unthrottled_inv t0 k (trace w) ->
  ioworker_send_one E i k w = inr (r, k', w') ->
  unthrottled_inv t0 k' (trace w').
Proof.
  intros [Hd Hs] H. apply ioworker_send_one_sleeps in H.
  destruct H as [Hd' Hs']. split; congruence.
Qed.

Lemma unthrottled_inv_cb t0 i c k w k' w' :
  unthrottled_inv t0 k (trace w) ->
  ioworker_one_cb E i c k w = inr (k', w') ->
  unthrottled_inv t0 k' (trace w').
Proof.
  intros [Hd Hs] H. apply ioworker_one_cb_steps_sts in H.
  destruct H as (ctx & k7 & w4 & sl & _ & (Hd7 & Hsl) & _ & _ & _ & _ & _ & _
                 & _ & Ht4 & _ & _ & _ & Hend).
  assert (H7 : unthrottled_inv t0 k7 (trace w4)).
  { split; [congruence|]. rewrite Ht4, (Hsl Hd), app_nil_r. exact Hs. }
  destruct Hend as [(_ & -> & ->)|(_ & _ & r & Hsend)]; [exact H7|].
  eapply unthrottled_inv_send; eauto.
Qed.

(** X21.  When the worker does not throttle.  With [iops] 0, and also with
    [iops] above 1000000, where the delay [US_PER_S/iops] between I/Os
    comes out as 0, a run of [ioworker_entry] never calls [usleep]. *)
Theorem ioworker_unthrottled :
  forall fuel ns qpair args ps pl w ret k' w',
    ioworker_entry E fuel ns qpair args ps pl w = Some (inr (ret, k', w')) ->
    ret <> -2 ->
    iops args = 0 \/ 1000000 < iops args ->
    sleeps (trace w') = sleeps (trace w).
Proof.
  intros fuel ns qpair args ps pl w ret k' w' H Hret Hiops.
  assert (HQ : unthrottled_inv (trace w) k' (trace w')).
  { eapply (ioworker_entry_inv_delay E (unthrottled_inv (trace w)));
      [| | | | |exact H|exact Hret|].
    - intros i b len k t HQ. exact HQ.
    - intros k t fn arg c [Hd Hs]. split; [exact Hd|].
      rewrite sleeps_app, Hs. cbn. apply app_nil_r.
    - intros. eapply unthrottled_inv_send; eauto.
    - intros. eapply unthrottled_inv_cb; eauto.
    - intros d k t HQ. exact HQ.
    - intros a1 k0 Hrev _ _ _ _ _ _ _ _ _ Hd. split; [|reflexivity].
      rewrite Hd. cbn [tv_usec].
      assert (Hi : iops a1 = iops args).
      { clear - Hrev. unfold ioworker_revise_args in Hrev.
        apply rbind_inr in Hrev. destruct Hrev as (rs & _ & Hrev).
        apply rbind_inr in Hrev. destruct Hrev as (re & _ & Hrev).
        injection Hrev as <-. reflexivity. }
      rewrite Hi. destruct (Z.eqb_spec (iops args) 0); [reflexivity|].
      destruct Hiops as [?|Hbig]; [contradiction|].
      unfold US_PER_S. apply Z.div_small. lia. }
  exact (proj2 HQ).
Qed.

End Throttle.

(** ** The latency in dword 2 *)

Lemma timeval_to_us_timersub a b :
  timeval_to_us (timersub a b) = (timeval_us a - timeval_us b) mod 2^32.
Proof.
  unfold timeval_to_us, timersub, timeval_us, US_PER_S, u32, u64.
  assert (Hm : forall x, (x mod 2^64) mod 2^32 = x mod 2^32).
  { intros x. apply Z.mod_mod_divide. exists (2^32). reflexivity. }
  rewrite Hm.
  destruct (tv_usec a - tv_usec b <? 0); cbn [tv_sec tv_usec].
  - rewrite <- (Hm (_ * _ + _)), Z.add_mod, Z.mul_mod, Z.mod_mod by lia.
    rewrite <- Z.mul_mod, <- Z.add_mod by lia. rewrite Hm. f_equal. lia.
  - rewrite <- (Hm (_ * _ + _)), Z.add_mod, Z.mul_mod, Z.mod_mod by lia.
    rewrite <- Z.mul_mod, <- Z.add_mod by lia. rewrite Hm. f_equal. lia.
Qed.

Lemma cpl_dword2_set_status s c :
  cpl_dword2 (set_cpl_status s c) = cpl_dword2 c.
Proof. reflexivity. Qed.

Section Latency.
Variable E : environment.

(** X22.  The latency [cmd_log_add_cpl_cb] leaves in dword 2.  Whatever the
    command, the log entry afterwards holds the time of the completion
    beside the unchanged time of the command, and dword 2 of its stored
    completion, the one the callback is called with, is the difference
    of the two in microseconds modulo 2^32: the exact latency below
    2^32 us, about 71 minutes, and a wrapped one beyond. *)
Theorem cmd_log_add_cpl_cb_latency :
  forall r c w inv w',
    cmd_log_add_cpl_cb E r c w = inr (inv, w') ->
    exists e',
      log_entry_at r w' = Some e'
      /\ time_cpl e' = gettimeofday_nth E (n_clock w)
      /\ (forall e, log_entry_at r w = Some e -> time_cmd e' = time_cmd e)
      /\ cpl_dword2 (cpl e')
         = (timeval_us (time_cpl e') - timeval_us (time_cmd e')) mod 2^32
      /\ (timeval_us (time_cmd e') <= timeval_us (time_cpl e')
            < timeval_us (time_cmd e') + 2^32 ->
          cpl_dword2 (cpl e')
          = timeval_us (time_cpl e') - timeval_us (time_cmd e'))
      /\ forall i, inv = Some i -> inv_cpl i = cpl e'.
Proof.
  intros r c w inv w' H. unfold cmd_log_add_cpl_cb, gettimeofday in H.
  apply rbind_inr in H. destruct H as (e & He & H).
  apply of_option_inr in He.
  apply rbind_inr in H. destruct H as (cpl2 & Hc2 & H).
  set (now := gettimeofday_nth E (n_clock w)) in *.
  set (lat := timeval_to_us (timersub now (time_cmd e))) in *.
  assert (Hd : cpl_dword2 cpl2 = lat).
  { assert (H1 : cpl_dword2 (set_cpl_dword2 lat c) = lat)
      by (apply cpl_dword2_set, timeval_to_us_range).
    destruct ((opc (cmd e) =? 2) && negb (buf e =? 0)).
    - apply rbind_inr in Hc2. destruct Hc2 as (u1 & _ & Hc2).
      apply rbind_inr in Hc2. destruct Hc2 as (u2 & _ & Hc2).
      apply rbind_inr in Hc2. destruct Hc2 as (u3 & _ & Hc2).
      apply rbind_inr in Hc2. destruct Hc2 as (ret & _ & Hc2).
      destruct (negb (ret =? 0)); injection Hc2 as <-.
      + rewrite cpl_dword2_set_status. exact H1.
      + exact H1.
    - injection Hc2 as <-. exact H1. }
  injection H as <- <-.
  eexists. split.
  { eapply log_entry_at_set. unfold log_entry_at in *.
    cbn [cmd_log_queue_table tick_clock]. exact He. }
  cbn [time_cpl time_cmd cpl].
  assert (Hl : lat = (timeval_us now - timeval_us (time_cmd e)) mod 2^32)
    by apply timeval_to_us_timersub.
  split; [reflexivity|].
  split; [intros e0 He0; congruence|].
  split; [congruence|].
  split.
  { intros Hr. rewrite Hd, Hl. apply Z.mod_small. lia. }
  intros i Hi. destruct (cb_fn e); [|discriminate].
  injection Hi as <-. reflexivity.
Qed.

End Latency.

(** ** The run time reported *)

(** [ioworker_get_duration]'s arithmetic on two clock readings with
    microseconds in [0, 1000000): the difference, rounded to the nearest
    millisecond, in 32 bits. *)
Lemma duration_ms_rounds a b :
  0 <= tv_usec a < 1000000 -> 0 <= tv_usec b < 1000000 ->
  duration_ms a b = u32 ((timeval_us b - timeval_us a + 500) / 1000).
Proof.
  intros Ha Hb. unfold duration_ms, timersub, timeval_us, u32, u64.
  assert (Hm : forall x, (x mod 2^64) mod 2^32 = x mod 2^32).
  { intros x. apply Z.mod_mod_divide. exists (2^32). reflexivity. }
  assert (Hq : forall s u, 0 <= u < 1000000 ->
            ((s mod 2^64 * 1000) mod 2^32 + Z.quot (u + 500) 1000) mod 2^32
            = ((s * 1000000 + u + 500) / 1000) mod 2^32).
  { intros s u Hu. rewrite Z.quot_div_nonneg by lia.
    replace (s * 1000000 + u + 500) with (u + 500 + (s * 1000) * 1000) by lia.
    rewrite Z.div_add by lia.
    rewrite Z.add_mod_idemp_l by lia.
    rewrite <- (Hm (_ + _)), (Z.add_comm _ ((u + 500) / 1000)).
    rewrite <- (Hm ((u + 500) / 1000 + s * 1000)).
    rewrite <- (Z.add_mod_idemp_r _ (s mod 2^64 * 1000)) by lia.
    rewrite <- (Z.add_mod_idemp_r _ (s * 1000)) by lia.
    rewrite (Z.mul_mod (s mod 2^64)), Z.mod_mod by lia.
    rewrite <- Z.mul_mod by lia. reflexivity. }
  destruct (Z.ltb_spec (tv_usec b - tv_usec a) 0); cbn [tv_sec tv_usec].
  - rewrite Hq by lia. f_equal. f_equal. lia.
  - rewrite Hq by lia. f_equal. f_equal. lia.
Qed.

Section Duration.
Variable E : environment.

(** X23.  The run time a worker reports.  On a clock whose readings have their
    microseconds in [0, 1000000), [rets->mseconds] after a run of
    [ioworker_entry] is the time from the first clock reading of the run
    to its last one, rounded to the nearest millisecond and kept in 32
    bits. *)
Theorem ioworker_entry_mseconds :
  forall fuel ns qpair args ps pl w ret k' w',
    ioworker_entry E fuel ns qpair args ps pl w = Some (inr (ret, k', w')) ->
    ret <> -2 ->
    (forall n, 0 <= tv_usec (gettimeofday_nth E n) < 1000000) ->
    exists n_end,
      n_clock w' = S n_end
      /\ mseconds (wk_rets k')
         = u32 ((timeval_us (gettimeofday_nth E n_end)
                 - timeval_us (gettimeofday_nth E (n_clock w)) + 500) / 1000).
Proof.
  intros fuel ns qpair args ps pl w ret k' w' H Hret Hclk.
  apply ioworker_entry_run in H. destruct H as [(-> & _)|H]; [lia|].
  destruct H as (a1 & k1 & w2 & k2 & w3 & _ & _ & _ & _ & Hl & -> & Hn & _).
  exists (n_clock w3). split; [exact Hn|].
  cbn [wk_rets set_rets mseconds set_mseconds].
  apply duration_ms_rounds; apply Hclk.
Qed.

End Duration.

(** ** Closed examples of these properties *)

Lemma ioworker_entry_releases_buffers_witness :
  exists k' w',
    ioworker_entry env0 100 ns0 (Some 1) args_wrap [] [] world_buf
    = Some (inr (0, k', w'))
    /\ dom (dma w') = dom (dma world_buf).
Proof.
  assert (Hrun : exists k' w',
            ioworker_entry env0 100 ns0 (Some 1) args_wrap [] [] world_buf
            = Some (inr (0, k', w')))
    by (vm_compute; eexists _, _; reflexivity).
  destruct Hrun as (k' & w' & Hrun).
  exists k', w'. split; [exact Hrun|].
  exact (ioworker_entry_releases_buffers env0 100 ns0 (Some 1) args_wrap [] []
           world_buf 0 k' w' Hrun).
Defined.

Lemma ioworker_status_mirrors_witness :
  exists k' w',
    ioworker_entry env0 100 ns0 (Some 1) args_wrap [] [] world0
    = Some (inr (0, k', w'))
    /\ (forall s, ioworker_get_status 0 w' = inr s ->
          sts_io_count_sent s = io_count_sent (wk_gctx k')
          \/ io_count_sent (wk_gctx k') = 0)
    /\ ioworker_get_status 5 w' = ioworker_get_status 5 world0.
Proof.
  destruct run_wrap_returns as (k' & w' & Hrun).
  destruct (ioworker_status_mirrors env0 100 ns0 (Some 1) args_wrap [] []
              world0 0 k' w' Hrun) as (Hrow & Hoth); [closed..|].
  exists k', w'. split; [exact Hrun|]. split.
  - intros s Hs. exact (proj1 (Hrow s Hs)).
  - apply Hoth. closed.
Defined.

Lemma ioworker_entry_requirements_witness :
  exists k' w',
    ioworker_entry env0 100 ns0 (Some 1) args_wrap [] [] world0
    = Some (inr (0, k', w'))
    /\ is_Some (Some 1) /\ ns_id ns0 = 1 /\ u32 (ns_sector_size ns0) = 512.
Proof.
  destruct run_wrap_returns as (k' & w' & Hrun).
  exists k', w'. split; [exact Hrun|].
  apply (ioworker_entry_requirements env0 100 ns0 (Some 1) args_wrap [] []
           world0 0 k' w' Hrun); closed.
Defined.

Lemma ioworker_entry_qdepth_zero_witness :
  exists k' w',
    ioworker_entry env_stuck 100 ns0 (Some 1) args_q0 [] [] world0
    = Some (inr (-3, k', w'))
    /\ submits (trace w') = submits (trace world0)
    /\ io_count_read (wk_rets k') = 0 /\ io_count_write (wk_rets k') = 0.
Proof.
  assert (Hrun : exists k' w',
            ioworker_entry env_stuck 100 ns0 (Some 1) args_q0 [] [] world0
            = Some (inr (-3, k', w')))
    by (vm_compute; eexists _, _; reflexivity).
  destruct Hrun as (k' & w' & Hrun).
  exists k', w'. split; [exact Hrun|].
  apply (ioworker_entry_qdepth_zero env_stuck 100 ns0 (Some 1) args_q0 [] []
           world0 (-3) k' w'); [closed|exact Hrun].
Defined.

Lemma ioworker_unthrottled_witness :
  exists k' w',
    ioworker_entry env0 100 ns0 (Some 1) args_wrap [] [] world0
    = Some (inr (0, k', w'))
    /\ sleeps (trace w') = sleeps (trace world0).
Proof.
  destruct run_wrap_returns as (k' & w' & Hrun).
  exists k', w'. split; [exact Hrun|].
  apply (ioworker_unthrottled env0 100 ns0 (Some 1) args_wrap [] []
           world0 0 k' w' Hrun); [closed|left; closed].
Defined.

Lemma cmd_log_add_cpl_cb_latency_witness :
  exists inv w' e',
    cmd_log_add_cpl_cb env_stuck (mk_ref 1 0) success_cpl world_slow
    = inr (inv, w')
    /\ log_entry_at (mk_ref 1 0) w' = Some e'
    /\ timeval_us (time_cpl e') - timeval_us (time_cmd e') = 100000000000
    /\ cpl_dword2 (cpl e') = 100000000000 mod 2^32.
Proof.
  assert (Hrun : exists inv w',
            cmd_log_add_cpl_cb env_stuck (mk_ref 1 0) success_cpl world_slow
            = inr (inv, w'))
    by (vm_compute; eexists _, _; reflexivity).
  destruct Hrun as (inv & w' & Hrun).
  destruct (cmd_log_add_cpl_cb_latency env_stuck (mk_ref 1 0) success_cpl
              world_slow inv w' Hrun)
    as (e' & He' & Hcpl & Hcmd & Hd & _).
  assert (Hdiff : timeval_us (time_cpl e') - timeval_us (time_cmd e')
                  = 100000000000).
  { rewrite Hcpl.
    rewrite (Hcmd (default zero_entry (log_entry_at (mk_ref 1 0) world_slow)))
      by (vm_compute; reflexivity).
    vm_compute. reflexivity. }
  exists inv, w', e'. split; [exact Hrun|]. split; [exact He'|].
  split; [exact Hdiff|]. rewrite Hd, Hdiff. reflexivity.
Defined.

Lemma ioworker_entry_mseconds_witness :
  exists k' w' n_end,
    ioworker_entry env_stuck 100 ns0 (Some 1) args_wrap [] [] world0
    = Some (inr (-3, k', w'))
    /\ n_clock w' = S n_end
    /\ mseconds (wk_rets k')
       = u32 ((timeval_us (gettimeofday_nth env_stuck n_end)
               - timeval_us (gettimeofday_nth env_stuck (n_clock world0))
               + 500) / 1000).
Proof.
  assert (Hrun : exists k' w',
            ioworker_entry env_stuck 100 ns0 (Some 1) args_wrap [] [] world0
            = Some (inr (-3, k', w')))
    by (vm_compute; eexists _, _; reflexivity).
  destruct Hrun as (k' & w' & Hrun).
  destruct (ioworker_entry_mseconds env_stuck 100 ns0 (Some 1) args_wrap [] []
              world0 (-3) k' w' Hrun) as (n_end & Hn & Hms).
  - closed.
  - intros n. cbn. lia.
  - exists k', w', n_end. auto.
Defined.

(** ** The commands a worker submits *)

Lemma io_cmds_app t1 t2 : io_cmds (t1 ++ t2) = io_cmds t1 ++ io_cmds t2.
Proof. apply omap_app. Qed.

Lemma admin_cmds_app t1 t2 :
  admin_cmds (t1 ++ t2) = admin_cmds t1 ++ admin_cmds t2.
Proof. apply omap_app. Qed.

Lemma cmds_csum_stores crc32c evs :
  Forall (is_csum_store crc32c) evs -> io_cmds evs = [] /\ admin_cmds evs = [].
Proof.
  induction 1 as [|e evs He _ [IH1 IH2]]; [auto|].
  change (e :: evs) with ([e] ++ evs).
  rewrite io_cmds_app, admin_cmds_app, IH1, IH2.
  destruct e; try contradiction; auto.
Qed.

Lemma cmds_sleeps sl :
  Forall is_sleep sl -> io_cmds sl = [] /\ admin_cmds sl = [].
Proof.
  induction 1 as [|e sl He _ [IH1 IH2]]; [auto|].
  change (e :: sl) with ([e] ++ sl).
  rewrite io_cmds_app, admin_cmds_app, IH1, IH2.
  destruct e; try contradiction; auto.
Qed.

Section Shape.
Variable E : environment.

Lemma buffer_fill_data_cmds b lba n ls w w' :
  buffer_fill_data E b lba n ls w = inr w' ->
  io_cmds (trace w') = io_cmds (trace w)
  /\ admin_cmds (trace w') = admin_cmds (trace w).
Proof.
  unfold buffer_fill_data. intros H.
  apply rbind_inr in H. destruct H as (tok & Htok & H).
  destruct (Z.to_nat n).
  - injection H as <-. cbn [trace log_events set_token].
    rewrite io_cmds_app, admin_cmds_app. cbn. rewrite !app_nil_r. auto.
  - cbv beta iota in H.
    apply rbind_inr in H. destruct H as (m & _ & H).
    apply rbind_inr in H. destruct H as (tbl & _ & H).
    apply rbind_inr in H. destruct H as ([[m' tbl'] evs] & Hb & H).
    injection H as <-.
    apply buffer_fill_blocks_stores in Hb.
    destruct Hb as ((new & Hnew & Hall) & _). cbn in Hnew. subst evs.
    cbn [trace log_events set_csum_table set_dma set_token].
    destruct (cmds_csum_stores _ _ Hall) as [H1 H2].
    rewrite !io_cmds_app, !admin_cmds_app, H1, H2. cbn.
    rewrite !app_nil_r. auto.
Qed.

(** The one command [ns_cmd_read_write] hands to the driver. *)
Lemma ns_cmd_read_write_cmds isr ns qp b len lba n fl fn arg w rc w' :
  ns_cmd_read_write E isr ns qp b len lba n fl fn arg w = inr (rc, w') ->
  exists qid c,
    qp = Some qid
    /\ io_cmds (trace w') = io_cmds (trace w) ++ [(qid, c)]
    /\ admin_cmds (trace w') = admin_cmds (trace w)
    /\ opc c = (if isr =? 0 then 1 else 2) /\ nsid c = 1
    /\ cdw12 c = u32 (n - 1 + u32 (fl * 2^16)).
Proof.
  unfold ns_cmd_read_write. intros H.
  apply rbind_inr in H. destruct H as (qid & Hq & H).
  apply of_option_inr in Hq.
  apply rbind_inr in H. destruct H as (u1 & Hns & H).
  apply assert_inr, Z.eqb_eq in Hns.
  apply rbind_inr in H. destruct H as (u2 & _ & H).
  apply rbind_inr in H. destruct H as (u3 & _ & H).
  apply rbind_inr in H. destruct H as (u4 & _ & H).
  apply rbind_inr in H. destruct H as (w1 & Hfill & H).
  apply rbind_inr in H. destruct H as ([r w2] & Hadd & H).
  injection H as H.
  apply cmd_log_add_cmd_trace in Hadd.
  assert (Hw1 : io_cmds (trace w1) = io_cmds (trace w)
                /\ admin_cmds (trace w1) = admin_cmds (trace w)).
  { destruct (negb (isr =? 1)).
    - eapply buffer_fill_data_cmds. exact Hfill.
    - injection Hfill as <-. auto. }
  destruct Hw1 as [Hio Had].
  match type of H with
  | spdk_nvme_ctrlr_cmd_io_raw _ _ ?c0 _ _ _ _ = _ => set (c := c0) in *
  end.
  exists qid, c. split; [exact Hq|].
  assert (Ht : trace w' = trace w2 ++ [EvSubmitIo qid c b rc]).
  { unfold spdk_nvme_ctrlr_cmd_io_raw in H.
    destruct (submit_rc_nth E (n_submit w2) =? 0);
      injection H as <- <-; reflexivity. }
  rewrite Ht, io_cmds_app, admin_cmds_app, Hadd, Hio, Had. cbn.
  rewrite app_nil_r. repeat split; auto.
  rewrite Hns. reflexivity.
Qed.

Lemma shape_inv_send t0 qpair a i k w r k' w' :
  shape_inv t0 qpair a k (trace w) ->
  ioworker_send_one E i k w = inr (r, k', w') ->
  shape_inv t0 qpair a k' (trace w').
Proof.
  intros (Ha & Hq & Had & new & Hio & Hall) H.
  apply ioworker_send_one_steps in H.
  destruct H as (ctx & lba & g1 & w2 & w3 & _ & _ & Hlba & _ & Hrw & Ha' & _
                 & _ & Hq' & _ & _ & _ & Ht' & _).
  assert (Hl : trace w2 = trace w).
  { clear - Hlba. revert Hlba.
    unfold ioworker_send_one_lba, ioworker_send_one_lba_random, random,
      ALIGN_DOWN.
    intros H. res_all; reflexivity. }
  apply ns_cmd_read_write_cmds in Hrw.
  destruct Hrw as (qid & c & Hqid & Hio3 & Had3 & Hopc & Hns & H12).
  split; [congruence|]. split; [congruence|].
  rewrite Ht', Had3, Hio3, Hl.
  split; [exact Had|].
  exists (new ++ [(qid, c)]). split; [rewrite Hio, app_assoc; reflexivity|].
  apply Forall_app. split; [exact Hall|].
  constructor; [|constructor]. unfold worker_cmd. cbn [fst snd].
  split; [congruence|]. split; [exact Hns|]. split.
  - rewrite Hopc. destruct (_ =? 0); auto.
  - rewrite H12, Ha. cbn. rewrite Z.add_0_r. reflexivity.
Qed.

Lemma shape_inv_cb t0 qpair a i c k w k' w' :
  shape_inv t0 qpair a k (trace w) ->
  ioworker_one_cb E i c k w = inr (k', w') ->
  shape_inv t0 qpair a k' (trace w').
Proof.
  intros (Ha & Hq & Had & new & Hio & Hall) H.
  apply ioworker_one_cb_steps in H.
  destruct H as (ctx & k7 & w4 & sl & _ & _ & Hk7 & _ & _ & _ & _ & Ht4 & Hsl
                 & _ & _ & Hend).
  assert (H7 : shape_inv t0 qpair a k7 (trace w4)).
  { unfold worker_fixed in Hk7. injection Hk7 as Ha7 _ _ Hq7 _ _.
    destruct (cmds_sleeps _ Hsl) as [H1 H2].
    split; [congruence|]. split; [congruence|].
    rewrite Ht4, admin_cmds_app, io_cmds_app, H1, H2, !app_nil_r.
    split; [exact Had|]. exists new. auto. }
  destruct Hend as [(_ & -> & ->)|(_ & _ & r & Hsend)]; [exact H7|].
  eapply shape_inv_send; eauto.
Qed.

(** X24.  What a worker hands to the driver.  During a run of [ioworker_entry]
    (not -2), every I/O command submitted goes to the worker's own queue,
    is a Write (opcode 1) or a Read (opcode 2) on namespace 1 and has the
    block count of [lba_size] in dword 12, without flags; no admin command
    is submitted. *)
Theorem ioworker_submissions_shape :
  forall fuel ns qpair args ps pl w ret k' w',
    ioworker_entry E fuel ns qpair args ps pl w = Some (inr (ret, k', w')) ->
    ret <> -2 ->
    admin_cmds (trace w') = admin_cmds (trace w)
    /\ exists new,
         io_cmds (trace w') = io_cmds (trace w) ++ new
         /\ Forall (worker_cmd qpair args) new.
Proof.
  intros fuel ns qpair args ps pl w ret k' w' H Hret.
  assert (HQ : shape_inv (trace w) qpair args k' (trace w')).
  { eapply (ioworker_entry_inv E (shape_inv (trace w) qpair args));
      [| | | | |exact H|exact Hret|].
    - intros i b len k t HQ. exact HQ.
    - intros k t fn arg c (Ha & Hq & Had & new & Hio & Hall).
      split; [exact Ha|]. split; [exact Hq|].
      rewrite admin_cmds_app, io_cmds_app. cbn. rewrite !app_nil_r.
      split; [exact Had|]. exists new. auto.
    - intros. eapply shape_inv_send; eauto.
    - intros. eapply shape_inv_cb; eauto.
    - intros d k t HQ. exact HQ.
    - intros a1 k0 Hrev Ha _ _ _ Hq _ _ _ _.
      split.
      + rewrite Ha. clear - Hrev. unfold ioworker_revise_args in Hrev.
        apply rbind_inr in Hrev. destruct Hrev as (rs & _ & Hrev).
        apply rbind_inr in Hrev. destruct Hrev as (re & _ & Hrev).
        injection Hrev as <-. reflexivity.
      + split; [exact Hq|]. split; [reflexivity|].
        exists []. rewrite app_nil_r. auto. }
  destruct HQ as (_ & _ & Had & Hnew). auto.
Qed.

End Shape.

(** ** A worker that only reads *)

Section Reader.
Variable E : environment.

Lemma cmd_log_add_cmd_oracle qid b lba n ls c fn arg w r w' :
  cmd_log_add_cmd E qid b lba n ls c fn arg w = inr (r, w') ->
  g_driver_io_token_ptr w' = g_driver_io_token_ptr w
  /\ g_driver_csum_table_ptr w' = g_driver_csum_table_ptr w.
Proof.
  unfold cmd_log_add_cmd, gettimeofday. intros H. res_all. auto.
Qed.

(** A read through [ns_cmd_read_write] takes no token and stores no
    checksum. *)
Lemma ns_cmd_read_oracle ns qp b len lba n fl fn arg w rc w' :
  ns_cmd_read_write E 1 ns qp b len lba n fl fn arg w = inr (rc, w') ->
  g_driver_io_token_ptr w' = g_driver_io_token_ptr w
  /\ g_driver_csum_table_ptr w' = g_driver_csum_table_ptr w.
Proof.
  unfold ns_cmd_read_write. intros H.
  apply rbind_inr in H. destruct H as (qid & _ & H).
  apply rbind_inr in H. destruct H as (u1 & _ & H).
  apply rbind_inr in H. destruct H as (u2 & _ & H).
  apply rbind_inr in H. destruct H as (u3 & _ & H).
  apply rbind_inr in H. destruct H as (u4 & _ & H).
  apply rbind_inr in H. destruct H as (w1 & Hfill & H).
  apply rbind_inr in H. destruct H as ([r w2] & Hadd & H).
  injection H as H. cbn in Hfill. injection Hfill as <-.
  apply cmd_log_add_cmd_oracle in Hadd. destruct Hadd as [Ht Hc].
  unfold spdk_nvme_ctrlr_cmd_io_raw in H.
  destruct (submit_rc_nth E (n_submit w2) =? 0);
    injection H as <- <-; cbn; auto.
Qed.

Lemma ioworker_send_one_lba_oracle a g w lba g1 w2 :
  ioworker_send_one_lba E a g w = inr (lba, g1, w2) ->
  g_driver_io_token_ptr w2 = g_driver_io_token_ptr w
  /\ g_driver_csum_table_ptr w2 = g_driver_csum_table_ptr w.
Proof.
  unfold ioworker_send_one_lba, ioworker_send_one_lba_random, random, ALIGN_DOWN.
  intros H. res_all; auto.
Qed.

Lemma reader_inv_send w0 i k w r k' w' :
  reader_inv w0 k w -> ioworker_send_one E i k w = inr (r, k', w') ->
  reader_inv w0 k' w'.
Proof.
  intros (Hp & Ht & Hc) H. apply ioworker_send_one_steps in H.
  destruct H as (ctx & lba & g1 & w2 & w3 & _ & _ & Hlba & _ & Hrw & Ha & _
                 & _ & _ & _ & _ & Hfix & _).
  apply ioworker_send_one_lba_oracle in Hlba. cbn in Hlba.
  destruct Hlba as [Ht2 Hc2].
  rewrite Hp in Hrw.
  destruct (Z.ltb_spec (Z.rem (random_nth E (n_random w) mod 2^31) 100) 100)
    as [_|Hge]; [|pose proof (random_rem_100 E (n_random w)); lia].
  apply ns_cmd_read_oracle in Hrw. destruct Hrw as [Ht3 Hc3].
  unfold world_fixed in Hfix. injection Hfix as Ht4 Hc4 _ _ _ _ _ _.
  split; [congruence|]. split; congruence.
Qed.

Lemma reader_inv_cb w0 i c k w k' w' :
  reader_inv w0 k w -> ioworker_one_cb E i c k w = inr (k', w') ->
  reader_inv w0 k' w'.
Proof.
  intros (Hp & Ht & Hc) H. apply ioworker_one_cb_steps in H.
  destruct H as (ctx & k7 & w4 & sl & _ & _ & Hk7 & _ & _ & _ & Hw4 & _ & _
                 & _ & _ & Hend).
  assert (H7 : reader_inv w0 k7 w4).
  { unfold worker_fixed in Hk7. injection Hk7 as Ha7 _ _ _ _ _.
    unfold world_fixed in Hw4. injection Hw4 as Ht4 Hc4 _ _ _ _ _ _.
    split; [congruence|]. split; congruence. }
  destruct Hend as [(_ & -> & ->)|(_ & _ & r & Hsend)]; [exact H7|].
  eapply reader_inv_send; eauto.
Qed.

(** X25.  A worker that only reads leaves the expectations alone.  A run of
    [ioworker_entry] with [read_percentage] 100 takes no token and changes
    no slot of the checksum table: both are, when it returns, what they
    were when it was called, whatever completes and is verified
    meanwhile. *)
Theorem ioworker_reader_keeps_oracle :
  forall fuel ns qpair args ps pl w ret k' w',
    ioworker_entry E fuel ns qpair args ps pl w = Some (inr (ret, k', w')) ->
    ret <> -2 -> read_percentage args = 100 ->
    g_driver_io_token_ptr w' = g_driver_io_token_ptr w
    /\ g_driver_csum_table_ptr w' = g_driver_csum_table_ptr w.
Proof.
  intros fuel ns qpair args ps pl w ret k' w' H Hret Hp.
  assert (HQ : reader_inv w k' w').
  { eapply (ioworker_entry_winv E (reader_inv w));
      [| | | | |exact H|exact Hret|].
    - intros k w1 w2 (H1 & H2 & H3) _ Ht Hc. split; [exact H1|].
      split; congruence.
    - intros l k w1 HQ. exact HQ.
    - intros. eapply reader_inv_send; eauto.
    - intros. eapply reader_inv_cb; eauto.
    - intros d k w1 HQ. exact HQ.
    - intros a1 k0 Hrev Ha _ _ _ _. split; [|auto].
      rewrite Ha. clear - Hrev Hp. unfold ioworker_revise_args in Hrev.
      apply rbind_inr in Hrev. destruct Hrev as (rs & _ & Hrev).
      apply rbind_inr in Hrev. destruct Hrev as (re & _ & Hrev).
      injection Hrev as <-. exact Hp. }
  destruct HQ as (_ & Ht & Hc). auto.
Qed.

End Reader.

(** ** Closed examples of the last two properties *)

Lemma ioworker_submissions_shape_witness :
  exists k' w' new,
    ioworker_entry env0 100 ns0 (Some 1) args_wrap [] [] world0
    = Some (inr (0, k', w'))
    /\ admin_cmds (trace w') = admin_cmds (trace world0)
    /\ io_cmds (trace w') = io_cmds (trace world0) ++ new
    /\ Forall (worker_cmd (Some 1) args_wrap) new.
Proof.
  destruct run_wrap_returns as (k' & w' & Hrun).
  destruct (ioworker_submissions_shape env0 100 ns0 (Some 1) args_wrap [] []
              world0 0 k' w' Hrun) as (Had & new & Hio & Hall); [closed|].
  exists k', w', new. auto.
Defined.

Lemma ioworker_reader_keeps_oracle_witness :
  exists k' w',
    ioworker_entry env0 100 ns0 (Some 1) args_read [] [] world0
    = Some (inr (0, k', w'))
    /\ g_driver_io_token_ptr w' = Some 0
    /\ g_driver_csum_table_ptr w' = Some (replicate 16 0).
Proof.
  assert (Hrun : exists k' w',
            ioworker_entry env0 100 ns0 (Some 1) args_read [] [] world0
            = Some (inr (0, k', w')))
    by (vm_compute; eexists _, _; reflexivity).
  destruct Hrun as (k' & w' & Hrun).
  exists k', w'. split; [exact Hrun|].
  apply (ioworker_reader_keeps_oracle env0 100 ns0 (Some 1) args_read [] []
           world0 0 k' w' Hrun); closed.
Defined.

(** ** The status code of a run *)

Section StatusCode.
Variable E : environment.


End StatusCode.


